(** * BFD session engine of keepalived (RFC 5880 / RFC 5881)

    A shallow embedding of [keepalived/include/bfd.h], [keepalived/bfd/bfd.c],
    [keepalived/bfd/bfd_event.c], the per-session part of
    [keepalived/bfd/bfd_scheduler.c] and the numeric keyword handlers of
    [keepalived/bfd/bfd_parser.c], followed by the properties of the session
    state machine, of packet validation, of interval negotiation, of the
    transmit jitter and of the configuration handlers.

    Conventions.
    - C integers are [Z]; every store into a narrower object is written out
      ([u32], [u8], [bitfield w]).
    - A timer handle ([thread_t *]) is [option Z]: [None] is [NULL], [Some d]
      is a timer armed by [thread_add_timer (master, f, bfd, d)].
    - [assert] is modelled: a failed assertion ends the run with [Abort].
    - [log_message] and the [debug & 32] branches only write to the log and
      are left out. *)

From Stdlib Require Import ZArith List String Ascii Bool Lia.
Import ListNotations.
Local Open Scope Z_scope.

(** ** Machine integers *)

Definition u32 (x : Z) : Z := x mod 2 ^ 32.
Definition u8 (x : Z) : Z := x mod 2 ^ 8.
(** Store into a bit-field of width [w] ([u_char f : w]). *)
Definition bitfield (w : Z) (x : Z) : Z := x mod 2 ^ w.

Definition UINT32_MAX : Z := 2 ^ 32 - 1.

(** [ntohl] / [htonl] on a little-endian host ([bfdhdr_t] is laid out for
    both byte orders; on a big-endian host both are the identity). *)
Definition bswap32 (x : Z) : Z :=
  Z.lor (Z.shiftl (Z.land x 255) 24)
    (Z.lor (Z.shiftl (Z.land (Z.shiftr x 8) 255) 16)
       (Z.lor (Z.shiftl (Z.land (Z.shiftr x 16) 255) 8)
          (Z.land (Z.shiftr x 24) 255))).
Definition ntohl : Z -> Z := bswap32.
Definition htonl : Z -> Z := bswap32.

(** ** bfd.h: constants *)

Definition BFD_CONTROL_TTL : Z := 255.

Definition BFD_MINRX_MIN : Z := 1.
Definition BFD_MINRX_MAX : Z := 1000.
Definition BFD_MINRX_DEFAULT : Z := 10.
Definition BFD_MINTX_MIN : Z := 1.
Definition BFD_MINTX_MAX : Z := 1000.
Definition BFD_MINTX_DEFAULT : Z := 10.
Definition BFD_IDLETX_MIN : Z := 1000.
Definition BFD_IDLETX_MAX : Z := 10000.
Definition BFD_IDLETX_DEFAULT : Z := 1000.
Definition BFD_MULTIPLIER_MIN : Z := 1.
Definition BFD_MULTIPLIER_MAX : Z := 10.
Definition BFD_MULTIPLIER_DEFAULT : Z := 5.

Definition BFD_INAME_MAX : nat := 32.

Definition BFD_VERSION_1 : Z := 1.

Definition BFD_STATE_ADMINDOWN : Z := 0.
Definition BFD_STATE_DOWN : Z := 1.
Definition BFD_STATE_INIT : Z := 2.
Definition BFD_STATE_UP : Z := 3.

Definition BFD_VALID_STATE (s : Z) : bool := (0 <=? s) && (s <=? 3).

Definition BFD_DIAG_NO_DIAG : Z := 0.
Definition BFD_DIAG_EXPIRED : Z := 1.
Definition BFD_DIAG_ECHO_FAILED : Z := 2.
Definition BFD_DIAG_NBR_SIGNALLED_DOWN : Z := 3.
Definition BFD_DIAG_FWD_PLANE_RESET : Z := 4.
Definition BFD_DIAG_PATH_DOWN : Z := 5.
Definition BFD_DIAG_CAT_PATH_DOWN : Z := 6.
Definition BFD_DIAG_ADMIN_DOWN : Z := 7.
Definition BFD_DIAG_RCAT_PATH_DOWN : Z := 8.

Definition BFD_VALID_DIAG (d : Z) : bool := (0 <=? d) && (d <=? 8).

(** [sizeof (bfdhdr_t)]: 1 + 1 + 1 + 1 + 5 * 4 bytes. *)
Definition sizeof_bfdhdr_t : Z := 24.

(** ** bfd.h: data *)

(** [struct sockaddr_storage], as its bytes. *)
Definition sockaddr_storage : Type := list Z.

Definition sockaddr_eqb (a b : sockaddr_storage) : bool :=
  if list_eq_dec Z.eq_dec a b then true else false.

(** [bfd_t], field by field.  [last_seen] is a [timeval_t], kept in
    microseconds. *)
Record bfd_t : Type := {
  (* Configuration parameters *)
  iname : string;
  nbr_addr : sockaddr_storage;
  src_addr : sockaddr_storage;
  local_min_rx_intv : Z;
  local_min_tx_intv : Z;
  local_idle_tx_intv : Z;
  local_detect_mult : Z;
  disabled : Z;
  (* Internal variables *)
  fd_out : Z;
  thread_out : option Z;
  sands_out : Z;
  thread_exp : option Z;
  sands_exp : Z;
  thread_rst : option Z;
  sands_rst : Z;
  (* State variables *)
  local_state : Z;
  remote_state : Z;
  local_discr : Z;
  remote_discr : Z;
  local_diag : Z;
  remote_diag : Z;
  remote_min_tx_intv : Z;
  remote_min_rx_intv : Z;
  local_demand : Z;
  remote_demand : Z;
  remote_detect_mult : Z;
  poll : Z;
  final : Z;
  (* Calculated values *)
  local_tx_intv : Z;
  remote_tx_intv : Z;
  local_detect_time : Z;
  remote_detect_time : Z;
  last_seen : Z
}.

(** [bfdhdr_t]: the control packet header.  The five 32-bit words are kept
    as they sit in memory, that is in network byte order.  Members carry
    the prefix [hdr_] (and those of [bfdpkt_t] the prefix [pkt_]) because
    [bfd_t] has members of the same names. *)
Record bfdhdr_t : Type := {
  hdr_diag : Z;          (* :5 *)
  hdr_version : Z;       (* :3 *)
  hdr_multipoint : Z;    (* :1 *)
  hdr_demand : Z;        (* :1 *)
  hdr_auth : Z;          (* :1 *)
  hdr_cplane : Z;        (* :1 *)
  hdr_final : Z;         (* :1 *)
  hdr_poll : Z;          (* :1 *)
  hdr_state : Z;         (* :2 *)
  hdr_detect_mult : Z;
  hdr_len : Z;
  hdr_local_discr : Z;
  hdr_remote_discr : Z;
  hdr_min_tx_intv : Z;
  hdr_min_rx_intv : Z;
  hdr_min_echo_rx_intv : Z
}.

(** [bfdpkt_t]; [buf] is the storage [hdr] points into and is not kept
    apart. *)
Record bfdpkt_t : Type := {
  pkt_hdr : bfdhdr_t;
  pkt_src_addr : sockaddr_storage;
  pkt_dst_addr : sockaddr_storage;
  pkt_ttl : Z;
  pkt_len : Z
}.

(** [bfd_event_t] (bfd_event.h): what is written to [bfd_event_pipe]. *)
Record bfd_event_t : Type := {
  evt_iname : string;
  evt_state : Z;
  evt_sent_time : Z
}.

Definition BFD_ISADMINDOWN (b : bfd_t) : bool :=
  local_state b =? BFD_STATE_ADMINDOWN.
Definition BFD_ISDOWN (b : bfd_t) : bool := local_state b =? BFD_STATE_DOWN.
Definition BFD_ISINIT (b : bfd_t) : bool := local_state b =? BFD_STATE_INIT.
Definition BFD_ISUP (b : bfd_t) : bool := local_state b =? BFD_STATE_UP.

(** Field stores, [bfd->f = v]. *)

Definition set_nbr_addr (v : sockaddr_storage) (b : bfd_t) : bfd_t :=
  {| iname := iname b; nbr_addr := v; src_addr := src_addr b;
     local_min_rx_intv := local_min_rx_intv b;
     local_min_tx_intv := local_min_tx_intv b;
     local_idle_tx_intv := local_idle_tx_intv b;
     local_detect_mult := local_detect_mult b; disabled := disabled b;
     fd_out := fd_out b; thread_out := thread_out b;
     sands_out := sands_out b; thread_exp := thread_exp b;
     sands_exp := sands_exp b; thread_rst := thread_rst b;
     sands_rst := sands_rst b; local_state := local_state b;
     remote_state := remote_state b; local_discr := local_discr b;
     remote_discr := remote_discr b; local_diag := local_diag b;
     remote_diag := remote_diag b;
     remote_min_tx_intv := remote_min_tx_intv b;
     remote_min_rx_intv := remote_min_rx_intv b;
     local_demand := local_demand b; remote_demand := remote_demand b;
     remote_detect_mult := remote_detect_mult b; poll := poll b;
     final := final b; local_tx_intv := local_tx_intv b;
     remote_tx_intv := remote_tx_intv b;
     local_detect_time := local_detect_time b;
     remote_detect_time := remote_detect_time b; last_seen := last_seen b |}.

Definition set_src_addr (v : sockaddr_storage) (b : bfd_t) : bfd_t :=
  {| iname := iname b; nbr_addr := nbr_addr b; src_addr := v;
     local_min_rx_intv := local_min_rx_intv b;
     local_min_tx_intv := local_min_tx_intv b;
     local_idle_tx_intv := local_idle_tx_intv b;
     local_detect_mult := local_detect_mult b; disabled := disabled b;
     fd_out := fd_out b; thread_out := thread_out b;
     sands_out := sands_out b; thread_exp := thread_exp b;
     sands_exp := sands_exp b; thread_rst := thread_rst b;
     sands_rst := sands_rst b; local_state := local_state b;
     remote_state := remote_state b; local_discr := local_discr b;
     remote_discr := remote_discr b; local_diag := local_diag b;
     remote_diag := remote_diag b;
     remote_min_tx_intv := remote_min_tx_intv b;
     remote_min_rx_intv := remote_min_rx_intv b;
     local_demand := local_demand b; remote_demand := remote_demand b;
     remote_detect_mult := remote_detect_mult b; poll := poll b;
     final := final b; local_tx_intv := local_tx_intv b;
     remote_tx_intv := remote_tx_intv b;
     local_detect_time := local_detect_time b;
     remote_detect_time := remote_detect_time b; last_seen := last_seen b |}.

Definition set_local_min_rx_intv (v : Z) (b : bfd_t) : bfd_t :=
  {| iname := iname b; nbr_addr := nbr_addr b; src_addr := src_addr b;
     local_min_rx_intv := v; local_min_tx_intv := local_min_tx_intv b;
     local_idle_tx_intv := local_idle_tx_intv b;
     local_detect_mult := local_detect_mult b; disabled := disabled b;
     fd_out := fd_out b; thread_out := thread_out b;
     sands_out := sands_out b; thread_exp := thread_exp b;
     sands_exp := sands_exp b; thread_rst := thread_rst b;
     sands_rst := sands_rst b; local_state := local_state b;
     remote_state := remote_state b; local_discr := local_discr b;
     remote_discr := remote_discr b; local_diag := local_diag b;
     remote_diag := remote_diag b;
     remote_min_tx_intv := remote_min_tx_intv b;
     remote_min_rx_intv := remote_min_rx_intv b;
     local_demand := local_demand b; remote_demand := remote_demand b;
     remote_detect_mult := remote_detect_mult b; poll := poll b;
     final := final b; local_tx_intv := local_tx_intv b;
     remote_tx_intv := remote_tx_intv b;
     local_detect_time := local_detect_time b;
     remote_detect_time := remote_detect_time b; last_seen := last_seen b |}.

Definition set_local_min_tx_intv (v : Z) (b : bfd_t) : bfd_t :=
  {| iname := iname b; nbr_addr := nbr_addr b; src_addr := src_addr b;
     local_min_rx_intv := local_min_rx_intv b; local_min_tx_intv := v;
     local_idle_tx_intv := local_idle_tx_intv b;
     local_detect_mult := local_detect_mult b; disabled := disabled b;
     fd_out := fd_out b; thread_out := thread_out b;
     sands_out := sands_out b; thread_exp := thread_exp b;
     sands_exp := sands_exp b; thread_rst := thread_rst b;
     sands_rst := sands_rst b; local_state := local_state b;
     remote_state := remote_state b; local_discr := local_discr b;
     remote_discr := remote_discr b; local_diag := local_diag b;
     remote_diag := remote_diag b;
     remote_min_tx_intv := remote_min_tx_intv b;
     remote_min_rx_intv := remote_min_rx_intv b;
     local_demand := local_demand b; remote_demand := remote_demand b;
     remote_detect_mult := remote_detect_mult b; poll := poll b;
     final := final b; local_tx_intv := local_tx_intv b;
     remote_tx_intv := remote_tx_intv b;
     local_detect_time := local_detect_time b;
     remote_detect_time := remote_detect_time b; last_seen := last_seen b |}.

Definition set_local_idle_tx_intv (v : Z) (b : bfd_t) : bfd_t :=
  {| iname := iname b; nbr_addr := nbr_addr b; src_addr := src_addr b;
     local_min_rx_intv := local_min_rx_intv b;
     local_min_tx_intv := local_min_tx_intv b; local_idle_tx_intv := v;
     local_detect_mult := local_detect_mult b; disabled := disabled b;
     fd_out := fd_out b; thread_out := thread_out b;
     sands_out := sands_out b; thread_exp := thread_exp b;
     sands_exp := sands_exp b; thread_rst := thread_rst b;
     sands_rst := sands_rst b; local_state := local_state b;
     remote_state := remote_state b; local_discr := local_discr b;
     remote_discr := remote_discr b; local_diag := local_diag b;
     remote_diag := remote_diag b;
     remote_min_tx_intv := remote_min_tx_intv b;
     remote_min_rx_intv := remote_min_rx_intv b;
     local_demand := local_demand b; remote_demand := remote_demand b;
     remote_detect_mult := remote_detect_mult b; poll := poll b;
     final := final b; local_tx_intv := local_tx_intv b;
     remote_tx_intv := remote_tx_intv b;
     local_detect_time := local_detect_time b;
     remote_detect_time := remote_detect_time b; last_seen := last_seen b |}.

Definition set_local_detect_mult (v : Z) (b : bfd_t) : bfd_t :=
  {| iname := iname b; nbr_addr := nbr_addr b; src_addr := src_addr b;
     local_min_rx_intv := local_min_rx_intv b;
     local_min_tx_intv := local_min_tx_intv b;
     local_idle_tx_intv := local_idle_tx_intv b; local_detect_mult := v;
     disabled := disabled b; fd_out := fd_out b; thread_out := thread_out b;
     sands_out := sands_out b; thread_exp := thread_exp b;
     sands_exp := sands_exp b; thread_rst := thread_rst b;
     sands_rst := sands_rst b; local_state := local_state b;
     remote_state := remote_state b; local_discr := local_discr b;
     remote_discr := remote_discr b; local_diag := local_diag b;
     remote_diag := remote_diag b;
     remote_min_tx_intv := remote_min_tx_intv b;
     remote_min_rx_intv := remote_min_rx_intv b;
     local_demand := local_demand b; remote_demand := remote_demand b;
     remote_detect_mult := remote_detect_mult b; poll := poll b;
     final := final b; local_tx_intv := local_tx_intv b;
     remote_tx_intv := remote_tx_intv b;
     local_detect_time := local_detect_time b;
     remote_detect_time := remote_detect_time b; last_seen := last_seen b |}.

Definition set_disabled (v : Z) (b : bfd_t) : bfd_t :=
  {| iname := iname b; nbr_addr := nbr_addr b; src_addr := src_addr b;
     local_min_rx_intv := local_min_rx_intv b;
     local_min_tx_intv := local_min_tx_intv b;
     local_idle_tx_intv := local_idle_tx_intv b;
     local_detect_mult := local_detect_mult b; disabled := v;
     fd_out := fd_out b; thread_out := thread_out b;
     sands_out := sands_out b; thread_exp := thread_exp b;
     sands_exp := sands_exp b; thread_rst := thread_rst b;
     sands_rst := sands_rst b; local_state := local_state b;
     remote_state := remote_state b; local_discr := local_discr b;
     remote_discr := remote_discr b; local_diag := local_diag b;
     remote_diag := remote_diag b;
     remote_min_tx_intv := remote_min_tx_intv b;
     remote_min_rx_intv := remote_min_rx_intv b;
     local_demand := local_demand b; remote_demand := remote_demand b;
     remote_detect_mult := remote_detect_mult b; poll := poll b;
     final := final b; local_tx_intv := local_tx_intv b;
     remote_tx_intv := remote_tx_intv b;
     local_detect_time := local_detect_time b;
     remote_detect_time := remote_detect_time b; last_seen := last_seen b |}.

Definition set_thread_out (v : option Z) (b : bfd_t) : bfd_t :=
  {| iname := iname b; nbr_addr := nbr_addr b; src_addr := src_addr b;
     local_min_rx_intv := local_min_rx_intv b;
     local_min_tx_intv := local_min_tx_intv b;
     local_idle_tx_intv := local_idle_tx_intv b;
     local_detect_mult := local_detect_mult b; disabled := disabled b;
     fd_out := fd_out b; thread_out := v; sands_out := sands_out b;
     thread_exp := thread_exp b; sands_exp := sands_exp b;
     thread_rst := thread_rst b; sands_rst := sands_rst b;
     local_state := local_state b; remote_state := remote_state b;
     local_discr := local_discr b; remote_discr := remote_discr b;
     local_diag := local_diag b; remote_diag := remote_diag b;
     remote_min_tx_intv := remote_min_tx_intv b;
     remote_min_rx_intv := remote_min_rx_intv b;
     local_demand := local_demand b; remote_demand := remote_demand b;
     remote_detect_mult := remote_detect_mult b; poll := poll b;
     final := final b; local_tx_intv := local_tx_intv b;
     remote_tx_intv := remote_tx_intv b;
     local_detect_time := local_detect_time b;
     remote_detect_time := remote_detect_time b; last_seen := last_seen b |}.

Definition set_thread_exp (v : option Z) (b : bfd_t) : bfd_t :=
  {| iname := iname b; nbr_addr := nbr_addr b; src_addr := src_addr b;
     local_min_rx_intv := local_min_rx_intv b;
     local_min_tx_intv := local_min_tx_intv b;
     local_idle_tx_intv := local_idle_tx_intv b;
     local_detect_mult := local_detect_mult b; disabled := disabled b;
     fd_out := fd_out b; thread_out := thread_out b;
     sands_out := sands_out b; thread_exp := v; sands_exp := sands_exp b;
     thread_rst := thread_rst b; sands_rst := sands_rst b;
     local_state := local_state b; remote_state := remote_state b;
     local_discr := local_discr b; remote_discr := remote_discr b;
     local_diag := local_diag b; remote_diag := remote_diag b;
     remote_min_tx_intv := remote_min_tx_intv b;
     remote_min_rx_intv := remote_min_rx_intv b;
     local_demand := local_demand b; remote_demand := remote_demand b;
     remote_detect_mult := remote_detect_mult b; poll := poll b;
     final := final b; local_tx_intv := local_tx_intv b;
     remote_tx_intv := remote_tx_intv b;
     local_detect_time := local_detect_time b;
     remote_detect_time := remote_detect_time b; last_seen := last_seen b |}.

Definition set_thread_rst (v : option Z) (b : bfd_t) : bfd_t :=
  {| iname := iname b; nbr_addr := nbr_addr b; src_addr := src_addr b;
     local_min_rx_intv := local_min_rx_intv b;
     local_min_tx_intv := local_min_tx_intv b;
     local_idle_tx_intv := local_idle_tx_intv b;
     local_detect_mult := local_detect_mult b; disabled := disabled b;
     fd_out := fd_out b; thread_out := thread_out b;
     sands_out := sands_out b; thread_exp := thread_exp b;
     sands_exp := sands_exp b; thread_rst := v; sands_rst := sands_rst b;
     local_state := local_state b; remote_state := remote_state b;
     local_discr := local_discr b; remote_discr := remote_discr b;
     local_diag := local_diag b; remote_diag := remote_diag b;
     remote_min_tx_intv := remote_min_tx_intv b;
     remote_min_rx_intv := remote_min_rx_intv b;
     local_demand := local_demand b; remote_demand := remote_demand b;
     remote_detect_mult := remote_detect_mult b; poll := poll b;
     final := final b; local_tx_intv := local_tx_intv b;
     remote_tx_intv := remote_tx_intv b;
     local_detect_time := local_detect_time b;
     remote_detect_time := remote_detect_time b; last_seen := last_seen b |}.

Definition set_local_state (v : Z) (b : bfd_t) : bfd_t :=
  {| iname := iname b; nbr_addr := nbr_addr b; src_addr := src_addr b;
     local_min_rx_intv := local_min_rx_intv b;
     local_min_tx_intv := local_min_tx_intv b;
     local_idle_tx_intv := local_idle_tx_intv b;
     local_detect_mult := local_detect_mult b; disabled := disabled b;
     fd_out := fd_out b; thread_out := thread_out b;
     sands_out := sands_out b; thread_exp := thread_exp b;
     sands_exp := sands_exp b; thread_rst := thread_rst b;
     sands_rst := sands_rst b; local_state := v;
     remote_state := remote_state b; local_discr := local_discr b;
     remote_discr := remote_discr b; local_diag := local_diag b;
     remote_diag := remote_diag b;
     remote_min_tx_intv := remote_min_tx_intv b;
     remote_min_rx_intv := remote_min_rx_intv b;
     local_demand := local_demand b; remote_demand := remote_demand b;
     remote_detect_mult := remote_detect_mult b; poll := poll b;
     final := final b; local_tx_intv := local_tx_intv b;
     remote_tx_intv := remote_tx_intv b;
     local_detect_time := local_detect_time b;
     remote_detect_time := remote_detect_time b; last_seen := last_seen b |}.

Definition set_remote_state (v : Z) (b : bfd_t) : bfd_t :=
  {| iname := iname b; nbr_addr := nbr_addr b; src_addr := src_addr b;
     local_min_rx_intv := local_min_rx_intv b;
     local_min_tx_intv := local_min_tx_intv b;
     local_idle_tx_intv := local_idle_tx_intv b;
     local_detect_mult := local_detect_mult b; disabled := disabled b;
     fd_out := fd_out b; thread_out := thread_out b;
     sands_out := sands_out b; thread_exp := thread_exp b;
     sands_exp := sands_exp b; thread_rst := thread_rst b;
     sands_rst := sands_rst b; local_state := local_state b;
     remote_state := v; local_discr := local_discr b;
     remote_discr := remote_discr b; local_diag := local_diag b;
     remote_diag := remote_diag b;
     remote_min_tx_intv := remote_min_tx_intv b;
     remote_min_rx_intv := remote_min_rx_intv b;
     local_demand := local_demand b; remote_demand := remote_demand b;
     remote_detect_mult := remote_detect_mult b; poll := poll b;
     final := final b; local_tx_intv := local_tx_intv b;
     remote_tx_intv := remote_tx_intv b;
     local_detect_time := local_detect_time b;
     remote_detect_time := remote_detect_time b; last_seen := last_seen b |}.

Definition set_local_discr (v : Z) (b : bfd_t) : bfd_t :=
  {| iname := iname b; nbr_addr := nbr_addr b; src_addr := src_addr b;
     local_min_rx_intv := local_min_rx_intv b;
     local_min_tx_intv := local_min_tx_intv b;
     local_idle_tx_intv := local_idle_tx_intv b;
     local_detect_mult := local_detect_mult b; disabled := disabled b;
     fd_out := fd_out b; thread_out := thread_out b;
     sands_out := sands_out b; thread_exp := thread_exp b;
     sands_exp := sands_exp b; thread_rst := thread_rst b;
     sands_rst := sands_rst b; local_state := local_state b;
     remote_state := remote_state b; local_discr := v;
     remote_discr := remote_discr b; local_diag := local_diag b;
     remote_diag := remote_diag b;
     remote_min_tx_intv := remote_min_tx_intv b;
     remote_min_rx_intv := remote_min_rx_intv b;
     local_demand := local_demand b; remote_demand := remote_demand b;
     remote_detect_mult := remote_detect_mult b; poll := poll b;
     final := final b; local_tx_intv := local_tx_intv b;
     remote_tx_intv := remote_tx_intv b;
     local_detect_time := local_detect_time b;
     remote_detect_time := remote_detect_time b; last_seen := last_seen b |}.

Definition set_remote_discr (v : Z) (b : bfd_t) : bfd_t :=
  {| iname := iname b; nbr_addr := nbr_addr b; src_addr := src_addr b;
     local_min_rx_intv := local_min_rx_intv b;
     local_min_tx_intv := local_min_tx_intv b;
     local_idle_tx_intv := local_idle_tx_intv b;
     local_detect_mult := local_detect_mult b; disabled := disabled b;
     fd_out := fd_out b; thread_out := thread_out b;
     sands_out := sands_out b; thread_exp := thread_exp b;
     sands_exp := sands_exp b; thread_rst := thread_rst b;
     sands_rst := sands_rst b; local_state := local_state b;
     remote_state := remote_state b; local_discr := local_discr b;
     remote_discr := v; local_diag := local_diag b;
     remote_diag := remote_diag b;
     remote_min_tx_intv := remote_min_tx_intv b;
     remote_min_rx_intv := remote_min_rx_intv b;
     local_demand := local_demand b; remote_demand := remote_demand b;
     remote_detect_mult := remote_detect_mult b; poll := poll b;
     final := final b; local_tx_intv := local_tx_intv b;
     remote_tx_intv := remote_tx_intv b;
     local_detect_time := local_detect_time b;
     remote_detect_time := remote_detect_time b; last_seen := last_seen b |}.

Definition set_local_diag (v : Z) (b : bfd_t) : bfd_t :=
  {| iname := iname b; nbr_addr := nbr_addr b; src_addr := src_addr b;
     local_min_rx_intv := local_min_rx_intv b;
     local_min_tx_intv := local_min_tx_intv b;
     local_idle_tx_intv := local_idle_tx_intv b;
     local_detect_mult := local_detect_mult b; disabled := disabled b;
     fd_out := fd_out b; thread_out := thread_out b;
     sands_out := sands_out b; thread_exp := thread_exp b;
     sands_exp := sands_exp b; thread_rst := thread_rst b;
     sands_rst := sands_rst b; local_state := local_state b;
     remote_state := remote_state b; local_discr := local_discr b;
     remote_discr := remote_discr b; local_diag := v;
     remote_diag := remote_diag b;
     remote_min_tx_intv := remote_min_tx_intv b;
     remote_min_rx_intv := remote_min_rx_intv b;
     local_demand := local_demand b; remote_demand := remote_demand b;
     remote_detect_mult := remote_detect_mult b; poll := poll b;
     final := final b; local_tx_intv := local_tx_intv b;
     remote_tx_intv := remote_tx_intv b;
     local_detect_time := local_detect_time b;
     remote_detect_time := remote_detect_time b; last_seen := last_seen b |}.

Definition set_remote_diag (v : Z) (b : bfd_t) : bfd_t :=
  {| iname := iname b; nbr_addr := nbr_addr b; src_addr := src_addr b;
     local_min_rx_intv := local_min_rx_intv b;
     local_min_tx_intv := local_min_tx_intv b;
     local_idle_tx_intv := local_idle_tx_intv b;
     local_detect_mult := local_detect_mult b; disabled := disabled b;
     fd_out := fd_out b; thread_out := thread_out b;
     sands_out := sands_out b; thread_exp := thread_exp b;
     sands_exp := sands_exp b; thread_rst := thread_rst b;
     sands_rst := sands_rst b; local_state := local_state b;
     remote_state := remote_state b; local_discr := local_discr b;
     remote_discr := remote_discr b; local_diag := local_diag b;
     remote_diag := v; remote_min_tx_intv := remote_min_tx_intv b;
     remote_min_rx_intv := remote_min_rx_intv b;
     local_demand := local_demand b; remote_demand := remote_demand b;
     remote_detect_mult := remote_detect_mult b; poll := poll b;
     final := final b; local_tx_intv := local_tx_intv b;
     remote_tx_intv := remote_tx_intv b;
     local_detect_time := local_detect_time b;
     remote_detect_time := remote_detect_time b; last_seen := last_seen b |}.

Definition set_remote_min_tx_intv (v : Z) (b : bfd_t) : bfd_t :=
  {| iname := iname b; nbr_addr := nbr_addr b; src_addr := src_addr b;
     local_min_rx_intv := local_min_rx_intv b;
     local_min_tx_intv := local_min_tx_intv b;
     local_idle_tx_intv := local_idle_tx_intv b;
     local_detect_mult := local_detect_mult b; disabled := disabled b;
     fd_out := fd_out b; thread_out := thread_out b;
     sands_out := sands_out b; thread_exp := thread_exp b;
     sands_exp := sands_exp b; thread_rst := thread_rst b;
     sands_rst := sands_rst b; local_state := local_state b;
     remote_state := remote_state b; local_discr := local_discr b;
     remote_discr := remote_discr b; local_diag := local_diag b;
     remote_diag := remote_diag b; remote_min_tx_intv := v;
     remote_min_rx_intv := remote_min_rx_intv b;
     local_demand := local_demand b; remote_demand := remote_demand b;
     remote_detect_mult := remote_detect_mult b; poll := poll b;
     final := final b; local_tx_intv := local_tx_intv b;
     remote_tx_intv := remote_tx_intv b;
     local_detect_time := local_detect_time b;
     remote_detect_time := remote_detect_time b; last_seen := last_seen b |}.

Definition set_remote_min_rx_intv (v : Z) (b : bfd_t) : bfd_t :=
  {| iname := iname b; nbr_addr := nbr_addr b; src_addr := src_addr b;
     local_min_rx_intv := local_min_rx_intv b;
     local_min_tx_intv := local_min_tx_intv b;
     local_idle_tx_intv := local_idle_tx_intv b;
     local_detect_mult := local_detect_mult b; disabled := disabled b;
     fd_out := fd_out b; thread_out := thread_out b;
     sands_out := sands_out b; thread_exp := thread_exp b;
     sands_exp := sands_exp b; thread_rst := thread_rst b;
     sands_rst := sands_rst b; local_state := local_state b;
     remote_state := remote_state b; local_discr := local_discr b;
     remote_discr := remote_discr b; local_diag := local_diag b;
     remote_diag := remote_diag b;
     remote_min_tx_intv := remote_min_tx_intv b; remote_min_rx_intv := v;
     local_demand := local_demand b; remote_demand := remote_demand b;
     remote_detect_mult := remote_detect_mult b; poll := poll b;
     final := final b; local_tx_intv := local_tx_intv b;
     remote_tx_intv := remote_tx_intv b;
     local_detect_time := local_detect_time b;
     remote_detect_time := remote_detect_time b; last_seen := last_seen b |}.

Definition set_remote_demand (v : Z) (b : bfd_t) : bfd_t :=
  {| iname := iname b; nbr_addr := nbr_addr b; src_addr := src_addr b;
     local_min_rx_intv := local_min_rx_intv b;
     local_min_tx_intv := local_min_tx_intv b;
     local_idle_tx_intv := local_idle_tx_intv b;
     local_detect_mult := local_detect_mult b; disabled := disabled b;
     fd_out := fd_out b; thread_out := thread_out b;
     sands_out := sands_out b; thread_exp := thread_exp b;
     sands_exp := sands_exp b; thread_rst := thread_rst b;
     sands_rst := sands_rst b; local_state := local_state b;
     remote_state := remote_state b; local_discr := local_discr b;
     remote_discr := remote_discr b; local_diag := local_diag b;
     remote_diag := remote_diag b;
     remote_min_tx_intv := remote_min_tx_intv b;
     remote_min_rx_intv := remote_min_rx_intv b;
     local_demand := local_demand b; remote_demand := v;
     remote_detect_mult := remote_detect_mult b; poll := poll b;
     final := final b; local_tx_intv := local_tx_intv b;
     remote_tx_intv := remote_tx_intv b;
     local_detect_time := local_detect_time b;
     remote_detect_time := remote_detect_time b; last_seen := last_seen b |}.

Definition set_remote_detect_mult (v : Z) (b : bfd_t) : bfd_t :=
  {| iname := iname b; nbr_addr := nbr_addr b; src_addr := src_addr b;
     local_min_rx_intv := local_min_rx_intv b;
     local_min_tx_intv := local_min_tx_intv b;
     local_idle_tx_intv := local_idle_tx_intv b;
     local_detect_mult := local_detect_mult b; disabled := disabled b;
     fd_out := fd_out b; thread_out := thread_out b;
     sands_out := sands_out b; thread_exp := thread_exp b;
     sands_exp := sands_exp b; thread_rst := thread_rst b;
     sands_rst := sands_rst b; local_state := local_state b;
     remote_state := remote_state b; local_discr := local_discr b;
     remote_discr := remote_discr b; local_diag := local_diag b;
     remote_diag := remote_diag b;
     remote_min_tx_intv := remote_min_tx_intv b;
     remote_min_rx_intv := remote_min_rx_intv b;
     local_demand := local_demand b; remote_demand := remote_demand b;
     remote_detect_mult := v; poll := poll b; final := final b;
     local_tx_intv := local_tx_intv b; remote_tx_intv := remote_tx_intv b;
     local_detect_time := local_detect_time b;
     remote_detect_time := remote_detect_time b; last_seen := last_seen b |}.

Definition set_poll (v : Z) (b : bfd_t) : bfd_t :=
  {| iname := iname b; nbr_addr := nbr_addr b; src_addr := src_addr b;
     local_min_rx_intv := local_min_rx_intv b;
     local_min_tx_intv := local_min_tx_intv b;
     local_idle_tx_intv := local_idle_tx_intv b;
     local_detect_mult := local_detect_mult b; disabled := disabled b;
     fd_out := fd_out b; thread_out := thread_out b;
     sands_out := sands_out b; thread_exp := thread_exp b;
     sands_exp := sands_exp b; thread_rst := thread_rst b;
     sands_rst := sands_rst b; local_state := local_state b;
     remote_state := remote_state b; local_discr := local_discr b;
     remote_discr := remote_discr b; local_diag := local_diag b;
     remote_diag := remote_diag b;
     remote_min_tx_intv := remote_min_tx_intv b;
     remote_min_rx_intv := remote_min_rx_intv b;
     local_demand := local_demand b; remote_demand := remote_demand b;
     remote_detect_mult := remote_detect_mult b; poll := v; final := final b;
     local_tx_intv := local_tx_intv b; remote_tx_intv := remote_tx_intv b;
     local_detect_time := local_detect_time b;
     remote_detect_time := remote_detect_time b; last_seen := last_seen b |}.

Definition set_final (v : Z) (b : bfd_t) : bfd_t :=
  {| iname := iname b; nbr_addr := nbr_addr b; src_addr := src_addr b;
     local_min_rx_intv := local_min_rx_intv b;
     local_min_tx_intv := local_min_tx_intv b;
     local_idle_tx_intv := local_idle_tx_intv b;
     local_detect_mult := local_detect_mult b; disabled := disabled b;
     fd_out := fd_out b; thread_out := thread_out b;
     sands_out := sands_out b; thread_exp := thread_exp b;
     sands_exp := sands_exp b; thread_rst := thread_rst b;
     sands_rst := sands_rst b; local_state := local_state b;
     remote_state := remote_state b; local_discr := local_discr b;
     remote_discr := remote_discr b; local_diag := local_diag b;
     remote_diag := remote_diag b;
     remote_min_tx_intv := remote_min_tx_intv b;
     remote_min_rx_intv := remote_min_rx_intv b;
     local_demand := local_demand b; remote_demand := remote_demand b;
     remote_detect_mult := remote_detect_mult b; poll := poll b; final := v;
     local_tx_intv := local_tx_intv b; remote_tx_intv := remote_tx_intv b;
     local_detect_time := local_detect_time b;
     remote_detect_time := remote_detect_time b; last_seen := last_seen b |}.

Definition set_local_tx_intv (v : Z) (b : bfd_t) : bfd_t :=
  {| iname := iname b; nbr_addr := nbr_addr b; src_addr := src_addr b;
     local_min_rx_intv := local_min_rx_intv b;
     local_min_tx_intv := local_min_tx_intv b;
     local_idle_tx_intv := local_idle_tx_intv b;
     local_detect_mult := local_detect_mult b; disabled := disabled b;
     fd_out := fd_out b; thread_out := thread_out b;
     sands_out := sands_out b; thread_exp := thread_exp b;
     sands_exp := sands_exp b; thread_rst := thread_rst b;
     sands_rst := sands_rst b; local_state := local_state b;
     remote_state := remote_state b; local_discr := local_discr b;
     remote_discr := remote_discr b; local_diag := local_diag b;
     remote_diag := remote_diag b;
     remote_min_tx_intv := remote_min_tx_intv b;
     remote_min_rx_intv := remote_min_rx_intv b;
     local_demand := local_demand b; remote_demand := remote_demand b;
     remote_detect_mult := remote_detect_mult b; poll := poll b;
     final := final b; local_tx_intv := v;
     remote_tx_intv := remote_tx_intv b;
     local_detect_time := local_detect_time b;
     remote_detect_time := remote_detect_time b; last_seen := last_seen b |}.

Definition set_remote_tx_intv (v : Z) (b : bfd_t) : bfd_t :=
  {| iname := iname b; nbr_addr := nbr_addr b; src_addr := src_addr b;
     local_min_rx_intv := local_min_rx_intv b;
     local_min_tx_intv := local_min_tx_intv b;
     local_idle_tx_intv := local_idle_tx_intv b;
     local_detect_mult := local_detect_mult b; disabled := disabled b;
     fd_out := fd_out b; thread_out := thread_out b;
     sands_out := sands_out b; thread_exp := thread_exp b;
     sands_exp := sands_exp b; thread_rst := thread_rst b;
     sands_rst := sands_rst b; local_state := local_state b;
     remote_state := remote_state b; local_discr := local_discr b;
     remote_discr := remote_discr b; local_diag := local_diag b;
     remote_diag := remote_diag b;
     remote_min_tx_intv := remote_min_tx_intv b;
     remote_min_rx_intv := remote_min_rx_intv b;
     local_demand := local_demand b; remote_demand := remote_demand b;
     remote_detect_mult := remote_detect_mult b; poll := poll b;
     final := final b; local_tx_intv := local_tx_intv b; remote_tx_intv := v;
     local_detect_time := local_detect_time b;
     remote_detect_time := remote_detect_time b; last_seen := last_seen b |}.

Definition set_local_detect_time (v : Z) (b : bfd_t) : bfd_t :=
  {| iname := iname b; nbr_addr := nbr_addr b; src_addr := src_addr b;
     local_min_rx_intv := local_min_rx_intv b;
     local_min_tx_intv := local_min_tx_intv b;
     local_idle_tx_intv := local_idle_tx_intv b;
     local_detect_mult := local_detect_mult b; disabled := disabled b;
     fd_out := fd_out b; thread_out := thread_out b;
     sands_out := sands_out b; thread_exp := thread_exp b;
     sands_exp := sands_exp b; thread_rst := thread_rst b;
     sands_rst := sands_rst b; local_state := local_state b;
     remote_state := remote_state b; local_discr := local_discr b;
     remote_discr := remote_discr b; local_diag := local_diag b;
     remote_diag := remote_diag b;
     remote_min_tx_intv := remote_min_tx_intv b;
     remote_min_rx_intv := remote_min_rx_intv b;
     local_demand := local_demand b; remote_demand := remote_demand b;
     remote_detect_mult := remote_detect_mult b; poll := poll b;
     final := final b; local_tx_intv := local_tx_intv b;
     remote_tx_intv := remote_tx_intv b; local_detect_time := v;
     remote_detect_time := remote_detect_time b; last_seen := last_seen b |}.

Definition set_remote_detect_time (v : Z) (b : bfd_t) : bfd_t :=
  {| iname := iname b; nbr_addr := nbr_addr b; src_addr := src_addr b;
     local_min_rx_intv := local_min_rx_intv b;
     local_min_tx_intv := local_min_tx_intv b;
     local_idle_tx_intv := local_idle_tx_intv b;
     local_detect_mult := local_detect_mult b; disabled := disabled b;
     fd_out := fd_out b; thread_out := thread_out b;
     sands_out := sands_out b; thread_exp := thread_exp b;
     sands_exp := sands_exp b; thread_rst := thread_rst b;
     sands_rst := sands_rst b; local_state := local_state b;
     remote_state := remote_state b; local_discr := local_discr b;
     remote_discr := remote_discr b; local_diag := local_diag b;
     remote_diag := remote_diag b;
     remote_min_tx_intv := remote_min_tx_intv b;
     remote_min_rx_intv := remote_min_rx_intv b;
     local_demand := local_demand b; remote_demand := remote_demand b;
     remote_detect_mult := remote_detect_mult b; poll := poll b;
     final := final b; local_tx_intv := local_tx_intv b;
     remote_tx_intv := remote_tx_intv b;
     local_detect_time := local_detect_time b; remote_detect_time := v;
     last_seen := last_seen b |}.

Definition set_last_seen (v : Z) (b : bfd_t) : bfd_t :=
  {| iname := iname b; nbr_addr := nbr_addr b; src_addr := src_addr b;
     local_min_rx_intv := local_min_rx_intv b;
     local_min_tx_intv := local_min_tx_intv b;
     local_idle_tx_intv := local_idle_tx_intv b;
     local_detect_mult := local_detect_mult b; disabled := disabled b;
     fd_out := fd_out b; thread_out := thread_out b;
     sands_out := sands_out b; thread_exp := thread_exp b;
     sands_exp := sands_exp b; thread_rst := thread_rst b;
     sands_rst := sands_rst b; local_state := local_state b;
     remote_state := remote_state b; local_discr := local_discr b;
     remote_discr := remote_discr b; local_diag := local_diag b;
     remote_diag := remote_diag b;
     remote_min_tx_intv := remote_min_tx_intv b;
     remote_min_rx_intv := remote_min_rx_intv b;
     local_demand := local_demand b; remote_demand := remote_demand b;
     remote_detect_mult := remote_detect_mult b; poll := poll b;
     final := final b; local_tx_intv := local_tx_intv b;
     remote_tx_intv := remote_tx_intv b;
     local_detect_time := local_detect_time b;
     remote_detect_time := remote_detect_time b; last_seen := v |}.

(** ** bfd.c *)

(** Initial state.  Every member the initialiser does not name is zero. *)
Definition bfd0 : bfd_t :=
  {| iname := ""; nbr_addr := []; src_addr := [];
     local_min_rx_intv := 0; local_min_tx_intv := 0; local_idle_tx_intv := 0;
     local_detect_mult := 0; disabled := 0;
     fd_out := 0; thread_out := None; sands_out := 0;
     thread_exp := None; sands_exp := 0; thread_rst := None; sands_rst := 0;
     local_state := BFD_STATE_DOWN;
     remote_state := BFD_STATE_DOWN;
     local_discr := 0;
     remote_discr := 0;
     local_diag := BFD_DIAG_NO_DIAG;
     remote_diag := BFD_DIAG_NO_DIAG;
     remote_min_tx_intv := 0;
     remote_min_rx_intv := 0;
     local_demand := 0;
     remote_demand := 0;
     remote_detect_mult := 0;
     poll := 0;
     final := 0;
     local_tx_intv := 0;
     remote_tx_intv := 0;
     local_detect_time := 0;
     remote_detect_time := 0;
     last_seen := 0 |}.

Definition bfd_update_local_tx_intv (b : bfd_t) : bfd_t :=
  set_local_tx_intv
    (if local_min_tx_intv b >? remote_min_rx_intv b
     then local_min_tx_intv b else remote_min_rx_intv b) b.

Definition bfd_update_remote_tx_intv (b : bfd_t) : bfd_t :=
  set_remote_tx_intv
    (if local_min_rx_intv b >? remote_min_tx_intv b
     then local_min_rx_intv b else remote_min_tx_intv b) b.

Definition bfd_idle_local_tx_intv (b : bfd_t) : bfd_t :=
  set_local_tx_intv (local_idle_tx_intv b) b.

Definition bfd_set_poll (b : bfd_t) : bfd_t :=
  if negb (final b =? 1) then set_poll 1 b else b.

(** Copies the state variables of [bfd_old] into [b]; the configuration and
    the internal variables of [b] stay. *)
Definition bfd_copy_state (bfd_old b : bfd_t) : bfd_t :=
  {| iname := iname b; nbr_addr := nbr_addr b; src_addr := src_addr b;
     local_min_rx_intv := local_min_rx_intv b;
     local_min_tx_intv := local_min_tx_intv b;
     local_idle_tx_intv := local_idle_tx_intv b;
     local_detect_mult := local_detect_mult b; disabled := disabled b;
     fd_out := fd_out b; thread_out := thread_out b;
     sands_out := sands_out b; thread_exp := thread_exp b;
     sands_exp := sands_exp b; thread_rst := thread_rst b;
     sands_rst := sands_rst b;
     local_state := local_state bfd_old;
     remote_state := remote_state bfd_old;
     local_discr := local_discr bfd_old;
     remote_discr := remote_discr bfd_old;
     local_diag := local_diag bfd_old;
     remote_diag := remote_diag bfd_old;
     remote_min_tx_intv := remote_min_tx_intv bfd_old;
     remote_min_rx_intv := remote_min_rx_intv bfd_old;
     local_demand := local_demand bfd_old;
     remote_demand := remote_demand bfd_old;
     remote_detect_mult := remote_detect_mult bfd_old;
     poll := poll bfd_old;
     final := final bfd_old;
     local_tx_intv := local_tx_intv bfd_old;
     remote_tx_intv := remote_tx_intv bfd_old;
     local_detect_time := local_detect_time bfd_old;
     remote_detect_time := remote_detect_time bfd_old;
     last_seen := last_seen bfd_old |}.

(** Builds a control packet from the session.  The buffer is zeroed first,
    so [src_addr] and [ttl] of the packet are zero. *)
Definition bfd_build_packet (b : bfd_t) : bfdpkt_t :=
  let len := sizeof_bfdhdr_t in
  {| pkt_hdr :=
       {| hdr_diag := bitfield 5 (local_diag b);
          hdr_version := bitfield 3 BFD_VERSION_1;
          hdr_state := bitfield 2 (local_state b);
          hdr_poll := bitfield 1 (poll b);
          hdr_final := bitfield 1 (final b);
          hdr_cplane := 0;
          hdr_auth := 0;
          hdr_demand := bitfield 1 (local_demand b);
          hdr_multipoint := 0;
          hdr_detect_mult := local_detect_mult b;
          hdr_len := u8 len;
          hdr_local_discr := htonl (local_discr b);
          hdr_remote_discr := htonl (remote_discr b);
          hdr_min_tx_intv := htonl (local_min_tx_intv b);
          hdr_min_rx_intv := htonl (local_min_rx_intv b);
          hdr_min_echo_rx_intv := 0 |};
     pkt_src_addr := [];
     pkt_dst_addr := nbr_addr b;
     pkt_ttl := 0;
     pkt_len := len |}.

(** Sanity checks on a received packet: 0 accepts, 1 rejects. *)
Definition bfd_check_packet (pkt : bfdpkt_t) : Z :=
  let hdr := pkt_hdr pkt in
  (* Preliminary sanity checks *)
  if sizeof_bfdhdr_t >? pkt_len pkt then 1
  else if negb (hdr_len hdr =? pkt_len pkt) then 1
  (* Generalized TTL Security Mechanism Check (RFC5881) *)
  else if negb (pkt_ttl pkt =? 0) && negb (pkt_ttl pkt =? BFD_CONTROL_TTL)
  then 1
  (* Main Checks (RFC5880) *)
  else if negb (hdr_version hdr =? BFD_VERSION_1) then 1
  else if hdr_detect_mult hdr =? 0 then 1
  else if negb (hdr_multipoint hdr =? 0) then 1
  else if hdr_local_discr hdr =? 0 then 1
  else if (hdr_remote_discr hdr =? 0)
          && negb (hdr_state hdr =? BFD_STATE_DOWN)
          && negb (hdr_state hdr =? BFD_STATE_ADMINDOWN) then 1
  (* Additional sanity checks *)
  else if negb (hdr_poll hdr =? 0) && negb (hdr_final hdr =? 0) then 1
  else if negb (BFD_VALID_STATE (hdr_state hdr)) then 1
  else if negb (BFD_VALID_DIAG (hdr_diag hdr)) then 1
  else 0.

(** ** The world around a session

    The process-wide objects the handlers touch besides the sessions: the
    event pipe, the ready queue of [master], the datagrams handed to
    [sendto], the clock, and the generator behind [rand ()] as the sequence
    of its future results.  [time_now] is what [timer_now ()] returns; it
    is taken to stand still while one handler runs. *)
Record globals : Type := {
  bfd_event_pipe : list bfd_event_t;
  master_events : list string;
  wire : list bfdpkt_t;
  time_now : Z;
  rand_src : nat -> Z;
  rand_pos : nat
}.

(** The process state: [bfd_data->bfd] and the globals. *)
Record world : Type := {
  bfd_list : list bfd_t;
  w_glob : globals
}.

(** A session handler runs with [bfd] pointing at one element of the list
    [bfd_data->bfd]; [before] and [after] are the elements in front of and
    behind it, so a store through [bfd] is seen by a later walk over the
    list. *)
Record env : Type := {
  before : list bfd_t;
  bfd : bfd_t;
  after : list bfd_t;
  glob : globals
}.

Definition bfd_data (e : env) : list bfd_t := before e ++ bfd e :: after e.

Definition with_bfd (b : bfd_t) (e : env) : env :=
  {| before := before e; bfd := b; after := after e; glob := glob e |}.

Definition with_glob (g : globals) (e : env) : env :=
  {| before := before e; bfd := bfd e; after := after e; glob := g |}.

(** Outcome of a run over a state [S]: a value and the state after it, a
    failed [assert], or a loop that did not finish within the rounds it was
    given. *)
Inductive res (S A : Type) : Type :=
| Done (a : A) (s : S)
| Abort
| Diverge.
Arguments Done {S A} a s.
Arguments Abort {S A}.
Arguments Diverge {S A}.

Definition M (A : Type) : Type := env -> res env A.

Definition ret {A} (a : A) : M A := fun e => Done a e.

Definition bind {A B} (m : M A) (k : A -> M B) : M B :=
  fun e => match m e with
           | Done a e' => k a e'
           | Abort => Abort
           | Diverge => Diverge
           end.

Declare Scope bfd_scope.
Delimit Scope bfd_scope with bfd.
Notation "x <- m ;; k" := (bind m (fun x => k))
  (at level 61, m at next level, right associativity) : bfd_scope.
Notation "m ;; k" := (bind m (fun _ => k))
  (at level 61, right associativity) : bfd_scope.
Local Open Scope bfd_scope.

Definition assert (c : bool) : M unit :=
  fun e => if c then Done tt e else Abort.

(** [*bfd] *)
Definition load : M bfd_t := fun e => Done (bfd e) e.
(** A store through [bfd]. *)
Definition store (f : bfd_t -> bfd_t) : M unit :=
  fun e => Done tt (with_bfd (f (bfd e)) e).

Definition when (c : bool) (m : M unit) : M unit := if c then m else ret tt.

Definition is_some {A} (o : option A) : bool :=
  match o with Some _ => true | None => false end.

Definition timer_now : M Z := fun e => Done (time_now (glob e)) e.

Definition rand : M Z :=
  fun e =>
    let g := glob e in
    Done (rand_src g (rand_pos g))
      (with_glob
         {| bfd_event_pipe := bfd_event_pipe g;
            master_events := master_events g;
            wire := wire g; time_now := time_now g;
            rand_src := rand_src g; rand_pos := S (rand_pos g) |} e).

(** [write (bfd_event_pipe[1], evt, evtlen)].  A failed [write] is only
    logged by the caller; the record is taken to reach the pipe. *)
Definition pipe_write (evt : bfd_event_t) : M unit :=
  fun e =>
    let g := glob e in
    Done tt
      (with_glob
         {| bfd_event_pipe := bfd_event_pipe g ++ [evt];
            master_events := master_events g;
            wire := wire g; time_now := time_now g;
            rand_src := rand_src g; rand_pos := rand_pos g |} e).

(** [thread_add_event (master, bfd_sender_thread, bfd, 0)]: the session is
    put on the ready queue under its instance name. *)
Definition thread_add_event_sender : M unit :=
  fun e =>
    let g := glob e in
    Done tt
      (with_glob
         {| bfd_event_pipe := bfd_event_pipe g;
            master_events := master_events g ++ [iname (bfd e)];
            wire := wire g; time_now := time_now g;
            rand_src := rand_src g; rand_pos := rand_pos g |} e).

(** [sendto] that succeeded: the datagram is on the wire. *)
Definition wire_put (pkt : bfdpkt_t) : M unit :=
  fun e =>
    let g := glob e in
    Done tt
      (with_glob
         {| bfd_event_pipe := bfd_event_pipe g;
            master_events := master_events g;
            wire := wire g ++ [pkt]; time_now := time_now g;
            rand_src := rand_src g; rand_pos := rand_pos g |} e).

(** ** Arithmetic in [double]

    [bfd_sender_schedule] multiplies a [u_int32_t] by the constants [0.1]
    and [0.25] and stores the product in a [u_int32_t].  A constant is given
    as the binary64 number it denotes, [m / 2 ^ s]; the integer operand
    converts exactly; the product is rounded to 53 significant bits, ties to
    even, and the store truncates toward zero. *)

(** [n / 2 ^ k] rounded to the nearest integer, ties to even. *)
Definition round_even (n k : Z) : Z :=
  let q := n / 2 ^ k in
  let r := n mod 2 ^ k in
  if 2 * r <? 2 ^ k then q
  else if 2 ^ k <? 2 * r then q + 1
  else if Z.even q then q else q + 1.

(** The binary64 number nearest to the integer [n >= 0], as a significand
    and the power of two it is scaled by. *)
Definition to_double (n : Z) : Z * Z :=
  let k := Z.max 0 (Z.log2 n - 52) in
  (round_even n k, k).

(** [(u_int32_t) (x * c)] for the constant [c = m / 2 ^ s]. *)
Definition mul_double_u32 (x m s : Z) : Z :=
  let '(q, k) := to_double (x * m) in
  (q * 2 ^ k) / 2 ^ s.

(** The binary64 constants: [0.1] is [0x3FB999999999999A], [0.25] is exact. *)
Definition DBL_0_1 : Z * Z := (3602879701896397, 55).
Definition DBL_0_25 : Z * Z := (1, 2).

(** ** Helpers of bfd_data.c *)

(** Modelled from the spec: [rand_intv] of bfd_data.c is not among the
    sources; section 4.4 has it draw a uniform value in the closed interval
    from [min] to [max].  The draw is reduced into that interval. *)
Definition rand_intv (min max : Z) : M Z :=
  r <- rand ;;
  ret (min + r mod (max - min + 1)).

(** Modelled from the spec: [bfd_get_random_discr] of bfd_data.c is not
    among the sources; section 4.7 has discriminators generated by rejection
    sampling of the non-zero 32-bit range against the discriminators of the
    registered sessions.  [rounds] bounds the number of draws. *)
Fixpoint bfd_get_random_discr (rounds : nat) : M Z :=
  match rounds with
  | O => fun _ => Diverge
  | S n =>
      discr <- rand_intv 1 UINT32_MAX ;;
      fun e =>
        if existsb (fun b => local_discr b =? discr) (bfd_data e)
        then bfd_get_random_discr n e
        else Done discr e
  end.

(** A pointer into a list: the element, with what is in front of it and
    behind it. *)
Fixpoint find_split (p : bfd_t -> bool) (front l : list bfd_t)
  : option (list bfd_t * bfd_t * list bfd_t) :=
  match l with
  | [] => None
  | b :: l' =>
      if p b then Some (front, b, l') else find_split p (front ++ [b]) l'
  end.

(** Modelled from the spec: [find_bfd_by_discr] of bfd_data.c is not among
    the sources; section 4.7 has a mapping from local discriminator to
    session. *)
Definition find_bfd_by_discr (discr : Z) (l : list bfd_t) :=
  find_split (fun b => local_discr b =? discr) [] l.

(** Modelled from the spec: [find_bfd_by_addr] of bfd_data.c is not among
    the sources; section 4.7 has a mapping from neighbor address to
    session. *)
Definition find_bfd_by_addr (addr : sockaddr_storage) (l : list bfd_t) :=
  find_split (fun b => sockaddr_eqb (nbr_addr b) addr) [] l.

(** ** bfd.c, continued *)

(** Resets the session to the initial state.  [rounds] bounds the loop of
    [bfd_get_random_discr]. *)
Definition bfd_init_state (rounds : nat) : M unit :=
  store (bfd_copy_state bfd0) ;;
  discr <- bfd_get_random_discr rounds ;;
  store (set_local_discr (u32 discr)) ;;
  store (fun b => set_local_tx_intv (local_idle_tx_intv b) b).

(** ** bfd_event.c *)

Definition strncpy (n : nat) (s : string) : string := substring 0 n s.

Definition bfd_event_send : M unit :=
  b <- load ;;
  now <- timer_now ;;
  pipe_write {| evt_iname := strncpy 31 (iname b);
                evt_state := local_state b;
                evt_sent_time := now |}.

(** ** bfd_scheduler.c *)

(** [thread->type] of a running thread: a timer that fired has been moved to
    the ready list, an event keeps its type. *)
Inductive thread_type : Type := THREAD_READY | THREAD_EVENT.

Definition is_event (t : thread_type) : bool :=
  match t with THREAD_EVENT => true | THREAD_READY => false end.

(** *** Session sender thread *)

(** Schedules [bfd_sender_thread] to run in [local_tx_intv] minus applied
    jitter. *)
Definition bfd_sender_schedule : M unit :=
  b <- load ;;
  assert (negb (is_some (thread_out b))) ;;
  let min_jitter :=
    if negb (local_detect_mult b =? 0)
    then mul_double_u32 (local_tx_intv b) (fst DBL_0_1) (snd DBL_0_1)
    else 0 in
  r <- rand_intv min_jitter
         (mul_double_u32 (local_tx_intv b) (fst DBL_0_25) (snd DBL_0_25)) ;;
  let jitter := u32 r in
  store (set_thread_out (Some (u32 (local_tx_intv b - jitter)))).

Definition bfd_sender_cancel : M unit :=
  b <- load ;;
  assert (is_some (thread_out b)) ;;
  store (set_thread_out None).

Definition bfd_sender_reschedule : M unit :=
  bfd_sender_cancel ;;
  bfd_sender_schedule.

Definition bfd_sender_scheduled : M bool :=
  b <- load ;; ret (is_some (thread_out b)).

(** *** Session expiration thread *)

Definition bfd_expire_schedule : M unit :=
  b <- load ;;
  assert (negb (is_some (thread_exp b))) ;;
  store (set_thread_exp (Some (local_detect_time b))).

Definition bfd_expire_cancel : M unit :=
  b <- load ;;
  assert (is_some (thread_exp b)) ;;
  store (set_thread_exp None).

Definition bfd_expire_reschedule : M unit :=
  bfd_expire_cancel ;;
  bfd_expire_schedule.

Definition bfd_expire_scheduled : M bool :=
  b <- load ;; ret (is_some (thread_exp b)).

(** *** Session reset thread *)

Definition bfd_reset_schedule : M unit :=
  b <- load ;;
  assert (negb (is_some (thread_rst b))) ;;
  store (set_thread_rst (Some (local_detect_time b))).

Definition bfd_reset_cancel : M unit :=
  b <- load ;;
  assert (is_some (thread_rst b)) ;;
  store (set_thread_rst None).

Definition bfd_reset_scheduled : M bool :=
  b <- load ;; ret (is_some (thread_rst b)).

(** *** State change handlers *)

(** Common actions for Down and AdminDown states. *)
Definition bfd_state_fall : M unit :=
  store bfd_idle_local_tx_intv ;;
  s <- bfd_expire_scheduled ;;
  when s bfd_expire_cancel ;;
  bfd_event_send.

(** Runs when the session state goes Down. *)
Definition bfd_state_down (diag : Z) : M unit :=
  assert (BFD_VALID_DIAG diag) ;;
  store (set_local_state (bitfield 2 BFD_STATE_DOWN)) ;;
  store (set_local_diag (bitfield 5 diag)) ;;
  bfd_reset_schedule ;;
  bfd_state_fall.

(** Runs when the session state goes AdminDown. *)
Definition bfd_state_admindown : M unit :=
  store (set_local_state (bitfield 2 BFD_STATE_ADMINDOWN)) ;;
  store (set_local_diag (bitfield 5 BFD_DIAG_ADMIN_DOWN)) ;;
  s <- bfd_sender_scheduled ;;
  when s bfd_sender_cancel ;;
  bfd_state_fall.

(** Common actions for Init and Up states. *)
Definition bfd_state_rise : M unit :=
  store (set_local_diag (bitfield 5 BFD_DIAG_NO_DIAG)) ;;
  r <- bfd_reset_scheduled ;;
  when r bfd_reset_cancel ;;
  x <- bfd_expire_scheduled ;;
  when (negb x) bfd_expire_schedule ;;
  bfd_event_send.

(** Runs when the session state goes Up. *)
Definition bfd_state_up : M unit :=
  store (set_local_state (bitfield 2 BFD_STATE_UP)) ;;
  bfd_state_rise.

(** Runs when the session state goes Init. *)
Definition bfd_state_init : M unit :=
  b <- load ;;
  assert (negb (BFD_ISUP b)) ;;
  store (set_local_state (bitfield 2 BFD_STATE_INIT)) ;;
  bfd_state_rise.

(** Sends a control packet to the neighbor; returns -1 on error.
    [sendto_ok] is whether [sendto] succeeded: it then returns the number
    of bytes sent, the length of the datagram. *)
Definition bfd_send_packet (fd : Z) (pkt : bfdpkt_t) (sendto_ok : bool)
  : M Z :=
  assert (0 <=? fd) ;;
  if sendto_ok then wire_put pkt ;; ret (pkt_len pkt) else ret (-1).

(** Sends one control packet and reschedules itself if needed. *)
Definition bfd_sender_thread (type : thread_type) (sendto_ok : bool)
  : M unit :=
  b <- load ;;
  assert (negb (BFD_ISADMINDOWN b)) ;;
  store (set_thread_out None) ;;
  b <- load ;;
  let pkt := bfd_build_packet b in
  r <- bfd_send_packet (fd_out b) pkt sendto_ok ;;
  when (r =? -1) bfd_state_admindown ;;
  (* Reset final flag if set *)
  b <- load ;;
  when (negb (final b =? 0)) (store (set_final 0)) ;;
  (* Schedule next run if not called as an event thread *)
  b <- load ;;
  when (negb (is_event type) && negb (BFD_ISADMINDOWN b))
    bfd_sender_schedule.

(** Marks the session as down because of Control Detection Time
    Expiration. *)
Definition bfd_expire_thread : M unit :=
  b <- load ;;
  assert (BFD_ISUP b || BFD_ISINIT b) ;;
  store (set_thread_exp None) ;;
  store (set_remote_discr 0) ;;
  bfd_state_down BFD_DIAG_EXPIRED.

(** Resets the session to the initial state. *)
Definition bfd_reset_thread (rounds : nat) : M unit :=
  b <- load ;;
  assert (is_some (thread_rst b)) ;;
  store (set_thread_rst None) ;;
  bfd_init_state rounds.

(** *** Packet handling *)

(** [bfd_handle_packet] is long; its body after the session lookup is cut
    at the comments that head its parts. *)

(** "Update state variables" and "Terminate poll sequence". *)
Definition hp_update_state (hdr : bfdhdr_t) : M unit :=
  store (set_remote_discr (ntohl (hdr_local_discr hdr))) ;;
  store (set_remote_state (hdr_state hdr)) ;;
  store (set_remote_diag (hdr_diag hdr)) ;;
  store (set_remote_min_rx_intv (ntohl (hdr_min_rx_intv hdr))) ;;
  store (set_remote_min_tx_intv (ntohl (hdr_min_tx_intv hdr))) ;;
  store (set_remote_demand (hdr_demand hdr)) ;;
  store (set_remote_detect_mult (hdr_detect_mult hdr)) ;;
  (* Terminate poll sequence *)
  when (negb (hdr_final hdr =? 0)) (store (set_poll 0)).

(** "Save old timers" to "Reschedule sender if local_tx_intv is being
    reduced".  Of the four saved values only [old_local_tx_intv] is used
    outside the log. *)
Definition hp_update_timers (hdr : bfdhdr_t) : M unit :=
  b <- load ;;
  let old_local_tx_intv := local_tx_intv b in
  (* Recalculate local and remote TX intervals if:
       Control packet with 'Final' bit is received OR
       Control packet with 'Poll' bit is received OR
       Session is not UP *)
  when ((negb (hdr_final hdr =? 0) && (local_state b =? BFD_STATE_UP))
        || (negb (hdr_poll hdr =? 0) && (local_state b =? BFD_STATE_UP))
        || negb (local_state b =? BFD_STATE_UP))
    (store bfd_update_local_tx_intv ;;
     store bfd_update_remote_tx_intv) ;;
  (* Update the Detection Time *)
  store (fun b => set_local_detect_time
                    (u32 (remote_detect_mult b * remote_tx_intv b)) b) ;;
  store (fun b => set_remote_detect_time
                    (u32 (local_detect_mult b * local_tx_intv b)) b) ;;
  (* Reschedule sender if local_tx_intv is being reduced *)
  b <- load ;;
  when (local_tx_intv b <? old_local_tx_intv)
    (s <- bfd_sender_scheduled ;; when s bfd_sender_reschedule).

(** "BFD state machine". *)
Definition hp_state_machine : M unit :=
  b <- load ;;
  if (remote_state b =? BFD_STATE_ADMINDOWN)
     && negb (local_state b =? BFD_STATE_DOWN)
  then bfd_state_down BFD_DIAG_NBR_SIGNALLED_DOWN
  else if local_state b =? BFD_STATE_DOWN then
    if remote_state b =? BFD_STATE_DOWN then bfd_state_init
    else if remote_state b =? BFD_STATE_INIT then bfd_state_up
    else ret tt
  else if local_state b =? BFD_STATE_INIT then
    if (remote_state b =? BFD_STATE_INIT)
       || (remote_state b =? BFD_STATE_UP)
    then bfd_state_up else ret tt
  else if local_state b =? BFD_STATE_UP then
    if remote_state b =? BFD_STATE_DOWN
    then bfd_state_down BFD_DIAG_NBR_SIGNALLED_DOWN else ret tt
  else ret tt.

(** Demand mode, the transmitter, and the answer to a Poll. *)
Definition hp_sender (hdr : bfdhdr_t) : M unit :=
  b <- load ;;
  when (negb (remote_demand b =? 0)
        && (local_state b =? BFD_STATE_UP)
        && (remote_state b =? BFD_STATE_UP))
    (s <- bfd_sender_scheduled ;; when s bfd_sender_cancel) ;;
  b <- load ;;
  when ((remote_demand b =? 0)
        || negb (local_state b =? BFD_STATE_UP)
        || negb (remote_state b =? BFD_STATE_UP))
    (s <- bfd_sender_scheduled ;; when (negb s) bfd_sender_schedule) ;;
  when (negb (hdr_poll hdr =? 0))
    (store (set_final 1) ;; thread_add_event_sender).

(** "Update last seen timer" and "Delay expiration if scheduled". *)
Definition hp_last_seen : M unit :=
  now <- timer_now ;;
  store (set_last_seen now) ;;
  x <- bfd_expire_scheduled ;;
  when x bfd_expire_reschedule.

(** [bfd_handle_packet] from "Authentication is not supported for now" on,
    [bfd] pointing at the session found. *)
Definition bfd_handle_packet_session (pkt : bfdpkt_t) : M unit :=
  let hdr := pkt_hdr pkt in
  b <- load ;;
  (* Authentication is not supported for now *)
  if negb (hdr_auth hdr =? 0) then ret tt
  (* Discard all packets while in AdminDown state *)
  else if local_state b =? BFD_STATE_ADMINDOWN then ret tt
  else
    hp_update_state hdr ;;
    hp_update_timers hdr ;;
    hp_state_machine ;;
    hp_sender hdr ;;
    hp_last_seen.

(** Enters a session handler on the element a lookup returned, and leaves
    it. *)
Definition enter (front : list bfd_t) (b : bfd_t) (back : list bfd_t)
    (w : world) : env :=
  {| before := front; bfd := b; after := back; glob := w_glob w |}.

Definition leave (e : env) : world :=
  {| bfd_list := bfd_data e; w_glob := glob e |}.

(** "Lookup session". *)
Definition hp_lookup (pkt : bfdpkt_t) (l : list bfd_t)
  : option (list bfd_t * bfd_t * list bfd_t) :=
  if hdr_remote_discr (pkt_hdr pkt) =? 0
  then find_bfd_by_addr (pkt_src_addr pkt) l
  else find_bfd_by_discr (ntohl (hdr_remote_discr (pkt_hdr pkt))) l.

(** Handles an incoming control packet and processes it through the BFD
    state machine. *)
Definition bfd_handle_packet (pkt : bfdpkt_t) (w : world)
  : res world unit :=
  (* Perform sanity checks on a packet *)
  if negb (bfd_check_packet pkt =? 0) then Done tt w
  else
    match hp_lookup pkt (bfd_list w) with
    | None => Done tt w
    | Some (front, b, back) =>
        match bfd_handle_packet_session pkt (enter front b back w) with
        | Done _ e => Done tt (leave e)
        | Abort => Abort
        | Diverge => Diverge
        end
    end.

(** ** bfd_parser.c: keyword handlers of a [bfd_instance] block *)

(** [atoi] of the C library is [(int) strtol (s, NULL, 10)]: leading
    white space, an optional sign, then decimal digits up to the first
    other character; [strtol] gives the long that the numeral stands for,
    [LONG_MIN] or [LONG_MAX] if it does not fit a long, and the conversion
    to [int] keeps the low 32 bits.  For every numeral that fits an [int]
    the result is the numeral's value, as C defines it; beyond that C
    leaves the result undefined, and what is written here is what a
    library with a 64-bit long returns. *)
Definition isspace (c : ascii) : bool :=
  let n := Z.of_nat (nat_of_ascii c) in
  (n =? 32) || ((9 <=? n) && (n <=? 13)).

Definition isdigit (c : ascii) : bool :=
  let n := Z.of_nat (nat_of_ascii c) in
  (48 <=? n) && (n <=? 57).

Fixpoint skip_space (s : string) : string :=
  match s with
  | String c s' => if isspace c then skip_space s' else s
  | EmptyString => s
  end.

Fixpoint atoi_digits (acc : Z) (s : string) : Z :=
  match s with
  | String c s' =>
      if isdigit c
      then atoi_digits (10 * acc + (Z.of_nat (nat_of_ascii c) - 48)) s'
      else acc
  | EmptyString => acc
  end.

(** The value of the numeral at the head of [s], as an integer. *)
Definition numeral (s : string) : Z :=
  match skip_space s with
  | String "-" s' => - atoi_digits 0 s'
  | String "+" s' => atoi_digits 0 s'
  | s' => atoi_digits 0 s'
  end.

Definition INT_MIN : Z := - 2 ^ 31.
Definition INT_MAX : Z := 2 ^ 31 - 1.
Definition LONG_MIN : Z := - 2 ^ 63.
Definition LONG_MAX : Z := 2 ^ 63 - 1.

Definition strtol (s : string) : Z :=
  Z.max LONG_MIN (Z.min LONG_MAX (numeral s)).

(** Conversion to [int]: the low 32 bits, read as a signed number. *)
Definition to_int (z : Z) : Z :=
  let m := z mod 2 ^ 32 in if m <? 2 ^ 31 then m else m - 2 ^ 32.

Definition atoi (s : string) : Z := to_int (strtol s).

(** [vector_slot (strvec, i)] *)
Definition vector_slot (strvec : list string) (i : nat) : option string :=
  nth_error strvec i.

(** A handler works on [LIST_TAIL_DATA (bfd_data->bfd)], the instance whose
    block is being read, after [assert (bfd)]. *)
Definition on_tail (f : bfd_t -> bfd_t) (w : world) : res world unit :=
  match rev (bfd_list w) with
  | [] => Abort
  | b :: r => Done tt {| bfd_list := rev r ++ [f b]; w_glob := w_glob w |}
  end.

Definition LIST_TAIL_DATA (w : world) : option bfd_t :=
  match rev (bfd_list w) with
  | [] => None
  | b :: _ => Some b
  end.

(** The four numeric handlers.  The branch that only logs
    ("... is not valid (must be in range ...), ignoring") leaves the
    instance as it is. *)
Definition bfd_minrx_handler (strvec : list string) (w : world)
  : res world unit :=
  match vector_slot strvec 1 with
  | None => Abort
  | Some slot =>
      let value := atoi slot in
      on_tail (fun b =>
        if (value <? BFD_MINRX_MIN) || (value >? BFD_MINRX_MAX) then b
        else set_local_min_rx_intv (u32 (value * 1000)) b) w
  end.

Definition bfd_mintx_handler (strvec : list string) (w : world)
  : res world unit :=
  match vector_slot strvec 1 with
  | None => Abort
  | Some slot =>
      let value := atoi slot in
      on_tail (fun b =>
        if (value <? BFD_MINTX_MIN) || (value >? BFD_MINTX_MAX) then b
        else set_local_min_tx_intv (u32 (value * 1000)) b) w
  end.

Definition bfd_idletx_handler (strvec : list string) (w : world)
  : res world unit :=
  match vector_slot strvec 1 with
  | None => Abort
  | Some slot =>
      let value := atoi slot in
      on_tail (fun b =>
        if (value <? BFD_IDLETX_MIN) || (value >? BFD_IDLETX_MAX) then b
        else set_local_idle_tx_intv (u32 (value * 1000)) b) w
  end.

Definition bfd_multiplier_handler (strvec : list string) (w : world)
  : res world unit :=
  match vector_slot strvec 1 with
  | None => Abort
  | Some slot =>
      let value := atoi slot in
      on_tail (fun b =>
        if (value <? BFD_MULTIPLIER_MIN) || (value >? BFD_MULTIPLIER_MAX)
        then b
        else set_local_detect_mult (u8 value) b) w
  end.

Definition bfd_disabled_handler (strvec : list string) (w : world)
  : res world unit :=
  on_tail (set_disabled 1) w.
(** ** bfd.h: stores to the remaining members *)

Definition set_iname (v : string) (b : bfd_t) : bfd_t :=
  {| iname := v; nbr_addr := nbr_addr b; src_addr := src_addr b;
     local_min_rx_intv := local_min_rx_intv b;
     local_min_tx_intv := local_min_tx_intv b;
     local_idle_tx_intv := local_idle_tx_intv b;
     local_detect_mult := local_detect_mult b; disabled := disabled b;
     fd_out := fd_out b; thread_out := thread_out b;
     sands_out := sands_out b; thread_exp := thread_exp b;
     sands_exp := sands_exp b; thread_rst := thread_rst b;
     sands_rst := sands_rst b; local_state := local_state b;
     remote_state := remote_state b; local_discr := local_discr b;
     remote_discr := remote_discr b; local_diag := local_diag b;
     remote_diag := remote_diag b;
     remote_min_tx_intv := remote_min_tx_intv b;
     remote_min_rx_intv := remote_min_rx_intv b;
     local_demand := local_demand b; remote_demand := remote_demand b;
     remote_detect_mult := remote_detect_mult b; poll := poll b;
     final := final b; local_tx_intv := local_tx_intv b;
     remote_tx_intv := remote_tx_intv b;
     local_detect_time := local_detect_time b;
     remote_detect_time := remote_detect_time b; last_seen := last_seen b |}.

Definition set_fd_out (v : Z) (b : bfd_t) : bfd_t :=
  {| iname := iname b; nbr_addr := nbr_addr b; src_addr := src_addr b;
     local_min_rx_intv := local_min_rx_intv b;
     local_min_tx_intv := local_min_tx_intv b;
     local_idle_tx_intv := local_idle_tx_intv b;
     local_detect_mult := local_detect_mult b; disabled := disabled b;
     fd_out := v; thread_out := thread_out b; sands_out := sands_out b;
     thread_exp := thread_exp b; sands_exp := sands_exp b;
     thread_rst := thread_rst b; sands_rst := sands_rst b;
     local_state := local_state b; remote_state := remote_state b;
     local_discr := local_discr b; remote_discr := remote_discr b;
     local_diag := local_diag b; remote_diag := remote_diag b;
     remote_min_tx_intv := remote_min_tx_intv b;
     remote_min_rx_intv := remote_min_rx_intv b;
     local_demand := local_demand b; remote_demand := remote_demand b;
     remote_detect_mult := remote_detect_mult b; poll := poll b;
     final := final b; local_tx_intv := local_tx_intv b;
     remote_tx_intv := remote_tx_intv b;
     local_detect_time := local_detect_time b;
     remote_detect_time := remote_detect_time b; last_seen := last_seen b |}.

Definition set_sands_out (v : Z) (b : bfd_t) : bfd_t :=
  {| iname := iname b; nbr_addr := nbr_addr b; src_addr := src_addr b;
     local_min_rx_intv := local_min_rx_intv b;
     local_min_tx_intv := local_min_tx_intv b;
     local_idle_tx_intv := local_idle_tx_intv b;
     local_detect_mult := local_detect_mult b; disabled := disabled b;
     fd_out := fd_out b; thread_out := thread_out b; sands_out := v;
     thread_exp := thread_exp b; sands_exp := sands_exp b;
     thread_rst := thread_rst b; sands_rst := sands_rst b;
     local_state := local_state b; remote_state := remote_state b;
     local_discr := local_discr b; remote_discr := remote_discr b;
     local_diag := local_diag b; remote_diag := remote_diag b;
     remote_min_tx_intv := remote_min_tx_intv b;
     remote_min_rx_intv := remote_min_rx_intv b;
     local_demand := local_demand b; remote_demand := remote_demand b;
     remote_detect_mult := remote_detect_mult b; poll := poll b;
     final := final b; local_tx_intv := local_tx_intv b;
     remote_tx_intv := remote_tx_intv b;
     local_detect_time := local_detect_time b;
     remote_detect_time := remote_detect_time b; last_seen := last_seen b |}.

Definition set_sands_exp (v : Z) (b : bfd_t) : bfd_t :=
  {| iname := iname b; nbr_addr := nbr_addr b; src_addr := src_addr b;
     local_min_rx_intv := local_min_rx_intv b;
     local_min_tx_intv := local_min_tx_intv b;
     local_idle_tx_intv := local_idle_tx_intv b;
     local_detect_mult := local_detect_mult b; disabled := disabled b;
     fd_out := fd_out b; thread_out := thread_out b;
     sands_out := sands_out b; thread_exp := thread_exp b; sands_exp := v;
     thread_rst := thread_rst b; sands_rst := sands_rst b;
     local_state := local_state b; remote_state := remote_state b;
     local_discr := local_discr b; remote_discr := remote_discr b;
     local_diag := local_diag b; remote_diag := remote_diag b;
     remote_min_tx_intv := remote_min_tx_intv b;
     remote_min_rx_intv := remote_min_rx_intv b;
     local_demand := local_demand b; remote_demand := remote_demand b;
     remote_detect_mult := remote_detect_mult b; poll := poll b;
     final := final b; local_tx_intv := local_tx_intv b;
     remote_tx_intv := remote_tx_intv b;
     local_detect_time := local_detect_time b;
     remote_detect_time := remote_detect_time b; last_seen := last_seen b |}.

Definition set_sands_rst (v : Z) (b : bfd_t) : bfd_t :=
  {| iname := iname b; nbr_addr := nbr_addr b; src_addr := src_addr b;
     local_min_rx_intv := local_min_rx_intv b;
     local_min_tx_intv := local_min_tx_intv b;
     local_idle_tx_intv := local_idle_tx_intv b;
     local_detect_mult := local_detect_mult b; disabled := disabled b;
     fd_out := fd_out b; thread_out := thread_out b;
     sands_out := sands_out b; thread_exp := thread_exp b;
     sands_exp := sands_exp b; thread_rst := thread_rst b; sands_rst := v;
     local_state := local_state b; remote_state := remote_state b;
     local_discr := local_discr b; remote_discr := remote_discr b;
     local_diag := local_diag b; remote_diag := remote_diag b;
     remote_min_tx_intv := remote_min_tx_intv b;
     remote_min_rx_intv := remote_min_rx_intv b;
     local_demand := local_demand b; remote_demand := remote_demand b;
     remote_detect_mult := remote_detect_mult b; poll := poll b;
     final := final b; local_tx_intv := local_tx_intv b;
     remote_tx_intv := remote_tx_intv b;
     local_detect_time := local_detect_time b;
     remote_detect_time := remote_detect_time b; last_seen := last_seen b |}.

Definition set_local_demand (v : Z) (b : bfd_t) : bfd_t :=
  {| iname := iname b; nbr_addr := nbr_addr b; src_addr := src_addr b;
     local_min_rx_intv := local_min_rx_intv b;
     local_min_tx_intv := local_min_tx_intv b;
     local_idle_tx_intv := local_idle_tx_intv b;
     local_detect_mult := local_detect_mult b; disabled := disabled b;
     fd_out := fd_out b; thread_out := thread_out b;
     sands_out := sands_out b; thread_exp := thread_exp b;
     sands_exp := sands_exp b; thread_rst := thread_rst b;
     sands_rst := sands_rst b; local_state := local_state b;
     remote_state := remote_state b; local_discr := local_discr b;
     remote_discr := remote_discr b; local_diag := local_diag b;
     remote_diag := remote_diag b;
     remote_min_tx_intv := remote_min_tx_intv b;
     remote_min_rx_intv := remote_min_rx_intv b; local_demand := v;
     remote_demand := remote_demand b;
     remote_detect_mult := remote_detect_mult b; poll := poll b;
     final := final b; local_tx_intv := local_tx_intv b;
     remote_tx_intv := remote_tx_intv b;
     local_detect_time := local_detect_time b;
     remote_detect_time := remote_detect_time b; last_seen := last_seen b |}.

(** ** bfd.c, continued *)

(** Copies thread sands. *)
Definition bfd_copy_sands (bfd_old b : bfd_t) : bfd_t :=
  set_sands_rst (sands_rst bfd_old)
    (set_sands_exp (sands_exp bfd_old)
       (set_sands_out (sands_out bfd_old) b)).

(** ** bfd_scheduler.c: suspending and resuming the timers

    [THREAD_TIME_TO_WAKEUP] (scheduler.h) is not among the sources.  What
    it gives for the handle at hand is an argument of the three suspend
    functions, [wakeup]; nothing is assumed of it. *)

(** Suspends sender thread. *)
Definition bfd_sender_suspend (wakeup : Z) : M unit :=
  b <- load ;;
  assert (is_some (thread_out b)) ;;
  assert (sands_out b =? -1) ;;
  store (set_sands_out wakeup) ;;
  bfd_sender_cancel.

(** Resumes sender thread. *)
Definition bfd_sender_resume : M unit :=
  b <- load ;;
  assert (negb (is_some (thread_out b))) ;;
  assert (negb (sands_out b =? -1)) ;;
  store (fun b => set_thread_out (Some (sands_out b)) b) ;;
  store (set_sands_out (-1)).

(** Returns 1 if [bfd_sender_thread] is suspended, 0 otherwise. *)
Definition bfd_sender_suspended : M bool :=
  b <- load ;; ret (negb (sands_out b =? -1)).

Definition bfd_sender_discard : M unit :=
  b <- load ;;
  assert (negb (sands_out b =? -1)) ;;
  store (set_sands_out (-1)).

(** Suspends expire thread. *)
Definition bfd_expire_suspend (wakeup : Z) : M unit :=
  b <- load ;;
  assert (is_some (thread_exp b)) ;;
  assert (sands_exp b =? -1) ;;
  store (set_sands_exp wakeup) ;;
  bfd_expire_cancel.

(** Resumes expire thread. *)
Definition bfd_expire_resume : M unit :=
  b <- load ;;
  assert (negb (is_some (thread_exp b))) ;;
  assert (negb (sands_exp b =? -1)) ;;
  store (fun b => set_thread_exp (Some (sands_exp b)) b) ;;
  store (set_sands_exp (-1)).

(** Returns 1 if [bfd_expire_thread] is suspended, 0 otherwise. *)
Definition bfd_expire_suspended : M bool :=
  b <- load ;; ret (negb (sands_exp b =? -1)).

Definition bfd_expire_discard : M unit :=
  b <- load ;;
  assert (negb (sands_exp b =? -1)) ;;
  store (set_sands_exp (-1)).

(** Suspends reset thread. *)
Definition bfd_reset_suspend (wakeup : Z) : M unit :=
  b <- load ;;
  assert (is_some (thread_rst b)) ;;
  assert (sands_rst b =? -1) ;;
  store (set_sands_rst wakeup) ;;
  bfd_reset_cancel.

(** Resumes reset thread. *)
Definition bfd_reset_resume : M unit :=
  b <- load ;;
  assert (negb (is_some (thread_rst b))) ;;
  assert (negb (sands_rst b =? -1)) ;;
  store (fun b => set_thread_rst (Some (sands_rst b)) b) ;;
  store (set_sands_rst (-1)).

(** Returns 1 if [bfd_reset_thread] is suspended, 0 otherwise. *)
Definition bfd_reset_suspended : M bool :=
  b <- load ;; ret (negb (sands_rst b =? -1)).

Definition bfd_reset_discard : M unit :=
  b <- load ;;
  assert (negb (sands_rst b =? -1)) ;;
  store (set_sands_rst (-1)).

(** ** bfd_scheduler.c: receiving *)

(** One control message of a [struct msghdr]: level, type, and the bytes
    [CMSG_DATA] points at. *)
Record cmsghdr : Type := {
  cmsg_level : Z;
  cmsg_type : Z;
  cmsg_data : list Z
}.

(** What [recvmsg] hands back: its return value, [msg_flags], the address
    stored through [msg_name], the buffer read as a header, and the
    control messages from [CMSG_FIRSTHDR] on. *)
Record msghdr : Type := {
  msg_len : Z;
  msg_flags : Z;
  msg_name : sockaddr_storage;
  msg_iov : bfdhdr_t;
  msg_control : list cmsghdr
}.

(** Linux values of the constants used ([<bits/socket.h>], [<netinet/in.h>],
    [<bits/in.h>]). *)
Definition MSG_TRUNC : Z := 32.
Definition MSG_CTRUNC : Z := 8.
Definition IPPROTO_IP : Z := 0.
Definition IP_TTL : Z := 2.

(** The loop over the control messages, from the value [ttl] has when a
    message is reached.  [None] is a failed [assert (!ttl)].  The TTL is
    read through an [unsigned char *]: one byte. *)
Fixpoint cmsg_ttl (cmsgs : list cmsghdr) (ttl : Z) : option Z :=
  match cmsgs with
  | [] => Some ttl
  | cmsg :: rest =>
      if negb (cmsg_level cmsg =? IPPROTO_IP)
         || negb (cmsg_type cmsg =? IP_TTL)
      then cmsg_ttl rest ttl
      else if negb (ttl =? 0) then None
      else cmsg_ttl rest (hd 0 (cmsg_data cmsg))
  end.

(** Reads one packet from input socket.  The state is [*pkt]; [msg] is
    what [recvmsg] hands back. *)
Definition bfd_recieve_packet (fd : Z) (msg : msghdr) (pkt : bfdpkt_t)
  : res bfdpkt_t Z :=
  if negb (0 <=? fd) then Abort
  else if msg_len msg =? -1 then Done 1 pkt
  else
    let pkt1 :=
      {| pkt_hdr := pkt_hdr pkt; pkt_src_addr := msg_name msg;
         pkt_dst_addr := pkt_dst_addr pkt; pkt_ttl := pkt_ttl pkt;
         pkt_len := pkt_len pkt |} in
    if negb (Z.land (msg_flags msg) MSG_TRUNC =? 0) then Done 1 pkt1
    else
      match cmsg_ttl (msg_control msg) 0 with
      | None => Abort
      | Some ttl =>
          Done 0
            {| pkt_hdr := msg_iov msg; pkt_src_addr := msg_name msg;
               pkt_dst_addr := pkt_dst_addr pkt; pkt_ttl := ttl;
               pkt_len := msg_len msg |}
      end.

(** ** bfd_scheduler.c: the dispatcher *)

(** [bfd_data_t]: the sessions (with the globals of the process, as in
    [world]), the receiver thread as the descriptor it watches, and the
    listening socket. *)
Record bfd_data_t : Type := {
  data_bfd : world;
  thread_in : option Z;
  fd_in : Z
}.

Definition with_world (w : world) (data : bfd_data_t) : bfd_data_t :=
  {| data_bfd := w; thread_in := thread_in data; fd_in := fd_in data |}.

Definition set_thread_in (t : option Z) (data : bfd_data_t) : bfd_data_t :=
  {| data_bfd := data_bfd data; thread_in := t; fd_in := fd_in data |}.

Definition set_fd_in (fd : Z) (data : bfd_data_t) : bfd_data_t :=
  {| data_bfd := data_bfd data; thread_in := thread_in data; fd_in := fd |}.

(** [thread->type] of a running read thread. *)
Inductive read_type : Type := THREAD_READY_FD | THREAD_READ_TIMEOUT.

(** Runs when data is available in listening socket.  [pkt0] is the
    packet as [MALLOC] returns it. *)
Definition bfd_reciever_thread (type : read_type) (fd : Z) (msg : msghdr)
    (pkt0 : bfdpkt_t) (data : bfd_data_t) : res bfd_data_t unit :=
  if negb (0 <=? fd) then Abort
  else
    let rearm (w : world) :=
      Done tt (set_thread_in (Some fd) (with_world w data)) in
    match type with
    | THREAD_READ_TIMEOUT => rearm (data_bfd data)
    | THREAD_READY_FD =>
        match bfd_recieve_packet fd msg pkt0 with
        | Done ret pkt =>
            if ret =? 0 then
              match bfd_handle_packet pkt (data_bfd data) with
              | Done _ w => rearm w
              | Abort => Abort
              | Diverge => Diverge
              end
            else rearm (data_bfd data)
        | Abort => Abort
        | Diverge => Diverge
        end
    end.

(** [for (e = LIST_HEAD (data->bfd); e; ELEMENT_NEXT (e))] with [bfd]
    pointing at each session in turn; [front] holds the sessions already
    visited.  No handler stores to a session other than the one [bfd]
    points at, so the sessions still to visit are taken as they were. *)
Fixpoint for_each (body : M unit) (front rest : list bfd_t) (g : globals)
  : res world unit :=
  match rest with
  | [] => Done tt {| bfd_list := front; w_glob := g |}
  | b :: rest' =>
      match body {| before := front; bfd := b; after := rest';
                    glob := g |} with
      | Done _ e' => for_each body (front ++ [bfd e']) rest' (glob e')
      | Abort => Abort
      | Diverge => Diverge
      end
  end.

(** The results of the system calls of [bfd_open_fd_in]. *)
Record in_calls : Type := {
  in_getaddrinfo : Z;
  in_socket : Z;
  in_setsockopt : Z;
  in_bind : Z
}.

(** Prepares UDP socket for listening on *:3784. *)
Definition bfd_open_fd_in (sys : in_calls) (data : bfd_data_t)
  : res bfd_data_t Z :=
  if negb (fd_in data =? -1) then Abort
  else if negb (in_getaddrinfo sys =? 0) then Done 1 data
  else
    let data1 := set_fd_in (in_socket sys) data in
    if fd_in data1 =? -1 then Done 1 data1
    else if in_setsockopt sys =? -1 then Done 1 data1
    else if in_bind sys =? -1 then Done 1 data1
    else Done 0 data1.

(** The results of the system calls of [bfd_open_fd_out]. *)
Record out_calls : Type := {
  out_socket : Z;
  out_bind : Z;
  out_setsockopt : Z
}.

(** [ss_family] of an address kept as its bytes: the first two, in host
    (little-endian) order. *)
Definition ss_family (a : sockaddr_storage) : Z :=
  nth 0 a 0 + 256 * nth 1 a 0.

(** Prepares UDP socket for sending data to neighbor. *)
Definition bfd_open_fd_out (sys : out_calls) : M Z :=
  b <- load ;;
  assert (fd_out b =? -1) ;;
  store (set_fd_out (out_socket sys)) ;;
  b <- load ;;
  if fd_out b =? -1 then ret 1
  else if negb (ss_family (src_addr b) =? 0) && (out_bind sys =? -1)
  then ret 1
  else if out_setsockopt sys =? -1 then ret 1
  else ret 0.

(** The body of the loop of [bfd_open_fds]. *)
Definition open_session (sys : bfd_t -> out_calls) : M unit :=
  b <- load ;;
  (* Skip disabled instances *)
  if negb (disabled b =? 0) then ret tt
  else
    r <- bfd_open_fd_out (sys b) ;;
    when (negb (r =? 0)) bfd_state_admindown.

(** Runs a loop over the sessions of [data]. *)
Definition over_sessions (body : M unit) (data : bfd_data_t)
  : res bfd_data_t unit :=
  match for_each body [] (bfd_list (data_bfd data))
          (w_glob (data_bfd data)) with
  | Done _ w => Done tt (with_world w data)
  | Abort => Abort
  | Diverge => Diverge
  end.

(** Opens all needed sockets.  The test on the input socket reads the
    global [bfd_data], which is the [data] the function is called with. *)
Definition bfd_open_fds (sys_in : in_calls) (sys_out : bfd_t -> out_calls)
    (data : bfd_data_t) : res bfd_data_t Z :=
  let continue (data : bfd_data_t) :=
    match over_sessions (open_session sys_out) data with
    | Done _ data' => Done 0 data'
    | Abort => Abort
    | Diverge => Diverge
    end in
  (* Do not reopen input socket on reload *)
  if fd_in data =? -1 then
    match bfd_open_fd_in sys_in data with
    | Done r data1 =>
        if negb (r =? 0) then Done 1 data1 else continue data1
    | Abort => Abort
    | Diverge => Diverge
    end
  else continue data.

(** The body of the loop of [bfd_register_workers]. *)
Definition register_session : M unit :=
  b <- load ;;
  (* Skip disabled instances *)
  if negb (disabled b =? 0) then ret tt
  else
    (* Do not start anything if instance is in AdminDown state.
       Discard saved state if any *)
    s <- bfd_sender_suspended ;;
    (if s then
       s' <- bfd_sender_suspended ;;
       when s' (b <- load ;;
                if BFD_ISADMINDOWN b then bfd_sender_discard
                else bfd_sender_resume)
     else
       b <- load ;;
       when (negb (BFD_ISADMINDOWN b)) bfd_sender_schedule) ;;
    x <- bfd_expire_suspended ;;
    when x (b <- load ;;
            if BFD_ISADMINDOWN b then bfd_expire_discard
            else bfd_expire_resume) ;;
    r <- bfd_reset_suspended ;;
    when r (b <- load ;;
            if BFD_ISADMINDOWN b then bfd_reset_discard
            else bfd_reset_resume).

(** Registers sender and reciever threads. *)
Definition bfd_register_workers (data : bfd_data_t)
  : res bfd_data_t unit :=
  if is_some (thread_in data) then Abort
  else
    over_sessions register_session
      (set_thread_in (Some (fd_in data)) data).

(** The three timers of a session. *)
Inductive timer_role : Type := SENDER | EXPIRE | RESET.

(** The body of the loop of [bfd_dispatcher_release]; [wakeup] gives
    [THREAD_TIME_TO_WAKEUP] for each of the three handles. *)
Definition release_session (wakeup : timer_role -> bfd_t -> Z) : M unit :=
  b <- load ;;
  (* Skip disabled instances *)
  if negb (disabled b =? 0) then ret tt
  else
    s <- bfd_sender_scheduled ;;
    when s (b <- load ;; bfd_sender_suspend (wakeup SENDER b)) ;;
    x <- bfd_expire_scheduled ;;
    when x (b <- load ;; bfd_expire_suspend (wakeup EXPIRE b)) ;;
    r <- bfd_reset_scheduled ;;
    when r (b <- load ;; bfd_reset_suspend (wakeup RESET b)) ;;
    b <- load ;;
    assert (negb (fd_out b =? -1)) ;;
    store (set_fd_out (-1)).

(** Suspends threads, closes sockets.  [reload] is the global flag of
    that name; [set_time_now ()] refreshes the clock that
    [THREAD_TIME_TO_WAKEUP] reads and has its effect through [wakeup]. *)
Definition bfd_dispatcher_release (reload : bool)
    (wakeup : timer_role -> bfd_t -> Z) (data : bfd_data_t)
  : res bfd_data_t unit :=
  (* Looks like dispatcher wasn't initialized yet *)
  if negb (is_some (thread_in data)) then Done tt data
  else if fd_in data =? -1 then Abort
  else
    let data1 := set_thread_in None data in
    (* Do not close fd_in on reload *)
    let data2 := if negb reload then set_fd_in (-1) data1 else data1 in
    (* Suspend threads for possible resuming after reconfiguration *)
    over_sessions (release_session wakeup) data2.

(** How a call ends that may leave through [exit ()]. *)
Inductive ending : Type :=
| Returned (r : Z)
| Exited (status : Z).

Definition EXIT_FAILURE : Z := 1.

(** Starts BFD dispatcher. *)
Definition bfd_dispatcher_init (sys_in : in_calls)
    (sys_out : bfd_t -> out_calls) (data : bfd_data_t)
  : res bfd_data_t ending :=
  match bfd_open_fds sys_in sys_out data with
  | Done r data1 =>
      if r =? -1 then Done (Exited EXIT_FAILURE) data1
      else
        match bfd_register_workers data1 with
        | Done _ data2 => Done (Returned 0) data2
        | Abort => Abort
        | Diverge => Diverge
        end
  | Abort => Abort
  | Diverge => Diverge
  end.

(** ** bfd_parser.c: the handlers of names and addresses *)

From Stdlib Require DecimalString.

(** A [char] array, byte by byte, and the C string it holds: the bytes in
    front of the first NUL. *)
Definition NUL : ascii := Ascii.zero.

Fixpoint c_str (buf : list ascii) : string :=
  match buf with
  | [] => EmptyString
  | c :: buf' => if Ascii.eqb c NUL then EmptyString else String c (c_str buf')
  end.

(** The bytes of the C string that a string stands for. *)
Fixpoint c_bytes (s : string) : list ascii :=
  match s with
  | EmptyString => []
  | String c s' => if Ascii.eqb c NUL then [] else c :: c_bytes s'
  end.

(** [strncpy (dst, src, n)]: the first [n] bytes of [dst] become the
    bytes of [src], padded with NUL; no NUL is added if [src] has [n]
    bytes or more. *)
Definition strncpy_buf (dst : list ascii) (src : string) (n : nat)
  : list ascii :=
  (firstn n (c_bytes src ++ repeat NUL n) ++ skipn n dst)%list.

(** [%i] *)
Definition print_int (z : Z) : string :=
  if z <? 0
  then String "-" (DecimalString.NilZero.string_of_uint
                     (Nat.to_uint (Z.to_nat (- z))))
  else DecimalString.NilZero.string_of_uint (Nat.to_uint (Z.to_nat z)).

(** [snprintf (dst, n, "...")] once the format is expanded to [s]: at
    most [n - 1] bytes of [s], then a NUL; the rest of [dst] stays. *)
Definition snprintf_buf (dst : list ascii) (n : nat) (s : string)
  : list ascii :=
  let t := firstn (n - 1) (c_bytes s) in
  (t ++ NUL :: skipn (S (List.length t)) dst)%list.

(** [LIST_SIZE (bfd_data->bfd)] *)
Definition LIST_SIZE (w : world) : Z :=
  Z.of_nat (List.length (bfd_list w)).

Section Names.

(** [find_bfd_by_name] and [alloc_bfd] of bfd_data.c are not among the
    sources, and the spec does not say what they do: the handler is
    given for any two such functions.  [find_bfd_by_name] is taken as
    the test of its result against [NULL]. *)
Variable find_bfd_by_name : string -> world -> bool.
Variable alloc_bfd : string -> Z -> world -> res world unit.

Definition bfd_handler (strvec : list string) (w : world)
  : res world unit :=
  match vector_slot strvec 1 with
  | None => Abort
  | Some name =>
      let iname0 := repeat NUL BFD_INAME_MAX in
      let disabled0 := 0 in
      let iname1 := strncpy_buf iname0 name (BFD_INAME_MAX - 1) in
      let truncated :=
        negb (Ascii.eqb (nth (BFD_INAME_MAX - 1) iname1 NUL) NUL) in
      let iname2 :=
        if truncated
        then (firstn (BFD_INAME_MAX - 1) iname1
              ++ NUL :: skipn BFD_INAME_MAX iname1)%list
        else iname1 in
      let disabled2 := if truncated then 1 else disabled0 in
      let dup := find_bfd_by_name (c_str iname2) w in
      let iname3 :=
        if dup
        then snprintf_buf iname2 BFD_INAME_MAX
               ("<DUP-" ++ print_int (to_int (LIST_SIZE w)) ++ ">")%string
        else iname2 in
      let disabled3 := if dup then 1 else disabled2 in
      alloc_bfd (c_str iname3) disabled3 w
  end.

End Names.

Section Addresses.

(** [inet_stosockaddr] of utils.c is not among the sources: the handlers
    are given for any such function of the address and the port (a
    string, or [NULL]), [None] standing for a negative return value. *)
Variable inet_stosockaddr :
  string -> option string -> option sockaddr_storage.

Definition BFD_CONTROL_PORT : string := "3784".

Definition bfd_nbrip_handler (strvec : list string) (w : world)
  : res world unit :=
  match vector_slot strvec 1 with
  | None => Abort
  | Some slot =>
      match inet_stosockaddr slot (Some BFD_CONTROL_PORT) with
      | None => on_tail (set_disabled 1) w
      | Some nbr_addr =>
          if is_some (find_bfd_by_addr nbr_addr (bfd_list w))
          then on_tail (set_disabled 1) w
          else on_tail (set_nbr_addr nbr_addr) w
      end
  end.

Definition bfd_srcip_handler (strvec : list string) (w : world)
  : res world unit :=
  match vector_slot strvec 1 with
  | None => Abort
  | Some slot =>
      match inet_stosockaddr slot None with
      | None => on_tail (fun b => b) w
      | Some src_addr => on_tail (set_src_addr src_addr) w
      end
  end.

End Addresses.

(** The keywords of a [bfd_instance] block whose handlers work on the
    instance being read without calling out of these sources, as
    [bfd_init_keywords] installs them. *)
Definition bfd_init_keywords
  : list (string * (list string -> world -> res world unit)) :=
  [ ("min_rx", bfd_minrx_handler);
    ("min_tx", bfd_mintx_handler);
    ("idle_tx", bfd_idletx_handler);
    ("multiplier", bfd_multiplier_handler);
    ("disabled", bfd_disabled_handler) ]%string.


(** * Specification *)

(** ** Running a handler *)

(** [post m e Q]: from [e] the handler [m] returns, it has touched no
    session but the one [bfd] points at, and that session then satisfies
    [Q]. *)
Definition post {A} (m : M A) (e : env) (Q : A -> bfd_t -> Prop) : Prop :=
  exists a b' g',
    m e = Done a {| before := before e; bfd := b'; after := after e;
                    glob := g' |}
    /\ Q a b'.

(** ** State change handlers, as functions of the session *)

Definition fall_of (b : bfd_t) : bfd_t :=
  set_thread_exp None (set_local_tx_intv (local_idle_tx_intv b) b).

Definition down_of (diag : Z) (b : bfd_t) : bfd_t :=
  fall_of (set_thread_rst (Some (local_detect_time b))
             (set_local_diag diag (set_local_state BFD_STATE_DOWN b))).

Definition rise_of (s : Z) (b : bfd_t) : bfd_t :=
  set_thread_exp
    (Some (match thread_exp b with
           | Some d => d
           | None => local_detect_time b
           end))
    (set_thread_rst None
       (set_local_diag BFD_DIAG_NO_DIAG (set_local_state s b))).

(** ** The parts of [bfd_handle_packet], as functions of the session *)

Definition update_of (hdr : bfdhdr_t) (b : bfd_t) : bfd_t :=
  let b1 :=
    set_remote_detect_mult (hdr_detect_mult hdr)
      (set_remote_demand (hdr_demand hdr)
         (set_remote_min_tx_intv (ntohl (hdr_min_tx_intv hdr))
            (set_remote_min_rx_intv (ntohl (hdr_min_rx_intv hdr))
               (set_remote_diag (hdr_diag hdr)
                  (set_remote_state (hdr_state hdr)
                     (set_remote_discr (ntohl (hdr_local_discr hdr)) b))))))
  in if negb (hdr_final hdr =? 0) then set_poll 0 b1 else b1.

(** The condition under which the two transmit intervals are recomputed:
    Final, or Poll, or the session is not Up. *)
Definition recalc (hdr : bfdhdr_t) (b : bfd_t) : bool :=
  negb (hdr_final hdr =? 0) || negb (hdr_poll hdr =? 0)
  || negb (local_state b =? BFD_STATE_UP).

Definition timers_of (hdr : bfdhdr_t) (b : bfd_t) : bfd_t :=
  let b1 := if recalc hdr b
            then bfd_update_remote_tx_intv (bfd_update_local_tx_intv b)
            else b in
  set_remote_detect_time (u32 (local_detect_mult b1 * local_tx_intv b1))
    (set_local_detect_time (u32 (remote_detect_mult b1 * remote_tx_intv b1))
       b1).

Definition machine_of (b : bfd_t) : bfd_t :=
  let l := local_state b in
  let r := remote_state b in
  if (r =? BFD_STATE_ADMINDOWN) && negb (l =? BFD_STATE_DOWN)
  then down_of BFD_DIAG_NBR_SIGNALLED_DOWN b
  else if l =? BFD_STATE_DOWN then
    if r =? BFD_STATE_DOWN then rise_of BFD_STATE_INIT b
    else if r =? BFD_STATE_INIT then rise_of BFD_STATE_UP b
    else b
  else if l =? BFD_STATE_INIT then
    if (r =? BFD_STATE_INIT) || (r =? BFD_STATE_UP)
    then rise_of BFD_STATE_UP b else b
  else if l =? BFD_STATE_UP then
    if r =? BFD_STATE_DOWN then down_of BFD_DIAG_NBR_SIGNALLED_DOWN b else b
  else b.

(** The reset timer is pending only while the session is Down (or was
    Down before it was switched off): [bfd_state_rise] cancels it, and
    only [bfd_state_down] arms it. *)
Definition session_ok (b : bfd_t) : Prop :=
  0 <= local_state b <= 3
  /\ (local_state b = BFD_STATE_INIT \/ local_state b = BFD_STATE_UP ->
      thread_rst b = None).

(** The session after an accepted packet: the packet's fields, the
    intervals, the state machine, then stores to [thread_out], [final],
    [last_seen] and [thread_exp] only. *)
Definition handled_as (hdr : bfdhdr_t) (b b' : bfd_t) : Prop :=
  exists t t' f l x,
    b' = set_thread_exp x
           (set_last_seen l
              (set_final f
                 (set_thread_out t'
                    (machine_of
                       (set_thread_out t
                          (timers_of hdr (update_of hdr b))))))).

(** ** The packet handler on the whole registry *)

Definition accepted (pkt : bfdpkt_t) (w : world)
    (front : list bfd_t) (b : bfd_t) (back : list bfd_t) : Prop :=
  bfd_check_packet pkt = 0
  /\ hp_lookup pkt (bfd_list w) = Some (front, b, back)
  /\ hdr_auth (pkt_hdr pkt) = 0
  /\ local_state b <> BFD_STATE_ADMINDOWN.

Definition handled (pkt : bfdpkt_t) (w : world)
    (front : list bfd_t) (b' : bfd_t) (back : list bfd_t) : Prop :=
  exists g',
    bfd_handle_packet pkt w
    = Done tt {| bfd_list := front ++ b' :: back; w_glob := g' |}.

(** The pairs of local and remote state on which the state machine calls
    [bfd_state_down]. *)
Definition falls (l r : Z) : bool :=
  ((r =? BFD_STATE_ADMINDOWN) && negb (l =? BFD_STATE_DOWN))
  || ((l =? BFD_STATE_UP) && (r =? BFD_STATE_DOWN)).

(** ** Discriminators and percentages *)

(** The [k]-th discriminator [bfd_get_random_discr] would try from the
    generator state in [g]. *)
Definition candidate (g : globals) (k : nat) : Z :=
  1 + rand_src g (rand_pos g + k)%nat mod (UINT32_MAX - 1 + 1).

(** [d] is the discriminator of none of the sessions [l]. *)
Definition unused (d : Z) (l : list bfd_t) : Prop :=
  forall o, In o l -> local_discr o <> d.

(** The limits of [a <= 100 * x / I <= b], in integers. *)
Definition within_percent (a b x I : Z) : Prop :=
  a * I <= 100 * x /\ 100 * x <= b * I.

(** ** Sessions and packets to run the handlers on *)

(** A configured session with the defaults of a [bfd_instance] block
    (10 ms, 10 ms, 1 s, multiplier 5), Down, its transmitter armed. *)
Definition peer : bfd_t :=
  {| iname := "peerA"; nbr_addr := [10; 0; 0; 2]; src_addr := [];
     local_min_rx_intv := 10000; local_min_tx_intv := 10000;
     local_idle_tx_intv := 1000000;
     local_detect_mult := 5; disabled := 0;
     fd_out := 3; thread_out := Some 900000; sands_out := -1;
     thread_exp := None; sands_exp := -1;
     thread_rst := None; sands_rst := -1;
     local_state := BFD_STATE_DOWN; remote_state := BFD_STATE_DOWN;
     local_discr := 4660; remote_discr := 0;
     local_diag := 0; remote_diag := 0;
     remote_min_tx_intv := 0; remote_min_rx_intv := 0;
     local_demand := 0; remote_demand := 0; remote_detect_mult := 0;
     poll := 0; final := 0;
     local_tx_intv := 1000000; remote_tx_intv := 0;
     local_detect_time := 0; remote_detect_time := 0;
     last_seen := 0 |}.

(** The same session Up with a neighbor that asked for 50 ms and
    multiplier 3: both intervals 50 ms, detection time 150 ms. *)
Definition peer_up : bfd_t :=
  set_thread_exp (Some 150000)
    (set_thread_out (Some 40000)
       (set_local_detect_time 150000
          (set_remote_detect_time 250000
             (set_remote_tx_intv 50000
                (set_local_tx_intv 50000
                   (set_remote_detect_mult 3
                      (set_remote_min_rx_intv 50000
                         (set_remote_min_tx_intv 50000
                            (set_remote_discr 99
                               (set_remote_state BFD_STATE_UP
                                  (set_local_state BFD_STATE_UP
                                     peer))))))))))).

Definition quiet (draw : Z) : globals :=
  {| bfd_event_pipe := []; master_events := []; wire := [];
     time_now := 77; rand_src := fun _ => draw; rand_pos := 0 |}.

Definition world_of (b : bfd_t) : world :=
  {| bfd_list := [b]; w_glob := quiet 0 |}.

Definition env_of (b : bfd_t) (draw : Z) : env :=
  {| before := []; bfd := b; after := []; glob := quiet draw |}.

(** A well-formed control packet from the neighbor of [peer]: its state,
    Poll, Final and auth bits and Your Discriminator as given, 50 ms both
    ways, multiplier 3, TTL 255. *)
Definition control (state p f auth your_discr : Z) : bfdpkt_t :=
  {| pkt_hdr :=
       {| hdr_diag := 0; hdr_version := 1; hdr_multipoint := 0;
          hdr_demand := 0; hdr_auth := auth; hdr_cplane := 0;
          hdr_final := f; hdr_poll := p; hdr_state := state;
          hdr_detect_mult := 3; hdr_len := 24;
          hdr_local_discr := htonl 99;
          hdr_remote_discr := htonl your_discr;
          hdr_min_tx_intv := htonl 50000;
          hdr_min_rx_intv := htonl 50000;
          hdr_min_echo_rx_intv := 0 |};
     pkt_src_addr := [10; 0; 0; 2]; pkt_dst_addr := [];
     pkt_ttl := 255; pkt_len := 24 |}.

(** The packet with its auth bit replaced. *)
Definition with_auth (a : Z) (pkt : bfdpkt_t) : bfdpkt_t :=
  let h := pkt_hdr pkt in
  {| pkt_hdr :=
       {| hdr_diag := hdr_diag h; hdr_version := hdr_version h;
          hdr_multipoint := hdr_multipoint h; hdr_demand := hdr_demand h;
          hdr_auth := a; hdr_cplane := hdr_cplane h;
          hdr_final := hdr_final h; hdr_poll := hdr_poll h;
          hdr_state := hdr_state h; hdr_detect_mult := hdr_detect_mult h;
          hdr_len := hdr_len h; hdr_local_discr := hdr_local_discr h;
          hdr_remote_discr := hdr_remote_discr h;
          hdr_min_tx_intv := hdr_min_tx_intv h;
          hdr_min_rx_intv := hdr_min_rx_intv h;
          hdr_min_echo_rx_intv := hdr_min_echo_rx_intv h |};
     pkt_src_addr := pkt_src_addr pkt; pkt_dst_addr := pkt_dst_addr pkt;
     pkt_ttl := pkt_ttl pkt; pkt_len := pkt_len pkt |}.

(** [peer_up] with detection multiplier 1, after the neighbor asked for
    10001 microseconds between packets: [local_tx_intv] is the larger of
    that and the configured 10000.  The transmitter is idle, as it is when
    [bfd_sender_thread] comes to rearm it. *)
Definition peer_mult1 : bfd_t :=
  set_thread_out None
    (set_local_tx_intv 10001
       (set_remote_min_rx_intv 10001
          (set_local_detect_mult 1 peer_up))).

(** A second session, for another neighbor. *)
Definition peer_b : bfd_t :=
  set_local_discr 22136 (set_nbr_addr [10; 0; 0; 3] peer).

(** [peer] some time after it went Down: the reset timer is pending and
    what was learnt from the neighbor is still there. *)
Definition peer_stale : bfd_t :=
  set_thread_rst (Some 150000)
    (set_thread_exp None
       (set_local_diag BFD_DIAG_EXPIRED
          (set_local_state BFD_STATE_DOWN
             (set_local_tx_intv 1000000 peer_up)))).

(** [b] in front of [peer_b]; the generator gives 22135 first, then 6. *)
Definition env_two (b : bfd_t) : env :=
  {| before := []; bfd := b; after := [peer_b];
     glob :=
       {| bfd_event_pipe := []; master_events := []; wire := [];
          time_now := 77;
          rand_src := fun n => match n with O => 22135 | _ => 6 end;
          rand_pos := 0 |} |}.

(** ** What can happen to a session *)

(** A packet for it arrives, one of its three timers fires (the
    transmitter also as an event), or a Poll sequence is started. *)
Inductive event : Type :=
| EvPacket (pkt : bfdpkt_t)
| EvSender (type : thread_type) (sendto_ok : bool)
| EvExpire
| EvReset (rounds : nat)
| EvSetPoll.

Definition fire (ev : event) : M unit :=
  match ev with
  | EvPacket pkt => bfd_handle_packet_session pkt
  | EvSender type sendto_ok => bfd_sender_thread type sendto_ok
  | EvExpire => bfd_expire_thread
  | EvReset rounds => bfd_reset_thread rounds
  | EvSetPoll => store bfd_set_poll
  end.

(** * More of the specification *)

(** ** Runs with their effect on the globals *)

(** [postg m e Q]: as [post m e Q], and [Q] also sees the globals the
    handler leaves. *)
Definition postg {A} (m : M A) (e : env)
    (Q : A -> bfd_t -> globals -> Prop) : Prop :=
  exists a b' g',
    m e = Done a {| before := before e; bfd := b'; after := after e;
                    glob := g' |}
    /\ Q a b' g'.

(** One more draw taken from the generator. *)
Definition g_drawn (g : globals) : globals :=
  {| bfd_event_pipe := bfd_event_pipe g; master_events := master_events g;
     wire := wire g; time_now := time_now g;
     rand_src := rand_src g; rand_pos := S (rand_pos g) |}.

(** One more record in the event pipe. *)
Definition g_event (evt : bfd_event_t) (g : globals) : globals :=
  {| bfd_event_pipe := bfd_event_pipe g ++ [evt];
     master_events := master_events g;
     wire := wire g; time_now := time_now g;
     rand_src := rand_src g; rand_pos := rand_pos g |}.

(** One more transmitter event on the ready queue. *)
Definition g_ready (name : string) (g : globals) : globals :=
  {| bfd_event_pipe := bfd_event_pipe g;
     master_events := master_events g ++ [name];
     wire := wire g; time_now := time_now g;
     rand_src := rand_src g; rand_pos := rand_pos g |}.

(** One more datagram sent. *)
Definition g_sent (pkt : bfdpkt_t) (g : globals) : globals :=
  {| bfd_event_pipe := bfd_event_pipe g;
     master_events := master_events g;
     wire := wire g ++ [pkt]; time_now := time_now g;
     rand_src := rand_src g; rand_pos := rand_pos g |}.

(** The record [bfd_event_send] writes for a session. *)
Definition event_of (b : bfd_t) (g : globals) : bfd_event_t :=
  {| evt_iname := strncpy 31 (iname b);
     evt_state := local_state b;
     evt_sent_time := time_now g |}.

(** The delay [bfd_sender_schedule] arms the transmitter with, from the
    next draw of the generator. *)
Definition draw_delay (b : bfd_t) (g : globals) : Z :=
  let min_jitter :=
    if negb (local_detect_mult b =? 0)
    then mul_double_u32 (local_tx_intv b) (fst DBL_0_1) (snd DBL_0_1)
    else 0 in
  let max_jitter :=
    mul_double_u32 (local_tx_intv b) (fst DBL_0_25) (snd DBL_0_25) in
  let r := min_jitter
           + rand_src g (rand_pos g) mod (max_jitter - min_jitter + 1) in
  u32 (local_tx_intv b - u32 r).

(** ** The parts of [bfd_handle_packet], on a session and the globals *)

Definition x_schedule (b : bfd_t) (g : globals) : bfd_t * globals :=
  (set_thread_out (Some (draw_delay b g)) b, g_drawn g).

Definition x_update (hdr : bfdhdr_t) (b : bfd_t) (g : globals)
  : bfd_t * globals :=
  (update_of hdr b, g).

Definition x_timers (hdr : bfdhdr_t) (b : bfd_t) (g : globals)
  : bfd_t * globals :=
  let b1 := timers_of hdr b in
  if (local_tx_intv b1 <? local_tx_intv b) && is_some (thread_out b1)
  then x_schedule b1 g
  else (b1, g).

(** The state machine calls one of the state change handlers. *)
Definition transition (b : bfd_t) : bool :=
  let l := local_state b in
  let r := remote_state b in
  falls l r
  || ((l =? BFD_STATE_DOWN)
      && ((r =? BFD_STATE_DOWN) || (r =? BFD_STATE_INIT)))
  || ((l =? BFD_STATE_INIT)
      && ((r =? BFD_STATE_INIT) || (r =? BFD_STATE_UP))).

Definition x_machine (b : bfd_t) (g : globals) : bfd_t * globals :=
  let b1 := machine_of b in
  (b1, if transition b then g_event (event_of b1 g) g else g).

(** Demand mode: the neighbor asked for silence and both ends are Up. *)
Definition demand_quiet (b : bfd_t) : bool :=
  negb (remote_demand b =? 0)
  && (local_state b =? BFD_STATE_UP)
  && (remote_state b =? BFD_STATE_UP).

(** The answer to a Poll: Final is set and the transmitter is queued as an
    event. *)
Definition x_poll (hdr : bfdhdr_t) (b : bfd_t) (g : globals)
  : bfd_t * globals :=
  if negb (hdr_poll hdr =? 0)
  then (set_final 1 b, g_ready (iname b) g)
  else (b, g).

Definition x_sender (hdr : bfdhdr_t) (b : bfd_t) (g : globals)
  : bfd_t * globals :=
  if demand_quiet b then x_poll hdr (set_thread_out None b) g
  else if is_some (thread_out b) then x_poll hdr b g
  else x_poll hdr (fst (x_schedule b g)) (snd (x_schedule b g)).

Definition x_last_seen (b : bfd_t) (g : globals) : bfd_t * globals :=
  let b1 := set_last_seen (time_now g) b in
  (if is_some (thread_exp b1)
   then set_thread_exp (Some (local_detect_time b1)) b1
   else b1,
   g).

(** An accepted packet, from the session found and the globals to the
    session and the globals afterwards. *)
Definition x_handle (hdr : bfdhdr_t) (b : bfd_t) (g : globals)
  : bfd_t * globals :=
  let s1 := x_update hdr b g in
  let s2 := x_timers hdr (fst s1) (snd s1) in
  let s3 := x_machine (fst s2) (snd s2) in
  let s4 := x_sender hdr (fst s3) (snd s3) in
  x_last_seen (fst s4) (snd s4).

(** [bfd_state_admindown], as a function of the session. *)
Definition admindown_of (b : bfd_t) : bfd_t :=
  fall_of (set_thread_out None
             (set_local_diag BFD_DIAG_ADMIN_DOWN
                (set_local_state BFD_STATE_ADMINDOWN b))).

(** The two worlds differ in the position of the generator at most. *)
Definition same_but_draws (g g' : globals) : Prop :=
  bfd_event_pipe g' = bfd_event_pipe g
  /\ master_events g' = master_events g
  /\ wire g' = wire g
  /\ time_now g' = time_now g
  /\ rand_src g' = rand_src g.

(** ** Sessions as they go on the wire *)

(** The members [bfd_build_packet] reads hold what their C types can hold:
    two and five bits for state and diagnostic, [u_char] and
    [u_int32_t]. *)
Definition fits (a : bfd_t) : Prop :=
  0 <= local_state a < 4
  /\ 0 <= local_diag a < 32
  /\ 0 <= local_demand a < 256
  /\ 0 <= poll a < 256
  /\ 0 <= final a < 256
  /\ 0 <= local_detect_mult a < 256
  /\ 0 <= local_discr a < 2 ^ 32
  /\ 0 <= remote_discr a < 2 ^ 32
  /\ 0 <= local_min_tx_intv a < 2 ^ 32
  /\ 0 <= local_min_rx_intv a < 2 ^ 32.

(** The far end of [peer]: the session of the neighbor at 10.0.0.2, Down,
    which has not heard of [peer] yet. *)
Definition far_end : bfd_t :=
  set_local_discr 99
    (set_local_detect_mult 3
       (set_local_min_rx_intv 50000
          (set_local_min_tx_intv 50000
             (set_nbr_addr [10; 0; 0; 1] (set_iname "peerZ" peer))))).

(** A datagram as it arrives: the header that was sent, the address it
    came from and the TTL it came with. *)
Definition arrives (sent : bfdpkt_t) (from : sockaddr_storage) (ttl : Z)
  : bfdpkt_t :=
  {| pkt_hdr := pkt_hdr sent; pkt_src_addr := from; pkt_dst_addr := [];
     pkt_ttl := ttl; pkt_len := pkt_len sent |}.

(** ** Packets that are dropped *)

(** The ways [bfd_handle_packet] has of dropping a packet: the sanity
    checks fail, no session is found, the packet asks for authentication,
    or the session found is AdminDown. *)
Definition discarded (pkt : bfdpkt_t) (w : world) : Prop :=
  bfd_check_packet pkt <> 0
  \/ hp_lookup pkt (bfd_list w) = None
  \/ exists front b back,
       hp_lookup pkt (bfd_list w) = Some (front, b, back)
       /\ (hdr_auth (pkt_hdr pkt) <> 0
           \/ local_state b = BFD_STATE_ADMINDOWN).

(** ** Timers and states *)

(** The expiry timer runs exactly while the session is Init or Up, the
    reset timer only while it is Down or AdminDown, and an AdminDown
    session has no transmitter. *)
Definition timers_ok (b : bfd_t) : Prop :=
  0 <= local_state b <= 3
  /\ (is_some (thread_exp b) = true <->
      local_state b = BFD_STATE_INIT \/ local_state b = BFD_STATE_UP)
  /\ (is_some (thread_rst b) = true ->
      local_state b = BFD_STATE_DOWN \/ local_state b = BFD_STATE_ADMINDOWN)
  /\ (local_state b = BFD_STATE_ADMINDOWN -> thread_out b = None).

(** ** The transmitter, on a session and the globals *)

(** [bfd_sender_thread]: the handle is dropped, the packet is built and
    sent, [final] is cleared, and a run from a timer arms the next one; a
    failed [sendto] switches the session off instead. *)
Definition x_sender_thread (type : thread_type) (sendto_ok : bool)
    (b : bfd_t) (g : globals) : bfd_t * globals :=
  let b0 := set_thread_out None b in
  if sendto_ok then
    if is_event type
    then (set_final 0 b0, g_sent (bfd_build_packet b0) g)
    else x_schedule (set_final 0 b0) (g_sent (bfd_build_packet b0) g)
  else
    (set_final 0 (admindown_of b0),
     g_event (event_of (admindown_of b0) g) g).

(** ** What a handler asserts of the session it is given *)

(** The transmitter asserts that the session is not AdminDown and, in
    [bfd_send_packet], that it has an output socket; the expiry thread
    that the session is Up or Init; the reset thread that its handle is
    set.  The reset thread also needs a free discriminator among the
    candidates it is allowed to try.  These are tests of the session as
    the handler finds it, whatever the handler was run from: a run of the
    transmitter from a timer does not need [thread_out] to be set, since
    [bfd_sender_thread] clears [thread_out] on an event run and leaves a
    pending timer to fire. *)
Definition entry_ok (ev : event) (e : env) : Prop :=
  match ev with
  | EvPacket _ => True
  | EvSender _ _ =>
      local_state (bfd e) <> BFD_STATE_ADMINDOWN /\ 0 <= fd_out (bfd e)
  | EvExpire =>
      local_state (bfd e) = BFD_STATE_UP
      \/ local_state (bfd e) = BFD_STATE_INIT
  | EvReset rounds =>
      is_some (thread_rst (bfd e)) = true
      /\ exists k, (k < rounds)%nat
                   /\ unused (candidate (glob e) k) (before e ++ after e)
  | EvSetPoll => True
  end.

(** ** What a handler leaves of the session *)

(** The session after the handler of [ev] has run from [e]. *)
Definition step_of (ev : event) (e : env) (b' : bfd_t) : Prop :=
  match ev with
  | EvPacket pkt =>
      if negb (hdr_auth (pkt_hdr pkt) =? 0)
         || (local_state (bfd e) =? BFD_STATE_ADMINDOWN)
      then b' = bfd e
      else b' = fst (x_handle (pkt_hdr pkt) (bfd e) (glob e))
  | EvSender type sendto_ok =>
      b' = fst (x_sender_thread type sendto_ok (bfd e) (glob e))
  | EvExpire =>
      b' = down_of BFD_DIAG_EXPIRED
             (set_remote_discr 0 (set_thread_exp None (bfd e)))
  | EvReset _ =>
      exists d,
        1 <= d <= UINT32_MAX
        /\ b' = set_local_tx_intv (local_idle_tx_intv (bfd e))
                  (set_local_discr d
                     (bfd_copy_state bfd0 (set_thread_rst None (bfd e))))
  | EvSetPoll => b' = bfd_set_poll (bfd e)
  end.

(** A session that is Init or Up has heard the neighbor's
    discriminator. *)
Definition knows_neighbor (b : bfd_t) : Prop :=
  local_state b = BFD_STATE_INIT \/ local_state b = BFD_STATE_UP ->
  remote_discr b <> 0.

(** [bfd_handle_packet] hands a packet to the session only after
    [bfd_check_packet] has passed it; My Discriminator is a 32-bit
    word. *)
Definition checked (ev : event) : Prop :=
  match ev with
  | EvPacket pkt =>
      bfd_check_packet pkt = 0
      /\ 0 <= hdr_local_discr (pkt_hdr pkt) < 2 ^ 32
  | _ => True
  end.

(** ** The three timers, by role *)

Definition handle_of (r : timer_role) (b : bfd_t) : option Z :=
  match r with
  | SENDER => thread_out b
  | EXPIRE => thread_exp b
  | RESET => thread_rst b
  end.

Definition sands_of (r : timer_role) (b : bfd_t) : Z :=
  match r with
  | SENDER => sands_out b
  | EXPIRE => sands_exp b
  | RESET => sands_rst b
  end.

Definition set_handle (r : timer_role) (t : option Z) (b : bfd_t) : bfd_t :=
  match r with
  | SENDER => set_thread_out t b
  | EXPIRE => set_thread_exp t b
  | RESET => set_thread_rst t b
  end.

Definition set_sands (r : timer_role) (s : Z) (b : bfd_t) : bfd_t :=
  match r with
  | SENDER => set_sands_out s b
  | EXPIRE => set_sands_exp s b
  | RESET => set_sands_rst s b
  end.

Definition suspend_of (r : timer_role) (wakeup : Z) : M unit :=
  match r with
  | SENDER => bfd_sender_suspend wakeup
  | EXPIRE => bfd_expire_suspend wakeup
  | RESET => bfd_reset_suspend wakeup
  end.

Definition resume_of (r : timer_role) : M unit :=
  match r with
  | SENDER => bfd_sender_resume
  | EXPIRE => bfd_expire_resume
  | RESET => bfd_reset_resume
  end.

Definition scheduled_of (r : timer_role) : M bool :=
  match r with
  | SENDER => bfd_sender_scheduled
  | EXPIRE => bfd_expire_scheduled
  | RESET => bfd_reset_scheduled
  end.

Definition suspended_of (r : timer_role) : M bool :=
  match r with
  | SENDER => bfd_sender_suspended
  | EXPIRE => bfd_expire_suspended
  | RESET => bfd_reset_suspended
  end.

(** ** The loops of the dispatcher, on one session *)

(** [bfd_open_fd_out] fails: no socket, or the bind to the configured
    source address fails, or the TTL cannot be set. *)
Definition open_fails (sys : out_calls) (b : bfd_t) : bool :=
  (out_socket sys =? -1)
  || (negb (ss_family (src_addr b) =? 0) && (out_bind sys =? -1))
  || (out_setsockopt sys =? -1).

(** The pass of [bfd_open_fds] over a session. *)
Definition x_open (sys : bfd_t -> out_calls) (b : bfd_t) (g : globals)
  : bfd_t * globals :=
  if negb (disabled b =? 0) then (b, g)
  else
    let b1 := set_fd_out (out_socket (sys b)) b in
    if open_fails (sys b) b
    then (admindown_of b1, g_event (event_of (admindown_of b1) g) g)
    else (b1, g).

(** A timer is taken off and its time to wakeup kept. *)
Definition suspended_as (r : timer_role) (wakeup : timer_role -> bfd_t -> Z)
    (b : bfd_t) : bfd_t :=
  if is_some (handle_of r b)
  then set_handle r None (set_sands r (wakeup r b) b)
  else b.

(** The pass of [bfd_dispatcher_release] over a session. *)
Definition x_release (wakeup : timer_role -> bfd_t -> Z) (b : bfd_t)
  : bfd_t :=
  if negb (disabled b =? 0) then b
  else
    set_fd_out (-1)
      (suspended_as RESET wakeup
         (suspended_as EXPIRE wakeup (suspended_as SENDER wakeup b))).

(** A snapshot is put back on its timer, or dropped. *)
Definition resumed_as (r : timer_role) (b : bfd_t) : bfd_t :=
  if sands_of r b =? -1 then b
  else if local_state b =? BFD_STATE_ADMINDOWN then set_sands r (-1) b
  else set_sands r (-1) (set_handle r (Some (sands_of r b)) b).

(** The pass of [bfd_register_workers] over a session. *)
Definition x_register (b : bfd_t) (g : globals) : bfd_t * globals :=
  if negb (disabled b =? 0) then (b, g)
  else
    let s :=
      if (sands_out b =? -1) && negb (local_state b =? BFD_STATE_ADMINDOWN)
      then x_schedule b g
      else (resumed_as SENDER b, g) in
    (resumed_as RESET (resumed_as EXPIRE (fst s)), snd s).

(** The sessions of [data]. *)
Definition sessions (data : bfd_data_t) : list bfd_t :=
  bfd_list (data_bfd data).

(** ** Runs that may stop at an [assert] *)

(** [posta m e Q]: from [e] the handler [m] fails an [assert], or returns
    as [postg m e Q] has it. *)
Definition posta {A} (m : M A) (e : env)
    (Q : A -> bfd_t -> globals -> Prop) : Prop :=
  m e = Abort \/ postg m e Q.

Definition discard_of (r : timer_role) : M unit :=
  match r with
  | SENDER => bfd_sender_discard
  | EXPIRE => bfd_expire_discard
  | RESET => bfd_reset_discard
  end.

(** ** Data to run the dispatcher on *)

(** [peer] as the configuration leaves it: no socket, no timer, no
    snapshot. *)
Definition fresh : bfd_t := set_fd_out (-1) (set_thread_out None peer).

(** A dispatcher that has not been started, over the sessions [l]. *)
Definition data_of (l : list bfd_t) : bfd_data_t :=
  {| data_bfd := {| bfd_list := l; w_glob := quiet 0 |};
     thread_in := None; fd_in := -1 |}.

(** The listening socket opens as descriptor 4. *)
Definition listen_ok : in_calls :=
  {| in_getaddrinfo := 0; in_socket := 4; in_setsockopt := 0;
     in_bind := 0 |}.

(** [socket ()] fails for the listening socket. *)
Definition listen_fails : in_calls :=
  {| in_getaddrinfo := 0; in_socket := -1; in_setsockopt := 0;
     in_bind := 0 |}.

(** Every output socket opens as descriptor [fd]. *)
Definition out_ok (fd : Z) : bfd_t -> out_calls :=
  fun _ => {| out_socket := fd; out_bind := 0; out_setsockopt := 0 |}.

(** [socket ()] fails for every output socket. *)
Definition no_socket : bfd_t -> out_calls :=
  fun _ => {| out_socket := -1; out_bind := 0; out_setsockopt := 0 |}.

(** Every timer has 1000 microseconds left. *)
Definition soon : timer_role -> bfd_t -> Z := fun _ _ => 1000.

(** ** Sessions before and after the start *)

(** A session no pass of the dispatcher has touched: no output socket,
    no timer, no snapshot, and a transmit interval that fits 32 bits. *)
Definition unstarted (b : bfd_t) : Prop :=
  fd_out b = -1
  /\ (forall r, handle_of r b = None)
  /\ (forall r, sands_of r b = -1)
  /\ 0 <= local_tx_intv b < 2 ^ 32.

(** [d] is a transmit delay for the interval of [b]: the interval less a
    jitter of at most a quarter. *)
Definition jittered (b : bfd_t) (d : Z) : Prop :=
  3 * local_tx_intv b <= 4 * d /\ d <= local_tx_intv b.

(** What the start makes of an unstarted session: nothing if it is
    disabled; AdminDown, with no timer, if its socket cannot be opened;
    otherwise the socket, and the transmitter armed unless the session is
    AdminDown. *)
Definition started (sys : bfd_t -> out_calls) (b b' : bfd_t) : Prop :=
  if negb (disabled b =? 0) then b' = b
  else if open_fails (sys b) b
  then b' = admindown_of (set_fd_out (out_socket (sys b)) b)
  else if local_state b =? BFD_STATE_ADMINDOWN
  then b' = set_fd_out (out_socket (sys b)) b
  else exists d,
         jittered b d
         /\ b' = set_thread_out (Some d)
                   (set_fd_out (out_socket (sys b)) b).

(** ** Sessions across a reload *)

(** A session the dispatcher is running: its socket is open, no snapshot
    is held, its timers are in step with its state, and its transmitter
    is armed unless it is AdminDown. *)
Definition running (b : bfd_t) : Prop :=
  fd_out b <> -1
  /\ (forall r, sands_of r b = -1)
  /\ timers_ok b
  /\ (local_state b <> BFD_STATE_ADMINDOWN -> is_some (thread_out b) = true).

(** The timer [r] of [b] after suspend and resume: armed with the time to
    wakeup [t] if it was armed, not armed if it was not. *)
Definition rearmed (r : timer_role) (t : Z) (b : bfd_t) : bfd_t :=
  if is_some (handle_of r b) then set_handle r (Some t) b else b.

(** What release and start make of a running session: nothing if it is
    disabled; a new socket, and each timer armed with its time to wakeup,
    or, for an AdminDown session, no timer at all. *)
Definition reloaded (wakeup : timer_role -> bfd_t -> Z)
    (sys : bfd_t -> out_calls) (b : bfd_t) : bfd_t :=
  if negb (disabled b =? 0) then b
  else
    let b1 := suspended_as SENDER wakeup b in
    let b2 := suspended_as EXPIRE wakeup b1 in
    set_fd_out (out_socket (sys (x_release wakeup b)))
      (if local_state b =? BFD_STATE_ADMINDOWN
       then set_thread_rst None b
       else rearmed RESET (wakeup RESET b2)
              (rearmed EXPIRE (wakeup EXPIRE b1)
                 (rearmed SENDER (wakeup SENDER b) b))).

(** A dispatcher that is running [peer_up], listening on descriptor 4. *)
Definition data_up : bfd_data_t :=
  {| data_bfd := world_of peer_up; thread_in := Some 4; fd_in := 4 |}.

(** The passes of [bfd_open_fds] and [bfd_register_workers] when no
    socket fails and the transmitter is not armed afresh. *)
Definition opened (sys : bfd_t -> out_calls) (b : bfd_t) : bfd_t :=
  if negb (disabled b =? 0) then b
  else set_fd_out (out_socket (sys b)) b.

Definition registered (b : bfd_t) : bfd_t :=
  if negb (disabled b =? 0) then b
  else resumed_as RESET (resumed_as EXPIRE (resumed_as SENDER b)).


(** ** Datagrams as [recvmsg] delivers them *)

(** [pkt] with the TTL replaced. *)
Definition with_ttl (ttl : Z) (pkt : bfdpkt_t) : bfdpkt_t :=
  {| pkt_hdr := pkt_hdr pkt; pkt_src_addr := pkt_src_addr pkt;
     pkt_dst_addr := pkt_dst_addr pkt; pkt_ttl := ttl;
     pkt_len := pkt_len pkt |}.

(** The message is neither a TTL of level [IPPROTO_IP] nor of type
    [IP_TTL]. *)
Definition not_ttl (c : cmsghdr) : Prop :=
  cmsg_level c <> IPPROTO_IP \/ cmsg_type c <> IP_TTL.

(** There is nothing in what the receiver thread was woken for that
    [bfd_handle_packet] would act on: the thread ran on a timeout,
    [recvmsg] failed, the datagram was truncated, or it came with one TTL
    message whose byte is neither 0 nor 255. *)
Definition nothing_to_handle (type : read_type) (msg : msghdr) : Prop :=
  type = THREAD_READ_TIMEOUT
  \/ msg_len msg = -1
  \/ Z.land (msg_flags msg) MSG_TRUNC <> 0
  \/ exists t data,
       msg_control msg
       = [{| cmsg_level := IPPROTO_IP; cmsg_type := IP_TTL;
             cmsg_data := t :: data |}]
       /\ t <> 0 /\ t <> BFD_CONTROL_TTL.

(** The datagram [control ...] delivered with the control messages
    [cmsgs]. *)
Definition delivered (pkt : bfdpkt_t) (cmsgs : list cmsghdr) : msghdr :=
  {| msg_len := pkt_len pkt; msg_flags := 0; msg_name := pkt_src_addr pkt;
     msg_iov := pkt_hdr pkt; msg_control := cmsgs |}.

(** The packet as [MALLOC] hands it out: zeroed. *)
Definition pkt0 : bfdpkt_t :=
  {| pkt_hdr :=
       {| hdr_diag := 0; hdr_version := 0; hdr_multipoint := 0;
          hdr_demand := 0; hdr_auth := 0; hdr_cplane := 0; hdr_final := 0;
          hdr_poll := 0; hdr_state := 0; hdr_detect_mult := 0;
          hdr_len := 0; hdr_local_discr := 0; hdr_remote_discr := 0;
          hdr_min_tx_intv := 0; hdr_min_rx_intv := 0;
          hdr_min_echo_rx_intv := 0 |};
     pkt_src_addr := []; pkt_dst_addr := []; pkt_ttl := 0; pkt_len := 0 |}.

(** ** Names and configured values *)

(** The string has no NUL in it, as every C string. *)
Definition no_nul (s : string) : Prop :=
  ~ In NUL (list_ascii_of_string s).

(** The first 31 bytes of a C string. *)
Definition cut31 (s : string) : string := c_str (firstn 31 (c_bytes s)).

(** The configured values of an instance are within the limits of
    bfd.h, in microseconds. *)
Definition config_ok (b : bfd_t) : Prop :=
  BFD_MINRX_MIN * 1000 <= local_min_rx_intv b <= BFD_MINRX_MAX * 1000
  /\ BFD_MINTX_MIN * 1000 <= local_min_tx_intv b <= BFD_MINTX_MAX * 1000
  /\ BFD_IDLETX_MIN * 1000 <= local_idle_tx_intv b <= BFD_IDLETX_MAX * 1000
  /\ BFD_MULTIPLIER_MIN <= local_detect_mult b <= BFD_MULTIPLIER_MAX.

(** ** Functions to run the handlers of names and addresses with *)

(** A lookup by name over the registry. *)
Definition by_name (name : string) (w : world) : bool :=
  existsb (fun b => String.eqb (iname b) name) (bfd_list w).

(** An allocation that appends a Down instance of the given name. *)
Definition append_instance (name : string) (dis : Z) (w : world)
  : res world unit :=
  Done tt {| bfd_list := (bfd_list w ++ [set_disabled dis
                                           (set_iname name bfd0)])%list;
             w_glob := w_glob w |}.

(** An address parser that knows two addresses. *)
Definition two_hosts (s : string) (port : option string)
  : option sockaddr_storage :=
  if String.eqb s "10.0.0.2" then Some [10; 0; 0; 2]
  else if String.eqb s "10.0.0.3" then Some [10; 0; 0; 3]
  else None.


(** * Proofs *)

(** ** Arithmetic in [double] *)

Lemma round_even_bounds (n k : Z) :
  n / 2 ^ k <= round_even n k <= n / 2 ^ k + 1.
Proof.
  unfold round_even.
  destruct (2 * (n mod 2 ^ k) <? 2 ^ k); [lia|].
  destruct (2 ^ k <? 2 * (n mod 2 ^ k)); [lia|].
  destruct (Z.even (n / 2 ^ k)); lia.
Qed.

Lemma to_double_scale (n : Z) :
  0 <= n < 2 ^ 84 -> 0 <= snd (to_double n) <= 31.
Proof.
  intros [H0 H1]. unfold to_double; cbn [snd].
  destruct (Z.eq_dec n 0) as [->|Hn]; [cbn; lia|].
  assert (Z.log2 n < 84) by (apply Z.log2_lt_pow2; lia).
  lia.
Qed.

Lemma mul_double_u32_tenth (x : Z) :
  0 <= x < 2 ^ 32 ->
  mul_double_u32 x (fst DBL_0_1) (snd DBL_0_1) = x / 10.
Proof.
  intros Hx. unfold mul_double_u32, DBL_0_1; cbn [fst snd].
  set (m := 3602879701896397).
  assert (Hn : 0 <= x * m < 2 ^ 84) by (subst m; lia).
  pose proof (to_double_scale _ Hn) as Hk.
  unfold to_double in *; cbn [snd] in Hk.
  set (k := Z.max 0 (Z.log2 (x * m) - 52)) in *.
  pose proof (round_even_bounds (x * m) k) as Hq.
  set (q := round_even (x * m) k) in *.
  assert (HP : 0 < 2 ^ k) by (apply Z.pow_pos_nonneg; lia).
  assert (HP31 : 2 ^ k <= 2 ^ 31) by (apply Z.pow_le_mono_r; lia).
  assert (HB : 2 ^ 55 = 2 ^ k * 2 ^ (55 - k)).
  { rewrite <- Z.pow_add_r by lia. f_equal; lia. }
  assert (HQ : 0 < 2 ^ (55 - k)) by (apply Z.pow_pos_nonneg; lia).
  pose proof (Z.div_mod (x * m) (2 ^ k) ltac:(lia)) as Hdm.
  pose proof (Z.mod_pos_bound (x * m) (2 ^ k) HP) as Hmod.
  pose proof (Z.div_mod x 10 ltac:(lia)) as Hx10.
  pose proof (Z.mod_pos_bound x 10 ltac:(lia)) as Ht.
  set (P := 2 ^ k) in *. set (Q := 2 ^ (55 - k)) in *.
  set (f := x * m / P) in *. set (r := (x * m) mod P) in *.
  set (d := x / 10) in *. set (t := x mod 10) in *.
  assert (Hm : 10 * m = 2 ^ 55 + 2) by (subst m; reflexivity).
  symmetry. apply Z.div_unique with (r := q * P - d * 2 ^ 55); [|lia].
  left. split.
  - (* q * P >= d * 2^55 *)
    assert (d * Q <= f).
    { assert (d * Q * P <= x * m) by nia.
      assert (d * Q * P < (f + 1) * P) by nia.
      assert (d * Q < f + 1) by nia. lia. }
    assert (0 <= (q - d * Q) * P) by (apply Z.mul_nonneg_nonneg; lia).
    rewrite HB. lia.
  - assert (0 <= (f + 1 - q) * P) by (apply Z.mul_nonneg_nonneg; lia).
    assert (q * P <= x * m + P) by lia.
    assert (10 * (x * m) = x * (2 ^ 55 + 2)) by lia.
    change (2 ^ 31) with 2147483648 in HP31.
    change (2 ^ 32) with 4294967296 in Hx.
    change (2 ^ 55) with 36028797018963968 in *.
    nia.
Qed.

Lemma mul_double_u32_quarter (x : Z) :
  0 <= x < 2 ^ 32 ->
  mul_double_u32 x (fst DBL_0_25) (snd DBL_0_25) = x / 4.
Proof.
  intros Hx. unfold mul_double_u32, DBL_0_25, to_double; cbn [fst snd].
  rewrite Z.mul_1_r.
  assert (Z.log2 x - 52 <= 0).
  { destruct (Z.eq_dec x 0) as [->|]; [cbn; lia|].
    assert (Z.log2 x < 32) by (apply Z.log2_lt_pow2; lia). lia. }
  rewrite Z.max_l by lia.
  unfold round_even. change (2 ^ 0) with 1.
  rewrite Z.mod_1_r, Z.div_1_r. cbn [Z.mul Z.ltb Z.compare].
  rewrite Z.mul_1_r. reflexivity.
Qed.

(** ** Rules for [post] *)

Lemma post_ret {A} (a : A) e (Q : A -> bfd_t -> Prop) :
  Q a (bfd e) -> post (ret a) e Q.
Proof. intros H. exists a, (bfd e), (glob e). destruct e; auto. Qed.

Lemma post_bind {A B} (m : M A) (k : A -> M B) e Q1
    (Q2 : B -> bfd_t -> Prop) :
  post m e Q1 ->
  (forall a b1 g1, Q1 a b1 ->
     post (k a) {| before := before e; bfd := b1; after := after e;
                   glob := g1 |} Q2) ->
  post (bind m k) e Q2.
Proof.
  intros (a & b1 & g1 & Hm & HQ) Hk.
  destruct (Hk a b1 g1 HQ) as (c & b2 & g2 & Hk' & HQ2).
  exists c, b2, g2. unfold bind. rewrite Hm. auto.
Qed.

Lemma post_load e (Q : bfd_t -> bfd_t -> Prop) :
  Q (bfd e) (bfd e) -> post load e Q.
Proof. intros H. exists (bfd e), (bfd e), (glob e). destruct e; auto. Qed.

Lemma post_store f e (Q : unit -> bfd_t -> Prop) :
  Q tt (f (bfd e)) -> post (store f) e Q.
Proof. intros H. exists tt, (f (bfd e)), (glob e). auto. Qed.

Lemma post_assert c e (Q : unit -> bfd_t -> Prop) :
  c = true -> Q tt (bfd e) -> post (assert c) e Q.
Proof.
  intros -> H. exists tt, (bfd e), (glob e). destruct e; auto.
Qed.

Lemma post_when (c : bool) m e (Q : unit -> bfd_t -> Prop) :
  (c = true -> post m e Q) -> (c = false -> Q tt (bfd e)) ->
  post (when c m) e Q.
Proof.
  destruct c; intros H1 H2; cbn; [auto|]. apply post_ret; auto.
Qed.

Lemma post_timer_now e (Q : Z -> bfd_t -> Prop) :
  Q (time_now (glob e)) (bfd e) -> post timer_now e Q.
Proof.
  intros H. exists (time_now (glob e)), (bfd e), (glob e).
  destruct e; auto.
Qed.

Lemma post_rand e (Q : Z -> bfd_t -> Prop) :
  (forall r, Q r (bfd e)) -> post rand e Q.
Proof. intros H. eexists _, (bfd e), _. split; [reflexivity|]. apply H. Qed.

Lemma post_pipe_write evt e (Q : unit -> bfd_t -> Prop) :
  Q tt (bfd e) -> post (pipe_write evt) e Q.
Proof. intros H. eexists tt, (bfd e), _. split; [reflexivity|auto]. Qed.

Lemma post_thread_add_event_sender e (Q : unit -> bfd_t -> Prop) :
  Q tt (bfd e) -> post thread_add_event_sender e Q.
Proof. intros H. eexists tt, (bfd e), _. split; [reflexivity|auto]. Qed.

Lemma post_wire_put p e (Q : unit -> bfd_t -> Prop) :
  Q tt (bfd e) -> post (wire_put p) e Q.
Proof. intros H. eexists tt, (bfd e), _. split; [reflexivity|auto]. Qed.

Lemma post_bind' {A B} (m : M A) (k : A -> M B) e
    (Q : B -> bfd_t -> Prop) :
  post m e (fun a b1 => forall g1,
              post (k a) {| before := before e; bfd := b1; after := after e;
                            glob := g1 |} Q) ->
  post (bind m k) e Q.
Proof. intros H. eapply post_bind; [exact H|]. cbn. auto. Qed.

(** Hypotheses on given sessions and packets, by running the code. *)
Ltac by_run :=
  lazymatch goal with
  | |- accepted _ _ _ _ _ =>
      let H := fresh in
      unfold accepted; split; [|split; [|split]];
      [ vm_compute; reflexivity | vm_compute; reflexivity | reflexivity
      | intros H; vm_compute in H; discriminate H ]
  | |- session_ok _ =>
      split; [vm_compute; split; discriminate | intros _; reflexivity]
  end.

(** One step of a run: peel a bind, then the primitive at its head. *)
Ltac wp_prim :=
  first
    [ apply post_load | apply post_store | apply post_timer_now
    | apply post_rand; intros ? | apply post_pipe_write
    | apply post_thread_add_event_sender | apply post_wire_put
    | apply post_ret ].

Ltac wp_step :=
  lazymatch goal with
  | |- post (bind _ _) _ _ => apply post_bind'
  | |- forall _ : globals, _ => intros ?
  | |- post _ _ _ => wp_prim
  end; cbn [bfd before after glob].

(** ** Timer handles *)

Lemma set_thread_out_same b v : thread_out b = v -> set_thread_out v b = b.
Proof. intros <-. destruct b; reflexivity. Qed.
Lemma set_thread_exp_same b v : thread_exp b = v -> set_thread_exp v b = b.
Proof. intros <-. destruct b; reflexivity. Qed.
Lemma set_final_same b v : final b = v -> set_final v b = b.
Proof. intros <-. destruct b; reflexivity. Qed.
Lemma is_some_false {A} (o : option A) : is_some o = false -> o = None.
Proof. destruct o; [discriminate|reflexivity]. Qed.

Lemma wp_sender_schedule e (Q : unit -> bfd_t -> Prop) :
  thread_out (bfd e) = None ->
  (forall d, Q tt (set_thread_out (Some d) (bfd e))) ->
  post bfd_sender_schedule e Q.
Proof.
  intros Hn HQ. unfold bfd_sender_schedule, rand_intv.
  repeat wp_step.
  apply post_assert; [rewrite Hn; reflexivity|].
  repeat wp_step. apply HQ.
Qed.

Lemma wp_sender_cancel e (Q : unit -> bfd_t -> Prop) :
  is_some (thread_out (bfd e)) = true ->
  Q tt (set_thread_out None (bfd e)) ->
  post bfd_sender_cancel e Q.
Proof.
  intros Hs HQ. unfold bfd_sender_cancel.
  repeat wp_step. apply post_assert; [exact Hs|]. repeat wp_step. exact HQ.
Qed.

Lemma wp_sender_reschedule e (Q : unit -> bfd_t -> Prop) :
  is_some (thread_out (bfd e)) = true ->
  (forall d, Q tt (set_thread_out (Some d) (bfd e))) ->
  post bfd_sender_reschedule e Q.
Proof.
  intros Hs HQ. unfold bfd_sender_reschedule.
  wp_step. apply wp_sender_cancel; [exact Hs|]. intros g.
  apply wp_sender_schedule; [reflexivity|]. intros d. apply HQ.
Qed.

Lemma wp_sender_scheduled e (Q : bool -> bfd_t -> Prop) :
  Q (is_some (thread_out (bfd e))) (bfd e) -> post bfd_sender_scheduled e Q.
Proof. intros HQ. unfold bfd_sender_scheduled. repeat wp_step. exact HQ. Qed.

Lemma wp_expire_scheduled e (Q : bool -> bfd_t -> Prop) :
  Q (is_some (thread_exp (bfd e))) (bfd e) -> post bfd_expire_scheduled e Q.
Proof. intros HQ. unfold bfd_expire_scheduled. repeat wp_step. exact HQ. Qed.

Lemma wp_reset_scheduled e (Q : bool -> bfd_t -> Prop) :
  Q (is_some (thread_rst (bfd e))) (bfd e) -> post bfd_reset_scheduled e Q.
Proof. intros HQ. unfold bfd_reset_scheduled. repeat wp_step. exact HQ. Qed.

Lemma wp_expire_schedule e (Q : unit -> bfd_t -> Prop) :
  thread_exp (bfd e) = None ->
  Q tt (set_thread_exp (Some (local_detect_time (bfd e))) (bfd e)) ->
  post bfd_expire_schedule e Q.
Proof.
  intros Hn HQ. unfold bfd_expire_schedule.
  repeat wp_step. apply post_assert; [rewrite Hn; reflexivity|].
  repeat wp_step. exact HQ.
Qed.

Lemma wp_expire_cancel e (Q : unit -> bfd_t -> Prop) :
  is_some (thread_exp (bfd e)) = true ->
  Q tt (set_thread_exp None (bfd e)) ->
  post bfd_expire_cancel e Q.
Proof.
  intros Hs HQ. unfold bfd_expire_cancel.
  repeat wp_step. apply post_assert; [exact Hs|]. repeat wp_step. exact HQ.
Qed.

Lemma wp_expire_reschedule e (Q : unit -> bfd_t -> Prop) :
  is_some (thread_exp (bfd e)) = true ->
  Q tt (set_thread_exp (Some (local_detect_time (bfd e))) (bfd e)) ->
  post bfd_expire_reschedule e Q.
Proof.
  intros Hs HQ. unfold bfd_expire_reschedule.
  wp_step. apply wp_expire_cancel; [exact Hs|]. intros g.
  apply wp_expire_schedule; [reflexivity|]. exact HQ.
Qed.

Lemma wp_reset_schedule e (Q : unit -> bfd_t -> Prop) :
  thread_rst (bfd e) = None ->
  Q tt (set_thread_rst (Some (local_detect_time (bfd e))) (bfd e)) ->
  post bfd_reset_schedule e Q.
Proof.
  intros Hn HQ. unfold bfd_reset_schedule.
  repeat wp_step. apply post_assert; [rewrite Hn; reflexivity|].
  repeat wp_step. exact HQ.
Qed.

Lemma wp_reset_cancel e (Q : unit -> bfd_t -> Prop) :
  is_some (thread_rst (bfd e)) = true ->
  Q tt (set_thread_rst None (bfd e)) ->
  post bfd_reset_cancel e Q.
Proof.
  intros Hs HQ. unfold bfd_reset_cancel.
  repeat wp_step. apply post_assert; [exact Hs|]. repeat wp_step. exact HQ.
Qed.

Lemma wp_event_send e (Q : unit -> bfd_t -> Prop) :
  Q tt (bfd e) -> post bfd_event_send e Q.
Proof. intros HQ. unfold bfd_event_send. repeat wp_step. exact HQ. Qed.

(** ** State change handlers *)

(** Closes [Q tt X] from [HQ : Q tt Y] when [X] and [Y] are the same
    session field by field, under the facts on timer handles at hand. *)
Ltac close_with HQ :=
  refine (eq_rect _ _ HQ _ _);
  unfold fall_of, down_of, rise_of, bitfield;
  destruct (bfd _); cbn in *;
  repeat match goal with
         | H : context [is_some ?o] |- _ =>
             destruct o; cbn in H; try discriminate H; clear H
         end;
  subst; reflexivity.

Lemma wp_state_fall e (Q : unit -> bfd_t -> Prop) :
  Q tt (fall_of (bfd e)) -> post bfd_state_fall e Q.
Proof.
  intros HQ. unfold bfd_state_fall.
  wp_step. wp_step. intros g. wp_step. apply wp_expire_scheduled.
  intros g'. wp_step.
  apply post_when; intros Hs.
  - apply wp_expire_cancel; [exact Hs|]. intros g''.
    apply wp_event_send. exact HQ.
  - intros g''. apply wp_event_send. cbn.
    unfold fall_of in HQ. rewrite set_thread_exp_same in HQ; [exact HQ|].
    apply is_some_false; exact Hs.
Qed.

Lemma wp_state_down diag e (Q : unit -> bfd_t -> Prop) :
  BFD_VALID_DIAG diag = true ->
  thread_rst (bfd e) = None ->
  Q tt (down_of diag (bfd e)) ->
  post (bfd_state_down diag) e Q.
Proof.
  intros Hd Hr HQ. unfold bfd_state_down.
  wp_step. apply post_assert; [exact Hd|]. intros g.
  do 2 (wp_step; wp_step; intros ?).
  wp_step. apply wp_reset_schedule; [exact Hr|]. intros g'.
  apply wp_state_fall.
  unfold BFD_VALID_DIAG in Hd.
  replace (bitfield 5 diag) with diag
    by (unfold bitfield; rewrite Z.mod_small; [reflexivity|lia]).
  exact HQ.
Qed.

Lemma wp_state_rise e (Q : unit -> bfd_t -> Prop) :
  Q tt (rise_of (local_state (bfd e)) (bfd e)) -> post bfd_state_rise e Q.
Proof.
  intros HQ. unfold bfd_state_rise.
  wp_step. wp_step. intros g. wp_step. apply wp_reset_scheduled. intros g1.
  wp_step. apply post_when; intros Hr.
  - apply wp_reset_cancel; [exact Hr|]. intros g2.
    wp_step. apply wp_expire_scheduled. intros g3.
    wp_step. apply post_when; intros Hx.
    + apply wp_expire_schedule; cbn.
      * apply is_some_false, negb_true_iff. exact Hx.
      * intros g4. apply wp_event_send. close_with HQ.
    + intros g4. apply wp_event_send. close_with HQ.
  - intros g2. wp_step. apply wp_expire_scheduled. intros g3.
    wp_step. apply post_when; intros Hx.
    + apply wp_expire_schedule; cbn.
      * apply is_some_false, negb_true_iff. exact Hx.
      * intros g4. apply wp_event_send. close_with HQ.
    + intros g4. apply wp_event_send. close_with HQ.
Qed.

Lemma wp_state_up e (Q : unit -> bfd_t -> Prop) :
  Q tt (rise_of BFD_STATE_UP (bfd e)) -> post bfd_state_up e Q.
Proof.
  intros HQ. unfold bfd_state_up. wp_step. wp_step. intros g.
  apply wp_state_rise. exact HQ.
Qed.

Lemma wp_state_init e (Q : unit -> bfd_t -> Prop) :
  local_state (bfd e) <> BFD_STATE_UP ->
  Q tt (rise_of BFD_STATE_INIT (bfd e)) -> post bfd_state_init e Q.
Proof.
  intros Hu HQ. unfold bfd_state_init. wp_step. wp_step. intros g.
  wp_step. apply post_assert.
  { unfold BFD_ISUP. apply negb_true_iff, Z.eqb_neq. exact Hu. }
  intros g1. wp_step. wp_step. intros g2.
  apply wp_state_rise. exact HQ.
Qed.

(** ** The parts of [bfd_handle_packet] *)

Lemma wp_hp_update_state hdr e (Q : unit -> bfd_t -> Prop) :
  Q tt (update_of hdr (bfd e)) -> post (hp_update_state hdr) e Q.
Proof.
  intros HQ. unfold hp_update_state.
  do 7 (wp_step; wp_step; intros ?).
  unfold update_of in HQ.
  destruct (negb (hdr_final hdr =? 0)); cbn [when].
  - wp_step. exact HQ.
  - wp_step. exact HQ.
Qed.

Lemma wp_hp_update_timers hdr e (Q : unit -> bfd_t -> Prop) :
  (forall t, Q tt (set_thread_out t (timers_of hdr (bfd e)))) ->
  post (hp_update_timers hdr) e Q.
Proof.
  intros HQ. unfold hp_update_timers.
  wp_step. wp_step. intros g.
  assert (Hc : (negb (hdr_final hdr =? 0)
                  && (local_state (bfd e) =? BFD_STATE_UP)
                || negb (hdr_poll hdr =? 0)
                   && (local_state (bfd e) =? BFD_STATE_UP)
                || negb (local_state (bfd e) =? BFD_STATE_UP))%bool
               = recalc hdr (bfd e)).
  { unfold recalc. destruct (hdr_final hdr =? 0), (hdr_poll hdr =? 0),
      (local_state (bfd e) =? BFD_STATE_UP); reflexivity. }
  rewrite Hc. clear Hc.
  wp_step.
  assert (Hfin : forall b1 g1,
    b1 = (if recalc hdr (bfd e)
          then bfd_update_remote_tx_intv (bfd_update_local_tx_intv (bfd e))
          else bfd e) ->
    post
      (store (fun b => set_local_detect_time
                         (u32 (remote_detect_mult b * remote_tx_intv b)) b) ;;
       store (fun b => set_remote_detect_time
                         (u32 (local_detect_mult b * local_tx_intv b)) b) ;;
       b <- load ;;
       when (local_tx_intv b <? local_tx_intv (bfd e))
         (s <- bfd_sender_scheduled ;; when s bfd_sender_reschedule))
      {| before := before e; bfd := b1; after := after e; glob := g1 |} Q).
  { intros b1 g1 Hb1.
    do 2 (wp_step; wp_step; intros ?). wp_step. wp_step. intros ?.
    assert (HQ' : forall t,
      Q tt (set_thread_out t
              (set_remote_detect_time
                 (u32 (local_detect_mult b1 * local_tx_intv b1))
                 (set_local_detect_time
                    (u32 (remote_detect_mult b1 * remote_tx_intv b1))
                    b1)))).
    { intros t. specialize (HQ t). unfold timers_of in HQ.
      rewrite <- Hb1 in HQ. exact HQ. }
    clear HQ Hb1.
    apply post_when; intros Hlt.
    - wp_step. apply wp_sender_scheduled. intros ?.
      apply post_when; intros Hs.
      + apply wp_sender_reschedule; [exact Hs|]. intros d. apply HQ'.
      + specialize (HQ' None). rewrite set_thread_out_same in HQ'; [exact HQ'|].
        apply is_some_false. exact Hs.
    - specialize (HQ' (thread_out b1)).
      rewrite set_thread_out_same in HQ'; [exact HQ'|reflexivity]. }
  apply post_when; intros Hc.
  - wp_step. wp_step. intros g1. wp_step. intros g2.
    apply Hfin. rewrite Hc. reflexivity.
  - intros g1. apply Hfin. rewrite Hc. reflexivity.
Qed.

Ltac st_lia :=
  cbn [bfd before after glob] in *;
  unfold BFD_STATE_ADMINDOWN, BFD_STATE_DOWN, BFD_STATE_INIT, BFD_STATE_UP
    in *; lia.

Lemma wp_hp_state_machine e (Q : unit -> bfd_t -> Prop) :
  session_ok (bfd e) ->
  local_state (bfd e) <> BFD_STATE_ADMINDOWN ->
  Q tt (machine_of (bfd e)) ->
  post hp_state_machine e Q.
Proof.
  intros [Hrange Hrst] Hna HQ.
  unfold hp_state_machine. wp_step. wp_step. intros g.
  unfold machine_of in HQ.
  unfold BFD_STATE_ADMINDOWN, BFD_STATE_DOWN, BFD_STATE_INIT, BFD_STATE_UP in *.
  destruct (remote_state (bfd e) =? 0) eqn:Er0;
    destruct (local_state (bfd e) =? 1) eqn:El1; cbn [andb negb] in *.
  - (* remote AdminDown, local Down: nothing *)
    rewrite Z.eqb_eq in Er0. rewrite Er0 in *. cbn in *. wp_step. exact HQ.
  - apply wp_state_down; [reflexivity| |exact HQ].
    apply Hrst. rewrite Z.eqb_neq in El1. st_lia.
  - destruct (remote_state (bfd e) =? 1).
    + apply wp_state_init; [|exact HQ]. rewrite Z.eqb_eq in El1. st_lia.
    + destruct (remote_state (bfd e) =? 2).
      * apply wp_state_up. exact HQ.
      * wp_step. exact HQ.
  - destruct (local_state (bfd e) =? 2) eqn:El2.
    + destruct ((remote_state (bfd e) =? 2) || (remote_state (bfd e) =? 3)).
      * apply wp_state_up. exact HQ.
      * wp_step. exact HQ.
    + destruct (local_state (bfd e) =? 3) eqn:El3.
      * destruct (remote_state (bfd e) =? 1).
        -- apply wp_state_down; [reflexivity| |exact HQ].
           apply Hrst. rewrite Z.eqb_eq in El3. st_lia.
        -- wp_step. exact HQ.
      * wp_step. exact HQ.
Qed.

Lemma wp_hp_sender hdr e (Q : unit -> bfd_t -> Prop) :
  (forall t f, Q tt (set_final f (set_thread_out t (bfd e)))) ->
  post (hp_sender hdr) e Q.
Proof.
  intros HQ. unfold hp_sender.
  wp_step. wp_step. intros g. wp_step.
  assert (Hrest : forall t g1,
    post
      (b <- load ;;
       when ((remote_demand b =? 0)
             || negb (local_state b =? BFD_STATE_UP)
             || negb (remote_state b =? BFD_STATE_UP))
         (s <- bfd_sender_scheduled ;; when (negb s) bfd_sender_schedule) ;;
       when (negb (hdr_poll hdr =? 0))
         (store (set_final 1) ;; thread_add_event_sender))
      {| before := before e; bfd := set_thread_out t (bfd e);
         after := after e; glob := g1 |} Q).
  { intros t g1. wp_step. wp_step. intros ?. wp_step.
    assert (Hpoll : forall t' g2,
      post (when (negb (hdr_poll hdr =? 0))
              (store (set_final 1) ;; thread_add_event_sender))
        {| before := before e; bfd := set_thread_out t' (bfd e);
           after := after e; glob := g2 |} Q).
    { intros t' g2. apply post_when; intros Hp.
      - wp_step. wp_step. intros ?. wp_step. apply HQ.
      - cbn. specialize (HQ t' (final (bfd e))).
        rewrite set_final_same in HQ; [exact HQ|reflexivity]. }
    apply post_when; intros Hc.
    - wp_step. apply wp_sender_scheduled. intros ?.
      apply post_when; intros Hs.
      + apply wp_sender_schedule.
        * apply is_some_false, negb_true_iff. exact Hs.
        * intros d ?. apply Hpoll.
      + intros ?. apply Hpoll.
    - intros ?. apply Hpoll. }
  apply post_when; intros Hc.
  - wp_step. apply wp_sender_scheduled. intros ?.
    apply post_when; intros Hs.
    + apply wp_sender_cancel; [exact Hs|]. intros ?. apply Hrest.
    + intros gg. pose proof (Hrest (thread_out (bfd e)) gg) as H.
      rewrite set_thread_out_same in H by reflexivity. exact H.
  - intros gg. pose proof (Hrest (thread_out (bfd e)) gg) as H.
    rewrite set_thread_out_same in H by reflexivity. exact H.
Qed.

Lemma wp_hp_last_seen e (Q : unit -> bfd_t -> Prop) :
  (forall x,
     Q tt (set_thread_exp x (set_last_seen (time_now (glob e)) (bfd e)))) ->
  post hp_last_seen e Q.
Proof.
  intros HQ. unfold hp_last_seen.
  wp_step. wp_step. intros ?. wp_step. wp_step. intros ?.
  wp_step. apply wp_expire_scheduled. intros ?.
  apply post_when; intros Hx.
  - apply wp_expire_reschedule; [exact Hx|]. apply HQ.
  - cbn. specialize (HQ (thread_exp (bfd e))).
    rewrite set_thread_exp_same in HQ; [exact HQ|reflexivity].
Qed.

(** What [update_of] and [timers_of] leave alone. *)
Lemma update_of_frame hdr b :
  local_state (update_of hdr b) = local_state b
  /\ local_diag (update_of hdr b) = local_diag b
  /\ thread_rst (update_of hdr b) = thread_rst b
  /\ local_tx_intv (update_of hdr b) = local_tx_intv b
  /\ remote_tx_intv (update_of hdr b) = remote_tx_intv b
  /\ local_min_tx_intv (update_of hdr b) = local_min_tx_intv b
  /\ local_min_rx_intv (update_of hdr b) = local_min_rx_intv b
  /\ local_idle_tx_intv (update_of hdr b) = local_idle_tx_intv b
  /\ remote_state (update_of hdr b) = hdr_state hdr
  /\ remote_min_rx_intv (update_of hdr b) = ntohl (hdr_min_rx_intv hdr)
  /\ remote_min_tx_intv (update_of hdr b) = ntohl (hdr_min_tx_intv hdr).
Proof.
  unfold update_of. destruct (negb (hdr_final hdr =? 0)); cbn; repeat split.
Qed.

Lemma timers_of_frame hdr b :
  local_state (timers_of hdr b) = local_state b
  /\ local_diag (timers_of hdr b) = local_diag b
  /\ thread_rst (timers_of hdr b) = thread_rst b
  /\ local_idle_tx_intv (timers_of hdr b) = local_idle_tx_intv b
  /\ remote_state (timers_of hdr b) = remote_state b.
Proof.
  unfold timers_of. destruct (recalc hdr b); cbn; repeat split.
Qed.

Lemma timers_of_intv hdr b :
  local_tx_intv (timers_of hdr b)
  = (if recalc hdr b
     then Z.max (local_min_tx_intv b) (remote_min_rx_intv b)
     else local_tx_intv b)
  /\ remote_tx_intv (timers_of hdr b)
     = (if recalc hdr b
        then Z.max (local_min_rx_intv b) (remote_min_tx_intv b)
        else remote_tx_intv b).
Proof.
  unfold timers_of. destruct (recalc hdr b); cbn; [|split; reflexivity].
  split.
  - destruct (Z.gtb_spec (local_min_tx_intv b) (remote_min_rx_intv b)); lia.
  - destruct (Z.gtb_spec (local_min_rx_intv b) (remote_min_tx_intv b)); lia.
Qed.

Lemma wp_handle_packet_session pkt e :
  hdr_auth (pkt_hdr pkt) = 0 ->
  local_state (bfd e) <> BFD_STATE_ADMINDOWN ->
  session_ok (bfd e) ->
  post (bfd_handle_packet_session pkt) e
    (fun _ b' => handled_as (pkt_hdr pkt) (bfd e) b').
Proof.
  intros Ha Hna Hok. unfold bfd_handle_packet_session.
  wp_step. wp_step. intros g.
  rewrite Ha. cbn [Z.eqb negb].
  apply Z.eqb_neq in Hna. rewrite Hna.
  apply Z.eqb_neq in Hna.
  destruct (update_of_frame (pkt_hdr pkt) (bfd e))
    as (U1 & _ & U3 & _).
  wp_step. apply wp_hp_update_state. intros ?.
  wp_step. apply wp_hp_update_timers. intros t ?.
  destruct (timers_of_frame (pkt_hdr pkt) (update_of (pkt_hdr pkt) (bfd e)))
    as (T1 & _ & T3 & _).
  wp_step. apply wp_hp_state_machine.
  - destruct Hok as [Hr Hrst].
    split; cbn [bfd local_state thread_rst set_thread_out];
      rewrite T1, U1; [exact Hr|].
    intros H. rewrite T3, U3. auto.
  - cbn [bfd local_state set_thread_out]. rewrite T1, U1. exact Hna.
  - intros ?. wp_step. apply wp_hp_sender. intros t' f gl.
    apply wp_hp_last_seen. intros x. cbn [bfd glob].
    now exists t, t', f, (time_now gl), x.
Qed.

(** ** The packet handler on the whole registry *)

Lemma find_split_sound p pre0 l front b back :
  find_split p pre0 l = Some (front, b, back) ->
  pre0 ++ l = front ++ b :: back /\ p b = true.
Proof.
  revert pre0. induction l as [|a l IH]; intros pre0 H; cbn in H.
  - discriminate.
  - destruct (p a) eqn:Hp.
    + inversion H; subst. auto.
    + apply IH in H. rewrite <- app_assoc in H. exact H.
Qed.

Lemma hp_lookup_sound pkt l front b back :
  hp_lookup pkt l = Some (front, b, back) -> l = front ++ b :: back.
Proof.
  unfold hp_lookup, find_bfd_by_addr, find_bfd_by_discr.
  destruct (hdr_remote_discr (pkt_hdr pkt) =? 0); intros H;
    apply find_split_sound in H; apply H.
Qed.

Lemma handle_packet_accepted pkt w front b back :
  accepted pkt w front b back -> session_ok b ->
  exists b', handled pkt w front b' back /\ handled_as (pkt_hdr pkt) b b'.
Proof.
  intros (Hc & Hl & Ha & Hna) Hok.
  destruct (wp_handle_packet_session pkt (enter front b back w) Ha Hna Hok)
    as ([] & b' & g' & Hrun & Has).
  exists b'. split; [|exact Has].
  exists g'. unfold bfd_handle_packet. rewrite Hc, Hl. cbn [Z.eqb negb].
  rewrite Hrun. reflexivity.
Qed.

Lemma machine_of_local_tx_intv b :
  local_tx_intv (machine_of b)
  = if falls (local_state b) (remote_state b)
    then local_idle_tx_intv b else local_tx_intv b.
Proof.
  unfold machine_of, falls.
  unfold BFD_STATE_ADMINDOWN, BFD_STATE_DOWN, BFD_STATE_INIT, BFD_STATE_UP.
  destruct (Z.eqb_spec (remote_state b) 0), (Z.eqb_spec (local_state b) 1),
    (Z.eqb_spec (remote_state b) 1), (Z.eqb_spec (local_state b) 2),
    (Z.eqb_spec (remote_state b) 2), (Z.eqb_spec (local_state b) 3),
    (Z.eqb_spec (remote_state b) 3); try lia; reflexivity.
Qed.

Lemma machine_of_remote_tx_intv b :
  remote_tx_intv (machine_of b) = remote_tx_intv b.
Proof.
  unfold machine_of.
  repeat match goal with
         | |- context [if ?c then _ else _] => destruct c
         end; reflexivity.
Qed.

Lemma machine_of_cases b :
  machine_of b = b
  \/ (machine_of b = down_of BFD_DIAG_NBR_SIGNALLED_DOWN b
      /\ falls (local_state b) (remote_state b) = true)
  \/ (exists s, (s = BFD_STATE_INIT \/ s = BFD_STATE_UP)
                /\ local_state b <> s
                /\ machine_of b = rise_of s b).
Proof.
  unfold machine_of, falls.
  unfold BFD_STATE_ADMINDOWN, BFD_STATE_DOWN, BFD_STATE_INIT, BFD_STATE_UP.
  destruct (Z.eqb_spec (remote_state b) 0), (Z.eqb_spec (local_state b) 1),
    (Z.eqb_spec (remote_state b) 1), (Z.eqb_spec (local_state b) 2),
    (Z.eqb_spec (remote_state b) 2), (Z.eqb_spec (local_state b) 3),
    (Z.eqb_spec (remote_state b) 3); try lia; cbn [andb orb negb];
    first [ left; reflexivity
          | right; left; split; reflexivity
          | right; right; exists 2; repeat split; [left; reflexivity | lia]
          | right; right; exists 3; repeat split; [right; reflexivity | lia] ].
Qed.

Lemma tail_stores_frame x l f t b :
  local_state (set_thread_exp x (set_last_seen l (set_final f
                 (set_thread_out t b)))) = local_state b
  /\ local_diag (set_thread_exp x (set_last_seen l (set_final f
                   (set_thread_out t b)))) = local_diag b
  /\ local_tx_intv (set_thread_exp x (set_last_seen l (set_final f
                      (set_thread_out t b)))) = local_tx_intv b
  /\ remote_tx_intv (set_thread_exp x (set_last_seen l (set_final f
                       (set_thread_out t b)))) = remote_tx_intv b.
Proof. repeat split. Qed.

(** What the state machine is run on for an accepted packet, and what of
    its result is left in the session at the end. *)
Lemma handled_as_view hdr b b' :
  handled_as hdr b b' ->
  exists X,
    (local_state X = local_state b
     /\ remote_state X = hdr_state hdr
     /\ local_diag X = local_diag b
     /\ local_idle_tx_intv X = local_idle_tx_intv b
     /\ local_tx_intv X
        = (if recalc hdr b
           then Z.max (local_min_tx_intv b) (ntohl (hdr_min_rx_intv hdr))
           else local_tx_intv b)
     /\ remote_tx_intv X
        = (if recalc hdr b
           then Z.max (local_min_rx_intv b) (ntohl (hdr_min_tx_intv hdr))
           else remote_tx_intv b))
    /\ local_state b' = local_state (machine_of X)
    /\ local_diag b' = local_diag (machine_of X)
    /\ local_tx_intv b' = local_tx_intv (machine_of X)
    /\ remote_tx_intv b' = remote_tx_intv (machine_of X).
Proof.
  intros (t & t' & f & l & x & ->).
  exists (set_thread_out t (timers_of hdr (update_of hdr b))).
  destruct (update_of_frame hdr b)
    as (U1 & U2 & _ & U4 & U5 & U6 & U7 & U8 & U9 & U10 & U11).
  destruct (timers_of_frame hdr (update_of hdr b))
    as (T1 & T2 & _ & T4 & T5).
  destruct (timers_of_intv hdr (update_of hdr b)) as (I1 & I2).
  assert (R : recalc hdr (update_of hdr b) = recalc hdr b)
    by (unfold recalc; rewrite U1; reflexivity).
  split; [|exact (tail_stores_frame x l f t' _)].
  repeat apply conj.
  - exact (eq_trans T1 U1).
  - exact (eq_trans T5 U9).
  - exact (eq_trans T2 U2).
  - exact (eq_trans T4 U8).
  - change (local_tx_intv (timers_of hdr (update_of hdr b)) =
            (if recalc hdr b
             then Z.max (local_min_tx_intv b) (ntohl (hdr_min_rx_intv hdr))
             else local_tx_intv b)).
    rewrite I1, R, U6, U10, U4. reflexivity.
  - change (remote_tx_intv (timers_of hdr (update_of hdr b)) =
            (if recalc hdr b
             then Z.max (local_min_rx_intv b) (ntohl (hdr_min_tx_intv hdr))
             else remote_tx_intv b)).
    rewrite I2, R, U7, U11, U5. reflexivity.
Qed.

(** ** Runs written out *)

Lemma rand_intv_run lo hi e :
  rand_intv lo hi e
  = Done (lo + rand_src (glob e) (rand_pos (glob e)) mod (hi - lo + 1))
      (with_glob
         {| bfd_event_pipe := bfd_event_pipe (glob e);
            master_events := master_events (glob e);
            wire := wire (glob e); time_now := time_now (glob e);
            rand_src := rand_src (glob e);
            rand_pos := S (rand_pos (glob e)) |} e).
Proof. reflexivity. Qed.

Lemma expire_thread_run e :
  local_state (bfd e) = BFD_STATE_UP
  \/ local_state (bfd e) = BFD_STATE_INIT ->
  thread_rst (bfd e) = None ->
  bfd_expire_thread e
  = Done tt
      {| before := before e;
         bfd := down_of BFD_DIAG_EXPIRED
                  (set_remote_discr 0 (set_thread_exp None (bfd e)));
         after := after e;
         glob :=
           {| bfd_event_pipe :=
                bfd_event_pipe (glob e)
                ++ [{| evt_iname := strncpy 31 (iname (bfd e));
                       evt_state := BFD_STATE_DOWN;
                       evt_sent_time := time_now (glob e) |}];
              master_events := master_events (glob e);
              wire := wire (glob e); time_now := time_now (glob e);
              rand_src := rand_src (glob e);
              rand_pos := rand_pos (glob e) |} |}.
Proof.
  intros Hs Hr.
  destruct e as [front b back g]. cbn [bfd before after glob] in *.
  destruct b, g. cbn in Hs, Hr. subst.
  destruct Hs as [-> | ->]; vm_compute; reflexivity.
Qed.

(** ** [session_ok] is an invariant *)

Lemma post_done {A} (m : M A) e (Q : A -> bfd_t -> Prop) a e' :
  post m e Q -> m e = Done a e' -> Q a (bfd e').
Proof.
  intros (a0 & b & g & Hrun & HQ) H. rewrite Hrun in H.
  inversion H; subst. exact HQ.
Qed.

Lemma wp_state_admindown e (Q : unit -> bfd_t -> Prop) :
  Q tt (fall_of (set_thread_out None
                   (set_local_diag BFD_DIAG_ADMIN_DOWN
                      (set_local_state BFD_STATE_ADMINDOWN (bfd e))))) ->
  post bfd_state_admindown e Q.
Proof.
  intros HQ. unfold bfd_state_admindown.
  do 2 (wp_step; wp_step; intros ?).
  wp_step. apply wp_sender_scheduled. intros ?.
  wp_step. apply post_when; intros Hs.
  - apply wp_sender_cancel; [exact Hs|]. intros ?.
    apply wp_state_fall. exact HQ.
  - intros ?. apply wp_state_fall. cbn [bfd].
    refine (eq_rect _ _ HQ _ _). f_equal.
    apply set_thread_out_same, is_some_false. exact Hs.
Qed.

Lemma machine_of_ok b : session_ok b -> session_ok (machine_of b).
Proof.
  intros [Hr Hrst].
  destruct (machine_of_cases b) as [E | [[E _] | (s & Hs & _ & E)]];
    rewrite E.
  - split; assumption.
  - split; cbn; [st_lia|]. intros [H | H]; discriminate H.
  - split; cbn; [destruct Hs as [-> | ->]; st_lia|reflexivity].
Qed.

Lemma tail_stores_ok x l f t b :
  session_ok b ->
  session_ok (set_thread_exp x (set_last_seen l (set_final f
                (set_thread_out t b)))).
Proof. intros [H1 H2]. split; [exact H1|exact H2]. Qed.

Lemma handled_as_ok hdr b b' :
  session_ok b -> handled_as hdr b b' -> session_ok b'.
Proof.
  intros Hok (t & t' & f & l & x & ->).
  destruct (update_of_frame hdr b) as (U1 & _ & U3 & _).
  destruct (timers_of_frame hdr (update_of hdr b)) as (T1 & _ & T3 & _).
  assert (Hx : session_ok
                 (set_thread_out t (timers_of hdr (update_of hdr b)))).
  { destruct Hok as [Hr Hrst].
    split; cbn [local_state thread_rst set_thread_out];
      rewrite ?T1, ?T3, ?U1, ?U3; assumption. }
  apply machine_of_ok in Hx. apply tail_stores_ok. exact Hx.
Qed.

Lemma wp_send_packet fd pkt (sendto_ok : bool) e (Q : Z -> bfd_t -> Prop) :
  0 <= fd ->
  Q (if sendto_ok then pkt_len pkt else -1) (bfd e) ->
  post (bfd_send_packet fd pkt sendto_ok) e Q.
Proof.
  intros Hfd HQ. unfold bfd_send_packet.
  wp_step. apply post_assert; [apply Z.leb_le; exact Hfd|]. intros ?.
  destruct sendto_ok.
  - wp_step. wp_step. intros ?. wp_step. exact HQ.
  - wp_step. exact HQ.
Qed.

Lemma sender_thread_ok type sendto_ok e :
  session_ok (bfd e) ->
  local_state (bfd e) <> BFD_STATE_ADMINDOWN ->
  0 <= fd_out (bfd e) ->
  post (bfd_sender_thread type sendto_ok) e (fun _ b' => session_ok b').
Proof.
  intros Hok Hna Hfd. unfold bfd_sender_thread.
  wp_step. wp_step. intros ?. wp_step. apply post_assert.
  { unfold BFD_ISADMINDOWN. apply negb_true_iff, Z.eqb_neq. exact Hna. }
  intros ?. wp_step. wp_step. intros ?. wp_step. wp_step. intros ?.
  assert (Hrest : forall b1 ga, session_ok b1 ->
    post
      (b <- load ;;
       when (negb (final b =? 0)) (store (set_final 0)) ;;
       b0 <- load ;;
       when (negb (is_event type) && negb (BFD_ISADMINDOWN b0))
         bfd_sender_schedule)
      {| before := before e; bfd := set_thread_out None b1;
         after := after e; glob := ga |}
      (fun _ b' => session_ok b')).
  { intros b1 ga H1. wp_step. wp_step. intros ?. wp_step.
    assert (Hend : forall f gb,
      post
        (b0 <- load ;;
         when (negb (is_event type) && negb (BFD_ISADMINDOWN b0))
           bfd_sender_schedule)
        {| before := before e; bfd := set_final f (set_thread_out None b1);
           after := after e; glob := gb |}
        (fun _ b' => session_ok b')).
    { intros f gb. wp_step. wp_step. intros ?.
      apply post_when; intros _.
      - apply wp_sender_schedule; [reflexivity|]. intros d. exact H1.
      - exact H1. }
    apply post_when; intros Hf.
    - wp_step. intros ?. apply Hend.
    - intros gc. pose proof (Hend (final (set_thread_out None b1)) gc) as H.
      rewrite set_final_same in H by reflexivity. exact H. }
  wp_step. apply wp_send_packet; [exact Hfd|]. intros ?.
  destruct sendto_ok.
  - change (pkt_len (bfd_build_packet (set_thread_out None (bfd e))) =? -1)
      with false.
    wp_step. wp_step. intros ?. apply Hrest. exact Hok.
  - change (-1 =? -1) with true. cbn [when].
    wp_step. apply wp_state_admindown. intros ?. cbn [bfd].
    match goal with
    | |- post _ {| before := _; bfd := ?b2; after := _; glob := ?g2 |} _ =>
        pose proof (Hrest b2 g2) as H;
        rewrite set_thread_out_same in H by reflexivity
    end.
    apply H. split; cbn; [st_lia|]. intros [E | E]; discriminate E.
Qed.

Lemma get_random_discr_frame rounds : forall e d e',
  bfd_get_random_discr rounds e = Done d e' ->
  before e' = before e /\ bfd e' = bfd e /\ after e' = after e.
Proof.
  induction rounds as [|n IH]; intros e d e' H; [discriminate|].
  cbn [bfd_get_random_discr] in H. unfold bind at 1 in H.
  rewrite rand_intv_run in H.
  match type of H with
  | (if ?c then _ else _) = _ => destruct c
  end.
  - apply IH in H. exact H.
  - inversion H; subst. repeat split.
Qed.

(** Whatever happens to a session, if the handler returns, the session is
    still well formed. *)
Theorem session_ok_preserved ev e e' :
  fire ev e = Done tt e' -> session_ok (bfd e) -> session_ok (bfd e').
Proof.
  destruct ev as [pkt | type ok | | rounds | ]; cbn [fire]; intros H Hok.
  - (* a packet *)
    destruct (Z.eqb_spec (hdr_auth (pkt_hdr pkt)) 0) as [Ha | Ha].
    + destruct (Z.eqb_spec (local_state (bfd e)) BFD_STATE_ADMINDOWN)
        as [Hs | Hs].
      * unfold bfd_handle_packet_session, bind, load in H.
        rewrite Ha, Hs in H. cbn in H. inversion H; subst. exact Hok.
      * pose proof (post_done _ _ _ _ _
                      (wp_handle_packet_session pkt e Ha Hs Hok) H) as Hh.
        exact (handled_as_ok _ _ _ Hok Hh).
    + unfold bfd_handle_packet_session, bind, load in H.
      apply Z.eqb_neq in Ha. rewrite Ha in H. cbn in H.
      inversion H; subst. exact Hok.
  - (* the transmitter *)
    destruct (Z.eqb_spec (local_state (bfd e)) BFD_STATE_ADMINDOWN)
      as [Hs | Hs].
    + unfold bfd_sender_thread, bind, load, assert, BFD_ISADMINDOWN in H.
      rewrite Hs in H. discriminate H.
    + destruct (Z.leb_spec 0 (fd_out (bfd e))) as [Hfd | Hfd].
      * exact (post_done _ _ _ _ _
                 (sender_thread_ok type ok e Hok Hs Hfd) H).
      * unfold bfd_sender_thread, bfd_send_packet, bind, load, store, assert,
          BFD_ISADMINDOWN in H.
        apply Z.eqb_neq in Hs. rewrite Hs in H.
        cbn [negb bfd with_bfd fd_out set_thread_out] in H.
        apply Z.leb_gt in Hfd.
        replace (fd_out (set_thread_out None (bfd e)))
          with (fd_out (bfd e)) in H by (destruct (bfd e); reflexivity).
        rewrite Hfd in H. discriminate H.
  - (* expiration *)
    destruct (Z.eqb_spec (local_state (bfd e)) BFD_STATE_UP) as [Hu | Hu];
      [|destruct (Z.eqb_spec (local_state (bfd e)) BFD_STATE_INIT)
          as [Hi | Hi]].
    1, 2: rewrite expire_thread_run in H by (try tauto; apply Hok; tauto);
      inversion H; subst; split; cbn; [st_lia|];
      intros [E | E]; discriminate E.
    unfold bfd_expire_thread, bind, load, assert, BFD_ISUP, BFD_ISINIT in H.
    apply Z.eqb_neq in Hu, Hi. rewrite Hu, Hi in H. discriminate H.
  - (* reset *)
    unfold bfd_reset_thread, bfd_init_state, bind, load, assert, store in H.
    destruct (is_some (thread_rst (bfd e))); [|discriminate H].
    cbn [bfd before after glob with_bfd] in H.
    match type of H with
    | match bfd_get_random_discr rounds ?e1 with _ => _ end = _ =>
        destruct (bfd_get_random_discr rounds e1) as [d e2| |] eqn:Hd;
          [|discriminate H..]
    end.
    apply get_random_discr_frame in Hd. destruct Hd as (_ & Hb & _).
    cbn [bfd] in Hb. inversion H; subst. cbn [bfd with_bfd]. rewrite Hb.
    split; cbn; [st_lia|reflexivity].
  - (* a Poll sequence is started *)
    unfold store in H. inversion H; subst. cbn [bfd with_bfd].
    unfold bfd_set_poll. destruct (negb (final (bfd e) =? 1)); exact Hok.
Qed.

(** * The session state machine *)

(** C1.  An accepted control packet is handled to the end, and the local
    state moves as RFC 5880 has it: remote AdminDown while the local state
    is not Down gives Down with diagnostic "Neighbor Signaled Session
    Down"; Down and remote Down gives Init; Down and remote Init gives Up;
    Init and remote Init or Up gives Up; Up and remote Down gives Down with
    the same diagnostic; and whenever the state changes to Up or Init the
    local diagnostic is 0 afterwards. *)
Theorem state_machine_transitions pkt w front b back :
  accepted pkt w front b back ->
  session_ok b ->
  exists b',
    handled pkt w front b' back
    /\ (let l := local_state b in
        let r := hdr_state (pkt_hdr pkt) in
        (r = BFD_STATE_ADMINDOWN -> l <> BFD_STATE_DOWN ->
         local_state b' = BFD_STATE_DOWN
         /\ local_diag b' = BFD_DIAG_NBR_SIGNALLED_DOWN)
        /\ (l = BFD_STATE_DOWN -> r = BFD_STATE_DOWN ->
            local_state b' = BFD_STATE_INIT)
        /\ (l = BFD_STATE_DOWN -> r = BFD_STATE_INIT ->
            local_state b' = BFD_STATE_UP)
        /\ (l = BFD_STATE_INIT ->
            r = BFD_STATE_INIT \/ r = BFD_STATE_UP ->
            local_state b' = BFD_STATE_UP)
        /\ (l = BFD_STATE_UP -> r = BFD_STATE_DOWN ->
            local_state b' = BFD_STATE_DOWN
            /\ local_diag b' = BFD_DIAG_NBR_SIGNALLED_DOWN)
        /\ (local_state b' <> l ->
            local_state b' = BFD_STATE_UP
            \/ local_state b' = BFD_STATE_INIT ->
            local_diag b' = BFD_DIAG_NO_DIAG)).
Proof.
  intros Hacc Hok.
  destruct (handle_packet_accepted _ _ _ _ _ Hacc Hok) as (b' & Hh & Has).
  exists b'. split; [exact Hh|].
  destruct (handled_as_view _ _ _ Has)
    as (X & (Xl & Xr & _) & -> & -> & _).
  cbn zeta. rewrite <- Xl, <- Xr. clear Xl Xr Has Hh Hacc Hok.
  unfold BFD_STATE_ADMINDOWN, BFD_STATE_DOWN, BFD_STATE_INIT, BFD_STATE_UP,
    BFD_DIAG_NBR_SIGNALLED_DOWN, BFD_DIAG_NO_DIAG.
  repeat split.
  1-7: unfold machine_of;
       unfold BFD_STATE_ADMINDOWN, BFD_STATE_DOWN, BFD_STATE_INIT,
         BFD_STATE_UP;
       intros;
       repeat match goal with
              | H : _ \/ _ |- _ => destruct H
              | H : ?x = _ |- context [?x] => rewrite H
              | H : ?x <> ?c |- context [?x =? ?c] =>
                  rewrite (proj2 (Z.eqb_neq x c) H)
              end; reflexivity.
  intros Hne Hs.
  destruct (machine_of_cases X) as [E | [[E _] | (s & Hs' & _ & E)]];
    rewrite E in *.
  - congruence.
  - cbn in Hs. unfold BFD_STATE_DOWN in Hs. lia.
  - reflexivity.
Qed.

Lemma state_machine_transitions_witness :
  exists b',
    handled (control BFD_STATE_DOWN 0 0 0 0) (world_of peer) [] b' []
    /\ local_state b' = BFD_STATE_INIT.
Proof.
  destruct (state_machine_transitions
              (control BFD_STATE_DOWN 0 0 0 0) (world_of peer) [] peer [])
    as (b' & Hh & _ & Hinit & _).
  - by_run.
  - by_run.
  - exists b'. split; [exact Hh|]. apply Hinit; reflexivity.
Defined.

(** C2, as the code has it: an accepted packet whose state field is Up,
    received while the local state is Down, leaves the session Down with
    its diagnostic as it was; Up is reached from Down on remote Init
    only. *)
Theorem down_ignores_remote_up pkt w front b back :
  accepted pkt w front b back ->
  session_ok b ->
  local_state b = BFD_STATE_DOWN ->
  hdr_state (pkt_hdr pkt) = BFD_STATE_UP ->
  exists b',
    handled pkt w front b' back
    /\ local_state b' = BFD_STATE_DOWN
    /\ local_diag b' = local_diag b.
Proof.
  intros Hacc Hok Hl Hr.
  destruct (handle_packet_accepted _ _ _ _ _ Hacc Hok) as (b' & Hh & Has).
  exists b'. split; [exact Hh|].
  destruct (handled_as_view _ _ _ Has)
    as (X & (Xl & Xr & Xd & _) & -> & -> & _).
  unfold machine_of. rewrite Xl, Xr, Hl, Hr. cbn.
  split; congruence.
Qed.

Lemma down_ignores_remote_up_witness :
  exists b',
    handled (control BFD_STATE_UP 0 0 0 4660) (world_of peer) [] b' []
    /\ local_state b' = BFD_STATE_DOWN
    /\ local_diag b' = local_diag peer.
Proof.
  apply (down_ignores_remote_up
           (control BFD_STATE_UP 0 0 0 4660) (world_of peer) [] peer []).
  - by_run.
  - by_run.
  - reflexivity.
  - reflexivity.
Defined.

(** C2 fails as stated: the packet is accepted, its state field is Up, the
    session is Down, and after the packet the session is still Down. *)
Lemma down_to_up_counterexample :
  accepted (control BFD_STATE_UP 0 0 0 4660) (world_of peer) [] peer []
  /\ hdr_state (pkt_hdr (control BFD_STATE_UP 0 0 0 4660)) = BFD_STATE_UP
  /\ local_state peer = BFD_STATE_DOWN
  /\ match bfd_handle_packet (control BFD_STATE_UP 0 0 0 4660)
             (world_of peer) with
     | Done _ w' => map local_state (bfd_list w') = [BFD_STATE_DOWN]
     | _ => False
     end
  /\ BFD_STATE_DOWN <> BFD_STATE_UP.
Proof.
  split; [by_run|].
  vm_compute. repeat split. discriminate.
Qed.

(** * Interval negotiation *)

(** C7, as the code has it: after an accepted packet [remote_tx_intv] is
    the larger of [local_min_rx_intv] and the packet's Desired Min TX if
    the packet carried Final or Poll or the session was not Up, and is
    unchanged otherwise; [local_tx_intv] is, in the same way, the larger of
    [local_min_tx_intv] and the packet's Required Min RX or unchanged,
    unless the packet takes the session Down (remote AdminDown while not
    Down, or remote Down while Up): then [bfd_state_fall] has put it back
    to [local_idle_tx_intv]. *)
Theorem intervals_after_packet pkt w front b back :
  accepted pkt w front b back ->
  session_ok b ->
  exists b',
    handled pkt w front b' back
    /\ remote_tx_intv b'
       = (if recalc (pkt_hdr pkt) b
          then Z.max (local_min_rx_intv b)
                 (ntohl (hdr_min_tx_intv (pkt_hdr pkt)))
          else remote_tx_intv b)
    /\ local_tx_intv b'
       = (if falls (local_state b) (hdr_state (pkt_hdr pkt))
          then local_idle_tx_intv b
          else if recalc (pkt_hdr pkt) b
               then Z.max (local_min_tx_intv b)
                      (ntohl (hdr_min_rx_intv (pkt_hdr pkt)))
               else local_tx_intv b).
Proof.
  intros Hacc Hok.
  destruct (handle_packet_accepted _ _ _ _ _ Hacc Hok) as (b' & Hh & Has).
  exists b'. split; [exact Hh|].
  destruct (handled_as_view _ _ _ Has)
    as (X & (Xl & Xr & _ & Xi & Xt & Xrt) & _ & _ & -> & ->).
  rewrite machine_of_remote_tx_intv, machine_of_local_tx_intv.
  rewrite Xl, Xr, Xi, Xt, Xrt. split; reflexivity.
Qed.

Lemma intervals_after_packet_witness :
  exists b',
    handled (control BFD_STATE_UP 0 1 0 4660) (world_of peer_up) [] b' []
    /\ remote_tx_intv b' = 50000
    /\ local_tx_intv b' = 50000.
Proof.
  apply (intervals_after_packet
           (control BFD_STATE_UP 0 1 0 4660) (world_of peer_up) []
           peer_up []); by_run.
Defined.

(** C7 fails as stated: the session is Up with [local_tx_intv] 50 ms, the
    accepted packet carries neither Poll nor Final, and after it
    [local_tx_intv] is 1 s: the packet said Down. *)
Lemma intervals_unchanged_counterexample :
  accepted (control BFD_STATE_DOWN 0 0 0 4660) (world_of peer_up)
    [] peer_up []
  /\ hdr_poll (pkt_hdr (control BFD_STATE_DOWN 0 0 0 4660)) = 0
  /\ hdr_final (pkt_hdr (control BFD_STATE_DOWN 0 0 0 4660)) = 0
  /\ local_state peer_up = BFD_STATE_UP
  /\ local_tx_intv peer_up = 50000
  /\ match bfd_handle_packet (control BFD_STATE_DOWN 0 0 0 4660)
             (world_of peer_up) with
     | Done _ w' => map local_tx_intv (bfd_list w') = [1000000]
     | _ => False
     end.
Proof.
  split; [by_run|].
  vm_compute. repeat split.
Qed.

(** * Packet validation *)

(** C5.  [bfd_check_packet] rejects exactly the packets that are too
    short, whose length field is not the received length, whose TTL is
    known and not 255, whose version is not 1, whose Detect Mult is 0,
    that have the Multipoint bit, whose My Discriminator is 0, whose Your
    Discriminator is 0 while the state is neither Down nor AdminDown, that
    have both Poll and Final, or whose state or diagnostic is out of
    range. *)
Theorem check_packet_rejects_iff pkt :
  let hdr := pkt_hdr pkt in
  bfd_check_packet pkt <> 0 <->
  (pkt_len pkt < 24
   \/ hdr_len hdr <> pkt_len pkt
   \/ (pkt_ttl pkt <> 0 /\ pkt_ttl pkt <> 255)
   \/ hdr_version hdr <> 1
   \/ hdr_detect_mult hdr = 0
   \/ hdr_multipoint hdr <> 0
   \/ hdr_local_discr hdr = 0
   \/ (hdr_remote_discr hdr = 0
       /\ hdr_state hdr <> BFD_STATE_DOWN
       /\ hdr_state hdr <> BFD_STATE_ADMINDOWN)
   \/ (hdr_poll hdr <> 0 /\ hdr_final hdr <> 0)
   \/ ~ (0 <= hdr_state hdr <= 3)
   \/ ~ (0 <= hdr_diag hdr <= 8)).
Proof.
  cbn zeta. unfold bfd_check_packet, BFD_VALID_STATE, BFD_VALID_DIAG,
    sizeof_bfdhdr_t, BFD_CONTROL_TTL, BFD_VERSION_1, BFD_STATE_DOWN,
    BFD_STATE_ADMINDOWN.
  destruct (Z.gtb_spec 24 (pkt_len pkt)); [split; [lia|discriminate]|].
  destruct (Z.eqb_spec (hdr_len (pkt_hdr pkt)) (pkt_len pkt));
    cbn [negb]; [|split; [tauto|discriminate]].
  destruct (Z.eqb_spec (pkt_ttl pkt) 0), (Z.eqb_spec (pkt_ttl pkt) 255);
    cbn [negb andb]; try (split; [tauto|discriminate]).
  all: destruct (Z.eqb_spec (hdr_version (pkt_hdr pkt)) 1);
    cbn [negb]; [|split; [tauto|discriminate]].
  all: destruct (Z.eqb_spec (hdr_detect_mult (pkt_hdr pkt)) 0);
    [split; [tauto|discriminate]|].
  all: destruct (Z.eqb_spec (hdr_multipoint (pkt_hdr pkt)) 0);
    cbn [negb]; [|split; [tauto|discriminate]].
  all: destruct (Z.eqb_spec (hdr_local_discr (pkt_hdr pkt)) 0);
    [split; [tauto|discriminate]|].
  all: destruct (Z.eqb_spec (hdr_remote_discr (pkt_hdr pkt)) 0),
         (Z.eqb_spec (hdr_state (pkt_hdr pkt)) 1),
         (Z.eqb_spec (hdr_state (pkt_hdr pkt)) 0);
    cbn [negb andb]; try (split; [tauto|discriminate]).
  all: destruct (Z.eqb_spec (hdr_poll (pkt_hdr pkt)) 0),
         (Z.eqb_spec (hdr_final (pkt_hdr pkt)) 0);
    cbn [negb andb]; try (split; [tauto|discriminate]).
  all: destruct (Z.leb_spec 0 (hdr_state (pkt_hdr pkt))),
         (Z.leb_spec (hdr_state (pkt_hdr pkt)) 3);
    cbn [negb andb]; try (split; [intros _; do 9 right; left; lia
                                 |discriminate]).
  all: destruct (Z.leb_spec 0 (hdr_diag (pkt_hdr pkt))),
         (Z.leb_spec (hdr_diag (pkt_hdr pkt)) 8);
    cbn [negb andb]; try (split; [intros _; do 10 right; lia
                                 |discriminate]).
  all: split; [congruence|lia].
Qed.

(** C6, as the code has it: [bfd_check_packet] does not look at the auth
    bit, its verdict is the same whatever the bit is; a packet with the
    bit set is dropped by [bfd_handle_packet] itself, after the session
    lookup, and whether or not a session was found nothing changes: no
    session, no timer, no event. *)
Theorem auth_packet_dropped pkt w :
  hdr_auth (pkt_hdr pkt) <> 0 ->
  bfd_handle_packet pkt w = Done tt w
  /\ forall a, bfd_check_packet (with_auth a pkt) = bfd_check_packet pkt.
Proof.
  intros Ha. split; [|reflexivity].
  unfold bfd_handle_packet.
  destruct (negb (bfd_check_packet pkt =? 0)); [reflexivity|].
  destruct (hp_lookup pkt (bfd_list w)) as [[[front b] back]|] eqn:Hl;
    [|reflexivity].
  apply hp_lookup_sound in Hl.
  unfold bfd_handle_packet_session, bind, load.
  apply Z.eqb_neq in Ha. rewrite Ha. cbn.
  unfold leave, bfd_data. cbn. rewrite <- Hl. destruct w; reflexivity.
Qed.

Lemma auth_packet_dropped_witness :
  bfd_handle_packet (control BFD_STATE_DOWN 0 0 1 0) (world_of peer)
  = Done tt (world_of peer)
  /\ forall a,
       bfd_check_packet (with_auth a (control BFD_STATE_DOWN 0 0 1 0))
       = bfd_check_packet (control BFD_STATE_DOWN 0 0 1 0).
Proof.
  apply (auth_packet_dropped (control BFD_STATE_DOWN 0 0 1 0)
           (world_of peer)).
  discriminate.
Defined.

(** C6 fails as stated: this packet has the auth bit set and
    [bfd_check_packet] accepts it. *)
Lemma auth_bit_check_counterexample :
  hdr_auth (pkt_hdr (control BFD_STATE_DOWN 0 0 1 0)) = 1
  /\ bfd_check_packet (control BFD_STATE_DOWN 0 0 1 0) = 0.
Proof. split; reflexivity. Qed.

(** * Timers *)

(** C4.  When the expiration timer fires on a session that is Up or Init,
    the thread returns with [remote_discr] 0, the local state Down, the
    local diagnostic "Control Detection Time Expired", [local_tx_intv] back
    at [local_idle_tx_intv], the reset timer armed (with the detection
    time), no expiration timer, and one more record in the event pipe, for
    the state Down. *)
Theorem expire_thread_goes_down e :
  local_state (bfd e) = BFD_STATE_UP
  \/ local_state (bfd e) = BFD_STATE_INIT ->
  session_ok (bfd e) ->
  exists b' g',
    bfd_expire_thread e
    = Done tt {| before := before e; bfd := b'; after := after e;
                 glob := g' |}
    /\ remote_discr b' = 0
    /\ local_state b' = BFD_STATE_DOWN
    /\ local_diag b' = BFD_DIAG_EXPIRED
    /\ local_tx_intv b' = local_idle_tx_intv (bfd e)
    /\ thread_rst b' = Some (local_detect_time (bfd e))
    /\ thread_exp b' = None
    /\ bfd_event_pipe g'
       = bfd_event_pipe (glob e)
         ++ [{| evt_iname := strncpy 31 (iname (bfd e));
                evt_state := BFD_STATE_DOWN;
                evt_sent_time := time_now (glob e) |}].
Proof.
  intros Hs [_ Hrst].
  assert (Hr : thread_rst (bfd e) = None) by (apply Hrst; tauto).
  rewrite (expire_thread_run e Hs Hr).
  eexists _, _. split; [reflexivity|].
  cbn. repeat split.
Qed.

Lemma expire_thread_goes_down_witness :
  exists b' g',
    bfd_expire_thread (env_of peer_up 0)
    = Done tt {| before := []; bfd := b'; after := []; glob := g' |}
    /\ remote_discr b' = 0
    /\ local_state b' = BFD_STATE_DOWN
    /\ local_diag b' = BFD_DIAG_EXPIRED
    /\ local_tx_intv b' = 1000000
    /\ thread_rst b' = Some 150000
    /\ thread_exp b' = None
    /\ bfd_event_pipe g'
       = [{| evt_iname := "peerA"; evt_state := BFD_STATE_DOWN;
             evt_sent_time := 77 |}].
Proof.
  apply (expire_thread_goes_down (env_of peer_up 0)).
  - left. reflexivity.
  - by_run.
Defined.

(** * Poll and Final *)

(** C3 does not hold of the code.  [bfd_set_poll] keeps Poll off while
    Final is on, and [bfd_check_packet] rejects a packet with both, but
    [bfd_handle_packet] turns Final on when a Poll arrives without looking
    at the session's own Poll flag.  Run: the session is Up; a Poll
    sequence is started; the neighbor's next packet carries Poll.  The
    session then has both flags at 1, the event thread queued by the
    handler puts a packet with both bits on the wire, and that packet is
    one [bfd_check_packet] itself rejects. *)
Theorem poll_and_final_both_set :
  let w1 := world_of (bfd_set_poll peer_up) in
  accepted (control BFD_STATE_UP 1 0 0 4660) w1 [] (bfd_set_poll peer_up) []
  /\ match bfd_handle_packet (control BFD_STATE_UP 1 0 0 4660) w1 with
     | Done _ w2 =>
         map (fun b => (poll b, final b)) (bfd_list w2) = [(1, 1)]
         /\ master_events (w_glob w2) = [iname peer_up]
         /\ match bfd_list w2 with
            | [b2] =>
                match bfd_sender_thread THREAD_EVENT true
                        (enter [] b2 [] w2) with
                | Done _ e3 =>
                    map (fun p => (hdr_poll (pkt_hdr p),
                                   hdr_final (pkt_hdr p),
                                   bfd_check_packet
                                     {| pkt_hdr := pkt_hdr p;
                                        pkt_src_addr := pkt_src_addr p;
                                        pkt_dst_addr := pkt_dst_addr p;
                                        pkt_ttl := BFD_CONTROL_TTL;
                                        pkt_len := pkt_len p |}))
                      (wire (glob e3))
                    = [(1, 1, 1)]
                | _ => False
                end
            | _ => False
            end
     | _ => False
     end.
Proof.
  cbn zeta. split.
  - by_run.
  - vm_compute. repeat split.
Qed.

(** * Transmit jitter *)

(** The delay [bfd_sender_schedule] arms the transmitter with: it is never
    more than the interval, never less than three quarters of it, and with
    a non-zero multiplier at most the interval less its tenth rounded
    down. *)
Lemma sender_schedule_delay e :
  thread_out (bfd e) = None ->
  0 <= local_tx_intv (bfd e) < 2 ^ 32 ->
  exists d g',
    bfd_sender_schedule e
    = Done tt {| before := before e; bfd := set_thread_out (Some d) (bfd e);
                 after := after e; glob := g' |}
    /\ 3 * local_tx_intv (bfd e) <= 4 * d
    /\ d <= local_tx_intv (bfd e)
    /\ (local_detect_mult (bfd e) <> 0 ->
        d <= local_tx_intv (bfd e) - local_tx_intv (bfd e) / 10).
Proof.
  intros Hn HI.
  unfold bfd_sender_schedule, rand_intv, bind, load, assert, rand, ret,
    store.
  cbn [bfd before after glob with_bfd with_glob].
  rewrite Hn. cbn [is_some negb].
  rewrite mul_double_u32_tenth, mul_double_u32_quarter by exact HI.
  set (I := local_tx_intv (bfd e)) in *.
  set (r := rand_src (glob e) (rand_pos (glob e))).
  set (lo := if negb (local_detect_mult (bfd e) =? 0) then I / 10 else 0).
  assert (Hlo : 0 <= lo <= I / 4).
  { subst lo. destruct (negb _); [|split; [lia|apply Z.div_pos; lia]].
    split; [apply Z.div_pos; lia|].
    apply Z.div_le_lower_bound; [lia|].
    pose proof (Z.mul_div_le I 10 ltac:(lia)). lia. }
  pose proof (Z.mod_pos_bound r (I / 4 - lo + 1) ltac:(lia)) as Hm.
  pose proof (Z.mul_div_le I 4 ltac:(lia)) as H4.
  set (j := lo + r mod (I / 4 - lo + 1)) in *.
  assert (Hj : lo <= j <= I / 4) by (subst j; lia).
  assert (Hu : u32 j = j) by (unfold u32; apply Z.mod_small; lia).
  rewrite Hu.
  assert (Hd : u32 (I - j) = I - j) by (unfold u32; apply Z.mod_small; lia).
  rewrite Hd.
  eexists _, _. split; [reflexivity|].
  repeat split; [lia|lia|].
  intros Hmult. subst lo.
  apply Z.eqb_neq in Hmult. rewrite Hmult in Hj. cbn [negb] in Hj. lia.
Qed.

(** C8 does not hold of the code.  With [local_tx_intv] 10001 and
    multiplier 1 the smallest jitter is [(u_int32_t) (10001 * 0.1)], which
    is 1000; when the draw gives that, the transmitter is armed with 9001,
    more than nine tenths of the interval. *)
Theorem jitter_above_ninety_percent :
  local_detect_mult peer_mult1 = 1
  /\ local_tx_intv peer_mult1 = 10001
  /\ match bfd_sender_schedule (env_of peer_mult1 0) with
     | Done _ e' => thread_out (bfd e') = Some 9001
     | _ => False
     end
  /\ within_percent 75 100 9001 10001
  /\ ~ within_percent 75 90 9001 10001.
Proof.
  split; [reflexivity|]. split; [reflexivity|].
  split; [vm_compute; reflexivity|].
  unfold within_percent. lia.
Qed.

(** * The reset timer *)

Lemma candidate_range g k : 1 <= candidate g k <= UINT32_MAX.
Proof.
  unfold candidate, UINT32_MAX.
  pose proof (Z.mod_pos_bound (rand_src g (rand_pos g + k)%nat)
                (2 ^ 32 - 1 - 1 + 1) ltac:(lia)).
  lia.
Qed.

Lemma existsb_discr_false d l :
  unused d l -> existsb (fun b => local_discr b =? d) l = false.
Proof.
  intros H. induction l as [|a l IH]; [reflexivity|].
  cbn. rewrite IH by (intros o Ho; apply H; right; exact Ho).
  destruct (Z.eqb_spec (local_discr a) d) as [E|]; [|reflexivity].
  exfalso. apply (H a); [left; reflexivity|exact E].
Qed.

(** Rejection sampling ends as soon as a candidate is free, and returns
    a free one. *)
Lemma get_random_discr_fits rounds : forall e k,
  (k < rounds)%nat ->
  local_discr (bfd e) = 0 ->
  unused (candidate (glob e) k) (before e ++ after e) ->
  exists d g',
    bfd_get_random_discr rounds e
    = Done d {| before := before e; bfd := bfd e; after := after e;
                glob := g' |}
    /\ 1 <= d <= UINT32_MAX
    /\ unused d (before e ++ after e).
Proof.
  induction rounds as [|n IH]; intros e k Hk H0 Hfree; [lia|].
  cbn [bfd_get_random_discr].
  unfold bind at 1. rewrite rand_intv_run.
  unfold bfd_data. cbn [bfd before after glob with_glob].
  assert (Ec : 1 + rand_src (glob e) (rand_pos (glob e))
                     mod (UINT32_MAX - 1 + 1)
               = candidate (glob e) 0).
  { unfold candidate. rewrite Nat.add_0_r. reflexivity. }
  rewrite Ec.
  destruct (existsb (fun b => local_discr b =? candidate (glob e) 0)
              (before e ++ bfd e :: after e)) eqn:Ex.
  - destruct k as [|k].
    + exfalso. rewrite existsb_discr_false in Ex; [discriminate|].
      intros o Ho. apply in_app_or in Ho.
      destruct Ho as [Ho | [<- | Ho]].
      * apply Hfree, in_or_app; left; exact Ho.
      * pose proof (candidate_range (glob e) 0). lia.
      * apply Hfree, in_or_app; right; exact Ho.
    + match goal with
      | |- context [bfd_get_random_discr n ?e1] =>
          destruct (IH e1 k) as (d & g' & Hrun & Hd & Hu)
      end.
      * lia.
      * exact H0.
      * unfold unused, candidate in *.
        cbn [bfd before after glob with_glob rand_src rand_pos].
        replace (S (rand_pos (glob e)) + k)%nat
          with (rand_pos (glob e) + S k)%nat by lia.
        exact Hfree.
      * exists d, g'. split; [exact Hrun|]. split; [exact Hd|exact Hu].
  - eexists _, _. split; [reflexivity|].
    split; [apply candidate_range|].
    intros o Ho E.
    assert (Hin : In o (before e ++ bfd e :: after e)).
    { apply in_app_or in Ho. apply in_or_app.
      destruct Ho; [left|right; right]; assumption. }
    assert (Et : existsb (fun b => local_discr b =? candidate (glob e) 0)
                   (before e ++ bfd e :: after e) = true).
    { apply existsb_exists. exists o. split; [exact Hin|].
      apply Z.eqb_eq. exact E. }
    congruence.
Qed.

(** C9, as the code has it: when the reset timer fires, the thread
    returns (given a free candidate within the rounds allowed) with a new
    local discriminator that is not zero and belongs to no other session,
    [local_tx_intv] at [local_idle_tx_intv], the local state Down and no
    reset timer; the remote discriminator, diagnostic, intervals, demand
    flag and detect multiplier are zero, and the remote state is Down, the
    value [bfd0] gives it, which is 1 and not zero. *)
Theorem reset_thread_reinitialises rounds e :
  is_some (thread_rst (bfd e)) = true ->
  (exists k, (k < rounds)%nat
             /\ unused (candidate (glob e) k) (before e ++ after e)) ->
  exists b' g',
    bfd_reset_thread rounds e
    = Done tt {| before := before e; bfd := b'; after := after e;
                 glob := g' |}
    /\ (1 <= local_discr b' <= UINT32_MAX
        /\ unused (local_discr b') (before e ++ after e))
    /\ (remote_state b' = BFD_STATE_DOWN
        /\ remote_diag b' = 0
        /\ remote_discr b' = 0
        /\ remote_min_tx_intv b' = 0
        /\ remote_min_rx_intv b' = 0
        /\ remote_tx_intv b' = 0
        /\ remote_detect_time b' = 0
        /\ remote_demand b' = 0
        /\ remote_detect_mult b' = 0)
    /\ local_tx_intv b' = local_idle_tx_intv (bfd e)
    /\ local_state b' = BFD_STATE_DOWN
    /\ thread_rst b' = None.
Proof.
  intros Hs (k & Hk & Hfree).
  unfold bfd_reset_thread, bfd_init_state, bind, load, assert, store.
  cbn [bfd before after glob with_bfd].
  rewrite Hs.
  match goal with
  | |- context [bfd_get_random_discr rounds ?e1] =>
      destruct (get_random_discr_fits rounds e1 k Hk eq_refl Hfree)
        as (d & g' & Hrun & Hd & Hu)
  end.
  rewrite Hrun. cbn [bfd before after glob].
  eexists _, g'. split; [reflexivity|].
  assert (Ed : u32 d = d).
  { unfold u32. apply Z.mod_small. unfold UINT32_MAX in Hd. lia. }
  cbn. rewrite Ed. repeat split; try tauto; lia.
Qed.

Lemma reset_thread_reinitialises_witness :
  exists b' g',
    bfd_reset_thread 2 (env_two peer_stale)
    = Done tt {| before := []; bfd := b'; after := [peer_b]; glob := g' |}
    /\ (1 <= local_discr b' <= UINT32_MAX
        /\ unused (local_discr b') [peer_b])
    /\ (remote_state b' = BFD_STATE_DOWN
        /\ remote_diag b' = 0
        /\ remote_discr b' = 0
        /\ remote_min_tx_intv b' = 0
        /\ remote_min_rx_intv b' = 0
        /\ remote_tx_intv b' = 0
        /\ remote_detect_time b' = 0
        /\ remote_demand b' = 0
        /\ remote_detect_mult b' = 0)
    /\ local_tx_intv b' = 1000000
    /\ local_state b' = BFD_STATE_DOWN
    /\ thread_rst b' = None.
Proof.
  apply (reset_thread_reinitialises 2 (env_two peer_stale)).
  - reflexivity.
  - exists 1%nat. split; [lia|].
    intros o [<- | []]. vm_compute. discriminate.
Defined.

(** C9 fails as stated: after the reset the remote state is not zero. *)
Lemma remote_state_zero_counterexample :
  is_some (thread_rst peer_stale) = true
  /\ local_state peer_stale = BFD_STATE_DOWN
  /\ match bfd_reset_thread 1 (env_of peer_stale 0) with
     | Done _ e' => remote_state (bfd e') = 1
     | _ => False
     end
  /\ 1 <> 0.
Proof. vm_compute. repeat split. discriminate. Qed.

(** * Configuration handlers *)

Lemma on_tail_id w b :
  LIST_TAIL_DATA w = Some b -> on_tail (fun x => x) w = Done tt w.
Proof.
  unfold LIST_TAIL_DATA, on_tail. destruct w as [l g]. cbn [bfd_list w_glob].
  destruct (rev l) as [|x r] eqn:E; [discriminate|]. intros _.
  replace (rev r ++ [x]) with l; [reflexivity|].
  rewrite <- (rev_involutive l), E. reflexivity.
Qed.

(** The conversion to [int] gives an [int], and leaves one as it is. *)
Lemma to_int_range z : INT_MIN <= to_int z <= INT_MAX.
Proof.
  unfold to_int, INT_MIN, INT_MAX. cbn zeta.
  pose proof (Z.mod_pos_bound z (2 ^ 32) ltac:(lia)) as Hm.
  destruct (Z.ltb_spec (z mod 2 ^ 32) (2 ^ 31)); lia.
Qed.

Lemma to_int_fits z : INT_MIN <= z <= INT_MAX -> to_int z = z.
Proof.
  unfold to_int, INT_MIN, INT_MAX. cbn zeta. intros Hz.
  destruct (Z.ltb_spec (z mod 2 ^ 32) (2 ^ 31)) as [Hlt | Hge].
  - destruct (Z.le_gt_cases 0 z) as [Hp | Hn].
    + apply Z.mod_small. lia.
    + exfalso.
      assert (E : z mod 2 ^ 32 = z + 2 ^ 32).
      { symmetry. apply (Z.mod_unique z (2 ^ 32) (-1)); lia. }
      lia.
  - destruct (Z.le_gt_cases 0 z) as [Hp | Hn].
    + exfalso. rewrite Z.mod_small in Hge by lia. lia.
    + assert (E : z mod 2 ^ 32 = z + 2 ^ 32).
      { symmetry. apply (Z.mod_unique z (2 ^ 32) (-1)); lia. }
      lia.
Qed.

(** [atoi] of a numeral that fits an [int] is the numeral's value. *)
Lemma atoi_fits s :
  INT_MIN <= numeral s <= INT_MAX -> atoi s = numeral s.
Proof.
  intros Hn. unfold atoi, strtol.
  assert (E : Z.max LONG_MIN (Z.min LONG_MAX (numeral s)) = numeral s)
    by (unfold INT_MIN, INT_MAX, LONG_MIN, LONG_MAX in *; lia).
  rewrite E. apply to_int_fits. exact Hn.
Qed.

(** C10, as the code has it: a [min_rx], [min_tx], [idle_tx] or
    [multiplier] value outside its range is reported and ignored, the
    value being the [int] that [atoi] makes of the argument, which is the
    number written whenever that fits an [int].  The handler returns and
    the registry is as before: the instance keeps the value it had and is
    not disabled. *)
Theorem out_of_range_value_ignored strvec slot w b :
  vector_slot strvec 1 = Some slot ->
  LIST_TAIL_DATA w = Some b ->
  let value := atoi slot in
  INT_MIN <= value <= INT_MAX
  /\ (INT_MIN <= numeral slot <= INT_MAX -> value = numeral slot)
  /\ (value < BFD_MINRX_MIN \/ BFD_MINRX_MAX < value ->
      bfd_minrx_handler strvec w = Done tt w)
  /\ (value < BFD_MINTX_MIN \/ BFD_MINTX_MAX < value ->
      bfd_mintx_handler strvec w = Done tt w)
  /\ (value < BFD_IDLETX_MIN \/ BFD_IDLETX_MAX < value ->
      bfd_idletx_handler strvec w = Done tt w)
  /\ (value < BFD_MULTIPLIER_MIN \/ BFD_MULTIPLIER_MAX < value ->
      bfd_multiplier_handler strvec w = Done tt w).
Proof.
  intros Hslot Htail. cbn zeta.
  split; [apply to_int_range|]. split; [apply atoi_fits|].
  unfold bfd_minrx_handler, bfd_mintx_handler, bfd_idletx_handler,
    bfd_multiplier_handler.
  rewrite Hslot.
  repeat split; intros Hv;
    match goal with
    | |- on_tail (fun b => if ?c then _ else _) _ = _ =>
        replace c with true
          by (symmetry; apply orb_true_iff;
              destruct Hv; [left; apply Z.ltb_lt | right; apply Z.gtb_lt];
              lia)
    end;
    exact (on_tail_id w b Htail).
Qed.

Lemma out_of_range_value_ignored_witness :
  bfd_minrx_handler ["min_rx"; "0"]%string (world_of peer)
  = Done tt (world_of peer)
  /\ bfd_multiplier_handler ["multiplier"; "11"]%string (world_of peer)
     = Done tt (world_of peer).
Proof.
  destruct (out_of_range_value_ignored
              ["min_rx"; "0"]%string "0"%string (world_of peer) peer
              eq_refl eq_refl) as (_ & _ & Hrx & _ & _ & _).
  destruct (out_of_range_value_ignored
              ["multiplier"; "11"]%string "11"%string (world_of peer) peer
              eq_refl eq_refl) as (_ & _ & _ & _ & _ & Hmul).
  split.
  - apply Hrx. left. vm_compute. reflexivity.
  - apply Hmul. right. vm_compute. reflexivity.
Defined.

(** A number that does not fit an [int] is not the value the handler
    tests: where [long] has 64 bits, [multiplier 4294967299] is read as 3
    and stored. *)
Lemma multiplier_beyond_int :
  numeral "4294967299" = 4294967299
  /\ atoi "4294967299" = 3
  /\ match
       bfd_multiplier_handler ["multiplier"; "4294967299"]%string
         (world_of peer)
     with
     | Done _ w' => map local_detect_mult (bfd_list w') = [3]
     | _ => False
     end.
Proof. vm_compute. repeat split. Qed.

(** C10 fails as stated: [min_rx 0] is out of range, the handler
    returns, and the instance is not disabled. *)
Lemma out_of_range_disables_counterexample :
  atoi "0" < BFD_MINRX_MIN
  /\ disabled peer = 0
  /\ match bfd_minrx_handler ["min_rx"; "0"]%string (world_of peer) with
     | Done _ w' => map disabled (bfd_list w') = [0]
     | _ => False
     end.
Proof. vm_compute. repeat split. Qed.

(** * Exact runs

    The handlers once more, this time with what they leave in the event
    pipe, on the ready queue, on the wire and in the generator. *)

(** ** Rules for [postg] *)

Lemma postg_ret {A} (a : A) e (Q : A -> bfd_t -> globals -> Prop) :
  Q a (bfd e) (glob e) -> postg (ret a) e Q.
Proof. intros H. exists a, (bfd e), (glob e). destruct e; auto. Qed.

Lemma postg_bind {A B} (m : M A) (k : A -> M B) e
    (Q : B -> bfd_t -> globals -> Prop) :
  postg m e (fun a b1 g1 =>
               postg (k a) {| before := before e; bfd := b1;
                              after := after e; glob := g1 |} Q) ->
  postg (bind m k) e Q.
Proof.
  intros (a & b1 & g1 & Hm & c & b2 & g2 & Hk & HQ).
  exists c, b2, g2. unfold bind. rewrite Hm. auto.
Qed.

Lemma postg_load e (Q : bfd_t -> bfd_t -> globals -> Prop) :
  Q (bfd e) (bfd e) (glob e) -> postg load e Q.
Proof. intros H. exists (bfd e), (bfd e), (glob e). destruct e; auto. Qed.

Lemma postg_store f e (Q : unit -> bfd_t -> globals -> Prop) :
  Q tt (f (bfd e)) (glob e) -> postg (store f) e Q.
Proof. intros H. exists tt, (f (bfd e)), (glob e). auto. Qed.

Lemma postg_assert c e (Q : unit -> bfd_t -> globals -> Prop) :
  c = true -> Q tt (bfd e) (glob e) -> postg (assert c) e Q.
Proof.
  intros -> H. exists tt, (bfd e), (glob e). destruct e; auto.
Qed.

Lemma postg_when (c : bool) m e (Q : unit -> bfd_t -> globals -> Prop) :
  (c = true -> postg m e Q) -> (c = false -> Q tt (bfd e) (glob e)) ->
  postg (when c m) e Q.
Proof.
  destruct c; intros H1 H2; cbn; [auto|]. apply postg_ret; auto.
Qed.

Lemma postg_timer_now e (Q : Z -> bfd_t -> globals -> Prop) :
  Q (time_now (glob e)) (bfd e) (glob e) -> postg timer_now e Q.
Proof.
  intros H. exists (time_now (glob e)), (bfd e), (glob e).
  destruct e; auto.
Qed.

Lemma postg_rand e (Q : Z -> bfd_t -> globals -> Prop) :
  Q (rand_src (glob e) (rand_pos (glob e))) (bfd e) (g_drawn (glob e)) ->
  postg rand e Q.
Proof. intros H. eexists _, (bfd e), _. split; [reflexivity|exact H]. Qed.

Lemma postg_pipe_write evt e (Q : unit -> bfd_t -> globals -> Prop) :
  Q tt (bfd e) (g_event evt (glob e)) -> postg (pipe_write evt) e Q.
Proof. intros H. eexists tt, (bfd e), _. split; [reflexivity|exact H]. Qed.

Lemma postg_thread_add_event_sender e
    (Q : unit -> bfd_t -> globals -> Prop) :
  Q tt (bfd e) (g_ready (iname (bfd e)) (glob e)) ->
  postg thread_add_event_sender e Q.
Proof. intros H. eexists tt, (bfd e), _. split; [reflexivity|exact H]. Qed.

Lemma postg_wire_put p e (Q : unit -> bfd_t -> globals -> Prop) :
  Q tt (bfd e) (g_sent p (glob e)) -> postg (wire_put p) e Q.
Proof. intros H. eexists tt, (bfd e), _. split; [reflexivity|exact H]. Qed.

Lemma postg_done {A} (m : M A) e (Q : A -> bfd_t -> globals -> Prop) a e' :
  postg m e Q -> m e = Done a e' -> Q a (bfd e') (glob e').
Proof.
  intros (a0 & b & g & Hrun & HQ) H. rewrite Hrun in H.
  inversion H; subst. exact HQ.
Qed.

Ltac xp_prim :=
  first
    [ apply postg_load | apply postg_store | apply postg_timer_now
    | apply postg_rand | apply postg_pipe_write
    | apply postg_thread_add_event_sender | apply postg_wire_put
    | apply postg_ret ].

Ltac xp_step :=
  lazymatch goal with
  | |- postg (bind _ _) _ _ => apply postg_bind
  | |- postg _ _ _ => xp_prim
  end; cbn [bfd before after glob].

(** Two sessions are the same field by field, under the facts on timer
    handles at hand. *)
Ltac same_session :=
  unfold fall_of, down_of, rise_of, bitfield;
  repeat match goal with
         | |- context [bfd ?e] => destruct (bfd e)
         end;
  cbn in *;
  repeat match goal with
         | H : context [is_some ?o] |- _ =>
             destruct o; cbn in H; try discriminate H; clear H
         end;
  subst; reflexivity.

(** Closes [Q tt X G] from [HQ : Q tt Y G] when [X] and [Y] are the same
    session. *)
Ltac close_as HQ :=
  lazymatch goal with
  | |- ?Q ?u ?X ?G =>
      lazymatch type of HQ with
      | _ _ ?Y _ =>
          replace X with Y; [exact HQ|]; same_session
      end
  end.

Lemma xp_sender_schedule e (Q : unit -> bfd_t -> globals -> Prop) :
  thread_out (bfd e) = None ->
  Q tt (fst (x_schedule (bfd e) (glob e))) (snd (x_schedule (bfd e) (glob e))) ->
  postg bfd_sender_schedule e Q.
Proof.
  intros Hn HQ. unfold bfd_sender_schedule, rand_intv.
  xp_step. xp_step. xp_step.
  apply postg_assert; [rewrite Hn; reflexivity|].
  repeat xp_step. exact HQ.
Qed.

Lemma xp_sender_cancel e (Q : unit -> bfd_t -> globals -> Prop) :
  is_some (thread_out (bfd e)) = true ->
  Q tt (set_thread_out None (bfd e)) (glob e) ->
  postg bfd_sender_cancel e Q.
Proof.
  intros Hs HQ. unfold bfd_sender_cancel.
  xp_step. xp_step. xp_step. apply postg_assert; [exact Hs|].
  xp_step. exact HQ.
Qed.

Lemma xp_sender_reschedule e (Q : unit -> bfd_t -> globals -> Prop) :
  is_some (thread_out (bfd e)) = true ->
  Q tt (fst (x_schedule (bfd e) (glob e)))
    (snd (x_schedule (bfd e) (glob e))) ->
  postg bfd_sender_reschedule e Q.
Proof.
  intros Hs HQ. unfold bfd_sender_reschedule.
  xp_step. apply xp_sender_cancel; [exact Hs|].
  apply xp_sender_schedule; [reflexivity|]. exact HQ.
Qed.

Lemma xp_sender_scheduled e (Q : bool -> bfd_t -> globals -> Prop) :
  Q (is_some (thread_out (bfd e))) (bfd e) (glob e) ->
  postg bfd_sender_scheduled e Q.
Proof. intros HQ. unfold bfd_sender_scheduled. repeat xp_step. exact HQ. Qed.

Lemma xp_expire_scheduled e (Q : bool -> bfd_t -> globals -> Prop) :
  Q (is_some (thread_exp (bfd e))) (bfd e) (glob e) ->
  postg bfd_expire_scheduled e Q.
Proof. intros HQ. unfold bfd_expire_scheduled. repeat xp_step. exact HQ. Qed.

Lemma xp_reset_scheduled e (Q : bool -> bfd_t -> globals -> Prop) :
  Q (is_some (thread_rst (bfd e))) (bfd e) (glob e) ->
  postg bfd_reset_scheduled e Q.
Proof. intros HQ. unfold bfd_reset_scheduled. repeat xp_step. exact HQ. Qed.

Lemma xp_expire_schedule e (Q : unit -> bfd_t -> globals -> Prop) :
  thread_exp (bfd e) = None ->
  Q tt (set_thread_exp (Some (local_detect_time (bfd e))) (bfd e))
    (glob e) ->
  postg bfd_expire_schedule e Q.
Proof.
  intros Hn HQ. unfold bfd_expire_schedule.
  xp_step. xp_step. xp_step.
  apply postg_assert; [rewrite Hn; reflexivity|].
  xp_step. exact HQ.
Qed.

Lemma xp_expire_cancel e (Q : unit -> bfd_t -> globals -> Prop) :
  is_some (thread_exp (bfd e)) = true ->
  Q tt (set_thread_exp None (bfd e)) (glob e) ->
  postg bfd_expire_cancel e Q.
Proof.
  intros Hs HQ. unfold bfd_expire_cancel.
  xp_step. xp_step. xp_step. apply postg_assert; [exact Hs|].
  xp_step. exact HQ.
Qed.

Lemma xp_expire_reschedule e (Q : unit -> bfd_t -> globals -> Prop) :
  is_some (thread_exp (bfd e)) = true ->
  Q tt (set_thread_exp (Some (local_detect_time (bfd e))) (bfd e))
    (glob e) ->
  postg bfd_expire_reschedule e Q.
Proof.
  intros Hs HQ. unfold bfd_expire_reschedule.
  xp_step. apply xp_expire_cancel; [exact Hs|].
  apply xp_expire_schedule; [reflexivity|]. exact HQ.
Qed.

Lemma xp_reset_schedule e (Q : unit -> bfd_t -> globals -> Prop) :
  thread_rst (bfd e) = None ->
  Q tt (set_thread_rst (Some (local_detect_time (bfd e))) (bfd e))
    (glob e) ->
  postg bfd_reset_schedule e Q.
Proof.
  intros Hn HQ. unfold bfd_reset_schedule.
  xp_step. xp_step. xp_step.
  apply postg_assert; [rewrite Hn; reflexivity|].
  xp_step. exact HQ.
Qed.

Lemma xp_reset_cancel e (Q : unit -> bfd_t -> globals -> Prop) :
  is_some (thread_rst (bfd e)) = true ->
  Q tt (set_thread_rst None (bfd e)) (glob e) ->
  postg bfd_reset_cancel e Q.
Proof.
  intros Hs HQ. unfold bfd_reset_cancel.
  xp_step. xp_step. xp_step. apply postg_assert; [exact Hs|].
  xp_step. exact HQ.
Qed.

Lemma xp_event_send e (Q : unit -> bfd_t -> globals -> Prop) :
  Q tt (bfd e) (g_event (event_of (bfd e) (glob e)) (glob e)) ->
  postg bfd_event_send e Q.
Proof. intros HQ. unfold bfd_event_send. repeat xp_step. exact HQ. Qed.

Lemma xp_state_fall e (Q : unit -> bfd_t -> globals -> Prop) :
  Q tt (fall_of (bfd e)) (g_event (event_of (bfd e) (glob e)) (glob e)) ->
  postg bfd_state_fall e Q.
Proof.
  intros HQ. unfold bfd_state_fall.
  xp_step. xp_step. xp_step. apply xp_expire_scheduled.
  xp_step. apply postg_when; intros Hs.
  - apply xp_expire_cancel; [exact Hs|].
    apply xp_event_send. exact HQ.
  - apply xp_event_send. cbn [bfd glob]. close_as HQ.
Qed.

Lemma xp_state_down diag e (Q : unit -> bfd_t -> globals -> Prop) :
  BFD_VALID_DIAG diag = true ->
  thread_rst (bfd e) = None ->
  Q tt (down_of diag (bfd e))
    (g_event (event_of (down_of diag (bfd e)) (glob e)) (glob e)) ->
  postg (bfd_state_down diag) e Q.
Proof.
  intros Hd Hr HQ. unfold bfd_state_down.
  xp_step. apply postg_assert; [exact Hd|].
  do 2 (xp_step; xp_step).
  xp_step. apply xp_reset_schedule; [exact Hr|].
  apply xp_state_fall. cbn [bfd glob].
  unfold BFD_VALID_DIAG in Hd.
  replace (bitfield 5 diag) with diag
    by (unfold bitfield; rewrite Z.mod_small; [reflexivity|lia]).
  exact HQ.
Qed.

Lemma xp_state_rise e (Q : unit -> bfd_t -> globals -> Prop) :
  Q tt (rise_of (local_state (bfd e)) (bfd e))
    (g_event (event_of (bfd e) (glob e)) (glob e)) ->
  postg bfd_state_rise e Q.
Proof.
  intros HQ. unfold bfd_state_rise.
  xp_step. xp_step. xp_step. apply xp_reset_scheduled.
  xp_step. apply postg_when; intros Hr.
  - apply xp_reset_cancel; [exact Hr|].
    xp_step. apply xp_expire_scheduled.
    xp_step. apply postg_when; intros Hx.
    + apply xp_expire_schedule; cbn.
      * apply is_some_false, negb_true_iff. exact Hx.
      * apply xp_event_send. cbn [bfd glob]. close_as HQ.
    + apply xp_event_send. cbn [bfd glob]. close_as HQ.
  - xp_step. apply xp_expire_scheduled.
    xp_step. apply postg_when; intros Hx.
    + apply xp_expire_schedule; cbn.
      * apply is_some_false, negb_true_iff. exact Hx.
      * apply xp_event_send. cbn [bfd glob]. close_as HQ.
    + apply xp_event_send. cbn [bfd glob]. close_as HQ.
Qed.

Lemma xp_state_up e (Q : unit -> bfd_t -> globals -> Prop) :
  Q tt (rise_of BFD_STATE_UP (bfd e))
    (g_event (event_of (rise_of BFD_STATE_UP (bfd e)) (glob e)) (glob e)) ->
  postg bfd_state_up e Q.
Proof.
  intros HQ. unfold bfd_state_up. xp_step. xp_step.
  apply xp_state_rise. exact HQ.
Qed.

Lemma xp_state_init e (Q : unit -> bfd_t -> globals -> Prop) :
  local_state (bfd e) <> BFD_STATE_UP ->
  Q tt (rise_of BFD_STATE_INIT (bfd e))
    (g_event (event_of (rise_of BFD_STATE_INIT (bfd e)) (glob e))
       (glob e)) ->
  postg bfd_state_init e Q.
Proof.
  intros Hu HQ. unfold bfd_state_init. xp_step. xp_step.
  xp_step. apply postg_assert.
  { unfold BFD_ISUP. apply negb_true_iff, Z.eqb_neq. exact Hu. }
  xp_step. xp_step.
  apply xp_state_rise. exact HQ.
Qed.

Lemma xp_state_admindown e (Q : unit -> bfd_t -> globals -> Prop) :
  Q tt (admindown_of (bfd e))
    (g_event (event_of (admindown_of (bfd e)) (glob e)) (glob e)) ->
  postg bfd_state_admindown e Q.
Proof.
  intros HQ. unfold bfd_state_admindown.
  do 2 (xp_step; xp_step).
  xp_step. apply xp_sender_scheduled.
  xp_step. apply postg_when; intros Hs.
  - apply xp_sender_cancel; [exact Hs|].
    apply xp_state_fall. exact HQ.
  - apply xp_state_fall. cbn [bfd glob].
    rewrite <- (set_thread_out_same _ None (is_some_false _ Hs)).
    exact HQ.
Qed.

(** ** The parts of [bfd_handle_packet], with the globals *)

Lemma xp_hp_update_state hdr e (Q : unit -> bfd_t -> globals -> Prop) :
  Q tt (update_of hdr (bfd e)) (glob e) -> postg (hp_update_state hdr) e Q.
Proof.
  intros HQ. unfold hp_update_state.
  do 7 (xp_step; xp_step).
  unfold update_of in HQ.
  destruct (negb (hdr_final hdr =? 0)); cbn [when].
  - xp_step. exact HQ.
  - xp_step. exact HQ.
Qed.

Lemma xp_hp_update_timers hdr e (Q : unit -> bfd_t -> globals -> Prop) :
  Q tt (fst (x_timers hdr (bfd e) (glob e)))
    (snd (x_timers hdr (bfd e) (glob e))) ->
  postg (hp_update_timers hdr) e Q.
Proof.
  intros HQ. unfold hp_update_timers.
  xp_step. xp_step.
  assert (Hc : (negb (hdr_final hdr =? 0)
                  && (local_state (bfd e) =? BFD_STATE_UP)
                || negb (hdr_poll hdr =? 0)
                   && (local_state (bfd e) =? BFD_STATE_UP)
                || negb (local_state (bfd e) =? BFD_STATE_UP))%bool
               = recalc hdr (bfd e)).
  { unfold recalc. destruct (hdr_final hdr =? 0), (hdr_poll hdr =? 0),
      (local_state (bfd e) =? BFD_STATE_UP); reflexivity. }
  rewrite Hc. clear Hc.
  xp_step.
  assert (Hfin : forall b1,
    b1 = (if recalc hdr (bfd e)
          then bfd_update_remote_tx_intv (bfd_update_local_tx_intv (bfd e))
          else bfd e) ->
    postg
      (store (fun b => set_local_detect_time
                         (u32 (remote_detect_mult b * remote_tx_intv b)) b) ;;
       store (fun b => set_remote_detect_time
                         (u32 (local_detect_mult b * local_tx_intv b)) b) ;;
       b <- load ;;
       when (local_tx_intv b <? local_tx_intv (bfd e))
         (s <- bfd_sender_scheduled ;; when s bfd_sender_reschedule))
      {| before := before e; bfd := b1; after := after e;
         glob := glob e |} Q).
  { intros b1 Hb1.
    do 2 (xp_step; xp_step). xp_step. xp_step.
    unfold x_timers, timers_of in HQ.
    rewrite <- Hb1 in HQ. clear Hb1.
    match type of HQ with
    | context [local_tx_intv ?bt <? _] => set (bT := bt) in HQ
    end.
    match goal with
    | |- postg _ {| before := _; bfd := ?X; after := _; glob := _ |} _ =>
        change X with bT
    end.
    apply postg_when; intros Hlt.
    - xp_step. apply xp_sender_scheduled.
      apply postg_when; intros Hs; cbn [bfd glob] in Hs.
      + apply xp_sender_reschedule; [exact Hs|].
        cbn [bfd glob]. rewrite Hlt, Hs in HQ. exact HQ.
      + cbn [bfd glob]. rewrite Hlt, Hs in HQ. exact HQ.
    - cbn [bfd glob]. rewrite Hlt in HQ. exact HQ. }
  apply postg_when; intros Hc.
  - xp_step. xp_step. xp_step.
    apply Hfin. rewrite Hc. reflexivity.
  - apply Hfin. rewrite Hc. reflexivity.
Qed.

Lemma xp_hp_state_machine e (Q : unit -> bfd_t -> globals -> Prop) :
  session_ok (bfd e) ->
  local_state (bfd e) <> BFD_STATE_ADMINDOWN ->
  Q tt (fst (x_machine (bfd e) (glob e))) (snd (x_machine (bfd e) (glob e))) ->
  postg hp_state_machine e Q.
Proof.
  intros [Hrange Hrst] Hna HQ.
  unfold hp_state_machine. xp_step. xp_step.
  unfold x_machine, transition, falls, machine_of in HQ.
  cbn [fst snd] in HQ. revert HQ.
  unfold BFD_STATE_ADMINDOWN, BFD_STATE_DOWN, BFD_STATE_INIT, BFD_STATE_UP
    in *.
  destruct (Z.eqb_spec (remote_state (bfd e)) 0),
    (Z.eqb_spec (local_state (bfd e)) 1),
    (Z.eqb_spec (remote_state (bfd e)) 1),
    (Z.eqb_spec (local_state (bfd e)) 2),
    (Z.eqb_spec (remote_state (bfd e)) 2),
    (Z.eqb_spec (local_state (bfd e)) 3),
    (Z.eqb_spec (remote_state (bfd e)) 3);
    try (exfalso; lia); cbn [andb orb negb]; intros HQ;
    first [ apply xp_state_down; [reflexivity|apply Hrst; lia|exact HQ]
          | apply xp_state_init;
            [cbn [bfd]; unfold BFD_STATE_UP; lia|exact HQ]
          | apply xp_state_up; exact HQ
          | xp_step; exact HQ ].
Qed.

Lemma xp_hp_sender hdr e (Q : unit -> bfd_t -> globals -> Prop) :
  Q tt (fst (x_sender hdr (bfd e) (glob e)))
    (snd (x_sender hdr (bfd e) (glob e))) ->
  postg (hp_sender hdr) e Q.
Proof.
  intros HQ. unfold hp_sender.
  xp_step. xp_step. xp_step.
  unfold x_sender in HQ.
  fold (demand_quiet (bfd e)).
  assert (Hpoll : forall b1 g1,
    Q tt (fst (x_poll hdr b1 g1)) (snd (x_poll hdr b1 g1)) ->
    postg (when (negb (hdr_poll hdr =? 0))
             (store (set_final 1) ;; thread_add_event_sender))
      {| before := before e; bfd := b1; after := after e; glob := g1 |} Q).
  { intros b1 g1 H. unfold x_poll in H.
    destruct (negb (hdr_poll hdr =? 0)); cbn [when].
    - xp_step. xp_step. xp_step. exact H.
    - xp_step. exact H. }
  assert (Hneg : forall b1,
    remote_demand b1 = remote_demand (bfd e) ->
    local_state b1 = local_state (bfd e) ->
    remote_state b1 = remote_state (bfd e) ->
    ((remote_demand b1 =? 0)
     || negb (local_state b1 =? BFD_STATE_UP)
     || negb (remote_state b1 =? BFD_STATE_UP))%bool
    = negb (demand_quiet (bfd e))).
  { intros b1 -> -> ->. unfold demand_quiet.
    destruct (remote_demand (bfd e) =? 0),
      (local_state (bfd e) =? BFD_STATE_UP),
      (remote_state (bfd e) =? BFD_STATE_UP); reflexivity. }
  destruct (demand_quiet (bfd e)) eqn:Hd; cbn [when].
  - (* silence *)
    xp_step. apply xp_sender_scheduled.
    apply postg_when; intros Hs.
    + apply xp_sender_cancel; [exact Hs|].
      xp_step. xp_step. rewrite Hneg by reflexivity. cbn [negb when].
      xp_step. xp_step. apply Hpoll. exact HQ.
    + cbn [bfd glob] in *. xp_step. xp_step.
      rewrite Hneg by reflexivity. cbn [negb when].
      xp_step. xp_step. apply Hpoll.
      rewrite (set_thread_out_same (bfd e) None (is_some_false _ Hs))
        in HQ.
      exact HQ.
  - xp_step. xp_step. xp_step. rewrite Hneg by reflexivity.
    cbn [negb when].
    xp_step. xp_step. apply xp_sender_scheduled. cbn [bfd glob].
    destruct (is_some (thread_out (bfd e))) eqn:Hs; cbn [negb when].
    + xp_step. apply Hpoll. exact HQ.
    + apply xp_sender_schedule; [apply is_some_false; exact Hs|].
      apply Hpoll. exact HQ.
Qed.

Lemma xp_hp_last_seen e (Q : unit -> bfd_t -> globals -> Prop) :
  Q tt (fst (x_last_seen (bfd e) (glob e)))
    (snd (x_last_seen (bfd e) (glob e))) ->
  postg hp_last_seen e Q.
Proof.
  intros HQ. unfold hp_last_seen.
  xp_step. xp_step. xp_step. xp_step.
  xp_step. apply xp_expire_scheduled.
  unfold x_last_seen in HQ. cbn [fst snd] in HQ.
  apply postg_when; intros Hx; cbn [bfd glob] in *; rewrite Hx in HQ.
  - apply xp_expire_reschedule; [exact Hx|]. exact HQ.
  - exact HQ.
Qed.

(** The stores of each part, whatever is stored: every other member of
    the session is as before. *)
Lemma update_of_shape hdr b :
  exists p,
    update_of hdr b
    = set_poll p
        (set_remote_detect_mult (hdr_detect_mult hdr)
           (set_remote_demand (hdr_demand hdr)
              (set_remote_min_tx_intv (ntohl (hdr_min_tx_intv hdr))
                 (set_remote_min_rx_intv (ntohl (hdr_min_rx_intv hdr))
                    (set_remote_diag (hdr_diag hdr)
                       (set_remote_state (hdr_state hdr)
                          (set_remote_discr (ntohl (hdr_local_discr hdr))
                             b)))))))
    /\ p = (if negb (hdr_final hdr =? 0) then 0 else poll b).
Proof.
  unfold update_of. destruct (negb (hdr_final hdr =? 0)).
  - exists 0. split; reflexivity.
  - exists (poll b). split; [|reflexivity].
    destruct b; reflexivity.
Qed.

Lemma timers_of_shape hdr b :
  exists i r,
    timers_of hdr b
    = set_remote_detect_time (u32 (local_detect_mult b * i))
        (set_local_detect_time (u32 (remote_detect_mult b * r))
           (set_remote_tx_intv r (set_local_tx_intv i b)))
    /\ i = local_tx_intv (timers_of hdr b)
    /\ r = remote_tx_intv (timers_of hdr b).
Proof.
  unfold timers_of. destruct (recalc hdr b).
  - eexists _, _. split; [reflexivity|split; reflexivity].
  - exists (local_tx_intv b), (remote_tx_intv b).
    split; [destruct b; reflexivity|split; reflexivity].
Qed.

Lemma machine_of_shape b :
  exists s d r x i,
    machine_of b
    = set_thread_exp x
        (set_local_tx_intv i
           (set_thread_rst r (set_local_diag d (set_local_state s b)))).
Proof.
  destruct (machine_of_cases b) as [E | [[E _] | (s & _ & _ & E)]];
    rewrite E.
  - exists (local_state b), (local_diag b), (thread_rst b), (thread_exp b),
      (local_tx_intv b). destruct b; reflexivity.
  - eexists _, _, _, _, _. reflexivity.
  - exists s, BFD_DIAG_NO_DIAG, None,
      (Some (match thread_exp b with
             | Some d => d
             | None => local_detect_time b
             end)), (local_tx_intv b).
    unfold rise_of. destruct b; reflexivity.
Qed.

Lemma x_timers_shape hdr b g :
  exists t,
    fst (x_timers hdr b g) = set_thread_out t (timers_of hdr b)
    /\ (is_some t = true <-> is_some (thread_out b) = true).
Proof.
  unfold x_timers.
  destruct (timers_of_shape hdr b) as (i & r & E & _).
  assert (Ht : thread_out (timers_of hdr b) = thread_out b)
    by (rewrite E; reflexivity).
  destruct ((local_tx_intv (timers_of hdr b) <? local_tx_intv b)
            && is_some (thread_out (timers_of hdr b))) eqn:Hc.
  - eexists. split; [reflexivity|]. cbn.
    apply andb_true_iff in Hc. rewrite <- Ht. tauto.
  - exists (thread_out (timers_of hdr b)). split.
    + symmetry. apply set_thread_out_same. reflexivity.
    + rewrite Ht. tauto.
Qed.

(** An accepted packet, on the session it is for. *)
Lemma xp_handle_packet_session pkt e
    (Q : unit -> bfd_t -> globals -> Prop) :
  hdr_auth (pkt_hdr pkt) = 0 ->
  local_state (bfd e) <> BFD_STATE_ADMINDOWN ->
  session_ok (bfd e) ->
  Q tt (fst (x_handle (pkt_hdr pkt) (bfd e) (glob e)))
    (snd (x_handle (pkt_hdr pkt) (bfd e) (glob e))) ->
  postg (bfd_handle_packet_session pkt) e Q.
Proof.
  intros Ha Hna Hok HQ. unfold bfd_handle_packet_session.
  xp_step. xp_step.
  rewrite Ha. cbn [Z.eqb negb].
  apply Z.eqb_neq in Hna. rewrite Hna.
  apply Z.eqb_neq in Hna.
  unfold x_handle in HQ. cbn zeta in HQ.
  xp_step. apply xp_hp_update_state.
  xp_step. apply xp_hp_update_timers.
  destruct (update_of_frame (pkt_hdr pkt) (bfd e)) as (U1 & _ & U3 & _).
  destruct (timers_of_frame (pkt_hdr pkt) (update_of (pkt_hdr pkt) (bfd e)))
    as (T1 & _ & T3 & _).
  destruct (x_timers_shape (pkt_hdr pkt) (update_of (pkt_hdr pkt) (bfd e))
              (glob e)) as (t & Et & _).
  xp_step. apply xp_hp_state_machine.
  - cbn [bfd glob fst snd x_update]. rewrite Et.
    destruct Hok as [Hr Hrst].
    split; cbn [local_state thread_rst set_thread_out];
      rewrite T1, U1; [exact Hr|].
    intros H. rewrite T3, U3. auto.
  - cbn [bfd glob fst snd x_update]. rewrite Et.
    cbn [local_state set_thread_out]. rewrite T1, U1. exact Hna.
  - xp_step. apply xp_hp_sender. apply xp_hp_last_seen.
    cbn [bfd glob]. exact HQ.
Qed.

(** ** An accepted packet, member by member *)

Lemma x_sender_shape hdr b g :
  exists t,
    fst (x_sender hdr b g)
    = set_final (if negb (hdr_poll hdr =? 0) then 1 else final b)
        (set_thread_out t b)
    /\ is_some t = negb (demand_quiet b).
Proof.
  unfold x_sender, x_poll, x_schedule.
  destruct (demand_quiet b); [|destruct (is_some (thread_out b)) eqn:Hs];
    destruct (negb (hdr_poll hdr =? 0)); cbn [fst snd negb];
    eexists; (split; [|try reflexivity]);
    try reflexivity.
  all: try (symmetry; apply set_final_same; reflexivity).
  all: try exact Hs.
  all: destruct b; reflexivity.
Qed.

Lemma x_last_seen_shape b g :
  fst (x_last_seen b g)
  = set_thread_exp
      (if is_some (thread_exp b) then Some (local_detect_time b) else None)
      (set_last_seen (time_now g) b)
  /\ snd (x_last_seen b g) = g.
Proof.
  unfold x_last_seen. cbn [fst snd]. split; [|reflexivity].
  change (thread_exp (set_last_seen (time_now g) b)) with (thread_exp b).
  destruct (thread_exp b) eqn:E; cbn [is_some]; [reflexivity|].
  symmetry. apply set_thread_exp_same. exact E.
Qed.

Lemma x_schedule_globals b g : same_but_draws g (snd (x_schedule b g)).
Proof. repeat split. Qed.

Lemma x_timers_globals hdr b g : same_but_draws g (snd (x_timers hdr b g)).
Proof.
  unfold x_timers.
  destruct ((local_tx_intv (timers_of hdr b) <? local_tx_intv b)
            && is_some (thread_out (timers_of hdr b))); repeat split.
Qed.

Lemma x_machine_globals b g :
  bfd_event_pipe (snd (x_machine b g))
  = bfd_event_pipe g
    ++ (if transition b then [event_of (machine_of b) g] else [])
  /\ master_events (snd (x_machine b g)) = master_events g
  /\ wire (snd (x_machine b g)) = wire g
  /\ time_now (snd (x_machine b g)) = time_now g
  /\ rand_src (snd (x_machine b g)) = rand_src g.
Proof.
  unfold x_machine. cbn [snd].
  destruct (transition b); cbn; rewrite ?app_nil_r; repeat split.
Qed.

Lemma x_sender_globals hdr b g :
  bfd_event_pipe (snd (x_sender hdr b g)) = bfd_event_pipe g
  /\ master_events (snd (x_sender hdr b g))
     = master_events g
       ++ (if negb (hdr_poll hdr =? 0) then [iname b] else [])
  /\ wire (snd (x_sender hdr b g)) = wire g
  /\ time_now (snd (x_sender hdr b g)) = time_now g
  /\ rand_src (snd (x_sender hdr b g)) = rand_src g.
Proof.
  unfold x_sender, x_poll, x_schedule.
  destruct (demand_quiet b); [|destruct (is_some (thread_out b))];
    destruct (negb (hdr_poll hdr =? 0)); cbn;
    rewrite ?app_nil_r; repeat split.
Qed.

(** The session an accepted packet leaves: what the packet said, the
    intervals and detection times, the move of the state machine, and then
    the transmitter, Final, [last_seen] and the expiration timer. *)
Lemma x_handle_shape hdr b g :
  exists t1 t2,
    let bM := machine_of (set_thread_out t1
                            (timers_of hdr (update_of hdr b))) in
    fst (x_handle hdr b g)
    = set_thread_exp
        (if is_some (thread_exp bM) then Some (local_detect_time bM)
         else None)
        (set_last_seen (time_now g)
           (set_final (if negb (hdr_poll hdr =? 0) then 1 else final b)
              (set_thread_out t2 bM)))
    /\ (is_some t1 = true <-> is_some (thread_out b) = true)
    /\ is_some t2 = negb (demand_quiet bM).
Proof.
  unfold x_handle. cbn zeta. unfold x_update. cbn [fst snd].
  destruct (x_timers_shape hdr (update_of hdr b) g) as (t1 & E1 & H1).
  destruct (x_timers_globals hdr (update_of hdr b) g)
    as (_ & _ & _ & Htime & _).
  set (s2 := x_timers hdr (update_of hdr b) g) in *.
  exists t1. rewrite <- E1.
  destruct (x_machine_globals (fst s2) (snd s2)) as (_ & _ & _ & Htm & _).
  assert (Ef : final (machine_of (fst s2)) = final b).
  { rewrite E1.
    destruct (machine_of_shape
                (set_thread_out t1 (timers_of hdr (update_of hdr b))))
      as (s & d & r & x & i & ->).
    destruct (timers_of_shape hdr (update_of hdr b))
      as (i' & r' & -> & _).
    destruct (update_of_shape hdr b) as (p & -> & _). reflexivity. }
  change (fst (x_machine (fst s2) (snd s2))) with (machine_of (fst s2)).
  remember (machine_of (fst s2)) as bM eqn:EbM.
  remember (snd (x_machine (fst s2) (snd s2))) as g3 eqn:Eg3.
  destruct (x_sender_shape hdr bM g3) as (t2 & E2 & H2).
  destruct (x_sender_globals hdr bM g3) as (_ & _ & _ & Hts & _).
  exists t2. cbn zeta.
  destruct (x_last_seen_shape (fst (x_sender hdr bM g3))
              (snd (x_sender hdr bM g3))) as (E3 & _).
  rewrite E3, E2, Hts, Htm, Htime, Ef.
  split; [reflexivity|]. split; [|exact H2].
  destruct (update_of_shape hdr b) as (p & E & _).
  rewrite E in H1. exact H1.
Qed.

(** ** Byte order *)

Lemma testbit_255 n : Z.testbit 255 n = (0 <=? n) && (n <? 8).
Proof.
  destruct (Z.leb_spec 0 n); cbn [andb].
  - change 255 with (Z.ones 8).
    destruct (Z.ltb_spec n 8).
    + apply Z.ones_spec_low. lia.
    + apply Z.ones_spec_high. lia.
  - apply Z.testbit_neg_r. lia.
Qed.

Lemma testbit_byte_at x k s n :
  0 <= k -> 0 <= s ->
  Z.testbit (Z.shiftl (Z.land (Z.shiftr x k) 255) s) n
  = (s <=? n) && (n <? s + 8) && Z.testbit x (n - s + k).
Proof.
  intros Hk Hs. destruct (Z.leb_spec s n); cbn [andb].
  - rewrite Z.shiftl_spec by lia.
    rewrite Z.land_spec, testbit_255, Z.shiftr_spec by lia.
    replace (0 <=? n - s) with true by (symmetry; apply Z.leb_le; lia).
    cbn [andb].
    destruct (Z.ltb_spec (n - s) 8), (Z.ltb_spec n (s + 8)); try lia;
      cbn [andb]; rewrite ?andb_true_r, ?andb_false_r; reflexivity.
  - destruct (Z.leb_spec 0 n).
    + rewrite Z.shiftl_spec by lia. apply Z.testbit_neg_r. lia.
    + apply Z.testbit_neg_r. lia.
Qed.

Lemma bswap32_testbit x n :
  Z.testbit (bswap32 x) n
  = if n <? 0 then false
    else if n <? 8 then Z.testbit x (n + 24)
    else if n <? 16 then Z.testbit x (n + 8)
    else if n <? 24 then Z.testbit x (n - 8)
    else if n <? 32 then Z.testbit x (n - 24)
    else false.
Proof.
  unfold bswap32.
  rewrite <- (Z.shiftr_0_r x) at 1.
  rewrite <- (Z.shiftl_0_r (Z.land (Z.shiftr x 24) 255)).
  rewrite !Z.lor_spec, !testbit_byte_at by lia.
  destruct (Z.ltb_spec n 0), (Z.ltb_spec n 8), (Z.ltb_spec n 16),
    (Z.ltb_spec n 24), (Z.ltb_spec n 32); try lia;
    repeat match goal with
           | |- context [?a <=? ?b] =>
               first [ replace (a <=? b) with true
                         by (symmetry; apply Z.leb_le; lia)
                     | replace (a <=? b) with false
                         by (symmetry; apply Z.leb_gt; lia) ]
           | |- context [?a <? ?b] =>
               first [ replace (a <? b) with true
                         by (symmetry; apply Z.ltb_lt; lia)
                     | replace (a <? b) with false
                         by (symmetry; apply Z.ltb_ge; lia) ]
           end;
    cbn [andb orb]; rewrite ?orb_false_r; try reflexivity; f_equal; lia.
Qed.

Lemma testbit_u32_high x n :
  0 <= x < 2 ^ 32 -> 32 <= n -> Z.testbit x n = false.
Proof.
  intros Hx Hn. destruct (Z.eq_dec x 0) as [->|].
  - apply Z.testbit_0_l.
  - apply Z.bits_above_log2; [lia|].
    assert (Z.log2 x < 32) by (apply Z.log2_lt_pow2; lia). lia.
Qed.

Ltac decide_ltb :=
  repeat match goal with
         | |- context [?a <? ?b] =>
             first [ replace (a <? b) with true
                       by (symmetry; apply Z.ltb_lt; lia)
                   | replace (a <? b) with false
                       by (symmetry; apply Z.ltb_ge; lia) ]
         end.

Lemma bswap32_involutive x : 0 <= x < 2 ^ 32 -> bswap32 (bswap32 x) = x.
Proof.
  intros Hx. apply Z.bits_inj'. intros n Hn.
  rewrite bswap32_testbit.
  destruct (Z.ltb_spec n 0); [lia|].
  destruct (Z.ltb_spec n 8); [|destruct (Z.ltb_spec n 16);
    [|destruct (Z.ltb_spec n 24); [|destruct (Z.ltb_spec n 32)]]];
    try rewrite bswap32_testbit; decide_ltb.
  - f_equal. lia.
  - f_equal. lia.
  - f_equal. lia.
  - f_equal. lia.
  - symmetry. apply testbit_u32_high; assumption.
Qed.

Lemma bswap32_range x : 0 <= bswap32 x < 2 ^ 32.
Proof.
  assert (H0 : 0 <= bswap32 x).
  { destruct (Z.lt_ge_cases (bswap32 x) 0) as [Hneg|]; [|assumption].
    apply Z.bits_iff_neg_ex in Hneg. destruct Hneg as [k Hk].
    specialize (Hk (Z.max k 32 + 1) ltac:(lia)).
    rewrite bswap32_testbit in Hk. revert Hk. decide_ltb. discriminate. }
  split; [exact H0|].
  destruct (Z.eq_dec (bswap32 x) 0) as [->|Hn]; [reflexivity|].
  apply Z.log2_lt_pow2; [lia|].
  destruct (Z.lt_ge_cases (Z.log2 (bswap32 x)) 32) as [|Hge]; [assumption|].
  exfalso.
  assert (Hb : Z.testbit (bswap32 x) (Z.log2 (bswap32 x)) = true)
    by (apply Z.bit_log2; lia).
  rewrite bswap32_testbit in Hb. revert Hb. decide_ltb. discriminate.
Qed.

Lemma bswap32_zero x : 0 <= x < 2 ^ 32 -> (bswap32 x = 0 <-> x = 0).
Proof.
  intros Hx. split.
  - intros H. rewrite <- (bswap32_involutive x Hx), H. reflexivity.
  - intros ->. reflexivity.
Qed.


(** ** An accepted packet on the whole registry *)

Lemma machine_of_thread_out t b :
  machine_of (set_thread_out t b) = set_thread_out t (machine_of b).
Proof.
  unfold machine_of.
  change (local_state (set_thread_out t b)) with (local_state b).
  change (remote_state (set_thread_out t b)) with (remote_state b).
  repeat match goal with
         | |- context [if ?c then _ else _] => destruct c
         end; reflexivity.
Qed.

(** The session an accepted packet leaves, as stores over the session it
    found. *)
Lemma x_handle_normal hdr b g :
  let X := timers_of hdr (update_of hdr b) in
  exists t x,
    fst (x_handle hdr b g)
    = set_thread_exp x
        (set_last_seen (time_now g)
           (set_final (if negb (hdr_poll hdr =? 0) then 1 else final b)
              (set_thread_out t (machine_of X))))
    /\ x = (if is_some (thread_exp (machine_of X))
            then Some (local_detect_time (machine_of X)) else None)
    /\ is_some t = negb (demand_quiet (machine_of X)).
Proof.
  cbn zeta. destruct (x_handle_shape hdr b g) as (t1 & t2 & E & _ & H2).
  cbn zeta in E, H2. rewrite machine_of_thread_out in E, H2.
  exists t2. eexists. split; [|split; [reflexivity|exact H2]].
  rewrite E. destruct (machine_of (timers_of hdr (update_of hdr b)));
    reflexivity.
Qed.

Lemma transition_changes b :
  0 <= local_state b <= 3 ->
  (transition b = true <-> local_state (machine_of b) <> local_state b).
Proof.
  intros Hr. unfold transition, machine_of, falls.
  unfold BFD_STATE_ADMINDOWN, BFD_STATE_DOWN, BFD_STATE_INIT, BFD_STATE_UP
    in *.
  destruct (Z.eqb_spec (remote_state b) 0), (Z.eqb_spec (local_state b) 1),
    (Z.eqb_spec (remote_state b) 1), (Z.eqb_spec (local_state b) 2),
    (Z.eqb_spec (remote_state b) 2), (Z.eqb_spec (local_state b) 3),
    (Z.eqb_spec (remote_state b) 3); try lia; cbn [andb orb negb];
    cbn [local_state down_of rise_of fall_of set_thread_exp set_thread_rst
         set_local_tx_intv set_local_diag set_local_state];
    split; intros H; try discriminate; try reflexivity; try congruence;
    unfold BFD_STATE_DOWN, BFD_STATE_INIT, BFD_STATE_UP; lia.
Qed.

(** What an accepted packet leaves in the globals. *)
Lemma x_handle_globals hdr b g :
  let X := timers_of hdr (update_of hdr b) in
  let g' := snd (x_handle hdr b g) in
  bfd_event_pipe g'
  = bfd_event_pipe g
    ++ (if transition X then [event_of (machine_of X) g] else [])
  /\ master_events g'
     = master_events g
       ++ (if negb (hdr_poll hdr =? 0) then [iname b] else [])
  /\ wire g' = wire g
  /\ time_now g' = time_now g
  /\ rand_src g' = rand_src g.
Proof.
  cbn zeta. unfold x_handle. cbn zeta. unfold x_update. cbn [fst snd].
  set (s2 := x_timers hdr (update_of hdr b) g).
  destruct (x_timers_shape hdr (update_of hdr b) g) as (t1 & E1 & _).
  fold s2 in E1.
  destruct (x_timers_globals hdr (update_of hdr b) g)
    as (P2 & M2 & W2 & T2 & R2).
  fold s2 in P2, M2, W2, T2, R2.
  destruct (x_machine_globals (fst s2) (snd s2)) as (P3 & M3 & W3 & T3 & R3).
  assert (Etr : transition (fst s2)
                = transition (timers_of hdr (update_of hdr b)))
    by (rewrite E1; reflexivity).
  assert (Eev : event_of (machine_of (fst s2)) (snd s2)
                = event_of (machine_of (timers_of hdr (update_of hdr b))) g).
  { rewrite E1, machine_of_thread_out. unfold event_of. rewrite T2.
    reflexivity. }
  assert (Ein : iname (machine_of (fst s2)) = iname b).
  { rewrite E1, machine_of_thread_out.
    destruct (machine_of_shape (timers_of hdr (update_of hdr b)))
      as (s & d & r & x & i & ->).
    destruct (timers_of_shape hdr (update_of hdr b)) as (i' & r' & -> & _).
    destruct (update_of_shape hdr b) as (p & -> & _). reflexivity. }
  change (fst (x_machine (fst s2) (snd s2))) with (machine_of (fst s2)).
  remember (machine_of (fst s2)) as bM eqn:EbM.
  remember (snd (x_machine (fst s2) (snd s2))) as g3 eqn:Eg3.
  destruct (x_sender_globals hdr bM g3) as (P4 & M4 & W4 & T4 & R4).
  destruct (x_last_seen_shape (fst (x_sender hdr bM g3))
              (snd (x_sender hdr bM g3))) as (_ & ->).
  rewrite P4, M4, W4, T4, R4, P3, M3, W3, T3, R3, P2, M2, W2, T2, R2.
  rewrite Etr, Eev, Ein. repeat split.
Qed.

(** An accepted packet is handled to the end: the session found becomes
    [x_handle]'s, the others stay. *)
Lemma handle_packet_run pkt w front b back :
  accepted pkt w front b back -> session_ok b ->
  bfd_handle_packet pkt w
  = Done tt
      {| bfd_list := front ++ fst (x_handle (pkt_hdr pkt) b (w_glob w))
                              :: back;
         w_glob := snd (x_handle (pkt_hdr pkt) b (w_glob w)) |}.
Proof.
  intros (Hc & Hl & Ha & Hna) Hok.
  destruct (xp_handle_packet_session pkt (enter front b back w)
              (fun _ b' g' =>
                 b' = fst (x_handle (pkt_hdr pkt) b (w_glob w))
                 /\ g' = snd (x_handle (pkt_hdr pkt) b (w_glob w)))
              Ha Hna Hok) as ([] & b' & g' & Hrun & -> & ->).
  { split; reflexivity. }
  unfold bfd_handle_packet. rewrite Hc, Hl. cbn [Z.eqb negb].
  rewrite Hrun. reflexivity.
Qed.

(** The session an accepted packet leaves, store by store. *)
Lemma x_handle_full hdr b g :
  exists t x x0 s d r i i' r',
    fst (x_handle hdr b g)
    = set_thread_exp x
        (set_last_seen (time_now g)
           (set_final (if negb (hdr_poll hdr =? 0) then 1 else final b)
              (set_thread_out t
                 (set_thread_exp x0
                    (set_local_tx_intv i
                       (set_thread_rst r
                          (set_local_diag d
                             (set_local_state s
       (set_remote_detect_time (u32 (local_detect_mult b * i'))
          (set_local_detect_time (u32 (hdr_detect_mult hdr * r'))
             (set_remote_tx_intv r'
                (set_local_tx_intv i'
                   (set_poll (if negb (hdr_final hdr =? 0) then 0
                              else poll b)
        (set_remote_detect_mult (hdr_detect_mult hdr)
           (set_remote_demand (hdr_demand hdr)
              (set_remote_min_tx_intv (ntohl (hdr_min_tx_intv hdr))
                 (set_remote_min_rx_intv (ntohl (hdr_min_rx_intv hdr))
                    (set_remote_diag (hdr_diag hdr)
                       (set_remote_state (hdr_state hdr)
                          (set_remote_discr (ntohl (hdr_local_discr hdr))
                             b)))))))))))))))))))).
Proof.
  destruct (x_handle_normal hdr b g) as (t & x & E & _). cbn zeta in E.
  destruct (machine_of_shape (timers_of hdr (update_of hdr b)))
    as (s & d & r & x0 & i & EM).
  destruct (timers_of_shape hdr (update_of hdr b)) as (i' & r' & ET & _).
  destruct (update_of_shape hdr b) as (p & EU & ->).
  exists t, x, x0, s, d, r, i, i', r'.
  rewrite E, EM, ET, EU. reflexivity.
Qed.

(** What an accepted packet leaves of the neighbor, of the Poll sequence
    and of the configuration. *)
Lemma x_handle_members hdr b g :
  let b' := fst (x_handle hdr b g) in
  (remote_discr b' = ntohl (hdr_local_discr hdr)
   /\ remote_state b' = hdr_state hdr
   /\ remote_diag b' = hdr_diag hdr
   /\ remote_min_rx_intv b' = ntohl (hdr_min_rx_intv hdr)
   /\ remote_min_tx_intv b' = ntohl (hdr_min_tx_intv hdr)
   /\ remote_demand b' = hdr_demand hdr
   /\ remote_detect_mult b' = hdr_detect_mult hdr)
  /\ (poll b' = (if negb (hdr_final hdr =? 0) then 0 else poll b)
      /\ final b' = (if negb (hdr_poll hdr =? 0) then 1 else final b)
      /\ last_seen b' = time_now g)
  /\ (iname b' = iname b
      /\ nbr_addr b' = nbr_addr b
      /\ src_addr b' = src_addr b
      /\ local_min_rx_intv b' = local_min_rx_intv b
      /\ local_min_tx_intv b' = local_min_tx_intv b
      /\ local_idle_tx_intv b' = local_idle_tx_intv b
      /\ local_detect_mult b' = local_detect_mult b
      /\ disabled b' = disabled b
      /\ fd_out b' = fd_out b
      /\ local_discr b' = local_discr b
      /\ local_demand b' = local_demand b
      /\ sands_out b' = sands_out b
      /\ sands_exp b' = sands_exp b
      /\ sands_rst b' = sands_rst b).
Proof.
  cbn zeta.
  destruct (x_handle_full hdr b g)
    as (t & x & x0 & s & d & r & i & i' & r' & ->).
  cbn. repeat split.
Qed.

(** What an accepted packet leaves of the state and the timers. *)
Lemma x_handle_state hdr b g :
  let X := timers_of hdr (update_of hdr b) in
  let b' := fst (x_handle hdr b g) in
  local_state b' = local_state (machine_of X)
  /\ local_diag b' = local_diag (machine_of X)
  /\ thread_rst b' = thread_rst (machine_of X)
  /\ thread_exp b'
     = (if is_some (thread_exp (machine_of X))
        then Some (local_detect_time b') else None)
  /\ is_some (thread_out b')
     = negb (negb (remote_demand b' =? 0)
             && (local_state b' =? BFD_STATE_UP)
             && (remote_state b' =? BFD_STATE_UP))
  /\ local_detect_time b'
     = u32 (hdr_detect_mult hdr * remote_tx_intv b')
  /\ local_state X = local_state b
  /\ remote_state X = hdr_state hdr
  /\ thread_exp X = thread_exp b
  /\ thread_rst X = thread_rst b.
Proof.
  cbn zeta.
  destruct (x_handle_normal hdr b g) as (t & x & E & Ex & Et).
  cbn zeta in E, Ex, Et. rewrite E.
  destruct (update_of_frame hdr b) as (U1 & _ & U3 & _ & _ & _ & _ & _ & U9 & _).
  destruct (timers_of_frame hdr (update_of hdr b)) as (T1 & _ & T3 & _ & T5).
  set (X := timers_of hdr (update_of hdr b)) in *.
  assert (Hx : thread_exp X = thread_exp b).
  { subst X. destruct (timers_of_shape hdr (update_of hdr b))
      as (i' & r' & -> & _).
    destruct (update_of_shape hdr b) as (p & -> & _). reflexivity. }
  assert (Hdt : local_detect_time (machine_of X)
                = u32 (hdr_detect_mult hdr * remote_tx_intv (machine_of X))).
  { rewrite machine_of_remote_tx_intv.
    destruct (machine_of_shape X) as (s & d & r & x0 & i & ->).
    subst X. destruct (timers_of_shape hdr (update_of hdr b))
      as (i' & r' & -> & _).
    destruct (update_of_shape hdr b) as (p & -> & _). reflexivity. }
  remember (machine_of X) as bM eqn:EbM.
  cbn [local_state local_diag thread_rst thread_exp thread_out
       local_detect_time remote_tx_intv
       set_thread_exp set_last_seen set_final set_thread_out].
  repeat apply conj; try reflexivity.
  - exact Ex.
  - rewrite Et. unfold demand_quiet.
    cbn [remote_demand remote_state local_state
         set_thread_exp set_last_seen set_final set_thread_out].
    reflexivity.
  - exact Hdt.
  - exact (eq_trans T1 U1).
  - exact (eq_trans T5 U9).
  - exact Hx.
  - exact (eq_trans T3 U3).
Qed.

(** What is true of [x_handle]'s result is true of the registry after
    [bfd_handle_packet]. *)
Lemma handle_packet_sees pkt w front b back
    (P : bfd_t -> globals -> Prop) :
  accepted pkt w front b back -> session_ok b ->
  P (fst (x_handle (pkt_hdr pkt) b (w_glob w)))
    (snd (x_handle (pkt_hdr pkt) b (w_glob w))) ->
  exists b' g',
    bfd_handle_packet pkt w
    = Done tt {| bfd_list := front ++ b' :: back; w_glob := g' |}
    /\ P b' g'.
Proof.
  intros Hacc Hok HP. eexists _, _. split; [|exact HP].
  apply handle_packet_run; assumption.
Qed.

(** * More about the packet handler *)

Lemma bitfield_small w x : 0 <= x < 2 ^ w -> bitfield w x = x.
Proof. intros H. unfold bitfield. apply Z.mod_small. exact H. Qed.

(** X1.  What one end builds the other end learns: when the header of an
    accepted packet is the one [bfd_build_packet] makes of a session [a]
    whose members hold what their C types can hold, the packet is handled
    to the end and the receiving session then has [a]'s discriminator,
    state, diagnostic, required minimum receive and desired minimum
    transmit intervals and detection multiplier as its remote ones, and
    the low bit of [a]'s demand flag as the remote demand flag; the byte
    order conversions of the two ends cancel. *)
Theorem packet_round_trip a pkt w front b back :
  fits a ->
  pkt_hdr pkt = pkt_hdr (bfd_build_packet a) ->
  accepted pkt w front b back ->
  session_ok b ->
  exists b' g',
    bfd_handle_packet pkt w
    = Done tt {| bfd_list := front ++ b' :: back; w_glob := g' |}
    /\ remote_discr b' = local_discr a
    /\ remote_state b' = local_state a
    /\ remote_diag b' = local_diag a
    /\ remote_min_rx_intv b' = local_min_rx_intv a
    /\ remote_min_tx_intv b' = local_min_tx_intv a
    /\ remote_demand b' = local_demand a mod 2
    /\ remote_detect_mult b' = local_detect_mult a.
Proof.
  intros (Hs & Hd & _ & _ & _ & _ & Hl & _ & Ht & Hr) Hh Hacc Hok.
  eexists _, _. split; [apply (handle_packet_run pkt w front b back); assumption|].
  destruct (x_handle_members (pkt_hdr pkt) b (w_glob w))
    as ((M1 & M2 & M3 & M4 & M5 & M6 & M7) & _).
  rewrite M1, M2, M3, M4, M5, M6, M7, Hh.
  cbn [pkt_hdr bfd_build_packet hdr_local_discr hdr_state hdr_diag
       hdr_min_rx_intv hdr_min_tx_intv hdr_demand hdr_detect_mult].
  unfold ntohl, htonl.
  rewrite !bswap32_involutive by assumption.
  rewrite (bitfield_small 2), (bitfield_small 5) by assumption.
  repeat split.
Qed.

Lemma packet_round_trip_witness :
  exists b' g',
    bfd_handle_packet
      (arrives (bfd_build_packet far_end) [10; 0; 0; 2] 255)
      (world_of peer)
    = Done tt {| bfd_list := [] ++ b' :: []; w_glob := g' |}
    /\ remote_discr b' = 99
    /\ remote_min_rx_intv b' = 50000
    /\ remote_detect_mult b' = 3.
Proof.
  destruct (packet_round_trip far_end
              (arrives (bfd_build_packet far_end) [10; 0; 0; 2] 255)
              (world_of peer) [] peer [])
    as (b' & g' & Hrun & H1 & _ & _ & H4 & _ & _ & H7).
  - vm_compute. repeat split; discriminate.
  - reflexivity.
  - by_run.
  - by_run.
  - exists b', g'. split; [exact Hrun|]. split; [exact H1|].
    split; [exact H4|exact H7].
Defined.

Lemma htonl_eqb_0 x : 0 <= x < 2 ^ 32 -> (htonl x =? 0) = (x =? 0).
Proof.
  intros Hx. unfold htonl.
  destruct (Z.eqb_spec x 0) as [->|Hn]; [reflexivity|].
  apply Z.eqb_neq. intros H. apply (proj1 (bswap32_zero x Hx)) in H.
  contradiction.
Qed.

(** X2.  [bfd_check_packet] on what [bfd_build_packet] builds: a packet
    with the header and the length built from a session [a] (whose
    members hold what their C types can hold), arriving with TTL 255 or
    without a TTL, passes the checks exactly when [a]'s detection
    multiplier and discriminator are not zero, its remote discriminator
    is not zero unless it is Down or AdminDown, its Poll and Final flags
    are not both odd, and its diagnostic is at most 8.  Length, version,
    multipoint bit and state never stand in the way. *)
Theorem built_packet_check a pkt :
  fits a ->
  pkt_hdr pkt = pkt_hdr (bfd_build_packet a) ->
  pkt_len pkt = pkt_len (bfd_build_packet a) ->
  pkt_ttl pkt = 0 \/ pkt_ttl pkt = BFD_CONTROL_TTL ->
  (bfd_check_packet pkt = 0 <->
   local_detect_mult a <> 0
   /\ local_discr a <> 0
   /\ (remote_discr a = 0 ->
       local_state a = BFD_STATE_DOWN \/ local_state a = BFD_STATE_ADMINDOWN)
   /\ ~ (poll a mod 2 = 1 /\ final a mod 2 = 1)
   /\ local_diag a <= 8).
Proof.
  intros (Hs & Hd & _ & Hp & Hf & Hm & Hl & Hr & _ & _) Hh Hlen Httl.
  unfold bfd_check_packet. rewrite Hh, Hlen.
  cbn [pkt_hdr pkt_len bfd_build_packet hdr_len hdr_version hdr_detect_mult
       hdr_multipoint hdr_local_discr hdr_remote_discr hdr_state hdr_poll
       hdr_final hdr_diag].
  rewrite !htonl_eqb_0 by assumption.
  rewrite (bitfield_small 2), (bitfield_small 5) by assumption.
  assert (Ettl : negb (pkt_ttl pkt =? 0)
                 && negb (pkt_ttl pkt =? BFD_CONTROL_TTL) = false)
    by (destruct Httl as [-> | ->]; reflexivity).
  rewrite Ettl.
  change (sizeof_bfdhdr_t >? sizeof_bfdhdr_t) with false.
  change (negb (u8 sizeof_bfdhdr_t =? sizeof_bfdhdr_t)) with false.
  change (negb (bitfield 3 BFD_VERSION_1 =? BFD_VERSION_1)) with false.
  change (negb (0 =? 0)) with false.
  cbv iota.
  assert (Evs : BFD_VALID_STATE (local_state a) = true).
  { unfold BFD_VALID_STATE. apply andb_true_iff.
    split; [apply Z.leb_le|apply Z.leb_le]; lia. }
  rewrite Evs. cbn [negb].
  unfold BFD_VALID_DIAG, bitfield.
  change (2 ^ 1) with 2.
  pose proof (Z.mod_pos_bound (poll a) 2 ltac:(lia)) as Hp2.
  pose proof (Z.mod_pos_bound (final a) 2 ltac:(lia)) as Hf2.
  unfold BFD_STATE_DOWN, BFD_STATE_ADMINDOWN.
  destruct (Z.eqb_spec (local_detect_mult a) 0);
    [split; [discriminate|tauto]|].
  destruct (Z.eqb_spec (local_discr a) 0);
    [split; [discriminate|tauto]|].
  destruct (Z.eqb_spec (remote_discr a) 0),
    (Z.eqb_spec (local_state a) 1), (Z.eqb_spec (local_state a) 0);
    cbn [andb negb];
    try (split; [discriminate|intros (_ & _ & H & _); lia]).
  all: destruct (Z.eqb_spec (poll a mod 2) 0),
         (Z.eqb_spec (final a mod 2) 0); cbn [andb negb];
       try (split; [discriminate|intros (_ & _ & _ & H & _); lia]).
  all: destruct (Z.leb_spec 0 (local_diag a)); [|lia];
       destruct (Z.leb_spec (local_diag a) 8); cbn [andb negb];
       (split; [try discriminate; intros _|try reflexivity; lia]).
  all: repeat split; try assumption; try lia.
Qed.

Lemma built_packet_check_witness :
  bfd_check_packet (arrives (bfd_build_packet far_end) [10; 0; 0; 2] 255)
  = 0.
Proof.
  apply (built_packet_check far_end
           (arrives (bfd_build_packet far_end) [10; 0; 0; 2] 255)).
  - vm_compute. repeat split; discriminate.
  - reflexivity.
  - reflexivity.
  - right. reflexivity.
  - vm_compute. repeat split; try discriminate.
    + intros _. left. reflexivity.
    + intros [H _]. discriminate H.
Defined.

(** X3.  The Poll sequence in [bfd_handle_packet]: an accepted packet
    with the Final bit ends the session's own Poll sequence ([poll]
    becomes 0), one without leaves [poll] as it was; an accepted packet
    with the Poll bit sets [final] to 1 and puts exactly one run of the
    transmitter for this session on the ready queue, one without leaves
    [final] and the queue as they were.  Nothing is sent from the handler
    itself. *)
Theorem poll_sequence_step pkt w front b back :
  accepted pkt w front b back ->
  session_ok b ->
  exists b' g',
    bfd_handle_packet pkt w
    = Done tt {| bfd_list := front ++ b' :: back; w_glob := g' |}
    /\ poll b' = (if hdr_final (pkt_hdr pkt) =? 0 then poll b else 0)
    /\ final b' = (if hdr_poll (pkt_hdr pkt) =? 0 then final b else 1)
    /\ master_events g'
       = master_events (w_glob w)
         ++ (if hdr_poll (pkt_hdr pkt) =? 0 then [] else [iname b])
    /\ wire g' = wire (w_glob w).
Proof.
  intros Hacc Hok.
  eexists _, _. split; [apply (handle_packet_run pkt w front b back);
                        assumption|].
  destruct (x_handle_members (pkt_hdr pkt) b (w_glob w))
    as (_ & (P1 & P2 & _) & _).
  destruct (x_handle_globals (pkt_hdr pkt) b (w_glob w))
    as (_ & G2 & G3 & _).
  cbn zeta in G2, G3. rewrite P1, P2, G2, G3.
  destruct (hdr_final (pkt_hdr pkt) =? 0), (hdr_poll (pkt_hdr pkt) =? 0);
    repeat split.
Qed.

Lemma poll_sequence_step_witness :
  exists b' g',
    bfd_handle_packet (control BFD_STATE_UP 1 0 0 4660) (world_of peer_up)
    = Done tt {| bfd_list := [] ++ b' :: []; w_glob := g' |}
    /\ final b' = 1
    /\ master_events g' = ["peerA"%string].
Proof.
  destruct (poll_sequence_step (control BFD_STATE_UP 1 0 0 4660)
              (world_of peer_up) [] peer_up [])
    as (b' & g' & Hrun & _ & Hf & Hm & _).
  - by_run.
  - by_run.
  - exists b', g'. split; [exact Hrun|]. split; [exact Hf|exact Hm].
Defined.

(** X4.  One record per state change: after an accepted packet the event
    pipe holds what it held and, if and only if the local state is no
    longer what it was, one more record, which carries the first 31
    characters of the instance name, the new state and the time of the
    packet. *)
Theorem event_on_state_change pkt w front b back :
  accepted pkt w front b back ->
  session_ok b ->
  exists b' g',
    bfd_handle_packet pkt w
    = Done tt {| bfd_list := front ++ b' :: back; w_glob := g' |}
    /\ bfd_event_pipe g'
       = bfd_event_pipe (w_glob w)
         ++ (if local_state b' =? local_state b then []
             else [{| evt_iname := strncpy 31 (iname b);
                      evt_state := local_state b';
                      evt_sent_time := time_now (w_glob w) |}]).
Proof.
  intros Hacc Hok.
  eexists _, _. split; [apply (handle_packet_run pkt w front b back);
                        assumption|].
  destruct (x_handle_globals (pkt_hdr pkt) b (w_glob w)) as (G1 & _).
  destruct (x_handle_state (pkt_hdr pkt) b (w_glob w))
    as (S1 & _ & _ & _ & _ & _ & S7 & _).
  cbn zeta in G1, S1, S7. rewrite G1, S1.
  set (X := timers_of (pkt_hdr pkt) (update_of (pkt_hdr pkt) b)) in *.
  assert (Hr : 0 <= local_state X <= 3) by (rewrite S7; apply Hok).
  pose proof (transition_changes X Hr) as Htr.
  assert (En : iname (machine_of X) = iname b).
  { destruct (machine_of_shape X) as (s & d & r & x0 & i & ->).
    subst X.
    destruct (timers_of_shape (pkt_hdr pkt) (update_of (pkt_hdr pkt) b))
      as (i' & r' & -> & _).
    destruct (update_of_shape (pkt_hdr pkt) b) as (p & -> & _).
    reflexivity. }
  rewrite <- S7.
  destruct (transition X).
  - destruct (Z.eqb_spec (local_state (machine_of X)) (local_state X))
      as [E|_].
    + exfalso. apply (proj1 Htr); [reflexivity|exact E].
    + unfold event_of. rewrite En. reflexivity.
  - destruct (Z.eqb_spec (local_state (machine_of X)) (local_state X))
      as [_|N]; [reflexivity|].
    apply (proj2 Htr) in N. discriminate N.
Qed.

Lemma event_on_state_change_witness :
  exists b' g',
    bfd_handle_packet (control BFD_STATE_DOWN 0 0 0 0) (world_of peer)
    = Done tt {| bfd_list := [] ++ b' :: []; w_glob := g' |}
    /\ bfd_event_pipe g'
       = bfd_event_pipe (w_glob (world_of peer))
         ++ (if local_state b' =? local_state peer then []
             else [{| evt_iname := strncpy 31 (iname peer);
                      evt_state := local_state b';
                      evt_sent_time := time_now (w_glob (world_of peer)) |}]).
Proof.
  apply (event_on_state_change (control BFD_STATE_DOWN 0 0 0 0)
           (world_of peer) [] peer []).
  - by_run.
  - by_run.
Defined.

(** X5.  Detection time and the expiry timer: when the expiry timer of
    the session found runs exactly while the session is Init or Up,
    after an accepted packet [last_seen] is the time of the packet, the
    local detection time is the neighbor's multiplier times the remote
    transmit interval (as a 32-bit product), and the expiry timer is armed
    with that detection time if the session is now Init or Up and is not
    armed otherwise. *)
Theorem expiry_follows_packet pkt w front b back :
  accepted pkt w front b back ->
  timers_ok b ->
  exists b' g',
    bfd_handle_packet pkt w
    = Done tt {| bfd_list := front ++ b' :: back; w_glob := g' |}
    /\ last_seen b' = time_now (w_glob w)
    /\ local_detect_time b'
       = u32 (hdr_detect_mult (pkt_hdr pkt) * remote_tx_intv b')
    /\ thread_exp b'
       = (if (local_state b' =? BFD_STATE_INIT)
             || (local_state b' =? BFD_STATE_UP)
          then Some (local_detect_time b') else None).
Proof.
  intros Hacc (Hr & Hexp & Hrst & _).
  assert (Hok : session_ok b).
  { split; [exact Hr|]. intros Hs.
    destruct (thread_rst b) eqn:E; [|reflexivity].
    destruct (Hrst eq_refl) as [H | H]; destruct Hs as [H' | H'];
      rewrite H in H'; discriminate H'. }
  eexists _, _. split; [apply (handle_packet_run pkt w front b back);
                        assumption|].
  destruct (x_handle_members (pkt_hdr pkt) b (w_glob w))
    as (_ & (_ & _ & P3) & _).
  destruct (x_handle_state (pkt_hdr pkt) b (w_glob w))
    as (S1 & _ & _ & S4 & _ & S6 & S7 & _ & S9 & _).
  cbn zeta in S1, S4, S6, S7, S9.
  split; [exact P3|]. split; [exact S6|].
  rewrite S4, S1.
  set (X := timers_of (pkt_hdr pkt) (update_of (pkt_hdr pkt) b)) in *.
  assert (HX : is_some (thread_exp X) = true <->
               local_state X = BFD_STATE_INIT \/ local_state X = BFD_STATE_UP)
    by (rewrite S9, S7; exact Hexp).
  assert (HM : is_some (thread_exp (machine_of X))
               = (local_state (machine_of X) =? BFD_STATE_INIT)
                 || (local_state (machine_of X) =? BFD_STATE_UP)).
  { destruct (machine_of_cases X) as [E | [[E _] | (s & Hs & _ & E)]];
      rewrite E.
    - destruct (is_some (thread_exp X)) eqn:Es.
      + destruct (proj1 HX eq_refl) as [-> | ->]; reflexivity.
      + unfold BFD_STATE_INIT, BFD_STATE_UP in *.
        destruct (Z.eqb_spec (local_state X) 2) as [e2|];
          [discriminate (proj2 HX (or_introl e2))|].
        destruct (Z.eqb_spec (local_state X) 3) as [e3|];
          [discriminate (proj2 HX (or_intror e3))|].
        reflexivity.
    - reflexivity.
    - destruct Hs as [-> | ->]; reflexivity. }
  rewrite HM. reflexivity.
Qed.

Ltac timers_ok_run :=
  split; [vm_compute; split; discriminate|];
  split; [split; [intros _; first [left; reflexivity | right; reflexivity]
                 |intros _; reflexivity]
         |];
  split; intros H; discriminate H.

Lemma expiry_follows_packet_witness :
  exists b' g',
    bfd_handle_packet (control BFD_STATE_UP 0 0 0 4660) (world_of peer_up)
    = Done tt {| bfd_list := [] ++ b' :: []; w_glob := g' |}
    /\ last_seen b' = time_now (w_glob (world_of peer_up))
    /\ local_detect_time b'
       = u32 (hdr_detect_mult (pkt_hdr (control BFD_STATE_UP 0 0 0 4660))
              * remote_tx_intv b')
    /\ thread_exp b'
       = (if (local_state b' =? BFD_STATE_INIT)
             || (local_state b' =? BFD_STATE_UP)
          then Some (local_detect_time b') else None).
Proof.
  apply (expiry_follows_packet (control BFD_STATE_UP 0 0 0 4660)
           (world_of peer_up) [] peer_up []).
  - by_run.
  - timers_ok_run.
Defined.



Lemma leave_enter front b back w :
  bfd_list w = front ++ b :: back -> leave (enter front b back w) = w.
Proof. intros H. destruct w. cbn in *. subst. reflexivity. Qed.

Lemma session_drops pkt e :
  hdr_auth (pkt_hdr pkt) <> 0 \/ local_state (bfd e) = BFD_STATE_ADMINDOWN ->
  bfd_handle_packet_session pkt e = Done tt e.
Proof.
  intros H. unfold bfd_handle_packet_session, bind at 1, load.
  destruct (Z.eqb_spec (hdr_auth (pkt_hdr pkt)) 0) as [Ha | Ha];
    cbn [negb]; [|reflexivity].
  destruct H as [H | H]; [contradiction|].
  rewrite H. reflexivity.
Qed.

(** X7.  A dropped packet changes nothing: whenever the sanity checks
    reject the packet, or no session is found for it, or it has the auth
    bit, or the session found is AdminDown, [bfd_handle_packet] returns
    with every session, the event pipe, the ready queue, the wire and the
    generator exactly as they were. *)
Theorem dropped_packet_changes_nothing pkt w :
  discarded pkt w ->
  bfd_handle_packet pkt w = Done tt w.
Proof.
  intros [Hc | [Hn | (front & b & back & Hl & Hd)]];
    unfold bfd_handle_packet.
  - apply Z.eqb_neq in Hc. rewrite Hc. reflexivity.
  - rewrite Hn. destruct (negb _); reflexivity.
  - rewrite Hl. destruct (negb (bfd_check_packet pkt =? 0)); [reflexivity|].
    pose proof (hp_lookup_sound _ _ _ _ _ Hl) as Hw.
    rewrite session_drops by exact Hd.
    rewrite leave_enter by exact Hw. reflexivity.
Qed.

Lemma dropped_packet_changes_nothing_witness :
  bfd_handle_packet (control BFD_STATE_UP 0 0 0 0) (world_of peer_up)
  = Done tt (world_of peer_up).
Proof.
  apply dropped_packet_changes_nothing.
  left. vm_compute. discriminate.
Defined.


(** * The transmitter *)

Lemma xp_send_packet fd pkt (sendto_ok : bool) e
    (Q : Z -> bfd_t -> globals -> Prop) :
  0 <= fd ->
  Q (if sendto_ok then pkt_len pkt else -1) (bfd e)
    (if sendto_ok then g_sent pkt (glob e) else glob e) ->
  postg (bfd_send_packet fd pkt sendto_ok) e Q.
Proof.
  intros Hfd HQ. unfold bfd_send_packet.
  xp_step. apply postg_assert; [apply Z.leb_le; exact Hfd|].
  destruct sendto_ok.
  - xp_step. xp_step. xp_step. exact HQ.
  - xp_step. exact HQ.
Qed.

Lemma xp_sender_thread type sendto_ok e
    (Q : unit -> bfd_t -> globals -> Prop) :
  local_state (bfd e) <> BFD_STATE_ADMINDOWN ->
  0 <= fd_out (bfd e) ->
  Q tt (fst (x_sender_thread type sendto_ok (bfd e) (glob e)))
    (snd (x_sender_thread type sendto_ok (bfd e) (glob e))) ->
  postg (bfd_sender_thread type sendto_ok) e Q.
Proof.
  intros Hna Hfd HQ. unfold bfd_sender_thread.
  xp_step. xp_step. xp_step. apply postg_assert.
  { unfold BFD_ISADMINDOWN. apply negb_true_iff, Z.eqb_neq. exact Hna. }
  xp_step. xp_step. xp_step. xp_step.
  unfold x_sender_thread in HQ. cbn zeta in HQ.
  set (b0 := set_thread_out None (bfd e)) in *.
  assert (Hrest : forall b1 g1,
    (local_state b1 = BFD_STATE_ADMINDOWN -> sendto_ok = false) ->
    (sendto_ok = true -> local_state b1 <> BFD_STATE_ADMINDOWN) ->
    thread_out b1 = None ->
    Q tt (fst (if negb (is_event type)
                  && negb (local_state b1 =? BFD_STATE_ADMINDOWN)
               then x_schedule (set_final 0 b1) g1
               else (set_final 0 b1, g1)))
      (snd (if negb (is_event type)
               && negb (local_state b1 =? BFD_STATE_ADMINDOWN)
            then x_schedule (set_final 0 b1) g1
            else (set_final 0 b1, g1))) ->
    postg
      (b <- load ;;
       when (negb (final b =? 0)) (store (set_final 0)) ;;
       b2 <- load ;;
       when (negb (is_event type) && negb (BFD_ISADMINDOWN b2))
         bfd_sender_schedule)
      {| before := before e; bfd := b1; after := after e; glob := g1 |} Q).
  { intros b1 g1 _ _ Hn H.
    assert (Hend : forall b2,
      thread_out b2 = None ->
      Q tt (fst (if negb (is_event type)
                    && negb (local_state b2 =? BFD_STATE_ADMINDOWN)
                 then x_schedule b2 g1 else (b2, g1)))
        (snd (if negb (is_event type)
                 && negb (local_state b2 =? BFD_STATE_ADMINDOWN)
              then x_schedule b2 g1 else (b2, g1))) ->
      postg
        (b2 <- load ;;
         when (negb (is_event type) && negb (BFD_ISADMINDOWN b2))
           bfd_sender_schedule)
        {| before := before e; bfd := b2; after := after e; glob := g1 |}
        Q).
    { intros b2 Hn2 H2. xp_step. xp_step. unfold BFD_ISADMINDOWN.
      destruct (negb (is_event type)
                && negb (local_state b2 =? BFD_STATE_ADMINDOWN)).
      - apply xp_sender_schedule; [exact Hn2|exact H2].
      - apply postg_ret. exact H2. }
    xp_step. xp_step. xp_step.
    apply postg_when; intros Hf.
    - xp_step. apply Hend; [exact Hn|exact H].
    - apply Hend; [exact Hn|].
      apply negb_false_iff, Z.eqb_eq in Hf.
      rewrite (set_final_same b1 0 Hf) in H. exact H. }
  xp_step. apply xp_send_packet; [exact Hfd|].
  destruct sendto_ok.
  - change (pkt_len (bfd_build_packet b0) =? -1) with false.
    xp_step. xp_step. apply Hrest.
    + intros H. exfalso. apply Hna. exact H.
    + intros _. exact Hna.
    + reflexivity.
    + change (local_state b0) with (local_state (bfd e)).
      apply Z.eqb_neq in Hna. rewrite Hna. cbn [negb].
      rewrite andb_true_r.
      destruct (is_event type); cbn [negb]; exact HQ.
  - change (-1 =? -1) with true. cbn [when].
    xp_step. apply xp_state_admindown. cbn [bfd glob].
    apply Hrest.
    + reflexivity.
    + discriminate.
    + reflexivity.
    + change (local_state (admindown_of b0) =? BFD_STATE_ADMINDOWN)
        with true.
      cbn [negb]. rewrite andb_false_r. exact HQ.
Qed.

(** The delay drawn for the transmitter is the interval less a jitter
    between a tenth (with a non-zero multiplier) and a quarter of it. *)
Lemma draw_delay_bounds b g :
  0 <= local_tx_intv b < 2 ^ 32 ->
  3 * local_tx_intv b <= 4 * draw_delay b g
  /\ draw_delay b g <= local_tx_intv b
  /\ (local_detect_mult b <> 0 ->
      draw_delay b g <= local_tx_intv b - local_tx_intv b / 10).
Proof.
  intros HI. unfold draw_delay. cbn zeta.
  rewrite mul_double_u32_tenth, mul_double_u32_quarter by exact HI.
  set (I := local_tx_intv b) in *.
  set (r := rand_src g (rand_pos g)).
  set (lo := if negb (local_detect_mult b =? 0) then I / 10 else 0).
  assert (Hlo : 0 <= lo <= I / 4).
  { subst lo. destruct (negb _); [|split; [lia|apply Z.div_pos; lia]].
    split; [apply Z.div_pos; lia|].
    apply Z.div_le_lower_bound; [lia|].
    pose proof (Z.mul_div_le I 10 ltac:(lia)). lia. }
  pose proof (Z.mod_pos_bound r (I / 4 - lo + 1) ltac:(lia)) as Hm.
  pose proof (Z.mul_div_le I 4 ltac:(lia)) as H4.
  set (j := lo + r mod (I / 4 - lo + 1)) in *.
  assert (Hj : lo <= j <= I / 4) by (subst j; lia).
  assert (Hu : u32 j = j) by (unfold u32; apply Z.mod_small; lia).
  rewrite Hu.
  assert (Hd : u32 (I - j) = I - j) by (unfold u32; apply Z.mod_small; lia).
  rewrite Hd.
  repeat split; [lia|lia|].
  intros Hmult. subst lo.
  apply Z.eqb_neq in Hmult. rewrite Hmult in Hj. cbn [negb] in Hj. lia.
Qed.

(** A run of a handler, from what [postg] says of it. *)
Lemma postg_run {A} (m : M A) e (f : bfd_t * globals) (a : A) :
  postg m e (fun a' b' g' => a' = a /\ b' = fst f /\ g' = snd f) ->
  m e = Done a {| before := before e; bfd := fst f; after := after e;
                  glob := snd f |}.
Proof. intros (a' & b' & g' & Hrun & -> & -> & ->). exact Hrun. Qed.

Lemma sender_thread_run type sendto_ok e :
  local_state (bfd e) <> BFD_STATE_ADMINDOWN ->
  0 <= fd_out (bfd e) ->
  bfd_sender_thread type sendto_ok e
  = Done tt
      {| before := before e;
         bfd := fst (x_sender_thread type sendto_ok (bfd e) (glob e));
         after := after e;
         glob := snd (x_sender_thread type sendto_ok (bfd e) (glob e)) |}.
Proof.
  intros Hna Hfd. apply postg_run.
  apply xp_sender_thread; [exact Hna|exact Hfd|].
  repeat split.
Qed.

(** X8.  One packet per run of the transmitter: for a session that is
    not AdminDown, has its output socket ([fd_out] is not negative, which
    [bfd_send_packet] asserts) and whose transmit interval is a 32-bit
    value, when [sendto] succeeds [bfd_sender_thread] returns having put
    exactly the packet [bfd_build_packet] makes of the session on the
    wire, with
    [final] cleared and nothing else of the session changed but the
    transmitter handle; no state change is reported.  Run from its timer
    it has armed the next run, after no less than three quarters of the
    transmit interval and no more than the whole (no more than the
    interval less its tenth, rounded down, if the detection multiplier is
    not zero); run as an event it has armed nothing and the handle is
    empty, whether or not a timer was pending. *)
Theorem sender_thread_sends type e :
  local_state (bfd e) <> BFD_STATE_ADMINDOWN ->
  0 <= fd_out (bfd e) ->
  0 <= local_tx_intv (bfd e) < 2 ^ 32 ->
  exists t g',
    bfd_sender_thread type true e
    = Done tt {| before := before e;
                 bfd := set_thread_out t (set_final 0 (bfd e));
                 after := after e; glob := g' |}
    /\ wire g' = wire (glob e) ++ [bfd_build_packet (bfd e)]
    /\ bfd_event_pipe g' = bfd_event_pipe (glob e)
    /\ master_events g' = master_events (glob e)
    /\ match type with
       | THREAD_EVENT => t = None
       | THREAD_READY =>
           exists d,
             t = Some d
             /\ 3 * local_tx_intv (bfd e) <= 4 * d
             /\ d <= local_tx_intv (bfd e)
             /\ (local_detect_mult (bfd e) <> 0 ->
                 d <= local_tx_intv (bfd e) - local_tx_intv (bfd e) / 10)
       end.
Proof.
  intros Hna Hfd HI. rewrite sender_thread_run by assumption.
  unfold x_sender_thread. cbn zeta.
  assert (Eb : bfd_build_packet (set_thread_out None (bfd e))
               = bfd_build_packet (bfd e)) by reflexivity.
  assert (Ef : set_final 0 (set_thread_out None (bfd e))
               = set_thread_out None (set_final 0 (bfd e))) by reflexivity.
  rewrite Eb, Ef.
  destruct type; cbn [is_event].
  - unfold x_schedule. cbn [fst snd].
    set (d := draw_delay (set_thread_out None (set_final 0 (bfd e)))
                (g_sent (bfd_build_packet (bfd e)) (glob e))).
    exists (Some d), (g_drawn (g_sent (bfd_build_packet (bfd e)) (glob e))).
    split.
    { reflexivity. }
    split; [reflexivity|]. split; [reflexivity|]. split; [reflexivity|].
    exists d. split; [reflexivity|].
    exact (draw_delay_bounds
             (set_thread_out None (set_final 0 (bfd e)))
             (g_sent (bfd_build_packet (bfd e)) (glob e)) HI).
  - cbn [fst snd].
    exists None, (g_sent (bfd_build_packet (bfd e)) (glob e)).
    split; [reflexivity|].
    split; [reflexivity|]. split; [reflexivity|]. split; reflexivity.
Qed.

Lemma sender_thread_sends_witness :
  exists t g',
    bfd_sender_thread THREAD_READY true (env_of peer_up 0)
    = Done tt {| before := []; bfd := set_thread_out t (set_final 0 peer_up);
                 after := []; glob := g' |}
    /\ wire g' = [bfd_build_packet peer_up]
    /\ exists d, t = Some d /\ 37500 <= d <= 50000.
Proof.
  destruct (sender_thread_sends THREAD_READY (env_of peer_up 0))
    as (t & g' & Hrun & Hw & _ & _ & d & Ht & H1 & H2 & _).
  - vm_compute. discriminate.
  - vm_compute. discriminate.
  - vm_compute. split; [discriminate|reflexivity].
  - exists t, g'. split; [exact Hrun|]. split; [exact Hw|].
    exists d. split; [exact Ht|].
    change (local_tx_intv (bfd (env_of peer_up 0))) with 50000 in H1, H2.
    lia.
Defined.



(** The reset thread, written out. *)
Lemma reset_thread_run rounds e :
  is_some (thread_rst (bfd e)) = true ->
  (exists k, (k < rounds)%nat
             /\ unused (candidate (glob e) k) (before e ++ after e)) ->
  exists d g',
    bfd_reset_thread rounds e
    = Done tt
        {| before := before e;
           bfd := set_local_tx_intv (local_idle_tx_intv (bfd e))
                    (set_local_discr d
                       (bfd_copy_state bfd0
                          (set_thread_rst None (bfd e))));
           after := after e; glob := g' |}
    /\ 1 <= d <= UINT32_MAX.
Proof.
  intros Hs (k & Hk & Hfree).
  unfold bfd_reset_thread, bfd_init_state, bind, load, assert, store.
  cbn [bfd before after glob with_bfd].
  rewrite Hs.
  match goal with
  | |- context [bfd_get_random_discr rounds ?e1] =>
      destruct (get_random_discr_fits rounds e1 k Hk eq_refl Hfree)
        as (d & g' & Hrun & Hd & Hu)
  end.
  rewrite Hrun. cbn [bfd before after glob].
  assert (Ed : u32 d = d).
  { unfold u32. apply Z.mod_small. unfold UINT32_MAX in Hd. lia. }
  exists d, g'. rewrite Ed. split; [reflexivity|exact Hd].
Qed.



(** * Timers and states *)

Lemma timers_ok_session_ok b : timers_ok b -> session_ok b.
Proof.
  intros (Hr & _ & Hrst & _). split; [exact Hr|]. intros Hs.
  destruct (thread_rst b) eqn:E; [|reflexivity].
  destruct (Hrst eq_refl) as [H | H]; destruct Hs as [H' | H'];
    rewrite H in H'; discriminate H'.
Qed.

(** [timers_ok] looks at the state and at which handles are set only. *)
Lemma timers_ok_same b b' :
  local_state b' = local_state b ->
  is_some (thread_exp b') = is_some (thread_exp b) ->
  is_some (thread_rst b') = is_some (thread_rst b) ->
  (local_state b = BFD_STATE_ADMINDOWN -> thread_out b' = None) ->
  timers_ok b -> timers_ok b'.
Proof.
  intros Hs Hx Hr Ho (H1 & H2 & H3 & H4).
  unfold timers_ok. rewrite Hs, Hx, Hr.
  split; [exact H1|]. split; [exact H2|]. split; [exact H3|exact Ho].
Qed.

Lemma machine_of_timers_ok b : timers_ok b -> timers_ok (machine_of b).
Proof.
  intros (H1 & H2 & H3 & H4).
  destruct (machine_of_cases b) as [E | [[E _] | (s & Hs & _ & E)]];
    rewrite E.
  - split; [exact H1|]. split; [exact H2|]. split; [exact H3|exact H4].
  - unfold timers_ok. cbn. unfold BFD_STATE_DOWN, BFD_STATE_INIT,
      BFD_STATE_UP, BFD_STATE_ADMINDOWN.
    split; [lia|]. split; [split; [discriminate|lia]|].
    split; [intros _; left; reflexivity|discriminate].
  - unfold timers_ok. cbn. unfold BFD_STATE_DOWN, BFD_STATE_INIT,
      BFD_STATE_UP, BFD_STATE_ADMINDOWN in *.
    split; [lia|]. split; [split; [intros _; lia|reflexivity]|].
    split; [discriminate|lia].
Qed.

Lemma machine_of_not_admindown b :
  local_state b <> BFD_STATE_ADMINDOWN ->
  local_state (machine_of b) <> BFD_STATE_ADMINDOWN.
Proof.
  intros Hna.
  destruct (machine_of_cases b) as [E | [[E _] | (s & Hs & _ & E)]];
    rewrite E.
  - exact Hna.
  - discriminate.
  - cbn. destruct Hs as [-> | ->]; discriminate.
Qed.

(** The transmitter stops at an [assert], before anything is sent, when
    it is run on an AdminDown session or on one without a socket. *)
Lemma sender_thread_stops type sendto_ok e :
  local_state (bfd e) = BFD_STATE_ADMINDOWN \/ fd_out (bfd e) < 0 ->
  bfd_sender_thread type sendto_ok e = Abort.
Proof.
  intros H.
  unfold bfd_sender_thread, bfd_send_packet, bind, load, store, assert,
    BFD_ISADMINDOWN.
  destruct (Z.eqb_spec (local_state (bfd e)) BFD_STATE_ADMINDOWN)
    as [Hs | Hs]; [reflexivity|].
  destruct H as [H | H]; [contradiction|].
  cbn [negb bfd with_bfd].
  replace (fd_out (set_thread_out None (bfd e))) with (fd_out (bfd e))
    by (destruct (bfd e); reflexivity).
  apply Z.leb_gt in H. rewrite H. reflexivity.
Qed.

(** X11.  The timers stay in step with the state: on a session whose
    expiry timer runs exactly while it is Init or Up, whose reset timer
    runs only while it is Down or AdminDown and which has no transmitter
    handle while AdminDown, each handler (a packet for the session, the
    transmitter from a timer or as an event, the expiry thread, the reset
    thread, the start of a Poll sequence), given a session that passes
    what the handler asserts of it (for the transmitter: not AdminDown
    and [fd_out] not negative; for the expiry thread: Up or Init; for the
    reset thread: its handle set, and a free discriminator among its
    candidates), runs to the end, so that none of the asserts of the
    schedule, cancel and state functions it calls fails, touches no other
    session, and leaves the session with the same three properties.
    What the transmitter asserts is a hypothesis, the three properties do
    not give it: run on an AdminDown session, or on one without a socket,
    the transmitter stops at its [assert] ([sender_thread_stops]). *)
Theorem handlers_keep_timers_ok ev e :
  entry_ok ev e ->
  timers_ok (bfd e) ->
  exists b' g',
    fire ev e
    = Done tt {| before := before e; bfd := b'; after := after e;
                 glob := g' |}
    /\ timers_ok b'.
Proof.
  destruct ev as [pkt | type ok | | rounds | ]; cbn [fire entry_ok];
    intros Hen Hok.
  - (* a packet *)
    destruct (Z.eqb_spec (hdr_auth (pkt_hdr pkt)) 0) as [Ha | Ha];
      [destruct (Z.eqb_spec (local_state (bfd e)) BFD_STATE_ADMINDOWN)
         as [Hs | Hs]|].
    + rewrite session_drops by (right; exact Hs).
      exists (bfd e), (glob e). split; [destruct e; reflexivity|exact Hok].
    + destruct (xp_handle_packet_session pkt e
                  (fun _ b' g' =>
                     b' = fst (x_handle (pkt_hdr pkt) (bfd e) (glob e)))
                  Ha Hs (timers_ok_session_ok _ Hok) eq_refl)
        as ([] & b' & g' & Hrun & ->).
      eexists _, g'. split; [exact Hrun|].
      destruct (x_handle_state (pkt_hdr pkt) (bfd e) (glob e))
        as (S1 & _ & S3 & S4 & _ & _ & S7 & _ & S9 & S10).
      cbn zeta in S1, S3, S4, S7, S9, S10.
      set (X := timers_of (pkt_hdr pkt) (update_of (pkt_hdr pkt) (bfd e)))
        in *.
      assert (HX : timers_ok X).
      { apply (timers_ok_same (bfd e)).
        - exact S7.
        - rewrite S9. reflexivity.
        - rewrite S10. reflexivity.
        - intros H. contradiction.
        - exact Hok. }
      assert (HnX : local_state X <> BFD_STATE_ADMINDOWN)
        by (rewrite S7; exact Hs).
      apply (timers_ok_same (machine_of X)).
      * exact S1.
      * rewrite S4. destruct (is_some (thread_exp (machine_of X)));
          reflexivity.
      * rewrite S3. reflexivity.
      * intros H. exfalso. exact (machine_of_not_admindown X HnX H).
      * exact (machine_of_timers_ok X HX).
    + rewrite session_drops by (left; exact Ha).
      exists (bfd e), (glob e). split; [destruct e; reflexivity|exact Hok].
  - (* the transmitter *)
    destruct Hen as (Hna & Hfd).
    rewrite sender_thread_run by assumption.
    eexists _, _. split; [reflexivity|].
    unfold x_sender_thread. cbn zeta.
    destruct ok; [destruct (is_event type)|]; cbn [fst snd x_schedule].
    + apply (timers_ok_same (bfd e)); try reflexivity; try exact Hok;
        intros H; contradiction.
    + apply (timers_ok_same (bfd e)); try reflexivity; try exact Hok;
        intros H; contradiction.
    + destruct Hok as (H1 & H2 & H3 & H4).
      unfold timers_ok. cbn.
      unfold BFD_STATE_DOWN, BFD_STATE_INIT, BFD_STATE_UP,
        BFD_STATE_ADMINDOWN.
      split; [lia|]. split; [split; [discriminate|lia]|].
      split; [intros _; right; reflexivity|reflexivity].
  - (* expiration *)
    destruct Hok as (H1 & H2 & H3 & H4).
    pose proof Hen as Hs.
    assert (Hr : thread_rst (bfd e) = None).
    { destruct (thread_rst (bfd e)) eqn:E; [|reflexivity].
      destruct (H3 eq_refl) as [H | H]; destruct Hs as [H' | H'];
        rewrite H in H'; discriminate H'. }
    rewrite expire_thread_run by assumption.
    eexists _, _. split; [reflexivity|].
    unfold timers_ok. cbn.
    unfold BFD_STATE_DOWN, BFD_STATE_INIT, BFD_STATE_UP,
      BFD_STATE_ADMINDOWN.
    split; [lia|]. split; [split; [discriminate|lia]|].
    split; [intros _; left; reflexivity|discriminate].
  - (* reset *)
    destruct Hen as (Hs & Hfree).
    destruct (reset_thread_run rounds e Hs Hfree) as (d & g' & Hrun & _).
    eexists _, g'. split; [exact Hrun|].
    destruct Hok as (H1 & H2 & H3 & H4).
    assert (Hx : thread_exp (bfd e) = None).
    { destruct (thread_exp (bfd e)) eqn:E; [|reflexivity].
      destruct (H3 Hs) as [H | H]; destruct (proj1 H2 eq_refl) as [H' | H'];
        rewrite H in H'; discriminate H'. }
    unfold timers_ok. cbn. rewrite Hx. cbn.
    unfold BFD_STATE_DOWN, BFD_STATE_INIT, BFD_STATE_UP,
      BFD_STATE_ADMINDOWN.
    split; [lia|]. split; [split; [discriminate|lia]|].
    split; [discriminate|discriminate].
  - (* a Poll sequence is started *)
    unfold store. cbn [with_bfd].
    eexists _, _. split; [reflexivity|].
    apply (timers_ok_same (bfd e)); try exact Hok;
      unfold bfd_set_poll; destruct (negb (final (bfd e) =? 1));
      try reflexivity; apply Hok.
Qed.

Lemma handlers_keep_timers_ok_witness :
  exists b' g',
    fire EvExpire (env_of peer_up 0)
    = Done tt {| before := []; bfd := b'; after := []; glob := g' |}
    /\ timers_ok b'.
Proof.
  apply (handlers_keep_timers_ok EvExpire (env_of peer_up 0)).
  - left. reflexivity.
  - timers_ok_run.
Defined.

(** * The neighbor's discriminator *)

(** Each handler returns when the session passes what the handler
    asserts of it, and what it leaves of the session. *)
Lemma fire_cases ev e :
  entry_ok ev e ->
  timers_ok (bfd e) ->
  exists b' g',
    fire ev e
    = Done tt {| before := before e; bfd := b'; after := after e;
                 glob := g' |}
    /\ step_of ev e b'.
Proof.
  destruct ev as [pkt | type ok | | rounds | ];
    cbn [fire entry_ok step_of]; intros Hen Hok.
  - destruct (Z.eqb_spec (hdr_auth (pkt_hdr pkt)) 0) as [Ha | Ha];
      [destruct (Z.eqb_spec (local_state (bfd e)) BFD_STATE_ADMINDOWN)
         as [Hs | Hs]|]; cbn [negb orb].
    + rewrite session_drops by (right; exact Hs).
      exists (bfd e), (glob e). split; [destruct e; reflexivity|reflexivity].
    + destruct (xp_handle_packet_session pkt e
                  (fun _ b' g' =>
                     b' = fst (x_handle (pkt_hdr pkt) (bfd e) (glob e)))
                  Ha Hs (timers_ok_session_ok _ Hok) eq_refl)
        as ([] & b' & g' & Hrun & ->).
      eexists _, g'. split; [exact Hrun|reflexivity].
    + rewrite session_drops by (left; exact Ha).
      exists (bfd e), (glob e). split; [destruct e; reflexivity|reflexivity].
  - destruct Hen as (Hna & Hfd).
    rewrite sender_thread_run by assumption.
    eexists _, _. split; reflexivity.
  - destruct Hok as (H1 & H2 & H3 & H4).
    pose proof Hen as Hs.
    assert (Hr : thread_rst (bfd e) = None).
    { destruct (thread_rst (bfd e)) eqn:E; [|reflexivity].
      destruct (H3 eq_refl) as [H | H]; destruct Hs as [H' | H'];
        rewrite H in H'; discriminate H'. }
    rewrite expire_thread_run by assumption.
    eexists _, _. split; reflexivity.
  - destruct Hen as (Hs & Hfree).
    destruct (reset_thread_run rounds e Hs Hfree) as (d & g' & Hrun & Hd).
    eexists _, g'. split; [exact Hrun|].
    exists d. split; [exact Hd|reflexivity].
  - unfold store. cbn [with_bfd].
    eexists _, _. split; reflexivity.
Qed.

Lemma check_packet_discr pkt :
  bfd_check_packet pkt = 0 -> hdr_local_discr (pkt_hdr pkt) <> 0.
Proof.
  unfold bfd_check_packet. intros H E. rewrite E in H.
  cbn [Z.eqb] in H.
  repeat match type of H with
         | (if ?c then _ else _) = _ => destruct c; try discriminate H
         end.
Qed.

(** X12.  A live session knows its neighbor: if a session whose timers
    are in step with its state has, while it is Init or Up, a non-zero
    remote discriminator, it still has after each handler that is given
    a session passing what the handler asserts of it (for the
    transmitter: not AdminDown and [fd_out] not negative; for the expiry
    thread: Up or Init; for the reset thread: its handle set, and a free
    discriminator among its candidates), packets having passed
    [bfd_check_packet]: the handler runs to the end, an accepted packet
    stores the sender's discriminator, which the checks found non-zero,
    and the expiry thread, the only place that zeroes it, leaves the
    session Down. *)
Theorem live_session_knows_neighbor ev e :
  entry_ok ev e ->
  checked ev ->
  timers_ok (bfd e) ->
  knows_neighbor (bfd e) ->
  exists b' g',
    fire ev e
    = Done tt {| before := before e; bfd := b'; after := after e;
                 glob := g' |}
    /\ knows_neighbor b'.
Proof.
  intros Hen Hck Hok Hkn.
  destruct (fire_cases ev e Hen Hok) as (b' & g' & Hrun & Hst).
  exists b', g'. split; [exact Hrun|]. clear Hrun.
  destruct ev as [pkt | type ok | | rounds | ]; cbn [step_of checked] in *.
  - destruct (negb (hdr_auth (pkt_hdr pkt) =? 0)
              || (local_state (bfd e) =? BFD_STATE_ADMINDOWN));
      subst b'; [exact Hkn|].
    intros _.
    destruct (x_handle_members (pkt_hdr pkt) (bfd e) (glob e))
      as ((M1 & _) & _).
    cbn zeta in M1. rewrite M1. destruct Hck as (Hc & Hr).
    unfold ntohl. intros H. apply (proj1 (bswap32_zero _ Hr)) in H.
    exact (check_packet_discr pkt Hc H).
  - subst b'. unfold x_sender_thread. cbn zeta.
    destruct ok; [destruct (is_event type)|]; cbn [fst snd x_schedule].
    + exact Hkn.
    + exact Hkn.
    + intros [H | H]; discriminate H.
  - subst b'. intros [H | H]; discriminate H.
  - destruct Hst as (d & _ & ->). intros [H | H]; discriminate H.
  - subst b'. unfold bfd_set_poll.
    destruct (negb (final (bfd e) =? 1)); exact Hkn.
Qed.

Lemma live_session_knows_neighbor_witness :
  exists b' g',
    fire (EvPacket (control BFD_STATE_DOWN 0 0 0 0)) (env_of peer 0)
    = Done tt {| before := []; bfd := b'; after := []; glob := g' |}
    /\ knows_neighbor b'.
Proof.
  apply (live_session_knows_neighbor
           (EvPacket (control BFD_STATE_DOWN 0 0 0 0)) (env_of peer 0)).
  - exact I.
  - split; [reflexivity|]. vm_compute. split; [discriminate|reflexivity].
  - split; [vm_compute; split; discriminate|].
    split; [split; [discriminate|intros [H | H]; discriminate H]|].
    split; [discriminate|discriminate].
  - intros [H | H]; discriminate H.
Defined.

(** * Suspending and resuming the timers *)

Lemma xp_sender_suspend wakeup e (Q : unit -> bfd_t -> globals -> Prop) :
  is_some (thread_out (bfd e)) = true ->
  sands_out (bfd e) = -1 ->
  Q tt (set_thread_out None (set_sands_out wakeup (bfd e))) (glob e) ->
  postg (bfd_sender_suspend wakeup) e Q.
Proof.
  intros Hh Hs HQ. unfold bfd_sender_suspend.
  xp_step. xp_step. xp_step.
  apply postg_assert; [exact Hh|].
  xp_step. apply postg_assert; [rewrite Hs; reflexivity|].
  xp_step. xp_step.
  apply xp_sender_cancel; [exact Hh|]. exact HQ.
Qed.

Lemma xp_sender_resume e (Q : unit -> bfd_t -> globals -> Prop) :
  thread_out (bfd e) = None ->
  sands_out (bfd e) <> -1 ->
  Q tt (set_sands_out (-1)
          (set_thread_out (Some (sands_out (bfd e))) (bfd e))) (glob e) ->
  postg bfd_sender_resume e Q.
Proof.
  intros Hh Hs HQ. unfold bfd_sender_resume.
  xp_step. xp_step. xp_step.
  apply postg_assert; [rewrite Hh; reflexivity|].
  xp_step.
  apply postg_assert; [apply negb_true_iff, Z.eqb_neq; exact Hs|].
  xp_step. xp_step. xp_step. exact HQ.
Qed.

Lemma xp_sender_suspended e (Q : bool -> bfd_t -> globals -> Prop) :
  Q (negb (sands_out (bfd e) =? -1)) (bfd e) (glob e) ->
  postg bfd_sender_suspended e Q.
Proof. intros HQ. unfold bfd_sender_suspended. repeat xp_step. exact HQ. Qed.

Lemma xp_sender_discard e (Q : unit -> bfd_t -> globals -> Prop) :
  sands_out (bfd e) <> -1 ->
  Q tt (set_sands_out (-1) (bfd e)) (glob e) ->
  postg bfd_sender_discard e Q.
Proof.
  intros Hs HQ. unfold bfd_sender_discard.
  xp_step. xp_step. xp_step.
  apply postg_assert; [apply negb_true_iff, Z.eqb_neq; exact Hs|].
  xp_step. exact HQ.
Qed.

Lemma xp_expire_suspend wakeup e (Q : unit -> bfd_t -> globals -> Prop) :
  is_some (thread_exp (bfd e)) = true ->
  sands_exp (bfd e) = -1 ->
  Q tt (set_thread_exp None (set_sands_exp wakeup (bfd e))) (glob e) ->
  postg (bfd_expire_suspend wakeup) e Q.
Proof.
  intros Hh Hs HQ. unfold bfd_expire_suspend.
  xp_step. xp_step. xp_step.
  apply postg_assert; [exact Hh|].
  xp_step. apply postg_assert; [rewrite Hs; reflexivity|].
  xp_step. xp_step.
  apply xp_expire_cancel; [exact Hh|]. exact HQ.
Qed.

Lemma xp_expire_resume e (Q : unit -> bfd_t -> globals -> Prop) :
  thread_exp (bfd e) = None ->
  sands_exp (bfd e) <> -1 ->
  Q tt (set_sands_exp (-1)
          (set_thread_exp (Some (sands_exp (bfd e))) (bfd e))) (glob e) ->
  postg bfd_expire_resume e Q.
Proof.
  intros Hh Hs HQ. unfold bfd_expire_resume.
  xp_step. xp_step. xp_step.
  apply postg_assert; [rewrite Hh; reflexivity|].
  xp_step.
  apply postg_assert; [apply negb_true_iff, Z.eqb_neq; exact Hs|].
  xp_step. xp_step. xp_step. exact HQ.
Qed.

Lemma xp_expire_suspended e (Q : bool -> bfd_t -> globals -> Prop) :
  Q (negb (sands_exp (bfd e) =? -1)) (bfd e) (glob e) ->
  postg bfd_expire_suspended e Q.
Proof. intros HQ. unfold bfd_expire_suspended. repeat xp_step. exact HQ. Qed.

Lemma xp_expire_discard e (Q : unit -> bfd_t -> globals -> Prop) :
  sands_exp (bfd e) <> -1 ->
  Q tt (set_sands_exp (-1) (bfd e)) (glob e) ->
  postg bfd_expire_discard e Q.
Proof.
  intros Hs HQ. unfold bfd_expire_discard.
  xp_step. xp_step. xp_step.
  apply postg_assert; [apply negb_true_iff, Z.eqb_neq; exact Hs|].
  xp_step. exact HQ.
Qed.

Lemma xp_reset_suspend wakeup e (Q : unit -> bfd_t -> globals -> Prop) :
  is_some (thread_rst (bfd e)) = true ->
  sands_rst (bfd e) = -1 ->
  Q tt (set_thread_rst None (set_sands_rst wakeup (bfd e))) (glob e) ->
  postg (bfd_reset_suspend wakeup) e Q.
Proof.
  intros Hh Hs HQ. unfold bfd_reset_suspend.
  xp_step. xp_step. xp_step.
  apply postg_assert; [exact Hh|].
  xp_step. apply postg_assert; [rewrite Hs; reflexivity|].
  xp_step. xp_step.
  apply xp_reset_cancel; [exact Hh|]. exact HQ.
Qed.

Lemma xp_reset_resume e (Q : unit -> bfd_t -> globals -> Prop) :
  thread_rst (bfd e) = None ->
  sands_rst (bfd e) <> -1 ->
  Q tt (set_sands_rst (-1)
          (set_thread_rst (Some (sands_rst (bfd e))) (bfd e))) (glob e) ->
  postg bfd_reset_resume e Q.
Proof.
  intros Hh Hs HQ. unfold bfd_reset_resume.
  xp_step. xp_step. xp_step.
  apply postg_assert; [rewrite Hh; reflexivity|].
  xp_step.
  apply postg_assert; [apply negb_true_iff, Z.eqb_neq; exact Hs|].
  xp_step. xp_step. xp_step. exact HQ.
Qed.

Lemma xp_reset_suspended e (Q : bool -> bfd_t -> globals -> Prop) :
  Q (negb (sands_rst (bfd e) =? -1)) (bfd e) (glob e) ->
  postg bfd_reset_suspended e Q.
Proof. intros HQ. unfold bfd_reset_suspended. repeat xp_step. exact HQ. Qed.

Lemma xp_reset_discard e (Q : unit -> bfd_t -> globals -> Prop) :
  sands_rst (bfd e) <> -1 ->
  Q tt (set_sands_rst (-1) (bfd e)) (glob e) ->
  postg bfd_reset_discard e Q.
Proof.
  intros Hs HQ. unfold bfd_reset_discard.
  xp_step. xp_step. xp_step.
  apply postg_assert; [apply negb_true_iff, Z.eqb_neq; exact Hs|].
  xp_step. exact HQ.
Qed.


(** X13.  Suspend and resume give the timer back: for each of the three
    timers of a session, if the timer is armed, no snapshot is held and
    the time to wakeup is not -1, suspending and then resuming the timer
    runs to the end and leaves the timer armed with the time to wakeup
    that was recorded, no snapshot held, and nothing else of the session
    changed. *)
Theorem suspend_then_resume r wakeup e :
  is_some (handle_of r (bfd e)) = true ->
  sands_of r (bfd e) = -1 ->
  wakeup <> -1 ->
  (suspend_of r wakeup ;; resume_of r) e
  = Done tt (with_bfd (set_handle r (Some wakeup) (bfd e)) e).
Proof.
  intros Hh Hs Hw. apply postg_run with (f := (_, _)).
  xp_step.
  destruct r; cbn [handle_of sands_of suspend_of resume_of set_handle] in *.
  - apply xp_sender_suspend; [exact Hh|exact Hs|].
    apply xp_sender_resume; [reflexivity|exact Hw|].
    split; [reflexivity|]. split; [|reflexivity].
    cbn [fst]. destruct (bfd e); cbn in Hs |- *; subst; reflexivity.
  - apply xp_expire_suspend; [exact Hh|exact Hs|].
    apply xp_expire_resume; [reflexivity|exact Hw|].
    split; [reflexivity|]. split; [|reflexivity].
    cbn [fst]. destruct (bfd e); cbn in Hs |- *; subst; reflexivity.
  - apply xp_reset_suspend; [exact Hh|exact Hs|].
    apply xp_reset_resume; [reflexivity|exact Hw|].
    split; [reflexivity|]. split; [|reflexivity].
    cbn [fst]. destruct (bfd e); cbn in Hs |- *; subst; reflexivity.
Qed.

Lemma suspend_then_resume_witness :
  (suspend_of EXPIRE 120000 ;; resume_of EXPIRE) (env_of peer_up 0)
  = Done tt (with_bfd (set_handle EXPIRE (Some 120000) peer_up)
               (env_of peer_up 0)).
Proof.
  apply (suspend_then_resume EXPIRE 120000 (env_of peer_up 0)).
  - reflexivity.
  - reflexivity.
  - discriminate.
Defined.

(** X14.  A time to wakeup of -1 is lost: -1 is also the mark of "no
    snapshot held", so when one of the three timers is armed, no snapshot
    is held and the time to wakeup is -1, suspending the timer runs to
    the end and leaves the session with that timer neither armed nor
    suspended. *)
Theorem suspend_minus_one_is_lost r e :
  is_some (handle_of r (bfd e)) = true ->
  sands_of r (bfd e) = -1 ->
  (suspend_of r (-1) ;;
   s <- scheduled_of r ;; x <- suspended_of r ;; ret (s, x)) e
  = Done (false, false) (with_bfd (set_handle r None (bfd e)) e).
Proof.
  intros Hh Hs. apply postg_run with (f := (_, _)).
  xp_step.
  destruct r;
    cbn [handle_of sands_of suspend_of scheduled_of suspended_of set_handle]
      in *.
  - apply xp_sender_suspend; [exact Hh|exact Hs|].
    xp_step. apply xp_sender_scheduled.
    xp_step. apply xp_sender_suspended. xp_step.
    split; [reflexivity|]. split; [|reflexivity].
    cbn [fst]. destruct (bfd e); cbn in Hs |- *; subst; reflexivity.
  - apply xp_expire_suspend; [exact Hh|exact Hs|].
    xp_step. apply xp_expire_scheduled.
    xp_step. apply xp_expire_suspended. xp_step.
    split; [reflexivity|]. split; [|reflexivity].
    cbn [fst]. destruct (bfd e); cbn in Hs |- *; subst; reflexivity.
  - apply xp_reset_suspend; [exact Hh|exact Hs|].
    xp_step. apply xp_reset_scheduled.
    xp_step. apply xp_reset_suspended. xp_step.
    split; [reflexivity|]. split; [|reflexivity].
    cbn [fst]. destruct (bfd e); cbn in Hs |- *; subst; reflexivity.
Qed.

Lemma suspend_minus_one_is_lost_witness :
  (suspend_of EXPIRE (-1) ;;
   s <- scheduled_of EXPIRE ;; x <- suspended_of EXPIRE ;; ret (s, x))
    (env_of peer_up 0)
  = Done (false, false)
      (with_bfd (set_handle EXPIRE None peer_up) (env_of peer_up 0)).
Proof.
  apply (suspend_minus_one_is_lost EXPIRE (env_of peer_up 0)).
  - reflexivity.
  - reflexivity.
Defined.

(** * The dispatcher *)

(** A loop over the sessions whose body returns on each of them. *)
Lemma for_each_rel (body : M unit) (P : bfd_t -> Prop)
    (R : bfd_t -> bfd_t -> Prop) (rest : list bfd_t) :
  (forall b front back g,
     P b ->
     exists b' g',
       body {| before := front; bfd := b; after := back; glob := g |}
       = Done tt {| before := front; bfd := b'; after := back;
                    glob := g' |}
       /\ R b b') ->
  Forall P rest ->
  forall front g,
  exists l' g',
    for_each body front rest g
    = Done tt {| bfd_list := front ++ l'; w_glob := g' |}
    /\ Forall2 R rest l'.
Proof.
  intros Hbody. induction rest as [|b rest IH]; intros HP front g.
  - exists [], g. cbn. rewrite app_nil_r. split; [reflexivity|constructor].
  - inversion HP as [|? ? Hb Hrest]; subst.
    destruct (Hbody b front rest g Hb) as (b' & g' & Hrun & HR).
    cbn [for_each]. rewrite Hrun. cbn [bfd glob].
    destruct (IH Hrest (front ++ [b']) g') as (l' & g'' & Hl & HF).
    exists (b' :: l'), g''. split.
    + rewrite Hl. rewrite <- app_assoc. reflexivity.
    + constructor; assumption.
Qed.

(** The same when the body is a function of the session and leaves the
    globals alone. *)
Lemma for_each_fun (body : M unit) (P : bfd_t -> Prop)
    (f : bfd_t -> bfd_t) (rest : list bfd_t) :
  (forall b front back g,
     P b ->
     body {| before := front; bfd := b; after := back; glob := g |}
     = Done tt {| before := front; bfd := f b; after := back;
                  glob := g |}) ->
  Forall P rest ->
  forall front g,
    for_each body front rest g
    = Done tt {| bfd_list := front ++ map f rest; w_glob := g |}.
Proof.
  intros Hbody. induction rest as [|b rest IH]; intros HP front g.
  - cbn. rewrite app_nil_r. reflexivity.
  - inversion HP as [|? ? Hb Hrest]; subst.
    cbn [for_each map]. rewrite (Hbody b front rest g Hb). cbn [bfd glob].
    rewrite (IH Hrest). rewrite <- app_assoc. reflexivity.
Qed.

(** A loop fails if its body fails on one of the sessions. *)
Lemma for_each_abort (body : M unit) (rest : list bfd_t) :
  (forall e, body e <> Diverge) ->
  (exists b, In b rest
             /\ forall front back g,
                  body {| before := front; bfd := b; after := back;
                          glob := g |} = Abort) ->
  forall front g, for_each body front rest g = Abort.
Proof.
  intros Hnd. induction rest as [|a rest IH]; intros (b & Hin & Hab) front g.
  - destruct Hin.
  - cbn [for_each].
    destruct (body {| before := front; bfd := a; after := rest; glob := g |})
      as [[] e'| |] eqn:Hrun.
    + destruct Hin as [-> | Hin].
      * rewrite Hab in Hrun. discriminate Hrun.
      * apply IH. exists b. split; assumption.
    + reflexivity.
    + exfalso. exact (Hnd _ Hrun).
Qed.

(** ** Rules for [posta] *)

Lemma posta_of_postg {A} (m : M A) e Q : postg m e Q -> posta m e Q.
Proof. intros H. right. exact H. Qed.

Lemma posta_bind {A B} (m : M A) (k : A -> M B) e
    (Q : B -> bfd_t -> globals -> Prop) :
  posta m e (fun a b1 g1 =>
               posta (k a) {| before := before e; bfd := b1;
                              after := after e; glob := g1 |} Q) ->
  posta (bind m k) e Q.
Proof.
  intros [Hm | (a & b1 & g1 & Hm & [Hk | (c & b2 & g2 & Hk & HQ)])].
  - left. unfold bind. rewrite Hm. reflexivity.
  - left. unfold bind. rewrite Hm. exact Hk.
  - right. exists c, b2, g2. unfold bind. rewrite Hm. auto.
Qed.

Lemma posta_assert c e (Q : unit -> bfd_t -> globals -> Prop) :
  (c = true -> Q tt (bfd e) (glob e)) -> posta (assert c) e Q.
Proof.
  intros H. destruct c.
  - right. apply postg_assert; auto.
  - left. reflexivity.
Qed.

Lemma posta_when (c : bool) m e (Q : unit -> bfd_t -> globals -> Prop) :
  (c = true -> posta m e Q) -> (c = false -> Q tt (bfd e) (glob e)) ->
  posta (when c m) e Q.
Proof.
  destruct c; intros H1 H2; cbn; [auto|].
  right. apply postg_ret; auto.
Qed.

Lemma posta_never_diverges {A} (m : M A) e Q : posta m e Q -> m e <> Diverge.
Proof.
  intros [H | (a & b & g & H & _)]; rewrite H; discriminate.
Qed.

Ltac xa_step :=
  lazymatch goal with
  | |- posta (bind _ _) _ _ => apply posta_bind
  | |- posta (assert _) _ _ => apply posta_assert; intros ?
  | |- posta _ _ _ => apply posta_of_postg; xp_prim
  end; cbn [bfd before after glob].

(** ** The passes over one session *)

Lemma xp_open_session sys e (Q : unit -> bfd_t -> globals -> Prop) :
  (disabled (bfd e) = 0 -> fd_out (bfd e) = -1) ->
  Q tt (fst (x_open sys (bfd e) (glob e)))
    (snd (x_open sys (bfd e) (glob e))) ->
  postg (open_session sys) e Q.
Proof.
  intros Hpre HQ. unfold open_session, x_open in *.
  xp_step. xp_step.
  destruct (Z.eqb_spec (disabled (bfd e)) 0) as [Hd | Hd]; cbn [negb] in *.
  2: { xp_step. exact HQ. }
  specialize (Hpre Hd).
  unfold bfd_open_fd_out. xp_step. xp_step. xp_step. xp_step.
  apply postg_assert; [rewrite Hpre; reflexivity|].
  xp_step. xp_step. xp_step. xp_step.
  cbn [fd_out set_fd_out src_addr].
  unfold open_fails in HQ.
  set (b1 := set_fd_out (out_socket (sys (bfd e))) (bfd e)) in *.
  assert (Hfail : forall r, r <> 0 ->
            Q tt (admindown_of b1) (g_event (event_of (admindown_of b1)
                                               (glob e)) (glob e)) ->
            postg (when (negb (r =? 0)) bfd_state_admindown)
              {| before := before e; bfd := b1; after := after e;
                 glob := glob e |} Q).
  { intros r Hr H. apply Z.eqb_neq in Hr. rewrite Hr. cbn [negb when].
    apply xp_state_admindown. exact H. }
  destruct (out_socket (sys (bfd e)) =? -1); cbn [orb] in HQ.
  { xp_step. apply Hfail; [discriminate|exact HQ]. }
  destruct (negb (ss_family (src_addr (bfd e)) =? 0)
            && (out_bind (sys (bfd e)) =? -1)); cbn [orb] in HQ.
  { xp_step. apply Hfail; [discriminate|exact HQ]. }
  destruct (out_setsockopt (sys (bfd e)) =? -1).
  { xp_step. apply Hfail; [discriminate|exact HQ]. }
  xp_step. cbn [Z.eqb negb when]. xp_step. exact HQ.
Qed.

(** One timer is suspended if it is armed; [k] is the rest of the loop
    body. *)
Lemma xp_suspend_step r wakeup (k : M unit) e
    (Q : unit -> bfd_t -> globals -> Prop) :
  (is_some (handle_of r (bfd e)) = true -> sands_of r (bfd e) = -1) ->
  postg k {| before := before e;
             bfd := suspended_as r wakeup (bfd e);
             after := after e; glob := glob e |} Q ->
  postg (s <- scheduled_of r ;;
         when s (b <- load ;; suspend_of r (wakeup r b)) ;;
         k) e Q.
Proof.
  intros Hpre Hk. unfold suspended_as in Hk.
  destruct r; cbn [scheduled_of suspend_of handle_of sands_of set_handle
                   set_sands] in *.
  - xp_step. apply xp_sender_scheduled. xp_step.
    apply postg_when; intros Hs; rewrite Hs in Hk.
    + xp_step. xp_step.
      apply xp_sender_suspend; [exact Hs|exact (Hpre Hs)|]. exact Hk.
    + exact Hk.
  - xp_step. apply xp_expire_scheduled. xp_step.
    apply postg_when; intros Hs; rewrite Hs in Hk.
    + xp_step. xp_step.
      apply xp_expire_suspend; [exact Hs|exact (Hpre Hs)|]. exact Hk.
    + exact Hk.
  - xp_step. apply xp_reset_scheduled. xp_step.
    apply postg_when; intros Hs; rewrite Hs in Hk.
    + xp_step. xp_step.
      apply xp_reset_suspend; [exact Hs|exact (Hpre Hs)|]. exact Hk.
    + exact Hk.
Qed.

(** Suspending one timer leaves the other two, their snapshots and the
    socket alone. *)
Lemma suspended_as_frame r wakeup b :
  fd_out (suspended_as r wakeup b) = fd_out b
  /\ disabled (suspended_as r wakeup b) = disabled b
  /\ local_state (suspended_as r wakeup b) = local_state b
  /\ forall r', r' <> r ->
       handle_of r' (suspended_as r wakeup b) = handle_of r' b
       /\ sands_of r' (suspended_as r wakeup b) = sands_of r' b.
Proof.
  unfold suspended_as.
  destruct (is_some (handle_of r b)); [|repeat split].
  destruct r; cbn; (split; [reflexivity|]); (split; [reflexivity|]);
    (split; [reflexivity|]); intros r' Hr'; destruct r';
    try contradiction; split; reflexivity.
Qed.

Lemma xp_release_session wakeup e (Q : unit -> bfd_t -> globals -> Prop) :
  (disabled (bfd e) = 0 ->
   (forall r, is_some (handle_of r (bfd e)) = true ->
              sands_of r (bfd e) = -1)
   /\ fd_out (bfd e) <> -1) ->
  Q tt (x_release wakeup (bfd e)) (glob e) ->
  postg (release_session wakeup) e Q.
Proof.
  intros Hpre HQ. unfold release_session, x_release in *.
  xp_step. xp_step.
  destruct (Z.eqb_spec (disabled (bfd e)) 0) as [Hd | Hd]; cbn [negb] in *.
  2: { xp_step. exact HQ. }
  destruct (Hpre Hd) as (Hs & Hfd).
  apply (xp_suspend_step SENDER wakeup); cbn [bfd before after glob];
    [apply Hs|].
  destruct (suspended_as_frame SENDER wakeup (bfd e))
    as (F1 & _ & _ & G1).
  remember (suspended_as SENDER wakeup (bfd e)) as b1 eqn:Eb1.
  destruct (G1 EXPIRE ltac:(discriminate)) as (G1x & G1s).
  destruct (G1 RESET ltac:(discriminate)) as (G1r & G1t).
  apply (xp_suspend_step EXPIRE wakeup); cbn [bfd before after glob].
  { cbn [handle_of sands_of] in *. rewrite G1x, G1s. exact (Hs EXPIRE). }
  destruct (suspended_as_frame EXPIRE wakeup b1) as (F2 & _ & _ & G2).
  remember (suspended_as EXPIRE wakeup b1) as b2 eqn:Eb2.
  destruct (G2 RESET ltac:(discriminate)) as (G2r & G2t).
  apply (xp_suspend_step RESET wakeup); cbn [bfd before after glob].
  { cbn [handle_of sands_of] in *. rewrite G2r, G2t, G1r, G1t.
    exact (Hs RESET). }
  destruct (suspended_as_frame RESET wakeup b2) as (F3 & _).
  remember (suspended_as RESET wakeup b2) as b3 eqn:Eb3.
  xp_step. xp_step. xp_step.
  apply postg_assert.
  { rewrite F3, F2, F1. apply negb_true_iff, Z.eqb_neq. exact Hfd. }
  xp_step. exact HQ.
Qed.

(** One snapshot is put back or dropped. *)
Lemma xp_resume_last r e (Q : unit -> bfd_t -> globals -> Prop) :
  (sands_of r (bfd e) <> -1 ->
   local_state (bfd e) <> BFD_STATE_ADMINDOWN ->
   handle_of r (bfd e) = None) ->
  Q tt (resumed_as r (bfd e)) (glob e) ->
  postg (x <- suspended_of r ;;
         when x (b <- load ;;
                 if BFD_ISADMINDOWN b then discard_of r else resume_of r))
    e Q.
Proof.
  intros Hpre HQ. unfold resumed_as in HQ. unfold BFD_ISADMINDOWN.
  destruct r; cbn [suspended_of discard_of resume_of handle_of sands_of
                   set_handle set_sands] in *.
  - xp_step. apply xp_sender_suspended.
    destruct (Z.eqb_spec (sands_out (bfd e)) (-1)) as [Hs | Hs];
      cbn [negb when].
    + xp_step. exact HQ.
    + xp_step. xp_step.
      destruct (Z.eqb_spec (local_state (bfd e)) BFD_STATE_ADMINDOWN)
        as [Ha | Ha].
      * apply xp_sender_discard; [exact Hs|exact HQ].
      * apply xp_sender_resume; [exact (Hpre Hs Ha)|exact Hs|exact HQ].
  - xp_step. apply xp_expire_suspended.
    destruct (Z.eqb_spec (sands_exp (bfd e)) (-1)) as [Hs | Hs];
      cbn [negb when].
    + xp_step. exact HQ.
    + xp_step. xp_step.
      destruct (Z.eqb_spec (local_state (bfd e)) BFD_STATE_ADMINDOWN)
        as [Ha | Ha].
      * apply xp_expire_discard; [exact Hs|exact HQ].
      * apply xp_expire_resume; [exact (Hpre Hs Ha)|exact Hs|exact HQ].
  - xp_step. apply xp_reset_suspended.
    destruct (Z.eqb_spec (sands_rst (bfd e)) (-1)) as [Hs | Hs];
      cbn [negb when].
    + xp_step. exact HQ.
    + xp_step. xp_step.
      destruct (Z.eqb_spec (local_state (bfd e)) BFD_STATE_ADMINDOWN)
        as [Ha | Ha].
      * apply xp_reset_discard; [exact Hs|exact HQ].
      * apply xp_reset_resume; [exact (Hpre Hs Ha)|exact Hs|exact HQ].
Qed.

(** The same with the rest of the loop body, [k], behind it. *)
Lemma xp_resume_step r (k : M unit) e
    (Q : unit -> bfd_t -> globals -> Prop) :
  (sands_of r (bfd e) <> -1 ->
   local_state (bfd e) <> BFD_STATE_ADMINDOWN ->
   handle_of r (bfd e) = None) ->
  postg k {| before := before e; bfd := resumed_as r (bfd e);
             after := after e; glob := glob e |} Q ->
  postg (x <- suspended_of r ;;
         when x (b <- load ;;
                 if BFD_ISADMINDOWN b then discard_of r else resume_of r) ;;
         k)
    e Q.
Proof.
  intros Hpre Hk.
  apply postg_bind.
  destruct (xp_resume_last r e
              (fun _ b1 g1 => b1 = resumed_as r (bfd e) /\ g1 = glob e)
              Hpre (conj eq_refl eq_refl))
    as (a & b' & g' & Hrun & -> & ->).
  unfold bind at 1 in Hrun.
  destruct (suspended_of r e) as [x e1| |] eqn:Hx; try discriminate Hrun.
  assert (He1 : e1 = e).
  { destruct r; cbn [suspended_of] in Hx;
      unfold bfd_sender_suspended, bfd_expire_suspended,
        bfd_reset_suspended, bind, load, ret in Hx;
      inversion Hx; reflexivity. }
  subst e1.
  exists x, (bfd e), (glob e). split; [destruct e; exact Hx|].
  apply postg_bind. exists a. eexists _, _.
  split; [destruct e; exact Hrun|]. exact Hk.
Qed.

(** Putting one snapshot back leaves the other timers, their snapshots
    and the state alone. *)
Lemma resumed_as_frame r b :
  local_state (resumed_as r b) = local_state b
  /\ disabled (resumed_as r b) = disabled b
  /\ fd_out (resumed_as r b) = fd_out b
  /\ forall r', r' <> r ->
       handle_of r' (resumed_as r b) = handle_of r' b
       /\ sands_of r' (resumed_as r b) = sands_of r' b.
Proof.
  unfold resumed_as.
  destruct (sands_of r b =? -1); [repeat split|].
  destruct (local_state b =? BFD_STATE_ADMINDOWN);
    destruct r; cbn; (split; [reflexivity|]); (split; [reflexivity|]);
    (split; [reflexivity|]); intros r' Hr'; destruct r';
    try contradiction; split; reflexivity.
Qed.

Lemma x_schedule_frame b g :
  local_state (fst (x_schedule b g)) = local_state b
  /\ thread_exp (fst (x_schedule b g)) = thread_exp b
  /\ sands_exp (fst (x_schedule b g)) = sands_exp b
  /\ thread_rst (fst (x_schedule b g)) = thread_rst b
  /\ sands_rst (fst (x_schedule b g)) = sands_rst b.
Proof. repeat split. Qed.

Lemma xp_register_session e (Q : unit -> bfd_t -> globals -> Prop) :
  (disabled (bfd e) = 0 ->
   forall r, handle_of r (bfd e) = None) ->
  Q tt (fst (x_register (bfd e) (glob e)))
    (snd (x_register (bfd e) (glob e))) ->
  postg register_session e Q.
Proof.
  intros Hpre HQ. unfold register_session, x_register in *.
  xp_step. xp_step.
  destruct (Z.eqb_spec (disabled (bfd e)) 0) as [Hd | Hd]; cbn [negb] in *.
  2: { xp_step. exact HQ. }
  specialize (Hpre Hd).
  pose proof (Hpre SENDER) as H1. pose proof (Hpre EXPIRE) as H2.
  pose proof (Hpre RESET) as H3. cbn [handle_of] in H1, H2, H3.
  cbn zeta in HQ.
  assert (Hrest : forall b1 g1,
    local_state b1 = local_state (bfd e) ->
    thread_exp b1 = None -> thread_rst b1 = None ->
    Q tt (resumed_as RESET (resumed_as EXPIRE b1)) g1 ->
    postg
      (x <- bfd_expire_suspended ;;
       when x (b <- load ;;
               if BFD_ISADMINDOWN b then bfd_expire_discard
               else bfd_expire_resume) ;;
       r <- bfd_reset_suspended ;;
       when r (b <- load ;;
               if BFD_ISADMINDOWN b then bfd_reset_discard
               else bfd_reset_resume))
      {| before := before e; bfd := b1; after := after e; glob := g1 |} Q).
  { intros b1 g1 Es Ex Er H.
    apply (xp_resume_step EXPIRE); cbn [bfd before after glob handle_of].
    - intros _ _. exact Ex.
    - destruct (resumed_as_frame EXPIRE b1) as (F1 & _ & _ & G).
      destruct (G RESET ltac:(discriminate)) as (Gr & _).
      cbn [handle_of] in Gr.
      apply (xp_resume_last RESET); cbn [bfd glob handle_of].
      + intros _ _. rewrite Gr. exact Er.
      + exact H. }
  xp_step. apply xp_sender_suspended. cbn [bfd glob].
  destruct (Z.eqb_spec (sands_out (bfd e)) (-1)) as [Hs | Hs];
    cbn [negb andb] in *.
  - xp_step. xp_step. xp_step. unfold BFD_ISADMINDOWN.
    destruct (Z.eqb_spec (local_state (bfd e)) BFD_STATE_ADMINDOWN)
      as [Ha | Ha]; cbn [negb when fst snd] in *.
    + xp_step.
      assert (Er : resumed_as SENDER (bfd e) = bfd e).
      { unfold resumed_as. cbn [sands_of]. rewrite Hs. reflexivity. }
      rewrite Er in HQ.
      apply Hrest; [reflexivity|exact H2|exact H3|exact HQ].
    + apply xp_sender_schedule; [exact H1|].
      apply Hrest; [reflexivity|exact H2|exact H3|exact HQ].
  - xp_step.
    destruct (resumed_as_frame SENDER (bfd e)) as (F1 & _ & _ & G).
    destruct (G EXPIRE ltac:(discriminate)) as (Gx & _).
    destruct (G RESET ltac:(discriminate)) as (Gr & _).
    cbn [handle_of] in Gx, Gr. cbn [fst snd] in HQ.
    apply (xp_resume_last SENDER); cbn [bfd before after glob handle_of].
    { intros _ _. exact H1. }
    apply Hrest; [exact F1| | |exact HQ].
    + rewrite Gx. exact H2.
    + rewrite Gr. exact H3.
Qed.

(** Whatever the timers and snapshots are, suspending one timer fails an
    [assert] or goes on with the socket as it was. *)
Lemma posta_suspend_step r wakeup (k : M unit) e
    (Q : unit -> bfd_t -> globals -> Prop) :
  (forall b1, fd_out b1 = fd_out (bfd e) ->
              posta k {| before := before e; bfd := b1; after := after e;
                         glob := glob e |} Q) ->
  posta (s <- scheduled_of r ;;
         when s (b <- load ;; suspend_of r (wakeup r b)) ;;
         k) e Q.
Proof.
  intros Hk.
  destruct r; cbn [scheduled_of suspend_of];
    unfold bfd_sender_scheduled, bfd_expire_scheduled, bfd_reset_scheduled,
      bfd_sender_suspend, bfd_expire_suspend, bfd_reset_suspend,
      bfd_sender_cancel, bfd_expire_cancel, bfd_reset_cancel;
    xa_step; xa_step; xa_step; xa_step; xa_step;
    (apply posta_when; intros Hs; [|apply Hk; reflexivity]);
    repeat xa_step; apply Hk; reflexivity.
Qed.

Lemma release_session_posta wakeup e :
  posta (release_session wakeup) e
    (fun _ _ _ => disabled (bfd e) <> 0 \/ fd_out (bfd e) <> -1).
Proof.
  unfold release_session. xa_step. xa_step.
  destruct (Z.eqb_spec (disabled (bfd e)) 0) as [Hd | Hd]; cbn [negb].
  2: { xa_step. left. exact Hd. }
  apply (posta_suspend_step SENDER wakeup). intros b1 E1.
  apply (posta_suspend_step EXPIRE wakeup). cbn [bfd before after glob].
  intros b2 E2.
  apply (posta_suspend_step RESET wakeup). cbn [bfd before after glob].
  intros b3 E3.
  xa_step. xa_step. xa_step. xa_step.
  match goal with H : negb _ = true |- _ => rename H into Hfd end.
  xa_step. right.
  apply negb_true_iff, Z.eqb_neq in Hfd. cbn [bfd] in *.
  rewrite E3, E2, E1 in Hfd. exact Hfd.
Qed.

Ltac xa_go :=
  repeat first
    [ xa_step
    | apply posta_when; intros ?
    | match goal with
      | |- posta (if ?c then _ else _) _ _ => destruct c eqn:?
      end ].

(** Whatever it is run on, the pass of [bfd_register_workers] over a
    session fails an [assert] or leaves the session's [disabled] flag and
    socket as they were. *)
Lemma register_session_posta e :
  posta register_session e
    (fun _ b' _ => disabled b' = disabled (bfd e)
                   /\ fd_out b' = fd_out (bfd e)).
Proof.
  unfold register_session, bfd_sender_suspended, bfd_expire_suspended,
    bfd_reset_suspended, bfd_sender_discard, bfd_expire_discard,
    bfd_reset_discard, bfd_sender_resume, bfd_expire_resume,
    bfd_reset_resume, bfd_sender_schedule, rand_intv.
  xa_go; split; reflexivity.
Qed.

(** The same for the pass of [bfd_open_fds]: the flag stays, and a
    session that is not disabled and gets no socket is left with -1 for
    a descriptor. *)
Lemma open_session_posta sys e :
  posta (open_session sys) e
    (fun _ b' _ => disabled b' = disabled (bfd e)
                   /\ (disabled (bfd e) = 0 ->
                       out_socket (sys (bfd e)) = -1 -> fd_out b' = -1)).
Proof.
  unfold open_session. xa_step. xa_step.
  destruct (Z.eqb_spec (disabled (bfd e)) 0) as [Hd | Hd]; cbn [negb].
  2: { xa_step. split; [reflexivity|]. intros H. contradiction. }
  unfold bfd_open_fd_out. repeat xa_step.
  cbn [fd_out set_fd_out src_addr].
  assert (Hfin : forall r,
    posta (when (negb (r =? 0)) bfd_state_admindown)
      {| before := before e;
         bfd := set_fd_out (out_socket (sys (bfd e))) (bfd e);
         after := after e; glob := glob e |}
      (fun _ b' _ =>
         disabled b' = disabled (bfd e)
         /\ (disabled (bfd e) = 0 ->
             out_socket (sys (bfd e)) = -1 -> fd_out b' = -1))).
  { intros r. apply posta_when; intros _.
    - apply posta_of_postg, xp_state_admindown. cbn [bfd glob].
      split; [reflexivity|]. intros _ Hs. cbn. exact Hs.
    - cbn [bfd]. split; [reflexivity|]. intros _ Hs. cbn. exact Hs. }
  repeat match goal with
         | |- posta (if ?c then _ else _) _ _ => destruct c
         end; xa_step; apply Hfin.
Qed.

(** What holds of each session whenever the body returns holds of the
    sessions a loop returns. *)
Lemma for_each_inv (body : M unit) (R : bfd_t -> bfd_t -> Prop)
    (rest : list bfd_t) :
  (forall e, posta body e (fun _ b' _ => R (bfd e) b')) ->
  forall front g w,
    for_each body front rest g = Done tt w ->
    exists l', bfd_list w = front ++ l' /\ Forall2 R rest l'.
Proof.
  intros Hbody. induction rest as [|b rest IH]; intros front g w Hrun.
  - cbn in Hrun. inversion Hrun; subst. exists []. cbn.
    rewrite app_nil_r. split; [reflexivity|constructor].
  - cbn [for_each] in Hrun.
    destruct (Hbody {| before := front; bfd := b; after := rest;
                       glob := g |})
      as [Hab | (a & b' & g' & Hb & HR)].
    + rewrite Hab in Hrun. discriminate Hrun.
    + rewrite Hb in Hrun. cbn [bfd glob before after] in Hrun, HR.
      destruct (IH _ _ _ Hrun) as (l' & El & HF).
      exists (b' :: l'). split.
      * rewrite El, <- app_assoc. reflexivity.
      * constructor; assumption.
Qed.

Lemma Forall2_In_l {A B} (R : A -> B -> Prop) l l' a :
  Forall2 R l l' -> In a l -> exists a', In a' l' /\ R a a'.
Proof.
  induction 1 as [|x y l l' Hxy _ IH]; intros Hin; [destruct Hin|].
  destruct Hin as [-> | Hin].
  - exists y. split; [left; reflexivity|exact Hxy].
  - destruct (IH Hin) as (a' & Ha' & HR).
    exists a'. split; [right; exact Ha'|exact HR].
Qed.

(** ** The loops on [bfd_data_t] *)

Lemma over_sessions_inv (body : M unit) (R : bfd_t -> bfd_t -> Prop)
    data data' :
  (forall e, posta body e (fun _ b' _ => R (bfd e) b')) ->
  over_sessions body data = Done tt data' ->
  thread_in data' = thread_in data
  /\ fd_in data' = fd_in data
  /\ Forall2 R (sessions data) (sessions data').
Proof.
  intros Hbody Hrun. unfold over_sessions in Hrun.
  destruct (for_each body [] (bfd_list (data_bfd data))
              (w_glob (data_bfd data))) as [[] w| |] eqn:Hf;
    try discriminate Hrun.
  inversion Hrun; subst. cbn.
  destruct (for_each_inv body R _ Hbody _ _ _ Hf) as (l' & El & HF).
  unfold sessions. cbn. rewrite El. repeat split. exact HF.
Qed.

Lemma over_sessions_rel (body : M unit) (P : bfd_t -> Prop)
    (R : bfd_t -> bfd_t -> Prop) data :
  (forall b front back g,
     P b ->
     exists b' g',
       body {| before := front; bfd := b; after := back; glob := g |}
       = Done tt {| before := front; bfd := b'; after := back;
                    glob := g' |}
       /\ R b b') ->
  Forall P (sessions data) ->
  exists data',
    over_sessions body data = Done tt data'
    /\ thread_in data' = thread_in data
    /\ fd_in data' = fd_in data
    /\ Forall2 R (sessions data) (sessions data').
Proof.
  intros Hbody HP.
  destruct (for_each_rel body P R _ Hbody HP [] (w_glob (data_bfd data)))
    as (l' & g' & Hrun & HF).
  unfold over_sessions. unfold sessions in *. rewrite Hrun.
  eexists. split; [reflexivity|]. cbn. repeat split. exact HF.
Qed.

Lemma over_sessions_abort (body : M unit) data :
  (forall e, body e <> Diverge) ->
  (exists b, In b (sessions data)
             /\ forall front back g,
                  body {| before := front; bfd := b; after := back;
                          glob := g |} = Abort) ->
  over_sessions body data = Abort.
Proof.
  intros Hnd Hb. unfold over_sessions.
  rewrite (for_each_abort body _ Hnd Hb). reflexivity.
Qed.

Lemma release_session_aborts wakeup front b back g :
  disabled b = 0 -> fd_out b = -1 ->
  release_session wakeup
    {| before := front; bfd := b; after := back; glob := g |} = Abort.
Proof.
  intros Hd Hfd.
  destruct (release_session_posta wakeup
              {| before := front; bfd := b; after := back; glob := g |})
    as [H | (a & b' & g' & _ & [H | H])].
  - exact H.
  - cbn in H. contradiction.
  - cbn in H. contradiction.
Qed.

Lemma open_fd_in_ok sys data :
  fd_in data = -1 ->
  in_getaddrinfo sys = 0 -> in_socket sys <> -1 ->
  in_setsockopt sys <> -1 -> in_bind sys <> -1 ->
  bfd_open_fd_in sys data = Done 0 (set_fd_in (in_socket sys) data).
Proof.
  intros Hf H1 H2 H3 H4. unfold bfd_open_fd_in.
  rewrite Hf, H1. change (negb (-1 =? -1)) with false.
  change (negb (0 =? 0)) with false. cbv iota.
  cbn [fd_in set_fd_in].
  apply Z.eqb_neq in H2, H3, H4. rewrite H2, H3, H4. reflexivity.
Qed.

Lemma open_fd_in_fails sys data :
  fd_in data = -1 ->
  in_getaddrinfo sys <> 0 \/ in_socket sys = -1
  \/ in_setsockopt sys = -1 \/ in_bind sys = -1 ->
  exists data1,
    bfd_open_fd_in sys data = Done 1 data1
    /\ data_bfd data1 = data_bfd data
    /\ thread_in data1 = thread_in data.
Proof.
  intros Hf H. unfold bfd_open_fd_in.
  rewrite Hf. change (negb (-1 =? -1)) with false. cbv iota.
  destruct (Z.eqb_spec (in_getaddrinfo sys) 0) as [H0 | H0]; cbn [negb].
  2: { exists data. repeat split. }
  cbn [fd_in set_fd_in].
  destruct (Z.eqb_spec (in_socket sys) (-1)) as [H1 | H1].
  { eexists. split; [reflexivity|]. split; reflexivity. }
  destruct (Z.eqb_spec (in_setsockopt sys) (-1)) as [H2 | H2].
  { eexists. split; [reflexivity|]. split; reflexivity. }
  destruct (Z.eqb_spec (in_bind sys) (-1)) as [H3 | H3].
  { eexists. split; [reflexivity|]. split; reflexivity. }
  exfalso. destruct H as [H | [H | [H | H]]]; contradiction.
Qed.

(** X15.  An output socket that could not be created stops the release:
    whenever [bfd_dispatcher_init] has returned and [socket ()] had
    failed for a session that is not disabled, the next
    [bfd_dispatcher_release], on reload or on shutdown, fails the
    [assert] on [fd_out] (the session was made AdminDown, but its
    [disabled] flag is still 0 and its descriptor is -1). *)
Theorem socket_failure_stops_release sys_in sys_out reload wakeup
    data o data1 b :
  bfd_dispatcher_init sys_in sys_out data = Done o data1 ->
  fd_in data <> -1 \/ in_getaddrinfo sys_in = 0 /\ in_socket sys_in <> -1
                      /\ in_setsockopt sys_in <> -1 /\ in_bind sys_in <> -1 ->
  In b (sessions data) ->
  disabled b = 0 ->
  out_socket (sys_out b) = -1 ->
  bfd_dispatcher_release reload wakeup data1 = Abort.
Proof.
  intros Hinit Hin Hb Hd Hs.
  unfold bfd_dispatcher_init in Hinit.
  destruct (bfd_open_fds sys_in sys_out data) as [r data0| |] eqn:Hopen;
    try discriminate Hinit.
  assert (Hopen' : exists dataI,
             sessions dataI = sessions data
             /\ over_sessions (open_session sys_out) dataI
                = Done tt data0 /\ r = 0).
  { unfold bfd_open_fds in Hopen.
    destruct (Z.eqb_spec (fd_in data) (-1)) as [Hf | Hf].
    - destruct Hin as [Hin | (H1 & H2 & H3 & H4)]; [contradiction|].
      rewrite (open_fd_in_ok sys_in data Hf H1 H2 H3 H4) in Hopen.
      change (negb (0 =? 0)) with false in Hopen. cbv iota in Hopen.
      destruct (over_sessions (open_session sys_out)
                  (set_fd_in (in_socket sys_in) data))
        as [[] d| |] eqn:Ho; try discriminate Hopen.
      inversion Hopen; subst.
      eexists. split; [|split; [exact Ho|reflexivity]]. reflexivity.
    - destruct (over_sessions (open_session sys_out) data)
        as [[] d| |] eqn:Ho; try discriminate Hopen.
      inversion Hopen; subst.
      exists data. split; [reflexivity|]. split; [exact Ho|reflexivity]. }
  destruct Hopen' as (dataI & EI & Ho & ->).
  cbn [Z.eqb] in Hinit.
  destruct (bfd_register_workers data0) as [[] data2| |] eqn:Hreg;
    try discriminate Hinit.
  inversion Hinit; subst o data2. clear Hinit.
  destruct (over_sessions_inv (open_session sys_out)
              (fun b b' =>
                 disabled b' = disabled b
                 /\ (disabled b = 0 -> out_socket (sys_out b) = -1 ->
                     fd_out b' = -1))
              _ _ (open_session_posta sys_out) Ho)
    as (_ & _ & F1).
  unfold bfd_register_workers in Hreg.
  destruct (is_some (thread_in data0)); [discriminate Hreg|].
  destruct (over_sessions_inv register_session
              (fun b b' => disabled b' = disabled b
                           /\ fd_out b' = fd_out b)
              _ _ register_session_posta Hreg)
    as (Ht & Hf & F2).
  cbn [thread_in fd_in set_thread_in] in Ht, Hf.
  rewrite EI in F1.
  destruct (Forall2_In_l _ _ _ _ F1 Hb) as (b1 & Hb1 & Hd1 & Hfd1).
  change (sessions (set_thread_in (Some (fd_in data0)) data0))
    with (sessions data0) in F2.
  destruct (Forall2_In_l _ _ _ _ F2 Hb1) as (b2 & Hb2 & Hd2 & Hfd2).
  unfold bfd_dispatcher_release. rewrite Ht. cbn [is_some negb].
  destruct (fd_in data1 =? -1); [reflexivity|].
  apply over_sessions_abort.
  - intros e. exact (posta_never_diverges _ _ _
                       (release_session_posta wakeup e)).
  - exists b2. split.
    + destruct reload; exact Hb2.
    + intros front back g. apply release_session_aborts.
      * rewrite Hd2, Hd1. exact Hd.
      * rewrite Hfd2. apply Hfd1; assumption.
Qed.

Lemma socket_failure_stops_release_witness :
  exists data1,
    bfd_dispatcher_init listen_ok no_socket (data_of [fresh])
    = Done (Returned 0) data1
    /\ bfd_dispatcher_release true soon data1 = Abort.
Proof.
  destruct (bfd_dispatcher_init listen_ok no_socket (data_of [fresh]))
    as [o data1| |] eqn:Hinit; try (vm_compute in Hinit; discriminate Hinit).
  exists data1. split.
  - vm_compute in Hinit. inversion Hinit; subst. reflexivity.
  - apply (socket_failure_stops_release listen_ok no_socket true soon
             (data_of [fresh]) o data1 fresh Hinit).
    + right. repeat split; discriminate.
    + left. reflexivity.
    + reflexivity.
    + reflexivity.
Defined.

Lemma open_fds_returns sys_in sys_out data r data' :
  bfd_open_fds sys_in sys_out data = Done r data' -> r = 0 \/ r = 1.
Proof.
  unfold bfd_open_fds, bfd_open_fd_in. intros H.
  repeat match type of H with
         | context [if ?c then _ else _] => destruct c
         | context [match over_sessions ?b ?d with _ => _ end] =>
             destruct (over_sessions b d)
         end;
    try discriminate H; inversion H; subst; auto.
Qed.

(** X16.  The dispatcher never leaves through [exit]: whatever the system
    calls give and whatever the sessions are, if [bfd_dispatcher_init]
    comes to an end it has returned 0.  [bfd_open_fds] returns 0 or 1
    and the test before [exit] is for -1, so a listening socket that
    cannot be opened does not stop the start. *)
Theorem dispatcher_init_never_exits sys_in sys_out data o data' :
  bfd_dispatcher_init sys_in sys_out data = Done o data' ->
  o = Returned 0.
Proof.
  unfold bfd_dispatcher_init. intros H.
  destruct (bfd_open_fds sys_in sys_out data) as [r data1| |] eqn:Ho;
    try discriminate H.
  destruct (open_fds_returns _ _ _ _ _ Ho) as [-> | ->];
    cbn [Z.eqb] in H;
    destruct (bfd_register_workers data1) as [[] d| |];
    try discriminate H; inversion H; reflexivity.
Qed.

Lemma dispatcher_init_never_exits_witness :
  exists data',
    bfd_dispatcher_init listen_fails (out_ok 5) (data_of [fresh])
    = Done (Returned 0) data'.
Proof.
  destruct (bfd_dispatcher_init listen_fails (out_ok 5) (data_of [fresh]))
    as [o data'| |] eqn:H; try (vm_compute in H; discriminate H).
  exists data'.
  rewrite (dispatcher_init_never_exits _ _ _ _ _ H). reflexivity.
Defined.

(** ** The start *)

Lemma resumed_as_none r b : sands_of r b = -1 -> resumed_as r b = b.
Proof. intros H. unfold resumed_as. rewrite H. reflexivity. Qed.

(** The pass of [bfd_register_workers] on a session with no snapshot. *)
Lemma x_register_no_snapshot b g :
  (forall r, sands_of r b = -1) ->
  disabled b = 0 ->
  fst (x_register b g)
  = (if local_state b =? BFD_STATE_ADMINDOWN then b
     else set_thread_out (Some (draw_delay b g)) b).
Proof.
  intros Hs Hd. unfold x_register. rewrite Hd. cbn [Z.eqb negb].
  pose proof (Hs SENDER) as H1. pose proof (Hs EXPIRE) as H2.
  pose proof (Hs RESET) as H3. cbn [sands_of] in H1, H2, H3.
  rewrite H1. cbn [Z.eqb Pos.eqb andb].
  destruct (local_state b =? BFD_STATE_ADMINDOWN); cbn [negb fst].
  - rewrite (resumed_as_none SENDER b H1).
    rewrite (resumed_as_none EXPIRE b H2).
    rewrite (resumed_as_none RESET b H3). reflexivity.
  - unfold x_schedule. cbn [fst].
    rewrite (resumed_as_none EXPIRE) by exact H2.
    rewrite (resumed_as_none RESET) by exact H3. reflexivity.
Qed.

(** The pass of [bfd_open_fds] on an unstarted session. *)
Lemma open_session_unstarted sys b front back g :
  unstarted b ->
  exists b1 g1,
    open_session sys
      {| before := front; bfd := b; after := back; glob := g |}
    = Done tt {| before := front; bfd := b1; after := back; glob := g1 |}
    /\ b1 = fst (x_open sys b g).
Proof.
  intros (Hfd & _).
  destruct (xp_open_session sys
              {| before := front; bfd := b; after := back; glob := g |}
              (fun _ b1 _ => b1 = fst (x_open sys b g)))
    as ([] & b1 & g1 & Hrun & ->).
  - intros _. exact Hfd.
  - reflexivity.
  - eexists _, g1. split; [exact Hrun|reflexivity].
Qed.

(** What the pass of [bfd_open_fds] leaves of an unstarted session is
    ready for the pass of [bfd_register_workers]. *)
Lemma x_open_ready sys b g :
  unstarted b ->
  let b1 := fst (x_open sys b g) in
  (forall r, handle_of r b1 = None)
  /\ (forall r, sands_of r b1 = -1)
  /\ disabled b1 = disabled b
  /\ local_tx_intv b1
     = (if negb (disabled b =? 0) then local_tx_intv b
        else if open_fails (sys b) b then local_idle_tx_intv b
        else local_tx_intv b).
Proof.
  intros (_ & Hh & Hs & _). cbn zeta. unfold x_open.
  pose proof (Hh SENDER) as H1. pose proof (Hh EXPIRE) as H2.
  pose proof (Hh RESET) as H3. cbn [handle_of] in H1, H2, H3.
  pose proof (Hs SENDER) as S1. pose proof (Hs EXPIRE) as S2.
  pose proof (Hs RESET) as S3. cbn [sands_of] in S1, S2, S3.
  destruct (negb (disabled b =? 0)); cbn [fst].
  { split; [exact Hh|]. split; [exact Hs|]. split; reflexivity. }
  destruct (open_fails (sys b) b); cbn [fst];
    (split; [intros r; destruct r; cbn; first [assumption | reflexivity]|]);
    (split; [intros r; destruct r; cbn; first [assumption | reflexivity]|]);
    split; reflexivity.
Qed.

(** The pass of [bfd_register_workers] on a session with no timer and no
    snapshot. *)
Lemma register_session_ready b front back g :
  (forall r, handle_of r b = None) ->
  exists b2 g2,
    register_session
      {| before := front; bfd := b; after := back; glob := g |}
    = Done tt {| before := front; bfd := b2; after := back; glob := g2 |}
    /\ b2 = fst (x_register b g).
Proof.
  intros Hh.
  destruct (xp_register_session
              {| before := front; bfd := b; after := back; glob := g |}
              (fun _ b2 _ => b2 = fst (x_register b g)))
    as ([] & b2 & g2 & Hrun & ->).
  - intros _. exact Hh.
  - reflexivity.
  - eexists _, g2. split; [exact Hrun|reflexivity].
Qed.

Lemma Forall2_right {A B} (R : A -> B -> Prop) (P : B -> Prop) l l' :
  (forall a b, R a b -> P b) -> Forall2 R l l' -> Forall P l'.
Proof.
  intros H. induction 1; constructor; eauto.
Qed.

Lemma Forall2_trans {A B C} (R : A -> B -> Prop) (S : B -> C -> Prop)
    (T : A -> C -> Prop) l l' l'' :
  (forall a b c, R a b -> S b c -> T a c) ->
  Forall2 R l l' -> Forall2 S l' l'' -> Forall2 T l l''.
Proof.
  intros H H1. revert l''.
  induction H1; intros l'' H2; inversion H2; subst; constructor; eauto.
Qed.

Lemma Forall2_of_Forall {A B} (P : A -> Prop) (R : A -> B -> Prop)
    (T : A -> B -> Prop) l l' :
  (forall a b, P a -> R a b -> T a b) ->
  Forall P l -> Forall2 R l l' -> Forall2 T l l'.
Proof.
  intros H HP H2. induction H2; inversion HP; subst; constructor; eauto.
Qed.

(** What the two passes of the start make of an unstarted session. *)
Lemma started_of sys b g g' :
  unstarted b ->
  started sys b (fst (x_register (fst (x_open sys b g)) g')).
Proof.
  intros Hu. destruct (x_open_ready sys b g Hu) as (Hh & Hs & Hd & Hi).
  cbn zeta in *. destruct Hu as (_ & _ & _ & HI).
  unfold started. revert Hh Hs Hd Hi. unfold x_open.
  destruct (Z.eqb_spec (disabled b) 0) as [E | E]; cbn [negb].
  2: { cbn [fst]. intros _ _ _ _. unfold x_register.
       apply Z.eqb_neq in E. rewrite E. reflexivity. }
  destruct (open_fails (sys b) b); cbn [fst]; intros Hh Hs Hd Hi.
  - rewrite x_register_no_snapshot by (try exact Hs; rewrite Hd; exact E).
    reflexivity.
  - rewrite x_register_no_snapshot by (try exact Hs; rewrite Hd; exact E).
    change (local_state (set_fd_out (out_socket (sys b)) b))
      with (local_state b).
    destruct (local_state b =? BFD_STATE_ADMINDOWN); [reflexivity|].
    eexists. split; [|reflexivity].
    destruct (draw_delay_bounds (set_fd_out (out_socket (sys b)) b) g' HI)
      as (B1 & B2 & _).
    split; [exact B1|exact B2].
Qed.

(** X17.  The start: when the dispatcher has not been started, the
    listening socket opens and no session has been touched yet,
    [bfd_dispatcher_init] returns 0 with the receiver registered on the
    listening socket, every disabled session as it was, every session
    whose output socket could not be opened AdminDown (interval idle,
    diagnostic 7) with no timer, and every other session with its socket
    and, unless it is AdminDown, its transmitter armed with a delay
    between three quarters of its transmit interval and the whole; no
    expiry or reset timer is armed by the start. *)
Theorem dispatcher_starts_sessions sys_in sys_out data :
  thread_in data = None ->
  fd_in data = -1 ->
  in_getaddrinfo sys_in = 0 /\ in_socket sys_in <> -1
  /\ in_setsockopt sys_in <> -1 /\ in_bind sys_in <> -1 ->
  Forall unstarted (sessions data) ->
  exists data',
    bfd_dispatcher_init sys_in sys_out data = Done (Returned 0) data'
    /\ fd_in data' = in_socket sys_in
    /\ thread_in data' = Some (in_socket sys_in)
    /\ Forall2 (started sys_out) (sessions data) (sessions data').
Proof.
  intros Ht Hf (H1 & H2 & H3 & H4) Hu.
  unfold bfd_dispatcher_init, bfd_open_fds.
  rewrite Hf. change (-1 =? -1) with true. cbv iota.
  rewrite (open_fd_in_ok sys_in data Hf H1 H2 H3 H4).
  change (negb (0 =? 0)) with false. cbv iota.
  destruct (over_sessions_rel (open_session sys_out) unstarted
              (fun b b1 => exists g, b1 = fst (x_open sys_out b g))
              (set_fd_in (in_socket sys_in) data))
    as (data0 & Ho & Ht0 & Hf0 & F1).
  { intros b front back g Hb.
    destruct (open_session_unstarted sys_out b front back g Hb)
      as (b1 & g1 & Hrun & E).
    exists b1, g1. split; [exact Hrun|]. exists g. exact E. }
  { exact Hu. }
  rewrite Ho. change (0 =? -1) with false. cbv iota.
  unfold bfd_register_workers.
  cbn [thread_in fd_in set_fd_in] in Ht0, Hf0.
  rewrite Ht0, Ht. cbn [is_some].
  destruct (over_sessions_rel register_session
              (fun b1 => forall r, handle_of r b1 = None)
              (fun b1 b2 => exists g, b2 = fst (x_register b1 g))
              (set_thread_in (Some (fd_in data0)) data0))
    as (data2 & Hr & Ht2 & Hf2 & F2).
  { intros b front back g Hb.
    destruct (register_session_ready b front back g Hb)
      as (b2 & g2 & Hrun & E).
    exists b2, g2. split; [exact Hrun|]. exists g. exact E. }
  { change (sessions (set_thread_in (Some (fd_in data0)) data0))
      with (sessions data0).
    apply (Forall2_right
             (fun b b1 => unstarted b
                          /\ exists g, b1 = fst (x_open sys_out b g))
             _ (sessions data) (sessions data0)).
    - intros b b1 (Hb & g & ->).
      exact (proj1 (x_open_ready sys_out b g Hb)).
    - apply (Forall2_of_Forall unstarted
               (fun b b1 => exists g, b1 = fst (x_open sys_out b g)));
        [|exact Hu|exact F1].
      intros b b1 Hb Hg. split; assumption. }
  rewrite Hr. exists data2.
  cbn [thread_in fd_in set_thread_in] in Ht2, Hf2.
  split; [reflexivity|]. split; [congruence|]. split; [congruence|].
  change (sessions (set_thread_in (Some (fd_in data0)) data0))
    with (sessions data0) in F2.
  change (sessions (set_fd_in (in_socket sys_in) data))
    with (sessions data) in F1.
  apply (Forall2_of_Forall unstarted
           (fun b b2 => exists g g', b2 = fst (x_register
                                                 (fst (x_open sys_out b g))
                                                 g'))).
  - intros b b2 Hb (g & g' & ->). apply started_of. exact Hb.
  - exact Hu.
  - refine (Forall2_trans _ _ _ _ _ _ _ F1 F2).
    intros b b1 b2 (g & ->) (g' & ->). exists g, g'. reflexivity.
Qed.

Lemma dispatcher_starts_sessions_witness :
  exists data',
    bfd_dispatcher_init listen_ok (out_ok 5) (data_of [fresh])
    = Done (Returned 0) data'
    /\ fd_in data' = 4
    /\ thread_in data' = Some 4
    /\ Forall2 (started (out_ok 5)) [fresh] (sessions data').
Proof.
  apply (dispatcher_starts_sessions listen_ok (out_ok 5) (data_of [fresh])).
  - reflexivity.
  - reflexivity.
  - repeat split; discriminate.
  - constructor; [|constructor].
    split; [reflexivity|]. split; [intros r; destruct r; reflexivity|].
    split; [intros r; destruct r; reflexivity|].
    vm_compute. split; [discriminate|reflexivity].
Defined.

(** X18.  A listening socket that cannot be opened does not stop the
    start: when the dispatcher has not been started, no session has been
    touched and one of the four calls that prepare the listening socket
    fails, [bfd_dispatcher_init] still returns 0; no output socket is
    opened, the receiver is registered on whatever descriptor is there,
    and every session that is neither disabled nor AdminDown has its
    transmitter armed although it has no socket to send on. *)
Theorem listen_failure_is_not_fatal sys_in sys_out data :
  thread_in data = None ->
  fd_in data = -1 ->
  in_getaddrinfo sys_in <> 0 \/ in_socket sys_in = -1
  \/ in_setsockopt sys_in = -1 \/ in_bind sys_in = -1 ->
  Forall unstarted (sessions data) ->
  exists data',
    bfd_dispatcher_init sys_in sys_out data = Done (Returned 0) data'
    /\ thread_in data' = Some (fd_in data')
    /\ Forall2
         (fun b b' =>
            fd_out b' = -1
            /\ (disabled b = 0 ->
                local_state b <> BFD_STATE_ADMINDOWN ->
                exists d, jittered b d /\ b' = set_thread_out (Some d) b))
         (sessions data) (sessions data').
Proof.
  intros Ht Hf Hfail Hu.
  unfold bfd_dispatcher_init, bfd_open_fds.
  rewrite Hf. change (-1 =? -1) with true. cbv iota.
  destruct (open_fd_in_fails sys_in data Hf Hfail)
    as (data1 & H1 & Hw & Ht1).
  rewrite H1. change (negb (1 =? 0)) with true. cbv iota.
  change (1 =? -1) with false. cbv iota.
  unfold bfd_register_workers. rewrite Ht1, Ht. cbn [is_some].
  destruct (over_sessions_rel register_session
              (fun b1 => forall r, handle_of r b1 = None)
              (fun b1 b2 => exists g, b2 = fst (x_register b1 g))
              (set_thread_in (Some (fd_in data1)) data1))
    as (data2 & Hr & Ht2 & Hf2 & F2).
  { intros b front back g Hb.
    destruct (register_session_ready b front back g Hb)
      as (b2 & g2 & Hrun & E).
    exists b2, g2. split; [exact Hrun|]. exists g. exact E. }
  { unfold sessions. cbn [data_bfd set_thread_in]. rewrite Hw.
    revert Hu. apply Forall_impl. intros b (_ & Hh & _). exact Hh. }
  rewrite Hr. exists data2.
  cbn [thread_in fd_in set_thread_in] in Ht2, Hf2.
  split; [reflexivity|]. split; [congruence|].
  assert (Es : sessions (set_thread_in (Some (fd_in data1)) data1)
               = sessions data)
    by (unfold sessions; cbn [data_bfd set_thread_in]; rewrite Hw;
        reflexivity).
  rewrite Es in F2.
  refine (Forall2_of_Forall unstarted _ _ _ _ _ Hu F2).
  intros b b2 (Hfd & Hh & Hs & HI) (g & ->).
  destruct (Z.eqb_spec (disabled b) 0) as [Hd | Hd].
  - rewrite x_register_no_snapshot by assumption.
    destruct (Z.eqb_spec (local_state b) BFD_STATE_ADMINDOWN) as [Ha | Ha].
    + split; [exact Hfd|]. intros _ H. contradiction.
    + split; [exact Hfd|]. intros _ _.
      exists (draw_delay b g). split; [|reflexivity].
      destruct (draw_delay_bounds b g HI) as (B1 & B2 & _).
      split; assumption.
  - unfold x_register. apply Z.eqb_neq in Hd. rewrite Hd. cbn [negb fst].
    split; [exact Hfd|]. intros H. apply Z.eqb_neq in Hd. contradiction.
Qed.

Lemma listen_failure_is_not_fatal_witness :
  exists data',
    bfd_dispatcher_init listen_fails (out_ok 5) (data_of [fresh])
    = Done (Returned 0) data'
    /\ thread_in data' = Some (fd_in data').
Proof.
  destruct (listen_failure_is_not_fatal listen_fails (out_ok 5)
              (data_of [fresh])) as (data' & Hrun & Ht & _).
  - reflexivity.
  - reflexivity.
  - right. left. reflexivity.
  - constructor; [|constructor].
    split; [reflexivity|]. split; [intros r; destruct r; reflexivity|].
    split; [intros r; destruct r; reflexivity|].
    vm_compute. split; [discriminate|reflexivity].
  - exists data'. split; [exact Hrun|exact Ht].
Defined.

(** ** Release and start again *)

Lemma x_release_ready wakeup b :
  (forall r b0, wakeup r b0 <> -1) ->
  (disabled b = 0 -> running b) ->
  disabled (x_release wakeup b) = disabled b
  /\ (disabled b = 0 ->
      fd_out (x_release wakeup b) = -1
      /\ (forall r, handle_of r (x_release wakeup b) = None)
      /\ (sands_out (x_release wakeup b) <> -1
          \/ local_state (x_release wakeup b) = BFD_STATE_ADMINDOWN)).
Proof.
  intros Hw Hrun. unfold x_release.
  destruct (Z.eqb_spec (disabled b) 0) as [Hd | Hd]; cbn [negb].
  2: { split; [reflexivity|]. intros H. contradiction. }
  destruct (Hrun Hd) as (Hfd & Hs & (Hr & Hx & Hrst & Ha) & Ho).
  destruct (suspended_as_frame SENDER wakeup b) as (_ & D1 & L1 & G1).
  set (b1 := suspended_as SENDER wakeup b) in *.
  destruct (suspended_as_frame EXPIRE wakeup b1) as (_ & D2 & L2 & G2).
  set (b2 := suspended_as EXPIRE wakeup b1) in *.
  destruct (suspended_as_frame RESET wakeup b2) as (_ & D3 & L3 & G3).
  set (b3 := suspended_as RESET wakeup b2) in *.
  cbn [disabled set_fd_out fd_out local_state sands_out].
  split; [congruence|]. intros _. split; [reflexivity|].
  assert (H1 : handle_of SENDER b1 = None).
  { subst b1. unfold suspended_as.
    destruct (handle_of SENDER b) eqn:E; cbn [is_some]; [reflexivity|].
    exact E. }
  assert (H2 : handle_of EXPIRE b2 = None).
  { subst b2. unfold suspended_as.
    destruct (handle_of EXPIRE b1) eqn:E; cbn [is_some]; [reflexivity|].
    exact E. }
  assert (H3 : handle_of RESET b3 = None).
  { subst b3. unfold suspended_as.
    destruct (handle_of RESET b2) eqn:E; cbn [is_some]; [reflexivity|].
    exact E. }
  split.
  - intros r. destruct r; cbn [handle_of set_fd_out thread_out thread_exp
                               thread_rst].
    + change (handle_of SENDER b3 = None).
      rewrite (proj1 (G3 SENDER ltac:(discriminate))).
      rewrite (proj1 (G2 SENDER ltac:(discriminate))). exact H1.
    + change (handle_of EXPIRE b3 = None).
      rewrite (proj1 (G3 EXPIRE ltac:(discriminate))). exact H2.
    + exact H3.
  - change (sands_of SENDER b3 <> -1
            \/ local_state b3 = BFD_STATE_ADMINDOWN).
    rewrite (proj2 (G3 SENDER ltac:(discriminate))).
    rewrite (proj2 (G2 SENDER ltac:(discriminate))).
    rewrite L3, L2, L1.
    destruct (Z.eq_dec (local_state b) BFD_STATE_ADMINDOWN) as [E | E];
      [right; exact E|left].
    subst b1. unfold suspended_as. cbn [handle_of].
    rewrite (Ho E). cbn [set_handle set_sands sands_of sands_out
                         set_thread_out set_sands_out]. apply Hw.
Qed.

(** Release, a new socket and the snapshots put back, on a running
    session. *)
Lemma reloaded_eq wakeup sys b :
  (forall r b0, wakeup r b0 <> -1) ->
  (disabled b = 0 -> running b) ->
  registered (opened sys (x_release wakeup b)) = reloaded wakeup sys b.
Proof.
  intros Hw Hrun.
  assert (Hwb : forall r b0, (wakeup r b0 =? -1) = false)
    by (intros r b0; apply Z.eqb_neq, Hw).
  destruct (x_release_ready wakeup b Hw Hrun) as (Ed & _).
  destruct (Z.eqb_spec (disabled b) 0) as [Hd | Hd].
  2: { apply Z.eqb_neq in Hd.
       assert (Er : x_release wakeup b = b)
         by (unfold x_release; rewrite Hd; reflexivity).
       unfold registered, opened, reloaded. rewrite Er, Hd. cbn [negb].
       rewrite Hd. reflexivity. }
  unfold registered, opened, reloaded. rewrite Ed, Hd. cbn [Z.eqb negb].
  change (disabled (set_fd_out (out_socket (sys (x_release wakeup b)))
                      (x_release wakeup b)))
    with (disabled (x_release wakeup b)).
  rewrite Ed, Hd. cbn [Z.eqb negb].
  destruct (Hrun Hd) as (Hfd & Hs & (Hr & Hx & Hrst & Ha) & Ho).
  pose proof (Hs SENDER) as S1. pose proof (Hs EXPIRE) as S2.
  pose proof (Hs RESET) as S3. cbn [sands_of] in S1, S2, S3.
  remember (out_socket (sys (x_release wakeup b))) as fd eqn:Efd.
  clear Efd.
  unfold x_release. rewrite Hd. cbn [Z.eqb negb].
  assert (Hadm : forall x, local_state x = local_state b ->
            (local_state x =? BFD_STATE_ADMINDOWN)
            = (local_state b =? BFD_STATE_ADMINDOWN))
    by (intros x ->; reflexivity).
  unfold resumed_as, suspended_as, rearmed.
  assert (Hfin : forall x y : bfd_t,
            (sands_out b = -1 -> sands_exp b = -1 -> sands_rst b = -1 ->
             x = y) -> x = y) by auto.
  destruct (Z.eqb_spec (local_state b) BFD_STATE_ADMINDOWN) as [E | E].
  - pose proof (Ha E) as E1.
    assert (E2 : thread_exp b = None).
    { destruct (thread_exp b) eqn:Ex; [|reflexivity].
      destruct (proj1 Hx eq_refl) as [H | H]; rewrite E in H;
        discriminate H. }
    apply Z.eqb_eq in E.
    destruct (thread_rst b) as [t3|] eqn:E3;
      repeat (cbn [handle_of sands_of set_handle set_sands is_some
                   thread_out thread_exp thread_rst sands_out sands_exp
                   sands_rst local_state set_thread_out set_thread_exp
                   set_thread_rst set_sands_out set_sands_exp
                   set_sands_rst set_fd_out];
              rewrite ?E1, ?E2, ?E3, ?S1, ?S2, ?S3, ?Hwb, ?E, ?Z.eqb_refl);
      apply Hfin; clear - E1 E2 E3; intros S1 S2 S3;
      destruct b; cbn in *; subst; reflexivity.
  - pose proof (Ho E) as Hout. apply Z.eqb_neq in E.
    destruct (thread_out b) as [t1|] eqn:E1; [|discriminate Hout].
    destruct (thread_exp b) as [t2|] eqn:E2,
             (thread_rst b) as [t3|] eqn:E3;
      repeat (cbn [handle_of sands_of set_handle set_sands is_some
                   thread_out thread_exp thread_rst sands_out sands_exp
                   sands_rst local_state set_thread_out set_thread_exp
                   set_thread_rst set_sands_out set_sands_exp
                   set_sands_rst set_fd_out];
              rewrite ?E1, ?E2, ?E3, ?S1, ?S2, ?S3, ?Hwb, ?E, ?Z.eqb_refl);
      apply Hfin; clear - E1 E2 E3; intros S1 S2 S3;
      destruct b; cbn in *; subst; reflexivity.
Qed.

Lemma over_sessions_fun (body : M unit) (P : bfd_t -> Prop)
    (f : bfd_t -> bfd_t) data :
  (forall b front back g,
     P b ->
     body {| before := front; bfd := b; after := back; glob := g |}
     = Done tt {| before := front; bfd := f b; after := back;
                  glob := g |}) ->
  Forall P (sessions data) ->
  over_sessions body data
  = Done tt (with_world {| bfd_list := map f (sessions data);
                           w_glob := w_glob (data_bfd data) |} data).
Proof.
  intros Hbody HP. unfold over_sessions.
  unfold sessions in *.
  rewrite (for_each_fun body P f _ Hbody HP). reflexivity.
Qed.

(** The three passes as functions, on the sessions they are meant for. *)
Lemma release_session_run wakeup b front back g :
  (disabled b = 0 -> running b) ->
  release_session wakeup
    {| before := front; bfd := b; after := back; glob := g |}
  = Done tt {| before := front; bfd := x_release wakeup b; after := back;
               glob := g |}.
Proof.
  intros Hrun.
  apply (postg_run (release_session wakeup)
           {| before := front; bfd := b; after := back; glob := g |}
           (x_release wakeup b, g) tt).
  apply xp_release_session; cbn [bfd glob].
  - intros Hd. destruct (Hrun Hd) as (Hfd & Hs & _).
    split; [|exact Hfd]. intros r _. apply Hs.
  - repeat split.
Qed.

Lemma open_session_run sys b front back g :
  (forall b0, open_fails (sys b0) b0 = false) ->
  (disabled b = 0 -> fd_out b = -1) ->
  open_session sys
    {| before := front; bfd := b; after := back; glob := g |}
  = Done tt {| before := front; bfd := opened sys b; after := back;
               glob := g |}.
Proof.
  intros Hsys Hpre.
  apply (postg_run (open_session sys)
           {| before := front; bfd := b; after := back; glob := g |}
           (opened sys b, g) tt).
  apply xp_open_session; cbn [bfd glob]; [exact Hpre|].
  unfold x_open, opened. rewrite Hsys.
  destruct (negb (disabled b =? 0)); repeat split.
Qed.

Lemma register_session_run b front back g :
  (disabled b = 0 ->
   (forall r, handle_of r b = None)
   /\ (sands_out b <> -1 \/ local_state b = BFD_STATE_ADMINDOWN)) ->
  register_session
    {| before := front; bfd := b; after := back; glob := g |}
  = Done tt {| before := front; bfd := registered b; after := back;
               glob := g |}.
Proof.
  intros Hpre.
  apply (postg_run register_session
           {| before := front; bfd := b; after := back; glob := g |}
           (registered b, g) tt).
  apply xp_register_session; cbn [bfd glob].
  - intros Hd. exact (proj1 (Hpre Hd)).
  - unfold x_register, registered.
    destruct (Z.eqb_spec (disabled b) 0) as [Hd | Hd]; cbn [negb];
      [|repeat split].
    destruct (proj2 (Hpre Hd)) as [Hs | Ha].
    + apply Z.eqb_neq in Hs. rewrite Hs. cbn [andb fst snd]. repeat split.
    + rewrite Ha. cbn [Z.eqb negb]. rewrite andb_false_r.
      cbn [fst snd]. repeat split.
Qed.

(** X19.  A reload keeps the timers: when the dispatcher is running, no
    session has a snapshot, every session that is not disabled has its
    socket, its timers in step with its state and (unless AdminDown) its
    transmitter armed, no time to wakeup is -1 and the new sockets open,
    then [bfd_dispatcher_release] on reload followed by
    [bfd_dispatcher_init] runs to the end, keeps the listening socket,
    writes no event and draws no random number, and leaves every disabled
    session as it was and every other session with a new socket and each
    of its timers armed with the time to wakeup it had if it was armed,
    not armed if it was not; for an AdminDown session the reset timer is
    dropped.  Nothing else of a session changes. *)
Theorem reload_keeps_timers sys_in sys_out wakeup data :
  is_some (thread_in data) = true ->
  fd_in data <> -1 ->
  (forall r b, wakeup r b <> -1) ->
  (forall b, open_fails (sys_out b) b = false) ->
  Forall (fun b => disabled b = 0 -> running b) (sessions data) ->
  exists data1 data2,
    bfd_dispatcher_release true wakeup data = Done tt data1
    /\ bfd_dispatcher_init sys_in sys_out data1 = Done (Returned 0) data2
    /\ fd_in data2 = fd_in data
    /\ thread_in data2 = Some (fd_in data)
    /\ w_glob (data_bfd data2) = w_glob (data_bfd data)
    /\ sessions data2 = map (reloaded wakeup sys_out) (sessions data).
Proof.
  intros Ht Hf Hw Hsys Hrun.
  assert (Hrel : exists data1,
             bfd_dispatcher_release true wakeup data = Done tt data1
             /\ sessions data1 = map (x_release wakeup) (sessions data)
             /\ fd_in data1 = fd_in data
             /\ thread_in data1 = None
             /\ w_glob (data_bfd data1) = w_glob (data_bfd data)).
  { unfold bfd_dispatcher_release. rewrite Ht. cbn [negb].
    apply Z.eqb_neq in Hf. rewrite Hf.
    rewrite (over_sessions_fun (release_session wakeup)
               (fun b => disabled b = 0 -> running b) (x_release wakeup))
      by (try exact Hrun; intros; apply release_session_run; assumption).
    eexists. split; [reflexivity|]. repeat split. }
  destruct Hrel as (data1 & Hrel & Es1 & Ef1 & Et1 & Eg1).
  assert (Hopen : exists data2,
             bfd_open_fds sys_in sys_out data1 = Done 0 data2
             /\ sessions data2
                = map (opened sys_out)
                    (map (x_release wakeup) (sessions data))
             /\ fd_in data2 = fd_in data
             /\ thread_in data2 = None
             /\ w_glob (data_bfd data2) = w_glob (data_bfd data)).
  { unfold bfd_open_fds. rewrite Ef1.
    apply Z.eqb_neq in Hf. rewrite Hf.
    rewrite (over_sessions_fun (open_session sys_out)
               (fun b => disabled b = 0 -> fd_out b = -1)
               (opened sys_out)).
    2: { intros. apply open_session_run; assumption. }
    2: { rewrite Es1. apply Forall_map. revert Hrun. apply Forall_impl.
         intros b Hb.
         destruct (x_release_ready wakeup b Hw Hb) as (Ed & Hr).
         rewrite Ed. intros Hd. exact (proj1 (Hr Hd)). }
    eexists. split; [reflexivity|].
    split; [unfold sessions at 1; cbn [data_bfd with_world bfd_list];
            rewrite Es1; reflexivity|].
    split; [exact Ef1|]. split; [exact Et1|exact Eg1]. }
  destruct Hopen as (data2 & Hopen & Es2 & Ef2 & Et2 & Eg2).
  assert (Hreg : exists data3,
             bfd_register_workers data2 = Done tt data3
             /\ sessions data3 = map registered (sessions data2)
             /\ fd_in data3 = fd_in data
             /\ thread_in data3 = Some (fd_in data)
             /\ w_glob (data_bfd data3) = w_glob (data_bfd data)).
  { unfold bfd_register_workers. rewrite Et2. cbn [is_some].
    rewrite (over_sessions_fun register_session
               (fun b => disabled b = 0 ->
                         (forall r, handle_of r b = None)
                         /\ (sands_out b <> -1
                             \/ local_state b = BFD_STATE_ADMINDOWN))
               registered).
    2: { intros. apply register_session_run; assumption. }
    2: { change (sessions (set_thread_in (Some (fd_in data2)) data2))
           with (sessions data2).
         rewrite Es2. apply Forall_map, Forall_map.
         revert Hrun. apply Forall_impl. intros b Hb.
         destruct (x_release_ready wakeup b Hw Hb) as (Ed & Hr).
         unfold opened. rewrite Ed.
         destruct (Z.eqb_spec (disabled b) 0) as [Hd | Hd]; cbn [negb].
         - intros _. destruct (Hr Hd) as (_ & Hh & Hs).
           split; [|exact Hs].
           intros r. specialize (Hh r). destruct r; exact Hh.
         - rewrite Ed. intros H. contradiction. }
    eexists. split; [reflexivity|].
    split; [reflexivity|].
    split; [exact Ef2|]. split; [cbn; rewrite Ef2; reflexivity|].
    exact Eg2. }
  destruct Hreg as (data3 & Hreg & Es3 & Ef3 & Et3 & Eg3).
  exists data1, data3. split; [exact Hrel|].
  split.
  { unfold bfd_dispatcher_init. rewrite Hopen.
    change (0 =? -1) with false. cbv iota. rewrite Hreg. reflexivity. }
  split; [exact Ef3|]. split; [exact Et3|]. split; [exact Eg3|].
  rewrite Es3, Es2, !map_map.
  clear - Hw Hrun. induction Hrun as [|b l Hb _ IH]; [reflexivity|].
  cbn [map]. rewrite IH. f_equal. apply reloaded_eq; assumption.
Qed.

Lemma reload_keeps_timers_witness :
  exists data1 data2,
    bfd_dispatcher_release true soon data_up = Done tt data1
    /\ bfd_dispatcher_init listen_ok (out_ok 5) data1
       = Done (Returned 0) data2
    /\ sessions data2 = [reloaded soon (out_ok 5) peer_up].
Proof.
  destruct (reload_keeps_timers listen_ok (out_ok 5) soon data_up)
    as (data1 & data2 & H1 & H2 & _ & _ & _ & H3).
  - reflexivity.
  - discriminate.
  - intros r b. discriminate.
  - intros b. unfold open_fails, out_ok. cbn.
    rewrite andb_false_r. reflexivity.
  - constructor; [|constructor]. intros _.
    split; [discriminate|].
    split; [intros r; destruct r; reflexivity|].
    split; [timers_ok_run|]. intros _. reflexivity.
  - exists data1, data2. split; [exact H1|]. split; [exact H2|exact H3].
Defined.

(** * Receiving *)

Lemma cmsg_ttl_none cmsgs ttl :
  Forall not_ttl cmsgs -> cmsg_ttl cmsgs ttl = Some ttl.
Proof.
  induction 1 as [|c cmsgs Hc _ IH]; [reflexivity|].
  cbn [cmsg_ttl].
  assert (E : negb (cmsg_level c =? IPPROTO_IP)
              || negb (cmsg_type c =? IP_TTL) = true).
  { destruct Hc as [H | H]; apply Z.eqb_neq in H; rewrite H;
      cbn [negb orb]; [reflexivity|apply orb_true_r]. }
  rewrite E. exact IH.
Qed.

Lemma check_packet_ttl pkt :
  pkt_ttl pkt = 0 ->
  bfd_check_packet pkt = bfd_check_packet (with_ttl BFD_CONTROL_TTL pkt).
Proof.
  intros H. unfold bfd_check_packet. cbn [with_ttl pkt_hdr pkt_len pkt_ttl].
  rewrite H. reflexivity.
Qed.

(** X20.  No TTL message, no TTL check: when [recvmsg] succeeds, the
    datagram is not truncated and none of the control messages is an
    [IP_TTL] message of level [IPPROTO_IP], [bfd_recieve_packet] returns
    0 with the header, the length and the source address received and
    with TTL 0, and [bfd_check_packet] gives for that packet the verdict
    it would give had it arrived with TTL 255. *)
Theorem no_ttl_message_no_ttl_check fd msg pkt :
  0 <= fd ->
  msg_len msg <> -1 ->
  Z.land (msg_flags msg) MSG_TRUNC = 0 ->
  Forall not_ttl (msg_control msg) ->
  exists pkt',
    bfd_recieve_packet fd msg pkt = Done 0 pkt'
    /\ pkt_hdr pkt' = msg_iov msg
    /\ pkt_len pkt' = msg_len msg
    /\ pkt_src_addr pkt' = msg_name msg
    /\ pkt_ttl pkt' = 0
    /\ bfd_check_packet pkt'
       = bfd_check_packet (with_ttl BFD_CONTROL_TTL pkt').
Proof.
  intros Hfd Hlen Htr Hc. unfold bfd_recieve_packet.
  apply Z.leb_le in Hfd. rewrite Hfd. cbn [negb].
  apply Z.eqb_neq in Hlen. rewrite Hlen. rewrite Htr. cbn [Z.eqb negb].
  rewrite (cmsg_ttl_none _ 0 Hc).
  eexists. split; [reflexivity|]. cbn [pkt_hdr pkt_len pkt_src_addr pkt_ttl].
  repeat (split; [reflexivity|]).
  apply check_packet_ttl. reflexivity.
Qed.

Lemma no_ttl_message_no_ttl_check_witness :
  exists pkt',
    bfd_recieve_packet 4
      (delivered (control BFD_STATE_DOWN 0 0 0 0) []) pkt0
    = Done 0 pkt'
    /\ pkt_ttl pkt' = 0
    /\ bfd_check_packet pkt' = 0.
Proof.
  destruct (no_ttl_message_no_ttl_check 4
              (delivered (control BFD_STATE_DOWN 0 0 0 0) [])
              pkt0)
    as (pkt' & Hrun & Hh & Hl & _ & Ht & Hc).
  - discriminate.
  - discriminate.
  - reflexivity.
  - constructor.
  - exists pkt'. split; [exact Hrun|]. split; [exact Ht|].
    rewrite Hc. unfold bfd_check_packet, with_ttl.
    cbn [pkt_hdr pkt_len pkt_ttl]. rewrite Hh, Hl. reflexivity.
Defined.

(** X21.  The receiver thread always registers itself again, and leaves
    everything else alone when there is nothing to handle: on a valid
    descriptor, after a read timeout, a failed [recvmsg], a truncated
    datagram, or a datagram that came with one TTL message whose byte is
    neither 0 nor 255, [bfd_reciever_thread] returns with the sessions,
    the event pipe, the ready queue and the wire as they were and with
    the receiver registered on the same descriptor. *)
Theorem receiver_only_rearms type fd msg pkt data :
  0 <= fd ->
  nothing_to_handle type msg ->
  bfd_reciever_thread type fd msg pkt data
  = Done tt (set_thread_in (Some fd) data).
Proof.
  intros Hfd Hn. unfold bfd_reciever_thread.
  apply Z.leb_le in Hfd. rewrite Hfd. cbn [negb].
  assert (Ew : with_world (data_bfd data) data = data)
    by (destruct data; reflexivity).
  destruct type; [|rewrite Ew; reflexivity].
  destruct Hn as [Hn | [Hn | [Hn | (t & d & Hc & H0 & H255)]]].
  - discriminate Hn.
  - unfold bfd_recieve_packet. rewrite Hfd, Hn. cbn [negb Z.eqb Pos.eqb].
    rewrite Ew. reflexivity.
  - unfold bfd_recieve_packet. rewrite Hfd. cbn [negb].
    destruct (msg_len msg =? -1); [cbn; rewrite Ew; reflexivity|].
    apply Z.eqb_neq in Hn. rewrite Hn. cbn [negb Z.eqb].
    rewrite Ew. reflexivity.
  - unfold bfd_recieve_packet. rewrite Hfd. cbn [negb].
    destruct (msg_len msg =? -1); [cbn; rewrite Ew; reflexivity|].
    destruct (negb (Z.land (msg_flags msg) MSG_TRUNC =? 0));
      [cbn; rewrite Ew; reflexivity|].
    rewrite Hc. cbn [cmsg_ttl cmsg_level cmsg_type cmsg_data hd].
    change (negb (IPPROTO_IP =? IPPROTO_IP)
            || negb (IP_TTL =? IP_TTL)) with false.
    change (negb (0 =? 0)) with false. cbv iota.
    cbn [Z.eqb].
    unfold bfd_handle_packet.
    assert (Ec : bfd_check_packet
                   {| pkt_hdr := msg_iov msg; pkt_src_addr := msg_name msg;
                      pkt_dst_addr := pkt_dst_addr pkt; pkt_ttl := t;
                      pkt_len := msg_len msg |} = 1).
    { unfold bfd_check_packet. cbn [pkt_hdr pkt_len pkt_ttl].
      apply Z.eqb_neq in H0, H255. rewrite H0, H255. cbn [negb andb].
      destruct (sizeof_bfdhdr_t >? msg_len msg); [reflexivity|].
      destruct (negb (hdr_len (msg_iov msg) =? msg_len msg)); reflexivity. }
    rewrite Ec. cbn [Z.eqb negb]. rewrite Ew. reflexivity.
Qed.

Lemma receiver_only_rearms_witness :
  bfd_reciever_thread THREAD_READY_FD 4
    (delivered (control BFD_STATE_UP 0 0 0 4660)
       [{| cmsg_level := IPPROTO_IP; cmsg_type := IP_TTL;
           cmsg_data := [254; 0; 0; 0] |}])
    pkt0 data_up
  = Done tt (set_thread_in (Some 4) data_up).
Proof.
  apply receiver_only_rearms.
  - discriminate.
  - right. right. right. exists 254, [0; 0; 0].
    split; [reflexivity|]. split; discriminate.
Defined.

(** * Names and addresses in the configuration *)

Lemma c_str_app_nul l r : c_str (l ++ NUL :: r) = c_str l.
Proof.
  induction l as [|c l IH]; cbn [c_str app].
  - reflexivity.
  - destruct (Ascii.eqb c NUL); [reflexivity|]. rewrite IH. reflexivity.
Qed.

Lemma c_str_app_nuls l k r :
  c_str (l ++ repeat NUL k ++ NUL :: r) = c_str l.
Proof.
  destruct k as [|k]; cbn [repeat app]; apply c_str_app_nul.
Qed.

Lemma firstn_nuls k n : (k <= n)%nat -> firstn k (repeat NUL n) = repeat NUL k.
Proof.
  revert n. induction k as [|k IH]; intros n Hk; [reflexivity|].
  destruct n as [|n]; [lia|]. cbn [repeat firstn]. f_equal.
  apply IH. lia.
Qed.

Lemma firstn_app_pad (l : list ascii) n :
  firstn n (l ++ repeat NUL n)
  = firstn n l ++ repeat NUL (n - List.length l).
Proof.
  rewrite firstn_app. f_equal. apply firstn_nuls. lia.
Qed.

Lemma strncpy_buf_31 name :
  strncpy_buf (repeat NUL BFD_INAME_MAX) name (BFD_INAME_MAX - 1)
  = firstn 31 (c_bytes name)
    ++ repeat NUL (31 - List.length (c_bytes name)) ++ [NUL].
Proof.
  unfold strncpy_buf, BFD_INAME_MAX.
  change (32 - 1)%nat with 31%nat.
  rewrite firstn_app_pad, <- app_assoc. reflexivity.
Qed.

Lemma strncpy_buf_31_length name :
  List.length (firstn 31 (c_bytes name)
               ++ repeat NUL (31 - List.length (c_bytes name)))
  = 31%nat.
Proof.
  rewrite length_app, length_firstn, repeat_length. lia.
Qed.

(** The truncation test of [bfd_handler] reads a byte [strncpy] never
    writes. *)
Lemma last_byte_is_nul name :
  nth (BFD_INAME_MAX - 1)
    (strncpy_buf (repeat NUL BFD_INAME_MAX) name (BFD_INAME_MAX - 1)) NUL
  = NUL.
Proof.
  rewrite strncpy_buf_31. rewrite app_assoc.
  rewrite app_nth2 by (rewrite strncpy_buf_31_length;
                       unfold BFD_INAME_MAX; lia).
  rewrite strncpy_buf_31_length. reflexivity.
Qed.

Lemma c_str_of_buffer name :
  c_str (strncpy_buf (repeat NUL BFD_INAME_MAX) name (BFD_INAME_MAX - 1))
  = cut31 name.
Proof.
  rewrite strncpy_buf_31. unfold cut31.
  change [NUL] with (NUL :: @nil ascii).
  apply c_str_app_nuls.
Qed.

Lemma c_str_snprintf dst s :
  c_str (snprintf_buf dst BFD_INAME_MAX s) = cut31 s.
Proof.
  unfold snprintf_buf, cut31, BFD_INAME_MAX. cbn zeta.
  change (32 - 1)%nat with 31%nat. apply c_str_app_nul.
Qed.

Lemma cut31_no_nul s : no_nul s -> cut31 s = substring 0 31 s.
Proof.
  unfold cut31, no_nul. generalize 31%nat.
  induction s as [|c s IH]; intros n Hn.
  - destruct n; reflexivity.
  - cbn [c_bytes].
    destruct (Ascii.eqb_spec c NUL) as [E | E].
    + exfalso. apply Hn. left. exact E.
    + destruct n as [|n]; [reflexivity|].
      cbn [firstn c_str substring].
      apply Ascii.eqb_neq in E. rewrite E. f_equal.
      apply IH. intros H. apply Hn. right. exact H.
Qed.

(** X22.  A name that is too long is cut, not refused: whatever
    [find_bfd_by_name] and [alloc_bfd] are, for a name without NUL
    [bfd_handler] calls [alloc_bfd] with the first 31 bytes of the name
    and [disabled] 0 when no instance of that (cut) name is found, however
    long the name is: the test for a truncated name reads the last byte
    of the buffer, which [strncpy] is told not to write.  When an
    instance of the cut name is found, [alloc_bfd] is called with
    [disabled] 1 and the name "<DUP-n>" (cut to 31 bytes), [n] being the
    number of instances registered so far. *)
Theorem long_name_is_cut_not_disabled
    (find_bfd_by_name : string -> world -> bool)
    (alloc_bfd : string -> Z -> world -> res world unit)
    strvec name w :
  vector_slot strvec 1 = Some name ->
  no_nul name ->
  bfd_handler find_bfd_by_name alloc_bfd strvec w
  = if find_bfd_by_name (substring 0 31 name) w
    then alloc_bfd
           (cut31 ("<DUP-" ++ print_int (to_int (LIST_SIZE w)) ++ ">")) 1 w
    else alloc_bfd (substring 0 31 name) 0 w.
Proof.
  intros Hslot Hn. unfold bfd_handler. rewrite Hslot. cbn zeta.
  rewrite last_byte_is_nul.
  change (negb (Ascii.eqb NUL NUL)) with false. cbv iota.
  rewrite c_str_of_buffer, (cut31_no_nul name Hn).
  destruct (find_bfd_by_name (substring 0 31 name) w).
  - rewrite c_str_snprintf. reflexivity.
  - rewrite c_str_of_buffer, (cut31_no_nul name Hn). reflexivity.
Qed.

Lemma long_name_is_cut_not_disabled_witness :
  bfd_handler by_name append_instance
    ["bfd_instance"; "a-name-of-more-than-31-characters-in-all"]%string
    (world_of peer)
  = append_instance "a-name-of-more-than-31-characte"%string 0
      (world_of peer)
  /\ bfd_handler by_name append_instance
       ["bfd_instance"; "peerA"]%string (world_of peer)
     = append_instance "<DUP-1>"%string 1 (world_of peer).
Proof.
  split.
  - rewrite (long_name_is_cut_not_disabled by_name append_instance
               ["bfd_instance";
                "a-name-of-more-than-31-characters-in-all"]%string
               "a-name-of-more-than-31-characters-in-all"%string
               (world_of peer)).
    + reflexivity.
    + reflexivity.
    + vm_compute. intros H.
      repeat (destruct H as [H | H]; [discriminate H|]). exact H.
  - rewrite (long_name_is_cut_not_disabled by_name append_instance
               ["bfd_instance"; "peerA"]%string "peerA"%string
               (world_of peer)).
    + reflexivity.
    + reflexivity.
    + vm_compute. intros H.
      repeat (destruct H as [H | H]; [discriminate H|]). exact H.
Defined.

Lemma on_tail_run f w front b :
  bfd_list w = front ++ [b] ->
  on_tail f w = Done tt {| bfd_list := front ++ [f b]; w_glob := w_glob w |}.
Proof.
  intros H. unfold on_tail. rewrite H, rev_app_distr. cbn [rev app].
  rewrite rev_involutive. reflexivity.
Qed.

Lemma find_split_none p front l :
  find_split p front l = None <-> forall o, In o l -> p o = false.
Proof.
  revert front. induction l as [|a l IH]; intros front; cbn [find_split].
  - split; [intros _ o []|reflexivity].
  - destruct (p a) eqn:Hp.
    + split; [discriminate|]. intros H.
      rewrite (H a (or_introl eq_refl)) in Hp. discriminate Hp.
    + rewrite IH. split.
      * intros H o [<- | Ho]; [exact Hp|exact (H o Ho)].
      * intros H o Ho. apply H. right. exact Ho.
Qed.

Lemma sockaddr_eqb_eq a b : sockaddr_eqb a b = true <-> a = b.
Proof.
  unfold sockaddr_eqb. destruct (list_eq_dec Z.eq_dec a b); split;
    congruence.
Qed.

(** X23.  [neighbor_ip] never gives two instances the same neighbor:
    whatever [inet_stosockaddr] is, on a registry that is not empty and
    with the address present in the line, [bfd_nbrip_handler] returns,
    leaves every instance but the last as it was, and either sets
    [disabled] of the last instance (when the address is malformed, or is
    already the neighbor address of an instance, the last one included,
    so that giving an instance its own address a second time disables it),
    or stores the parsed address in the last instance, and then no other
    instance has that address. *)
Theorem neighbor_address_stays_unique
    (inet_stosockaddr : string -> option string -> option sockaddr_storage)
    strvec slot w front b :
  vector_slot strvec 1 = Some slot ->
  bfd_list w = front ++ [b] ->
  exists b',
    bfd_nbrip_handler inet_stosockaddr strvec w
    = Done tt {| bfd_list := front ++ [b']; w_glob := w_glob w |}
    /\ match inet_stosockaddr slot (Some BFD_CONTROL_PORT) with
       | None => b' = set_disabled 1 b
       | Some a =>
           if existsb (fun o => sockaddr_eqb (nbr_addr o) a) (front ++ [b])
           then b' = set_disabled 1 b
           else b' = set_nbr_addr a b
                /\ forall o, In o front -> nbr_addr o <> nbr_addr b'
       end.
Proof.
  intros Hslot Hw. unfold bfd_nbrip_handler. rewrite Hslot.
  destruct (inet_stosockaddr slot (Some BFD_CONTROL_PORT)) as [a|].
  2: { eexists. split; [apply on_tail_run; exact Hw|reflexivity]. }
  rewrite Hw. unfold find_bfd_by_addr.
  destruct (find_split (fun b0 => sockaddr_eqb (nbr_addr b0) a) []
              (front ++ [b])) as [[[f0 b0] k0]|] eqn:Hf; cbn [is_some].
  - eexists. split; [apply on_tail_run; exact Hw|].
    apply find_split_sound in Hf. destruct Hf as (El & Hp).
    cbn [app] in El.
    assert (Hex : existsb (fun o => sockaddr_eqb (nbr_addr o) a)
                    (front ++ [b]) = true).
    { apply existsb_exists. exists b0. split; [|exact Hp].
      rewrite El. apply in_or_app. right. left. reflexivity. }
    rewrite Hex. reflexivity.
  - eexists. split; [apply on_tail_run; exact Hw|].
    pose proof (proj1 (find_split_none _ _ _) Hf) as Hnone.
    assert (Hex : existsb (fun o => sockaddr_eqb (nbr_addr o) a)
                    (front ++ [b]) = false).
    { destruct (existsb _ _) eqn:E; [|reflexivity].
      apply existsb_exists in E. destruct E as (o & Ho & Hp).
      rewrite (Hnone o Ho) in Hp. discriminate Hp. }
    rewrite Hex. split; [reflexivity|].
    intros o Ho E. cbn [nbr_addr set_nbr_addr] in E.
    assert (Hin : In o (front ++ [b])) by (apply in_or_app; left; exact Ho).
    specialize (Hnone o Hin). cbn beta in Hnone.
    apply (proj2 (sockaddr_eqb_eq _ _)) in E. congruence.
Qed.

Lemma neighbor_address_stays_unique_witness :
  exists b',
    bfd_nbrip_handler two_hosts ["neighbor_ip"; "10.0.0.2"]%string
      (world_of peer)
    = Done tt {| bfd_list := [] ++ [b']; w_glob := w_glob (world_of peer) |}
    /\ b' = set_disabled 1 peer.
Proof.
  destruct (neighbor_address_stays_unique two_hosts
              ["neighbor_ip"; "10.0.0.2"]%string "10.0.0.2"%string
              (world_of peer) [] peer) as (b' & Hrun & Hb).
  - reflexivity.
  - reflexivity.
  - exists b'. split; [exact Hrun|exact Hb].
Defined.

(** X24.  Configured values stay within their limits: for each of the
    keywords [min_rx], [min_tx], [idle_tx], [multiplier] and [disabled],
    whatever the argument on the line, the handler returns, touches the
    last instance of the registry only, and if that instance had its two
    minimum intervals between 1 and 1000 ms, its idle interval between 1
    and 10 s and its multiplier between 1 and 10, it still has. *)
Theorem configured_values_stay_in_range kw handler strvec slot w front b :
  In (kw, handler) bfd_init_keywords ->
  vector_slot strvec 1 = Some slot ->
  bfd_list w = front ++ [b] ->
  config_ok b ->
  exists b',
    handler strvec w
    = Done tt {| bfd_list := front ++ [b']; w_glob := w_glob w |}
    /\ config_ok b'.
Proof.
  intros Hin Hslot Hw (H1 & H2 & H3 & H4).
  unfold BFD_MINRX_MIN, BFD_MINRX_MAX, BFD_MINTX_MIN, BFD_MINTX_MAX,
    BFD_IDLETX_MIN, BFD_IDLETX_MAX, BFD_MULTIPLIER_MIN, BFD_MULTIPLIER_MAX
    in *.
  assert (Hu32 : forall v, 1 <= v <= 10000 -> u32 (v * 1000) = v * 1000)
    by (intros v Hv; unfold u32; apply Z.mod_small; lia).
  assert (Hu8 : forall v, 1 <= v <= 10 -> u8 v = v)
    by (intros v Hv; unfold u8; apply Z.mod_small; lia).
  unfold bfd_init_keywords in Hin.
  repeat (destruct Hin as [Hin | Hin];
          [inversion Hin; subst kw handler; clear Hin|]);
    [| | | | |destruct Hin].
  - unfold bfd_minrx_handler. rewrite Hslot. cbn zeta.
    eexists. split; [apply on_tail_run; exact Hw|].
    unfold config_ok.
    unfold BFD_MINRX_MIN, BFD_MINRX_MAX, BFD_MINTX_MIN,
      BFD_MINTX_MAX, BFD_IDLETX_MIN, BFD_IDLETX_MAX, BFD_MULTIPLIER_MIN,
      BFD_MULTIPLIER_MAX.
    destruct (Z.ltb_spec (atoi slot) 1), (Z.gtb_spec (atoi slot) 1000);
      cbn [orb]; try (repeat split; lia).
    rewrite Hu32 by lia. cbn. repeat split; lia.
  - unfold bfd_mintx_handler. rewrite Hslot. cbn zeta.
    eexists. split; [apply on_tail_run; exact Hw|].
    unfold config_ok.
    unfold BFD_MINRX_MIN, BFD_MINRX_MAX, BFD_MINTX_MIN,
      BFD_MINTX_MAX, BFD_IDLETX_MIN, BFD_IDLETX_MAX, BFD_MULTIPLIER_MIN,
      BFD_MULTIPLIER_MAX.
    destruct (Z.ltb_spec (atoi slot) 1), (Z.gtb_spec (atoi slot) 1000);
      cbn [orb]; try (repeat split; lia).
    rewrite Hu32 by lia. cbn. repeat split; lia.
  - unfold bfd_idletx_handler. rewrite Hslot. cbn zeta.
    eexists. split; [apply on_tail_run; exact Hw|].
    unfold config_ok.
    unfold BFD_MINRX_MIN, BFD_MINRX_MAX, BFD_MINTX_MIN,
      BFD_MINTX_MAX, BFD_IDLETX_MIN, BFD_IDLETX_MAX, BFD_MULTIPLIER_MIN,
      BFD_MULTIPLIER_MAX.
    destruct (Z.ltb_spec (atoi slot) 1000), (Z.gtb_spec (atoi slot) 10000);
      cbn [orb]; try (repeat split; lia).
    rewrite Hu32 by lia. cbn. repeat split; lia.
  - unfold bfd_multiplier_handler. rewrite Hslot. cbn zeta.
    eexists. split; [apply on_tail_run; exact Hw|].
    unfold config_ok.
    unfold BFD_MINRX_MIN, BFD_MINRX_MAX, BFD_MINTX_MIN,
      BFD_MINTX_MAX, BFD_IDLETX_MIN, BFD_IDLETX_MAX, BFD_MULTIPLIER_MIN,
      BFD_MULTIPLIER_MAX.
    destruct (Z.ltb_spec (atoi slot) 1), (Z.gtb_spec (atoi slot) 10);
      cbn [orb]; try (repeat split; lia).
    rewrite Hu8 by lia. cbn. repeat split; lia.
  - unfold bfd_disabled_handler.
    eexists. split; [apply on_tail_run; exact Hw|].
    unfold config_ok.
    unfold BFD_MINRX_MIN, BFD_MINRX_MAX, BFD_MINTX_MIN,
      BFD_MINTX_MAX, BFD_IDLETX_MIN, BFD_IDLETX_MAX, BFD_MULTIPLIER_MIN,
      BFD_MULTIPLIER_MAX. cbn. repeat split; lia.
Qed.

Lemma configured_values_stay_in_range_witness :
  exists b',
    bfd_idletx_handler ["idle_tx"; "999"]%string (world_of peer)
    = Done tt {| bfd_list := [] ++ [b']; w_glob := w_glob (world_of peer) |}
    /\ config_ok b'.
Proof.
  apply (configured_values_stay_in_range "idle_tx"%string
           bfd_idletx_handler ["idle_tx"; "999"]%string "999"%string
           (world_of peer) [] peer).
  - right. right. left. reflexivity.
  - reflexivity.
  - reflexivity.
  - vm_compute. repeat split; discriminate.
Defined.
